(** * NEURAX accelerator runtime: a shallow embedding of the C library

    The development follows the C sources of the library
    (neurax.h, neurax_private.h, neurax_core.c, neurax_utils.c,
    neurax_conv2d.c, neurax_layers.c).

    - [uint32_t] values are integers in [Z] with the wrap-around modulo
      2^32 written out ([u32]); [int32_t] conversions are [s32];
      [size_t] is the 64-bit unsigned type of an LP64 platform.
    - [float] is IEEE-754 binary32, taken from the parameterised
      specification [SpecFloat] of the standard library at precision 24
      and maximal exponent 128.  The libm functions [tanhf] and [expf]
      are parameters of the development.
    - A tensor buffer ([void* data]) is a list of typed cells.
    - The register window is volatile memory: every access is recorded
      in a trace and the values read are chosen by the device. *)

From Stdlib Require Import ZArith Bool Lia SpecFloat QArith Qabs Qround Qminmax.
From stdpp Require Import base list.

Local Open Scope Z_scope.

(** ** Machine integers *)

Module MachInt.

Definition u8 (z : Z) : Z := z mod 2 ^ 8.
Definition u16 (z : Z) : Z := z mod 2 ^ 16.
Definition u32 (z : Z) : Z := z mod 2 ^ 32.
Definition u64 (z : Z) : Z := z mod 2 ^ 64.

(** Conversion to a signed type of [w] bits (two's complement). *)
Definition signed (w : Z) (z : Z) : Z :=
  let r := z mod 2 ^ w in
  if r <? 2 ^ (w - 1) then r else r - 2 ^ w.

Definition s8 : Z -> Z := signed 8.
Definition s16 : Z -> Z := signed 16.
Definition s32 : Z -> Z := signed 32.

End MachInt.
Import MachInt.

(** ** binary32 floating point *)

Module F32.

Definition float := spec_float.

Definition prec : Z := 24.
Definition emax : Z := 128.

Definition valid (f : float) : bool := valid_binary prec emax f.

Definition add : float -> float -> float := SFadd prec emax.
Definition mul : float -> float -> float := SFmul prec emax.
Definition div : float -> float -> float := SFdiv prec emax.
Definition opp : float -> float := SFopp.
Definition ltb : float -> float -> bool := SFltb.

(** Conversion of an integer to [float] (round to nearest even). *)
Definition of_Z (z : Z) : float := binary_normalize prec emax z 0 false.

Definition zero : float := S754_zero false.
Definition one : float := Eval cbv in of_Z 1.

(** [FLT_MAX] of <float.h>. *)
Definition FLT_MAX : float := S754_finite false (2 ^ 24 - 1) 104.

Definition is_nan (f : float) : bool :=
  match f with S754_nan => true | _ => false end.

(** [fmin] and [fmax] of <math.h>: a NaN argument is treated as missing
    data, the other argument is returned.  The arguments are promoted
    to [double]; every binary32 number is a binary64 number and the
    result is one of the two arguments, so the comparison is done here
    on the binary32 values. *)
Definition fmin (x y : float) : float :=
  if is_nan x then y
  else if is_nan y then x
  else if ltb x y then x else y.

Definition fmax (x y : float) : float :=
  if is_nan x then y
  else if is_nan y then x
  else if ltb x y then y else x.

(** Conversion of a floating value to an integer type: the fractional
    part is discarded (truncation toward zero, C11 6.3.1.4).  The
    conversion of an infinity or a NaN is undefined in C; it is 0 here. *)
Definition trunc (f : float) : Z :=
  match f with
  | S754_finite s m e =>
      let a := if 0 <=? e then Z.pos m * 2 ^ e else Z.pos m / 2 ^ (- e) in
      if s then - a else a
  | _ => 0
  end.

(** The exact value of a finite number, as a rational. *)
Definition to_Q (f : float) : Q :=
  match f with
  | S754_finite s m e =>
      let a := if 0 <=? e then inject_Z (Z.pos m * 2 ^ e)
               else Qmake (Z.pos m) (Z.to_pos (2 ^ (- e))) in
      if s then Qopp a else a
  | _ => 0%Q
  end.

End F32.

Abbreviation float := F32.float.

(** ** Enumerations and records of neurax.h *)

Inductive neurax_error_t :=
| NEURAX_SUCCESS
| NEURAX_ERROR_INVALID_PARAM
| NEURAX_ERROR_NOT_INITIALIZED
| NEURAX_ERROR_DEVICE_NOT_FOUND
| NEURAX_ERROR_MEMORY_ALLOCATION
| NEURAX_ERROR_HARDWARE_FAILURE
| NEURAX_ERROR_TIMEOUT
| NEURAX_ERROR_INVALID_MODEL
| NEURAX_ERROR_BUFFER_OVERFLOW.

Inductive neurax_data_type_t :=
| NEURAX_DATA_UINT8
| NEURAX_DATA_INT8
| NEURAX_DATA_UINT16
| NEURAX_DATA_INT16
| NEURAX_DATA_FLOAT32.

(** The activation and pooling selectors are C enumerations without
    negative enumerators: objects of these types hold any value of the
    underlying unsigned 32-bit type, so the selectors are integers and
    the enumerators are constants. *)
Definition neurax_activation_t := Z.
Definition NEURAX_ACTIVATION_RELU : neurax_activation_t := 0.
Definition NEURAX_ACTIVATION_TANH : neurax_activation_t := 1.
Definition NEURAX_ACTIVATION_SIGMOID : neurax_activation_t := 2.
Definition NEURAX_ACTIVATION_LINEAR : neurax_activation_t := 3.

Definition neurax_pool_type_t := Z.
Definition NEURAX_POOL_MAX : neurax_pool_type_t := 0.
Definition NEURAX_POOL_AVERAGE : neurax_pool_type_t := 1.

Record neurax_config_t := {
  base_address : Z;
  memory_size : Z;
  use_hardware : bool;
  max_kernel_size : Z;
  num_multipliers : Z;
  default_data_type : neurax_data_type_t
}.

Record neurax_conv_config_t := {
  kernel_width : Z;
  kernel_height : Z;
  stride_x : Z;
  stride_y : Z;
  padding_x : Z;
  padding_y : Z;
  input_channels : Z;
  output_channels : Z;
  use_bias : bool;
  activation : neurax_activation_t
}.

(** The strides of the pooling configuration are [stride_x] and
    [stride_y] in C; they are prefixed here because the fields of two
    records share one name space. *)
Record neurax_pool_config_t := {
  pool_width : Z;
  pool_height : Z;
  pool_stride_x : Z;
  pool_stride_y : Z;
  pool_type : neurax_pool_type_t
}.

(** One element of a tensor buffer: an integer of one of the four
    integer types, or a binary32 number. *)
Inductive cell :=
| Int (z : Z)
| Flt (f : float).

(** [data] is [None] for a null pointer. *)
Record neurax_tensor_t := {
  data : option (list cell);
  width : Z;
  height : Z;
  channels : Z;
  batch_size : Z;
  data_type : neurax_data_type_t;
  data_size : Z
}.

(** [struct neurax_device] of neurax_private.h.  Pointers are addresses,
    [None] for a null pointer. *)
Record neurax_device_t := {
  config : neurax_config_t;
  initialized : bool;
  device_fd : Z;
  mapped_memory : option Z;
  mapped_size : Z;
  register_base : option Z;
  hardware_available : bool
}.

(** ** Constants of neurax_private.h *)

Definition NEURAX_REG_CONTROL : Z := 0x00.
Definition NEURAX_REG_STATUS : Z := 0x04.
Definition NEURAX_REG_CONV_CONFIG : Z := 0x08.
Definition NEURAX_REG_POOL_CONFIG : Z := 0x0C.
Definition NEURAX_REG_ACT_CONFIG : Z := 0x10.
Definition NEURAX_REG_DIM_CONFIG : Z := 0x14.
Definition NEURAX_REG_WEIGHT_ADDR : Z := 0x18.
Definition NEURAX_REG_BIAS_ADDR : Z := 0x1C.

Definition CTRL_START : Z := Z.shiftl 1 0.
Definition CTRL_RESET : Z := Z.shiftl 1 1.
Definition CTRL_CONV_EN : Z := Z.shiftl 1 2.
Definition CTRL_POOL_EN : Z := Z.shiftl 1 3.
Definition CTRL_ACT_EN : Z := Z.shiftl 1 4.
Definition CTRL_DATA_WIDTH : Z := Z.shiftl 1 5.

Definition STAT_BUSY : Z := Z.shiftl 1 0.
Definition STAT_DONE : Z := Z.shiftl 1 1.
Definition STAT_ERROR : Z := Z.shiftl 1 2.

Definition NEURAX_DEFAULT_TIMEOUT_MS : Z := 5000.

Definition neurax_get_element_size (type : neurax_data_type_t) : Z :=
  match type with
  | NEURAX_DATA_UINT8 | NEURAX_DATA_INT8 => 1
  | NEURAX_DATA_UINT16 | NEURAX_DATA_INT16 => 2
  | NEURAX_DATA_FLOAT32 => 4
  end.

(** ** Buffers *)

(** Reading outside the buffer, or a cell of the other kind, is
    undefined in C; it yields zero here.  Writing outside the buffer
    leaves the list as it is. *)
Definition load_int (buf : list cell) (index : Z) : Z :=
  match buf !! Z.to_nat index with
  | Some (Int z) => z
  | _ => 0
  end.

Definition load_flt (buf : list cell) (index : Z) : float :=
  match buf !! Z.to_nat index with
  | Some (Flt f) => f
  | _ => F32.zero
  end.

Definition store (buf : list cell) (index : Z) (c : cell) : list cell :=
  <[Z.to_nat index := c]> buf.

Definition buffer (tensor : neurax_tensor_t) : list cell :=
  default [] (data tensor).

Definition with_buffer (tensor : neurax_tensor_t) (buf : list cell) : neurax_tensor_t :=
  {| data := Some buf;
     width := width tensor;
     height := height tensor;
     channels := channels tensor;
     batch_size := batch_size tensor;
     data_type := data_type tensor;
     data_size := data_size tensor |}.

(** The all-zero bit pattern of one element. *)
Definition zero_cell (type : neurax_data_type_t) : cell :=
  match type with
  | NEURAX_DATA_FLOAT32 => Flt F32.zero
  | _ => Int 0
  end.

(** [memset(tensor->data, 0, tensor->data_size)]: the first
    [data_size / element_size] elements become zero. *)
Definition memset_zero (tensor : neurax_tensor_t) : neurax_tensor_t :=
  let buf := buffer tensor in
  let n := Z.to_nat (data_size tensor / neurax_get_element_size (data_type tensor)) in
  with_buffer tensor
    (replicate (min n (length buf)) (zero_cell (data_type tensor)) ++ drop n buf).

(** ** Loops *)

(** [for (i = start; i < start + n; i++) s = body i s]. *)
Fixpoint for_range {S : Type} (n : nat) (start : Z) (body : Z -> S -> S) (s : S) : S :=
  match n with
  | O => s
  | Datatypes.S n' => for_range n' (start + 1) body (body start s)
  end.

(** [for (uint32_t i = 0; i < bound; i++) s = body i s]. *)
Definition for_loop {S : Type} (bound : Z) (body : Z -> S -> S) (s : S) : S :=
  for_range (Z.to_nat bound) 0 body s.

(** ** Validation (neurax_utils.c) *)

(** The product of the four dimensions is computed in [uint32_t] and
    converted to [size_t] for the multiplication by the element size. *)
Definition neurax_validate_tensor (tensor : option neurax_tensor_t) : neurax_error_t :=
  match tensor with
  | None => NEURAX_ERROR_INVALID_PARAM
  | Some tensor =>
      match data tensor with
      | None => NEURAX_ERROR_INVALID_PARAM
      | Some _ =>
          if (width tensor =? 0) || (height tensor =? 0) ||
             (channels tensor =? 0) || (batch_size tensor =? 0)
          then NEURAX_ERROR_INVALID_PARAM
          else
            let expected_size :=
              u64 (u32 (width tensor * height tensor *
                        channels tensor * batch_size tensor) *
                   neurax_get_element_size (data_type tensor)) in
            if negb (data_size tensor =? expected_size)
            then NEURAX_ERROR_INVALID_PARAM
            else NEURAX_SUCCESS
      end
  end.

Definition neurax_validate_conv_config (config : option neurax_conv_config_t) : neurax_error_t :=
  match config with
  | None => NEURAX_ERROR_INVALID_PARAM
  | Some config =>
      if (kernel_width config =? 0) || (kernel_height config =? 0)
      then NEURAX_ERROR_INVALID_PARAM
      else if (11 <? kernel_width config) || (11 <? kernel_height config)
      then NEURAX_ERROR_INVALID_PARAM
      else if (stride_x config =? 0) || (stride_y config =? 0)
      then NEURAX_ERROR_INVALID_PARAM
      else if (8 <? stride_x config) || (8 <? stride_y config)
      then NEURAX_ERROR_INVALID_PARAM
      else if (input_channels config =? 0) || (output_channels config =? 0)
      then NEURAX_ERROR_INVALID_PARAM
      else if NEURAX_ACTIVATION_LINEAR <? activation config
      then NEURAX_ERROR_INVALID_PARAM
      else NEURAX_SUCCESS
  end.

Definition neurax_validate_pool_config (config : option neurax_pool_config_t) : neurax_error_t :=
  match config with
  | None => NEURAX_ERROR_INVALID_PARAM
  | Some config =>
      if (pool_width config =? 0) || (pool_height config =? 0)
      then NEURAX_ERROR_INVALID_PARAM
      else if (8 <? pool_width config) || (8 <? pool_height config)
      then NEURAX_ERROR_INVALID_PARAM
      else if (pool_stride_x config =? 0) || (pool_stride_y config =? 0)
      then NEURAX_ERROR_INVALID_PARAM
      else if NEURAX_POOL_AVERAGE <? pool_type config
      then NEURAX_ERROR_INVALID_PARAM
      else NEURAX_SUCCESS
  end.

Definition neurax_tensor_total_elements (tensor : option neurax_tensor_t) : Z :=
  match tensor with
  | None => 0
  | Some tensor =>
      u32 (width tensor * height tensor * channels tensor * batch_size tensor)
  end.

(** ** Element access (neurax_conv2d.c, neurax_layers.c) *)

(** The index expression is evaluated in [uint32_t]; a wrap after each
    operation gives the same value as one wrap of the whole expression. *)
Definition neurax_get_tensor_value (tensor : neurax_tensor_t) (batch y x c : Z) : float :=
  let index := u32 (((batch * height tensor + y) * width tensor + x) * channels tensor + c) in
  match data_type tensor with
  | NEURAX_DATA_UINT8 => F32.of_Z (load_int (buffer tensor) index)
  | NEURAX_DATA_INT8 => F32.of_Z (load_int (buffer tensor) index)
  | NEURAX_DATA_UINT16 => F32.of_Z (load_int (buffer tensor) index)
  | NEURAX_DATA_INT16 => F32.of_Z (load_int (buffer tensor) index)
  | NEURAX_DATA_FLOAT32 => load_flt (buffer tensor) index
  end.

(** Weights are addressed as [output_channels, input_channels,
    kernel_height, kernel_width], with the [channels] field of the
    weight tensor as the number of input channels. *)
Definition neurax_get_weight_value (weights : neurax_tensor_t) (out_ch in_ch ky kx : Z) : float :=
  let index := u32 (((out_ch * channels weights + in_ch) * height weights + ky) * width weights + kx) in
  match data_type weights with
  | NEURAX_DATA_UINT8 => F32.of_Z (load_int (buffer weights) index)
  | NEURAX_DATA_INT8 => F32.of_Z (load_int (buffer weights) index)
  | NEURAX_DATA_UINT16 => F32.of_Z (load_int (buffer weights) index)
  | NEURAX_DATA_INT16 => F32.of_Z (load_int (buffer weights) index)
  | NEURAX_DATA_FLOAT32 => load_flt (buffer weights) index
  end.

Definition neurax_get_bias_value (bias : neurax_tensor_t) (channel : Z) : float :=
  match data_type bias with
  | NEURAX_DATA_UINT8 => F32.of_Z (load_int (buffer bias) channel)
  | NEURAX_DATA_INT8 => F32.of_Z (load_int (buffer bias) channel)
  | NEURAX_DATA_UINT16 => F32.of_Z (load_int (buffer bias) channel)
  | NEURAX_DATA_INT16 => F32.of_Z (load_int (buffer bias) channel)
  | NEURAX_DATA_FLOAT32 => load_flt (buffer bias) channel
  end.

Definition neurax_set_tensor_value (tensor : neurax_tensor_t) (batch y x c : Z) (value : float) : neurax_tensor_t :=
  let index := u32 (((batch * height tensor + y) * width tensor + x) * channels tensor + c) in
  match data_type tensor with
  | NEURAX_DATA_UINT8 =>
      with_buffer tensor (store (buffer tensor) index
        (Int (u8 (F32.trunc (F32.fmax (F32.of_Z 0) (F32.fmin (F32.of_Z 255) value))))))
  | NEURAX_DATA_INT8 =>
      with_buffer tensor (store (buffer tensor) index
        (Int (s8 (F32.trunc (F32.fmax (F32.of_Z (-128)) (F32.fmin (F32.of_Z 127) value))))))
  | NEURAX_DATA_UINT16 =>
      with_buffer tensor (store (buffer tensor) index
        (Int (u16 (F32.trunc (F32.fmax (F32.of_Z 0) (F32.fmin (F32.of_Z 65535) value))))))
  | NEURAX_DATA_INT16 =>
      with_buffer tensor (store (buffer tensor) index
        (Int (s16 (F32.trunc (F32.fmax (F32.of_Z (-32768)) (F32.fmin (F32.of_Z 32767) value))))))
  | NEURAX_DATA_FLOAT32 =>
      with_buffer tensor (store (buffer tensor) index (Flt value))
  end.

Definition neurax_get_tensor_element (tensor : neurax_tensor_t) (index : Z) : float :=
  match data_type tensor with
  | NEURAX_DATA_UINT8 => F32.of_Z (load_int (buffer tensor) index)
  | NEURAX_DATA_INT8 => F32.of_Z (load_int (buffer tensor) index)
  | NEURAX_DATA_UINT16 => F32.of_Z (load_int (buffer tensor) index)
  | NEURAX_DATA_INT16 => F32.of_Z (load_int (buffer tensor) index)
  | NEURAX_DATA_FLOAT32 => load_flt (buffer tensor) index
  end.

Definition neurax_set_tensor_element (tensor : neurax_tensor_t) (index : Z) (value : float) : neurax_tensor_t :=
  match data_type tensor with
  | NEURAX_DATA_UINT8 =>
      with_buffer tensor (store (buffer tensor) index
        (Int (u8 (F32.trunc (F32.fmax (F32.of_Z 0) (F32.fmin (F32.of_Z 255) value))))))
  | NEURAX_DATA_INT8 =>
      with_buffer tensor (store (buffer tensor) index
        (Int (s8 (F32.trunc (F32.fmax (F32.of_Z (-128)) (F32.fmin (F32.of_Z 127) value))))))
  | NEURAX_DATA_UINT16 =>
      with_buffer tensor (store (buffer tensor) index
        (Int (u16 (F32.trunc (F32.fmax (F32.of_Z 0) (F32.fmin (F32.of_Z 65535) value))))))
  | NEURAX_DATA_INT16 =>
      with_buffer tensor (store (buffer tensor) index
        (Int (s16 (F32.trunc (F32.fmax (F32.of_Z (-32768)) (F32.fmin (F32.of_Z 32767) value))))))
  | NEURAX_DATA_FLOAT32 =>
      with_buffer tensor (store (buffer tensor) index (Flt value))
  end.

(** ** Data type conversion (neurax_utils.c) *)

(** The body of the conversion loop: the source element [i] is read
    into [temp_value] and written to the destination. *)
Definition convert_read (src : list cell) (src_type : neurax_data_type_t) (i : Z) : float :=
  match src_type with
  | NEURAX_DATA_UINT8 => F32.of_Z (load_int src i)
  | NEURAX_DATA_INT8 => F32.of_Z (load_int src i)
  | NEURAX_DATA_UINT16 => F32.of_Z (load_int src i)
  | NEURAX_DATA_INT16 => F32.of_Z (load_int src i)
  | NEURAX_DATA_FLOAT32 => load_flt src i
  end.

Definition convert_element (src : list cell) (src_type : neurax_data_type_t)
    (dst_type : neurax_data_type_t) (i : Z) (dst : list cell) : list cell :=
  let temp_value := convert_read src src_type i in
  match dst_type with
  | NEURAX_DATA_UINT8 =>
      store dst i (Int (u8 (F32.trunc (F32.fmax (F32.of_Z 0) (F32.fmin (F32.of_Z 255) temp_value)))))
  | NEURAX_DATA_INT8 =>
      store dst i (Int (s8 (F32.trunc (F32.fmax (F32.of_Z (-128)) (F32.fmin (F32.of_Z 127) temp_value)))))
  | NEURAX_DATA_UINT16 =>
      store dst i (Int (u16 (F32.trunc (F32.fmax (F32.of_Z 0) (F32.fmin (F32.of_Z 65535) temp_value)))))
  | NEURAX_DATA_INT16 =>
      store dst i (Int (s16 (F32.trunc (F32.fmax (F32.of_Z (-32768)) (F32.fmin (F32.of_Z 32767) temp_value)))))
  | NEURAX_DATA_FLOAT32 =>
      store dst i (Flt temp_value)
  end.

Definition data_type_eqb (a b : neurax_data_type_t) : bool :=
  match a, b with
  | NEURAX_DATA_UINT8, NEURAX_DATA_UINT8
  | NEURAX_DATA_INT8, NEURAX_DATA_INT8
  | NEURAX_DATA_UINT16, NEURAX_DATA_UINT16
  | NEURAX_DATA_INT16, NEURAX_DATA_INT16
  | NEURAX_DATA_FLOAT32, NEURAX_DATA_FLOAT32 => true
  | _, _ => false
  end.

(** [src] and [dst] are [None] for null pointers; the result is the
    error code and the destination buffer after the call. *)
Definition neurax_convert_data_type (src : option (list cell)) (src_type : neurax_data_type_t)
    (dst : option (list cell)) (dst_type : neurax_data_type_t) (num_elements : Z)
  : neurax_error_t * option (list cell) :=
  match src, dst with
  | Some s, Some d =>
      if num_elements =? 0 then (NEURAX_ERROR_INVALID_PARAM, dst)
      else if data_type_eqb src_type dst_type then
        let n := Z.to_nat num_elements in
        (NEURAX_SUCCESS, Some (take n s ++ drop n d))
      else
        (NEURAX_SUCCESS, Some (for_loop num_elements (convert_element s src_type dst_type) d))
  | _, _ => (NEURAX_ERROR_INVALID_PARAM, dst)
  end.

(** ** The register window *)

(** Accesses to the memory-mapped registers and the sleeps between
    them, in the order of the program.  [RegWrite i v] and [RegRead i v]
    are accesses to [register_base[i]]. *)
Inductive mmio_event :=
| RegWrite (index value : Z)
| RegRead (index value : Z)
| Sleep (usec : Z).

Definition trace := list mmio_event.

(** Assignment to a bit-field of [width] bits. *)
Definition bit_field (width value : Z) : Z := value mod 2 ^ width.

Section Runtime.

(** [tanhf] and [expf] of <math.h>. *)
Variables tanhf expf : float -> float.

(** The device: the value a volatile read of [register_base[i]] returns
    after the accesses made so far. *)
Variable device_read : trace -> Z -> Z.

Definition usleep (usec : Z) (w : trace) : trace := w ++ [Sleep usec].

(** *** Access to the registers (neurax_core.c) *)

Definition neurax_write_reg (device : neurax_device_t) (offset value : Z) (w : trace) : trace :=
  match hardware_available device, register_base device with
  | true, Some _ => w ++ [RegWrite (offset / 4) value]
  | _, _ => w
  end.

Definition neurax_read_reg (device : neurax_device_t) (offset : Z) (w : trace) : Z * trace :=
  match hardware_available device, register_base device with
  | true, Some _ =>
      let value := u32 (device_read w (offset / 4)) in
      (value, w ++ [RegRead (offset / 4) value])
  | _, _ => (0, w)
  end.

(** The polling loop of [neurax_wait_for_completion].  [limit] is
    [timeout_ms * 1000] and [elapsed] the microseconds slept so far, both
    [uint32_t].  The loop is bounded by [fuel]; see
    [neurax_wait_for_completion] below. *)
Fixpoint wait_loop (fuel : nat) (device : neurax_device_t) (limit elapsed : Z) (w : trace)
  : neurax_error_t * trace :=
  match fuel with
  | O => (NEURAX_ERROR_TIMEOUT, w)
  | S fuel' =>
      if elapsed <? limit then
        let '(status, w) := neurax_read_reg device NEURAX_REG_STATUS w in
        if negb (Z.land status STAT_ERROR =? 0) then (NEURAX_ERROR_HARDWARE_FAILURE, w)
        else if negb (Z.land status STAT_DONE =? 0) then (NEURAX_SUCCESS, w)
        else wait_loop fuel' device limit (u32 (elapsed + 100)) (usleep 100 w)
      else (NEURAX_ERROR_TIMEOUT, w)
  end.

(** [elapsed] is a [uint32_t] and so is the product [timeout_ms * 1000].
    When [limit <= 2^32 - 100] the counter does not wrap and the loop
    body runs at most [limit / 100 + 1] times; the fuel is that number
    plus one for the last test of the loop condition.  Above that the
    counter can wrap past the limit and the loop goes on: it takes the
    values [100 * i mod 2^32], which are all the multiples of 4 below
    [2^32] within [2^30] steps, and the limit is a multiple of 8, so
    the condition fails within [2^30] steps. *)
Definition wait_fuel (limit : Z) : nat :=
  Z.to_nat (if limit <=? 2 ^ 32 - 100 then limit / 100 + 2 else 2 ^ 30 + 2).

Definition neurax_wait_for_completion (device : neurax_device_t) (timeout_ms : Z) (w : trace)
  : neurax_error_t * trace :=
  if negb (hardware_available device) then (NEURAX_SUCCESS, w)
  else
    let limit := u32 (timeout_ms * 1000) in
    wait_loop (wait_fuel limit) device limit 0 w.

(** *** Activation function (neurax_conv2d.c) *)

Definition neurax_apply_activation (value : float) (activation : neurax_activation_t) : float :=
  if activation =? NEURAX_ACTIVATION_RELU then F32.fmax F32.zero value
  else if activation =? NEURAX_ACTIVATION_TANH then tanhf value
  else if activation =? NEURAX_ACTIVATION_SIGMOID then
    F32.div F32.one (F32.add F32.one (expf (F32.opp value)))
  else value.

(** *** Convolution (neurax_conv2d.c) *)

(** One tap of the kernel: the body of the three innermost loops. *)
Definition conv_tap (input weights : neurax_tensor_t) (config : neurax_conv_config_t)
    (batch out_ch out_y out_x in_ch ky kx : Z) (accumulator : float) : float :=
  let in_y := s32 (u32 (out_y * stride_y config + ky - padding_y config)) in
  let in_x := s32 (u32 (out_x * stride_x config + kx - padding_x config)) in
  if (0 <=? in_y) && (in_y <? s32 (height input)) &&
     (0 <=? in_x) && (in_x <? s32 (width input))
  then
    let input_val := neurax_get_tensor_value input batch (u32 in_y) (u32 in_x) in_ch in
    let weight_val := neurax_get_weight_value weights out_ch in_ch ky kx in
    F32.add accumulator (F32.mul input_val weight_val)
  else accumulator.

(** The value stored at one output position. *)
Definition conv_output_value (input weights : neurax_tensor_t) (bias : option neurax_tensor_t)
    (config : neurax_conv_config_t) (batch out_ch out_y out_x : Z) : float :=
  let accumulator :=
    for_loop (input_channels config) (fun in_ch =>
      for_loop (kernel_height config) (fun ky =>
        for_loop (kernel_width config) (fun kx =>
          conv_tap input weights config batch out_ch out_y out_x in_ch ky kx)))
      F32.zero in
  let accumulator :=
    match use_bias config, bias with
    | true, Some bias => F32.add accumulator (neurax_get_bias_value bias out_ch)
    | _, _ => accumulator
    end in
  neurax_apply_activation accumulator (activation config).

Definition conv_out_height (input : neurax_tensor_t) (config : neurax_conv_config_t) : Z :=
  u32 (u32 (u32 (u32 (height input + u32 (2 * padding_y config)) - kernel_height config)
            / stride_y config) + 1).

Definition conv_out_width (input : neurax_tensor_t) (config : neurax_conv_config_t) : Z :=
  u32 (u32 (u32 (u32 (width input + u32 (2 * padding_x config)) - kernel_width config)
            / stride_x config) + 1).

Definition neurax_cpu_conv2d (input weights : neurax_tensor_t) (bias : option neurax_tensor_t)
    (config : neurax_conv_config_t) (output : neurax_tensor_t)
  : neurax_error_t * neurax_tensor_t :=
  let out_height := conv_out_height input config in
  let out_width := conv_out_width input config in
  if negb (height output =? out_height) || negb (width output =? out_width)
  then (NEURAX_ERROR_INVALID_PARAM, output)
  else
    (NEURAX_SUCCESS,
     for_loop (batch_size input) (fun batch =>
       for_loop (output_channels config) (fun out_ch =>
         for_loop out_height (fun out_y =>
           for_loop out_width (fun out_x output =>
             neurax_set_tensor_value output batch out_y out_x out_ch
               (conv_output_value input weights bias config batch out_ch out_y out_x)))))
       (memset_zero output)).

Definition is_16bit (type : neurax_data_type_t) : bool :=
  match type with
  | NEURAX_DATA_UINT16 | NEURAX_DATA_INT16 => true
  | _ => false
  end.

(** The registers are written through unions of a raw word and
    bit-fields, allocated from the least significant bit. *)
Definition neurax_hw_conv2d (device : neurax_device_t) (input weights : neurax_tensor_t)
    (bias : option neurax_tensor_t) (config : neurax_conv_config_t)
    (output : neurax_tensor_t) (w : trace)
  : neurax_error_t * neurax_tensor_t * trace :=
  let conv_config :=
    Z.lor (bit_field 4 (u32 (kernel_width config - 1)))
   (Z.lor (Z.shiftl (bit_field 3 (u32 (stride_x config - 1))) 4)
   (Z.lor (Z.shiftl (bit_field 2 (padding_x config)) 7)
   (Z.lor (Z.shiftl (if use_bias config then 1 else 0) 9)
          (Z.shiftl (bit_field 3 (u32 (input_channels config - 1))) 10)))) in
  let w := neurax_write_reg device NEURAX_REG_CONV_CONFIG conv_config w in
  let dim_config :=
    Z.lor (bit_field 16 (width input)) (Z.shiftl (bit_field 16 (height input)) 16) in
  let w := neurax_write_reg device NEURAX_REG_DIM_CONFIG dim_config w in
  let act_config := bit_field 2 (activation config) in
  let w := neurax_write_reg device NEURAX_REG_ACT_CONFIG act_config w in
  let data_width := if is_16bit (data_type input) then 1 else 0 in
  let conv_en := 1 in
  let act_en := if negb (activation config =? NEURAX_ACTIVATION_LINEAR) then 1 else 0 in
  let control :=
    Z.lor (Z.shiftl conv_en 2) (Z.lor (Z.shiftl act_en 4) (Z.shiftl data_width 5)) in
  let w := neurax_write_reg device NEURAX_REG_CONTROL control w in
  (neurax_cpu_conv2d input weights bias config output, w).

Definition is_success (e : neurax_error_t) : bool :=
  match e with NEURAX_SUCCESS => true | _ => false end.

Definition neurax_conv2d (device : option neurax_device_t)
    (input weights bias : option neurax_tensor_t)
    (conv_config : option neurax_conv_config_t) (output : option neurax_tensor_t) (w : trace)
  : neurax_error_t * option neurax_tensor_t * trace :=
  match device, input, weights, conv_config, output with
  | Some dev, Some inp, Some wts, Some cfg, Some out =>
      if negb (initialized dev) then (NEURAX_ERROR_NOT_INITIALIZED, output, w)
      else
        let error := neurax_validate_tensor input in
        if negb (is_success error) then (error, output, w) else
        let error := neurax_validate_tensor weights in
        if negb (is_success error) then (error, output, w) else
        let error := neurax_validate_tensor output in
        if negb (is_success error) then (error, output, w) else
        let error := neurax_validate_conv_config conv_config in
        if negb (is_success error) then (error, output, w) else
        let error :=
          match bias with
          | Some _ => if use_bias cfg then neurax_validate_tensor bias else NEURAX_SUCCESS
          | None => NEURAX_SUCCESS
          end in
        if negb (is_success error) then (error, output, w) else
        if hardware_available dev && use_hardware (config dev) then
          let '(error, out, w) := neurax_hw_conv2d dev inp wts bias cfg out w in
          (error, Some out, w)
        else
          let '(error, out) := neurax_cpu_conv2d inp wts bias cfg out in
          (error, Some out, w)
  | _, _, _, _, _ => (NEURAX_ERROR_INVALID_PARAM, output, w)
  end.

(** *** Activation layer (neurax_layers.c) *)

Definition neurax_cpu_activation (input : neurax_tensor_t) (activation : neurax_activation_t)
    (output : neurax_tensor_t) : neurax_error_t * neurax_tensor_t :=
  let total_elements := neurax_tensor_total_elements (Some input) in
  (NEURAX_SUCCESS,
   for_loop total_elements (fun i output =>
     let input_val := neurax_get_tensor_element input i in
     let output_val := neurax_apply_activation input_val activation in
     neurax_set_tensor_element output i output_val)
     output).

Definition neurax_hw_activation (device : neurax_device_t) (input : neurax_tensor_t)
    (activation : neurax_activation_t) (output : neurax_tensor_t) (w : trace)
  : neurax_error_t * neurax_tensor_t * trace :=
  let act_config := Z.land activation 0x3 in
  let w := neurax_write_reg device NEURAX_REG_ACT_CONFIG act_config w in
  let control := CTRL_ACT_EN in
  let control :=
    if is_16bit (data_type input) then Z.lor control CTRL_DATA_WIDTH else control in
  let w := neurax_write_reg device NEURAX_REG_CONTROL (Z.lor control CTRL_START) w in
  let '(error, w) := neurax_wait_for_completion device NEURAX_DEFAULT_TIMEOUT_MS w in
  if negb (is_success error) then (error, output, w)
  else (neurax_cpu_activation input activation output, w).

Definition neurax_activation (device : option neurax_device_t)
    (input : option neurax_tensor_t) (activation : neurax_activation_t)
    (output : option neurax_tensor_t) (w : trace)
  : neurax_error_t * option neurax_tensor_t * trace :=
  match device, input, output with
  | Some dev, Some inp, Some out =>
      if negb (initialized dev) then (NEURAX_ERROR_NOT_INITIALIZED, output, w)
      else
        let error := neurax_validate_tensor input in
        if negb (is_success error) then (error, output, w) else
        let error := neurax_validate_tensor output in
        if negb (is_success error) then (error, output, w) else
        if negb (width inp =? width out) || negb (height inp =? height out) ||
           negb (channels inp =? channels out) || negb (batch_size inp =? batch_size out)
        then (NEURAX_ERROR_INVALID_PARAM, output, w)
        else if hardware_available dev && use_hardware (config dev) then
          let '(error, out, w) := neurax_hw_activation dev inp activation out w in
          (error, Some out, w)
        else
          let '(error, out) := neurax_cpu_activation inp activation out in
          (error, Some out, w)
  | _, _, _ => (NEURAX_ERROR_INVALID_PARAM, output, w)
  end.

(** *** Pooling layer (neurax_layers.c) *)

(** One tap of the pooling window: the body of the two innermost loops,
    on the pair [(pool_result, valid_count)]. *)
Definition pool_tap (input : neurax_tensor_t) (pool_config : neurax_pool_config_t)
    (batch ch out_y out_x py px : Z) (st : float * Z) : float * Z :=
  let '(pool_result, valid_count) := st in
  let in_y := u32 (out_y * pool_stride_y pool_config + py) in
  let in_x := u32 (out_x * pool_stride_x pool_config + px) in
  if (in_y <? height input) && (in_x <? width input) then
    let value := neurax_get_tensor_value input batch in_y in_x ch in
    let pool_result :=
      if pool_type pool_config =? NEURAX_POOL_MAX then
        if F32.ltb pool_result value || (valid_count =? 0) then value else pool_result
      else F32.add pool_result value in
    (pool_result, u32 (valid_count + 1))
  else (pool_result, valid_count).

(** The scan of one window: the accumulated result and the number of
    taps inside the input. *)
Definition pool_window (input : neurax_tensor_t) (pool_config : neurax_pool_config_t)
    (batch ch out_y out_x : Z) : float * Z :=
  let pool_result :=
    if pool_type pool_config =? NEURAX_POOL_MAX then F32.opp F32.FLT_MAX else F32.zero in
  for_loop (pool_height pool_config) (fun py =>
    for_loop (pool_width pool_config) (fun px =>
      pool_tap input pool_config batch ch out_y out_x py px))
    (pool_result, 0).

(** The value stored at one output position. *)
Definition pool_output_value (input : neurax_tensor_t) (pool_config : neurax_pool_config_t)
    (batch ch out_y out_x : Z) : float :=
  let '(pool_result, valid_count) := pool_window input pool_config batch ch out_y out_x in
  if (pool_type pool_config =? NEURAX_POOL_AVERAGE) && (0 <? valid_count)
  then F32.div pool_result (F32.of_Z valid_count)
  else pool_result.

Definition pool_out_height (input : neurax_tensor_t) (pool_config : neurax_pool_config_t) : Z :=
  u32 (u32 (height input - pool_height pool_config) / pool_stride_y pool_config + 1).

Definition pool_out_width (input : neurax_tensor_t) (pool_config : neurax_pool_config_t) : Z :=
  u32 (u32 (width input - pool_width pool_config) / pool_stride_x pool_config + 1).

Definition neurax_cpu_pooling (input : neurax_tensor_t) (pool_config : neurax_pool_config_t)
    (output : neurax_tensor_t) : neurax_error_t * neurax_tensor_t :=
  let out_height := pool_out_height input pool_config in
  let out_width := pool_out_width input pool_config in
  if negb (height output =? out_height) || negb (width output =? out_width)
  then (NEURAX_ERROR_INVALID_PARAM, output)
  else
    (NEURAX_SUCCESS,
     for_loop (batch_size input) (fun batch =>
       for_loop (channels input) (fun ch =>
         for_loop out_height (fun out_y =>
           for_loop out_width (fun out_x output =>
             neurax_set_tensor_value output batch out_y out_x ch
               (pool_output_value input pool_config batch ch out_y out_x)))))
       (memset_zero output)).

Definition neurax_hw_pooling (device : neurax_device_t) (input : neurax_tensor_t)
    (pool_config : neurax_pool_config_t) (output : neurax_tensor_t) (w : trace)
  : neurax_error_t * neurax_tensor_t * trace :=
  let reg := 0 in
  let reg := Z.lor reg (Z.land (pool_type pool_config) 0x1) in
  let reg := Z.lor reg (u32 (Z.shiftl (Z.land (u32 (pool_width pool_config - 2)) 0x7) 1)) in
  let reg := Z.lor reg (u32 (Z.shiftl (Z.land (u32 (pool_stride_x pool_config - 1)) 0x7) 4)) in
  let w := neurax_write_reg device NEURAX_REG_POOL_CONFIG reg w in
  let dim_config :=
    Z.lor (Z.land (width input) 0xFFFF) (u32 (Z.shiftl (Z.land (height input) 0xFFFF) 16)) in
  let w := neurax_write_reg device NEURAX_REG_DIM_CONFIG dim_config w in
  let control := CTRL_POOL_EN in
  let control :=
    if is_16bit (data_type input) then Z.lor control CTRL_DATA_WIDTH else control in
  let w := neurax_write_reg device NEURAX_REG_CONTROL (Z.lor control CTRL_START) w in
  let '(error, w) := neurax_wait_for_completion device NEURAX_DEFAULT_TIMEOUT_MS w in
  if negb (is_success error) then (error, output, w)
  else (neurax_cpu_pooling input pool_config output, w).

Definition neurax_pooling (device : option neurax_device_t)
    (input : option neurax_tensor_t) (pool_config : option neurax_pool_config_t)
    (output : option neurax_tensor_t) (w : trace)
  : neurax_error_t * option neurax_tensor_t * trace :=
  match device, input, pool_config, output with
  | Some dev, Some inp, Some cfg, Some out =>
      if negb (initialized dev) then (NEURAX_ERROR_NOT_INITIALIZED, output, w)
      else
        let error := neurax_validate_tensor input in
        if negb (is_success error) then (error, output, w) else
        let error := neurax_validate_tensor output in
        if negb (is_success error) then (error, output, w) else
        let error := neurax_validate_pool_config pool_config in
        if negb (is_success error) then (error, output, w) else
        if hardware_available dev && use_hardware (config dev) then
          let '(error, out, w) := neurax_hw_pooling dev inp cfg out w in
          (error, Some out, w)
        else
          let '(error, out) := neurax_cpu_pooling inp cfg out in
          (error, Some out, w)
  | _, _, _, _ => (NEURAX_ERROR_INVALID_PARAM, output, w)
  end.

(** *** Device initialisation (neurax_core.c) *)

(** What the operating system answers during [neurax_init]: whether
    [calloc] returns memory for the device structure, the descriptors
    returned by [open] on /dev/neurax0 and /dev/uio0 (negative on
    failure), and the address returned by [mmap] ([None] for
    [MAP_FAILED]). *)
Record os_env := {
  calloc_device : bool;
  open_neurax0 : Z;
  open_uio0 : Z;
  mmap_window : option Z
}.

Definition set_hardware (device : neurax_device_t) (fd : Z) (mem : option Z) (size : Z)
    (base : option Z) (available : bool) : neurax_device_t :=
  {| config := config device;
     initialized := initialized device;
     device_fd := fd;
     mapped_memory := mem;
     mapped_size := size;
     register_base := base;
     hardware_available := available |}.

Definition set_initialized (device : neurax_device_t) (b : bool) : neurax_device_t :=
  {| config := config device;
     initialized := b;
     device_fd := device_fd device;
     mapped_memory := mapped_memory device;
     mapped_size := mapped_size device;
     register_base := register_base device;
     hardware_available := hardware_available device |}.

Definition neurax_device_open (env : os_env) (device : neurax_device_t)
  : neurax_error_t * neurax_device_t :=
  let fd := open_neurax0 env in
  let fd := if fd <? 0 then open_uio0 env else fd in
  if fd <? 0 then
    (NEURAX_SUCCESS,
     set_hardware device fd (mapped_memory device) (mapped_size device)
       (register_base device) false)
  else
    let size := memory_size (config device) in
    let size := if size =? 0 then 0x10000 else size in
    match mmap_window env with
    | None =>
        (NEURAX_SUCCESS,
         set_hardware device (-1) None size (register_base device) false)
    | Some addr =>
        (NEURAX_SUCCESS, set_hardware device fd (Some addr) size (Some addr) true)
    end.

(** [device] is the location that receives the device: [None] for a
    null pointer, [Some slot] for a location that holds [slot].  The
    result is the error code, the location after the call and the
    register accesses; a call that fails leaves the location as it
    was. *)
Definition neurax_init (env : os_env) (cfg : option neurax_config_t)
    (device : option (option neurax_device_t)) (w : trace)
  : neurax_error_t * option (option neurax_device_t) * trace :=
  match cfg, device with
  | Some cfg, Some _ =>
      if negb (calloc_device env) then (NEURAX_ERROR_MEMORY_ALLOCATION, device, w)
      else
        let dev :=
          {| config := cfg;
             initialized := false;
             device_fd := -1;
             mapped_memory := None;
             mapped_size := 0;
             register_base := None;
             hardware_available := false |} in
        let '(error, dev) := neurax_device_open env dev in
        if negb (is_success error) then (error, device, w)
        else
          let w := neurax_write_reg dev NEURAX_REG_CONTROL CTRL_RESET w in
          let w := usleep 1000 w in
          let w := neurax_write_reg dev NEURAX_REG_CONTROL 0 w in
          (NEURAX_SUCCESS, Some (Some (set_initialized dev true)), w)
  | _, _ => (NEURAX_ERROR_INVALID_PARAM, device, w)
  end.

End Runtime.


(** * The rest of the library

    Tensor management, device shutdown and error strings of
    neurax_core.c, the optimal configuration of neurax_utils.c and the
    profiling functions of neurax_perf.c. *)

From Stdlib Require String.

(** ** Error strings (neurax_core.c) *)

(** The enumerators of [neurax_error_t] as the integers of neurax.h. *)
Definition error_code (e : neurax_error_t) : Z :=
  match e with
  | NEURAX_SUCCESS => 0
  | NEURAX_ERROR_INVALID_PARAM => -1
  | NEURAX_ERROR_NOT_INITIALIZED => -2
  | NEURAX_ERROR_DEVICE_NOT_FOUND => -3
  | NEURAX_ERROR_MEMORY_ALLOCATION => -4
  | NEURAX_ERROR_HARDWARE_FAILURE => -5
  | NEURAX_ERROR_TIMEOUT => -6
  | NEURAX_ERROR_INVALID_MODEL => -7
  | NEURAX_ERROR_BUFFER_OVERFLOW => -8
  end.

Module ErrorStrings.
Import String.

Definition version_string : string := "NEURAX v1.0.0"%string.

Definition error_strings : list string :=
  ["Success"; "Invalid parameter"; "Not initialized"; "Device not found";
   "Memory allocation failed"; "Hardware failure"; "Timeout"; "Invalid model";
   "Buffer overflow"]%string.

Definition unknown_error : string := "Unknown error"%string.

Definition neurax_get_version : string := version_string.

(** [error] is any value of type [int] but [INT_MIN], whose negation is
    undefined. *)
Definition neurax_get_error_string (error : Z) : string :=
  let error_index := - error in
  if (0 <=? error_index) && (error_index <? Z.of_nat (Datatypes.length error_strings))
  then nth (Z.to_nat error_index) error_strings unknown_error
  else unknown_error.

End ErrorStrings.

(** ** Tensor management (neurax_core.c) *)

(** What the allocator answers to [neurax_tensor_create]: whether
    [calloc] returns memory for the tensor structure, and for a data
    buffer of a given size in bytes. *)
Record heap_env := {
  calloc_struct : bool;
  calloc_buffer : Z -> bool
}.

(** [tensor] is the location that receives the new tensor: [None] for a
    null pointer, [Some slot] for a location that holds [slot].  The
    result is the error code and the location after the call.  The
    element type is one of the five enumerators, so the [default] case
    of the switch is not reached. *)
Definition neurax_tensor_create (heap : heap_env) (width height channels batch_size : Z)
    (data_type : neurax_data_type_t) (tensor : option (option neurax_tensor_t))
  : neurax_error_t * option (option neurax_tensor_t) :=
  match tensor with
  | None => (NEURAX_ERROR_INVALID_PARAM, tensor)
  | Some _ =>
      if (width =? 0) || (height =? 0) || (channels =? 0) || (batch_size =? 0)
      then (NEURAX_ERROR_INVALID_PARAM, tensor)
      else if negb (calloc_struct heap) then (NEURAX_ERROR_MEMORY_ALLOCATION, tensor)
      else
        let element_size :=
          match data_type with
          | NEURAX_DATA_UINT8 | NEURAX_DATA_INT8 => 1
          | NEURAX_DATA_UINT16 | NEURAX_DATA_INT16 => 2
          | NEURAX_DATA_FLOAT32 => 4
          end in
        let size := u64 (u32 (width * height * channels * batch_size) * element_size) in
        if negb (calloc_buffer heap size) then (NEURAX_ERROR_MEMORY_ALLOCATION, tensor)
        else
          (NEURAX_SUCCESS,
           Some (Some {| data := Some (replicate (Z.to_nat (size / element_size))
                                         (zero_cell data_type));
                         width := width;
                         height := height;
                         channels := channels;
                         batch_size := batch_size;
                         data_type := data_type;
                         data_size := size |}))
  end.

(** The memory itself is not modelled: the result is the error code. *)
Definition neurax_tensor_destroy (tensor : option neurax_tensor_t) : neurax_error_t :=
  match tensor with
  | None => NEURAX_ERROR_INVALID_PARAM
  | Some _ => NEURAX_SUCCESS
  end.

(** [memcpy(dst, src, size)] between two buffers of elements of
    [element_size] bytes.  A buffer is a list of cells, so a copy is
    expressible when [size] is a whole number of elements; a copy that
    ends inside an element is [None]. *)
Definition memcpy_cells (element_size : Z) (dst src : list cell) (size : Z)
  : option (list cell) :=
  if size mod element_size =? 0 then
    let n := Z.to_nat (size / element_size) in
    Some (take n src ++ drop n dst)
  else None.

(** The caller's buffer holds elements of the type of the tensor.  The
    result is [None] when the copy is not expressible on cells. *)
Definition neurax_tensor_set_data (tensor : option neurax_tensor_t)
    (src : option (list cell)) (size : Z)
  : option (neurax_error_t * option neurax_tensor_t) :=
  match tensor, src with
  | Some t, Some d =>
      if data_size t <? size then Some (NEURAX_ERROR_BUFFER_OVERFLOW, tensor)
      else
        match memcpy_cells (neurax_get_element_size (data_type t)) (buffer t) d size with
        | Some buf => Some (NEURAX_SUCCESS, Some (with_buffer t buf))
        | None => None
        end
  | _, _ => Some (NEURAX_ERROR_INVALID_PARAM, tensor)
  end.

(** The result is the error code and the caller's buffer after the call. *)
Definition neurax_tensor_get_data (tensor : option neurax_tensor_t)
    (dst : option (list cell)) (size : Z)
  : option (neurax_error_t * option (list cell)) :=
  match tensor, dst with
  | Some t, Some d =>
      if data_size t <? size then Some (NEURAX_ERROR_BUFFER_OVERFLOW, dst)
      else
        match memcpy_cells (neurax_get_element_size (data_type t)) d (buffer t) size with
        | Some buf => Some (NEURAX_SUCCESS, Some buf)
        | None => None
        end
  | _, _ => Some (NEURAX_ERROR_INVALID_PARAM, dst)
  end.

(** ** Device shutdown (neurax_core.c) *)

(** The calls that release resources. *)
Inductive os_call :=
| Munmap (addr length : Z)
| Close (fd : Z)
| Free.

(** [mapped_memory] is [None] for a null pointer and for [MAP_FAILED]:
    the window is unmapped in neither case. *)
Definition neurax_device_close (device : neurax_device_t)
  : neurax_error_t * neurax_device_t * list os_call :=
  let calls :=
    match mapped_memory device with
    | Some addr => [Munmap addr (mapped_size device)]
    | None => []
    end in
  let '(fd, calls) :=
    if 0 <=? device_fd device then (-1, calls ++ [Close (device_fd device)])
    else (device_fd device, calls) in
  (NEURAX_SUCCESS,
   set_hardware device fd None (mapped_size device) (register_base device) false,
   calls).

(** The device structure is freed at the end; the result is the error
    code, the register accesses and the resources released. *)
Definition neurax_cleanup (device : option neurax_device_t) (w : trace)
  : neurax_error_t * trace * list os_call :=
  match device with
  | None => (NEURAX_ERROR_INVALID_PARAM, w, [])
  | Some dev =>
      if initialized dev then
        let w :=
          if hardware_available dev
          then neurax_write_reg dev NEURAX_REG_CONTROL CTRL_RESET w
          else w in
        let '(_, _, calls) := neurax_device_close dev in
        (NEURAX_SUCCESS, w, calls ++ [Free])
      else (NEURAX_SUCCESS, w, [Free])
  end.

(** ** Optimal configuration (neurax_utils.c) *)

(** [out] is the configuration the caller passes to be overwritten. *)
Definition neurax_get_optimal_config (device : option neurax_device_t)
    (out : option neurax_config_t) : neurax_error_t * option neurax_config_t :=
  match device, out with
  | Some dev, Some _ =>
      let cfg := config dev in
      let cfg :=
        if hardware_available dev then
          {| base_address := base_address cfg;
             memory_size := memory_size cfg;
             use_hardware := true;
             max_kernel_size := 11;
             num_multipliers := 64;
             default_data_type := NEURAX_DATA_INT16 |}
        else
          {| base_address := base_address cfg;
             memory_size := memory_size cfg;
             use_hardware := false;
             max_kernel_size := 11;
             num_multipliers := 1;
             default_data_type := NEURAX_DATA_FLOAT32 |} in
      (NEURAX_SUCCESS, Some cfg)
  | _, _ => (NEURAX_ERROR_INVALID_PARAM, out)
  end.

Definition neurax_is_signed_type (type : neurax_data_type_t) : bool :=
  match type with
  | NEURAX_DATA_INT8 | NEURAX_DATA_INT16 => true
  | _ => false
  end.

(** ** Profiling (neurax_perf.c) *)

(** [double] is IEEE-754 binary64. *)
Module F64.

Definition float := spec_float.

Definition prec : Z := 53.
Definition emax : Z := 1024.

Definition add : float -> float -> float := SFadd prec emax.
Definition mul : float -> float -> float := SFmul prec emax.
Definition div : float -> float -> float := SFdiv prec emax.

Definition of_Z (z : Z) : float := binary_normalize prec emax z 0 false.

Definition zero : float := S754_zero false.

End F64.

Record timeval := {
  tv_sec : Z;
  tv_usec : Z
}.

Record neurax_perf_stats_t := {
  total_time_ms : F64.float;
  hw_time_ms : F64.float;
  data_transfer_time_ms : F64.float;
  num_operations : Z
}.

(** The two static variables of neurax_perf.c. *)
Record perf_globals := {
  start_time : timeval;
  profiling_active : bool
}.

(** [now] is the time [gettimeofday] returns. *)
Definition neurax_perf_start (g : perf_globals) (now : timeval)
    (stats : option neurax_perf_stats_t)
  : neurax_error_t * option neurax_perf_stats_t * perf_globals :=
  match stats with
  | None => (NEURAX_ERROR_INVALID_PARAM, stats, g)
  | Some _ =>
      (NEURAX_SUCCESS,
       Some {| total_time_ms := F64.zero;
               hw_time_ms := F64.zero;
               data_transfer_time_ms := F64.zero;
               num_operations := 0 |},
       {| start_time := now; profiling_active := true |})
  end.

Definition neurax_perf_end (g : perf_globals) (now : timeval)
    (stats : option neurax_perf_stats_t)
  : neurax_error_t * option neurax_perf_stats_t * perf_globals :=
  match stats with
  | None => (NEURAX_ERROR_INVALID_PARAM, stats, g)
  | Some s =>
      if negb (profiling_active g) then (NEURAX_ERROR_INVALID_PARAM, stats, g)
      else
        let end_time := now in
        let elapsed_sec :=
          F64.add (F64.of_Z (tv_sec end_time - tv_sec (start_time g)))
                  (F64.div (F64.of_Z (tv_usec end_time - tv_usec (start_time g)))
                           (F64.of_Z 1000000)) in
        (NEURAX_SUCCESS,
         Some {| total_time_ms := F64.mul elapsed_sec (F64.of_Z 1000);
                 hw_time_ms := hw_time_ms s;
                 data_transfer_time_ms := data_transfer_time_ms s;
                 num_operations := num_operations s |},
         {| start_time := start_time g; profiling_active := false |})
  end.

(** ** Benchmark (neurax_utils.c) *)

(** [RAND_MAX] of the GNU C library. *)
Definition RAND_MAX : Z := 2147483647.

(** What the environment answers during [neurax_benchmark_layer]: the
    allocator at each of the three calls of [neurax_tensor_create], the
    values returned by [rand] in the order of the calls, the content of
    the local statistics structure before it is initialised, and the
    times returned by [gettimeofday] at the start and at the end. *)
Record bench_env := {
  heap_input : heap_env;
  heap_output : heap_env;
  heap_weights : heap_env;
  rand : Z -> Z;
  stats_garbage : neurax_perf_stats_t;
  time_at_start : timeval;
  time_at_end : timeval
}.

(** [data[i] = value] on the buffer of a float32 tensor. *)
Definition store_float (tensor : neurax_tensor_t) (i : Z) (value : float) : neurax_tensor_t :=
  with_buffer tensor (store (buffer tensor) i (Flt value)).

(** The benchmark loop: the operation is repeated until it fails. *)
Definition bench_loop (iterations : Z)
    (op : option neurax_tensor_t -> trace -> neurax_error_t * option neurax_tensor_t * trace)
    (output : option neurax_tensor_t) (w : trace)
  : neurax_error_t * option neurax_tensor_t * trace :=
  for_loop iterations
    (fun _ st =>
       let '(error, out, w) := st in
       if is_success error then op out w else st)
    (NEURAX_SUCCESS, output, w).

Module Benchmark.
Import String.

Section Benchmark.

Variables tanhf expf : float -> float.
Variable device_read : trace -> Z -> Z.

(** [time_ms] is the location that receives the time: [None] for a
    null pointer.  The result is the error code, the location, the
    profiling state and the register accesses after the call. *)
Definition neurax_benchmark_layer (env : bench_env) (g : perf_globals)
    (device : option neurax_device_t) (layer_type : option string)
    (iterations : Z) (time_ms : option F64.float) (w : trace)
  : neurax_error_t * option F64.float * perf_globals * trace :=
  match device, layer_type, time_ms with
  | Some dev, Some layer, Some _ =>
      if iterations =? 0 then (NEURAX_ERROR_INVALID_PARAM, time_ms, g, w)
      else
        let '(error, input) :=
          neurax_tensor_create (heap_input env) 224 224 3 1 NEURAX_DATA_FLOAT32 (Some None) in
        match input with
        | Some (Some input) =>
            if negb (is_success error) then (error, time_ms, g, w)
            else
              let input :=
                for_loop (neurax_tensor_total_elements (Some input))
                  (fun i t =>
                     store_float t i
                       (F32.div (F32.of_Z (rand env i)) (F32.of_Z RAND_MAX)))
                  input in
              let n_input := neurax_tensor_total_elements (Some input) in
              let '(_, stats, g) :=
                neurax_perf_start g (time_at_start env) (Some (stats_garbage env)) in
              let finish (error : neurax_error_t) (w : trace) :=
                let '(_, stats, g) := neurax_perf_end g (time_at_end env) stats in
                (error,
                 match stats with
                 | Some s => Some (total_time_ms s)
                 | None => time_ms
                 end, g, w) in
              if String.eqb layer "conv2d" then
                let '(error, output) :=
                  neurax_tensor_create (heap_output env) 222 222 64 1
                    NEURAX_DATA_FLOAT32 (Some None) in
                match output with
                | Some (Some output) =>
                    if negb (is_success error) then (error, time_ms, g, w)
                    else
                      let '(error, weights) :=
                        neurax_tensor_create (heap_weights env) 3 3 3 64
                          NEURAX_DATA_FLOAT32 (Some None) in
                      match weights with
                      | Some (Some weights) =>
                          if negb (is_success error) then (error, time_ms, g, w)
                          else
                            let weights :=
                              for_loop (neurax_tensor_total_elements (Some weights))
                                (fun i t =>
                                   store_float t i
                                     (F32.add
                                        (F32.div (F32.of_Z (rand env (n_input + i)))
                                                 (F32.of_Z RAND_MAX))
                                        (F32.opp (S754_finite false 8388608 (-24)))))
                                weights in
                            let conv_config :=
                              {| kernel_width := 3; kernel_height := 3;
                                 stride_x := 1; stride_y := 1;
                                 padding_x := 0; padding_y := 0;
                                 input_channels := 3; output_channels := 64;
                                 use_bias := false;
                                 activation := NEURAX_ACTIVATION_RELU |} in
                            let '(error, _, w) :=
                              bench_loop iterations
                                (fun out w =>
                                   neurax_conv2d tanhf expf (Some dev) (Some input)
                                     (Some weights) None (Some conv_config) out w)
                                (Some output) w in
                            if negb (is_success error) then (error, time_ms, g, w)
                            else finish error w
                      | _ => (error, time_ms, g, w)
                      end
                | _ => (error, time_ms, g, w)
                end
              else if String.eqb layer "pooling" then
                let '(error, output) :=
                  neurax_tensor_create (heap_output env) 112 112 3 1
                    NEURAX_DATA_FLOAT32 (Some None) in
                match output with
                | Some (Some output) =>
                    if negb (is_success error) then (error, time_ms, g, w)
                    else
                      let pool_config :=
                        {| pool_width := 2; pool_height := 2;
                           pool_stride_x := 2; pool_stride_y := 2;
                           pool_type := NEURAX_POOL_MAX |} in
                      let '(error, _, w) :=
                        bench_loop iterations
                          (fun out w =>
                             neurax_pooling device_read (Some dev) (Some input)
                               (Some pool_config) out w)
                          (Some output) w in
                      if negb (is_success error) then (error, time_ms, g, w)
                      else finish error w
                | _ => (error, time_ms, g, w)
                end
              else if String.eqb layer "activation" then
                let '(error, output) :=
                  neurax_tensor_create (heap_output env) 224 224 3 1
                    NEURAX_DATA_FLOAT32 (Some None) in
                match output with
                | Some (Some output) =>
                    if negb (is_success error) then (error, time_ms, g, w)
                    else
                      let '(error, _, w) :=
                        bench_loop iterations
                          (fun out w =>
                             neurax_activation tanhf expf device_read (Some dev)
                               (Some input) NEURAX_ACTIVATION_RELU out w)
                          (Some output) w in
                      if negb (is_success error) then (error, time_ms, g, w)
                      else finish error w
                | _ => (error, time_ms, g, w)
                end
              else (NEURAX_ERROR_INVALID_PARAM, time_ms, g, w)
        | _ => (error, time_ms, g, w)
        end
  | _, _, _ => (NEURAX_ERROR_INVALID_PARAM, time_ms, g, w)
  end.

End Benchmark.

Definition layer_conv2d : string := "conv2d".
Definition layer_pooling : string := "pooling".
Definition layer_activation : string := "activation".
Definition layer_dense : string := "dense".

End Benchmark.

(** * The image blur demo (image_blur_demo.c) *)

(** What the allocator answers during [apply_blur_filter]: at the call
    of [neurax_tensor_create] for the result, and at the two calls for
    the single-channel tensors of the channel [c]. *)
Record blur_env := {
  heap_result : heap_env;
  heap_input_channel : Z -> heap_env;
  heap_output_channel : Z -> heap_env
}.

(** What a pointer to a tensor designates: nothing for a null pointer,
    a tensor, or the memory of a tensor that [neurax_tensor_destroy]
    has released, which must not be accessed any more. *)
Inductive tensor_ptr :=
| ptr_null
| ptr_tensor (t : neurax_tensor_t)
| ptr_released.

Definition ptr_of (slot : option neurax_tensor_t) : tensor_ptr :=
  match slot with
  | Some t => ptr_tensor t
  | None => ptr_null
  end.

(** [neurax_tensor_destroy] on a pointer to the tensor [t], of which the
    caller keeps a copy: the error code, and what that copy designates
    after the call. *)
Definition tensor_destroy_at (t : neurax_tensor_t) : neurax_error_t * tensor_ptr :=
  (neurax_tensor_destroy (Some t), ptr_released).

Section ImageBlur.

Variables tanhf expf : float -> float.

(** The body of the loop over the channels of [apply_blur_filter].  The
    state of the loop holds the value of a [return] that has left the
    loop, what the pointer [*output] designates and the register
    accesses.  Every [return -1] of the loop comes after
    [neurax_tensor_destroy( *output )], which leaves [*output] pointing
    to released memory; the single-channel tensors are local to the
    body, and their release is not modelled.
    [neurax_conv2d] is given an output tensor and returns one, so the
    branch of a null output after it is not reached.  The arithmetic on
    [int] wraps here; an overflow is undefined in C. *)
Definition blur_channel (env : blur_env) (device : option neurax_device_t)
    (input kernel : neurax_tensor_t)
    (kernel_size padding out_width out_height out_channels : Z)
    (c : Z) (st : option Z * tensor_ptr * trace)
  : option Z * tensor_ptr * trace :=
  let '(returned, output, w) := st in
  match returned, output with
  | None, ptr_tensor result =>
      let '(error, input_channel) :=
        neurax_tensor_create (heap_input_channel env c)
          (width input) (height input) 1 1 NEURAX_DATA_FLOAT32 (Some None) in
      match input_channel with
      | Some (Some input_channel) =>
          if negb (is_success error) then (Some (-1), snd (tensor_destroy_at result), w)
          else
            let '(error, output_channel) :=
              neurax_tensor_create (heap_output_channel env c)
                (u32 out_width) (u32 out_height) 1 1 NEURAX_DATA_FLOAT32 (Some None) in
            match output_channel with
            | Some (Some output_channel) =>
                if negb (is_success error)
                then (Some (-1), snd (tensor_destroy_at result), w)
                else
                  let input_channel :=
                    for_loop (u32 (width input * height input))
                      (fun i t =>
                         store_float t i
                           (load_flt (buffer input) (u32 (i * channels input + c))))
                      input_channel in
                  let conv_config :=
                    {| kernel_width := u32 kernel_size;
                       kernel_height := u32 kernel_size;
                       stride_x := 1;
                       stride_y := 1;
                       padding_x := u32 padding;
                       padding_y := u32 padding;
                       input_channels := 1;
                       output_channels := 1;
                       use_bias := false;
                       activation := NEURAX_ACTIVATION_LINEAR |} in
                  let '(error, output_channel, w) :=
                    neurax_conv2d tanhf expf device (Some input_channel) (Some kernel)
                      None (Some conv_config) (Some output_channel) w in
                  match output_channel with
                  | Some output_channel =>
                      if negb (is_success error)
                      then (Some (-1), snd (tensor_destroy_at result), w)
                      else
                        let result :=
                          for_loop (s32 (out_width * out_height))
                            (fun i t =>
                               store_float t (s32 (i * out_channels + c))
                                 (load_flt (buffer output_channel) i))
                            result in
                        (None, ptr_tensor result, w)
                  | None => (Some (-1), snd (tensor_destroy_at result), w)
                  end
            | _ => (Some (-1), snd (tensor_destroy_at result), w)
            end
      | _ => (Some (-1), snd (tensor_destroy_at result), w)
      end
  | _, _ => st
  end.

(** [output] is the location that receives the result: [None] for a
    null pointer.  The result is the value returned, what the location
    holds after the call and the register accesses.  When
    [neurax_tensor_create] fails the location is as it was; after a
    failure in the loop it holds the pointer to the result tensor,
    which the function has destroyed. *)
Definition apply_blur_filter (env : blur_env) (device : option neurax_device_t)
    (input kernel : neurax_tensor_t) (output : option (option neurax_tensor_t))
    (w : trace)
  : Z * option tensor_ptr * trace :=
  let kernel_size := s32 (width kernel) in
  let padding := Z.quot kernel_size 2 in
  let out_width := s32 (width input) in
  let out_height := s32 (height input) in
  let out_channels := s32 (channels input) in
  let '(error, output) :=
    neurax_tensor_create (heap_result env) (u32 out_width) (u32 out_height)
      (u32 out_channels) 1 NEURAX_DATA_FLOAT32 output in
  if negb (is_success error) then (-1, ptr_of <$> output, w)
  else
    match output with
    | Some (Some result) =>
        let '(returned, result, w) :=
          for_loop (channels input)
            (blur_channel env device input kernel
               kernel_size padding out_width out_height out_channels)
            (None, ptr_tensor result, w) in
        (default 0 returned, Some result, w)
    | _ => (-1, ptr_of <$> output, w)
    end.

End ImageBlur.

(** ** The blur kernel *)

Section BlurKernel.

Variable expf : float -> float.

(** [kernel] is the location that receives the kernel.  The result is
    the value returned and the location after the call.  The state of
    the first loops holds the kernel and the sum.  The arithmetic on
    [int] wraps here; an overflow is undefined in C. *)
Definition create_blur_kernel (heap : heap_env) (kernel : option (option neurax_tensor_t))
    (kernel_size : Z) (sigma : float)
  : Z * option (option neurax_tensor_t) :=
  let '(error, kernel) :=
    neurax_tensor_create heap (u32 kernel_size) (u32 kernel_size) 1 1
      NEURAX_DATA_FLOAT32 kernel in
  if negb (is_success error) then (-1, kernel)
  else
    match kernel with
    | Some (Some kernel_tensor) =>
        let center := Z.quot kernel_size 2 in
        let '(kernel_tensor, sum) :=
          for_loop kernel_size
            (fun y =>
               for_loop kernel_size
                 (fun x st =>
                    let '(kernel_tensor, sum) := st in
                    let dx := s32 (x - center) in
                    let dy := s32 (y - center) in
                    let distance_sq := F32.of_Z (s32 (s32 (dx * dx) + s32 (dy * dy))) in
                    let value :=
                      expf (F32.div (F32.opp distance_sq)
                              (F32.mul (F32.mul (F32.of_Z 2) sigma) sigma)) in
                    (store_float kernel_tensor (s32 (s32 (y * kernel_size) + x)) value,
                     F32.add sum value)))
            (kernel_tensor, F32.zero) in
        let kernel_tensor :=
          for_loop (s32 (kernel_size * kernel_size))
            (fun i t => store_float t i (F32.div (load_flt (buffer t) i) sum))
            kernel_tensor in
        (0, Some (Some kernel_tensor))
    | _ => (-1, kernel)
    end.

End BlurKernel.

(** ** BMP files *)

(** The two headers of a BMP file, packed.  The fields carry the name
    of their structure as a prefix because the fields of all records
    share one name space. *)
Record bmp_header_t := {
  header_type : Z;
  header_size : Z;
  header_reserved1 : Z;
  header_reserved2 : Z;
  header_offset : Z
}.

Record bmp_info_header_t := {
  info_size : Z;
  info_width : Z;
  info_height : Z;
  info_planes : Z;
  info_bits_per_pixel : Z;
  info_compression : Z;
  info_image_size : Z;
  info_x_pixels_per_meter : Z;
  info_y_pixels_per_meter : Z;
  info_colors_used : Z;
  info_colors_important : Z
}.

(** The structures are read and written as they lie in memory: on a
    little-endian machine, the bytes of a field from the least
    significant. *)
Fixpoint le_bytes (n : nat) (z : Z) : list Z :=
  match n with
  | O => []
  | S n' => z mod 256 :: le_bytes n' (z / 256)
  end.

Fixpoint le_value (bytes : list Z) : Z :=
  match bytes with
  | [] => 0
  | b :: rest => b + 256 * le_value rest
  end.

Definition header_bytes (h : bmp_header_t) : list Z :=
  le_bytes 2 (header_type h) ++ le_bytes 4 (header_size h) ++
  le_bytes 2 (header_reserved1 h) ++ le_bytes 2 (header_reserved2 h) ++
  le_bytes 4 (header_offset h).

Definition info_bytes (i : bmp_info_header_t) : list Z :=
  le_bytes 4 (info_size i) ++ le_bytes 4 (info_width i) ++ le_bytes 4 (info_height i) ++
  le_bytes 2 (info_planes i) ++ le_bytes 2 (info_bits_per_pixel i) ++
  le_bytes 4 (info_compression i) ++ le_bytes 4 (info_image_size i) ++
  le_bytes 4 (info_x_pixels_per_meter i) ++ le_bytes 4 (info_y_pixels_per_meter i) ++
  le_bytes 4 (info_colors_used i) ++ le_bytes 4 (info_colors_important i).

(** The field of [n] bytes at the offset [at] of a structure. *)
Definition field (bytes : list Z) (at_ : nat) (n : nat) : Z :=
  le_value (take n (drop at_ bytes)).

Definition header_of_bytes (bytes : list Z) : bmp_header_t :=
  {| header_type := field bytes 0 2;
     header_size := field bytes 2 4;
     header_reserved1 := field bytes 6 2;
     header_reserved2 := field bytes 8 2;
     header_offset := field bytes 10 4 |}.

Definition info_of_bytes (bytes : list Z) : bmp_info_header_t :=
  {| info_size := field bytes 0 4;
     info_width := s32 (field bytes 4 4);
     info_height := s32 (field bytes 8 4);
     info_planes := field bytes 12 2;
     info_bits_per_pixel := field bytes 14 2;
     info_compression := field bytes 16 4;
     info_image_size := field bytes 20 4;
     info_x_pixels_per_meter := s32 (field bytes 24 4);
     info_y_pixels_per_meter := s32 (field bytes 28 4);
     info_colors_used := field bytes 32 4;
     info_colors_important := field bytes 36 4 |}.

(** A file open for reading: its bytes and the position. *)
Record file_t := {
  content : list Z;
  position : Z
}.

(** [fread(ptr, size, 1, file)]: the bytes read and the file after the
    call when one whole item was read. *)
Definition fread (size : Z) (file : file_t) : option (list Z * file_t) :=
  if (0 <? size) && (position file + size <=? Z.of_nat (length (content file))) then
    Some (take (Z.to_nat size) (drop (Z.to_nat (position file)) (content file)),
          {| content := content file; position := position file + size |})
  else None.

(** [fseek(file, offset, SEEK_SET)] for an offset that is not negative. *)
Definition fseek (file : file_t) (offset : Z) : file_t :=
  {| content := content file; position := offset |}.

(** [row_buffer[index]] *)
Definition load_byte (row_buffer : list Z) (index : Z) : Z :=
  default 0 (row_buffer !! Z.to_nat index).

(** What the environment answers during [load_bmp_image]: the content
    of the file, [None] when it cannot be opened, the allocator for the
    tensor, and whether [malloc] returns the row buffer. *)
Record bmp_load_env := {
  file_content : option (list Z);
  heap_image : heap_env;
  malloc_row : bool
}.

(** [tensor] is the location that receives the image.  The result is
    the value returned and the location after the call.  The state of
    the loop over the rows holds the value of a [return] that has left
    the loop, the tensor and the file.  The arithmetic on [int] wraps
    here; an overflow is undefined in C.  After a failure of the row
    loop the location still holds the tensor, which the function has
    destroyed. *)
Definition load_bmp_image (env : bmp_load_env) (tensor : option (option neurax_tensor_t))
  : Z * option (option neurax_tensor_t) :=
  match file_content env with
  | None => (-1, tensor)
  | Some bytes =>
      let file := {| content := bytes; position := 0 |} in
      match fread 14 file with
      | None => (-1, tensor)
      | Some (header, file) =>
          let header := header_of_bytes header in
          if negb (header_type header =? 0x4D42) then (-1, tensor)
          else
            match fread 40 file with
            | None => (-1, tensor)
            | Some (info, file) =>
                let info := info_of_bytes info in
                if negb (info_bits_per_pixel info =? 24) &&
                   negb (info_bits_per_pixel info =? 32)
                then (-1, tensor)
                else
                  let width := info_width info in
                  let height := s32 (Z.abs (info_height info)) in
                  let channels := if info_bits_per_pixel info =? 24 then 3 else 4 in
                  let '(error, tensor) :=
                    neurax_tensor_create (heap_image env) (u32 width) (u32 height)
                      (u32 channels) 1 NEURAX_DATA_FLOAT32 tensor in
                  if negb (is_success error) then (-1, tensor)
                  else
                    match tensor with
                    | Some (Some image) =>
                        let file := fseek file (header_offset header) in
                        let bytes_per_pixel := channels in
                        let row_padding :=
                          Z.rem (4 - Z.rem (s32 (width * bytes_per_pixel)) 4) 4 in
                        let row_size := s32 (s32 (width * bytes_per_pixel) + row_padding) in
                        if negb (malloc_row env) then (-1, tensor)
                        else
                          let '(returned, image, _) :=
                            for_loop height
                              (fun y st =>
                                 let '(returned, image, file) := st in
                                 match returned with
                                 | Some _ => st
                                 | None =>
                                     match fread (u64 row_size) file with
                                     | None => (Some (-1), image, file)
                                     | Some (row_buffer, file) =>
                                         (None,
                                          for_loop width
                                            (fun x =>
                                               for_loop channels
                                                 (fun c image =>
                                                    let tensor_idx :=
                                                      s32 (s32 (s32 (s32 (y * width) + x)
                                                                * channels) + c) in
                                                    let bmp_idx :=
                                                      if channels =? 4 then
                                                        if c =? 0 then
                                                          s32 (s32 (x * bytes_per_pixel) + 2)
                                                        else if c =? 1 then
                                                          s32 (s32 (x * bytes_per_pixel) + 1)
                                                        else if c =? 2 then
                                                          s32 (s32 (x * bytes_per_pixel) + 0)
                                                        else
                                                          s32 (s32 (x * bytes_per_pixel) + 3)
                                                      else
                                                        s32 (s32 (x * bytes_per_pixel)
                                                             + s32 (s32 (channels - 1) - c)) in
                                                    store_float image tensor_idx
                                                      (F32.div
                                                         (F32.of_Z (load_byte row_buffer bmp_idx))
                                                         (F32.of_Z 255))))
                                            image,
                                          file)
                                     end
                                 end)
                              (None, image, file) in
                          (default 0 returned, Some (Some image))
                    | _ => (-1, tensor)
                    end
            end
      end
  end.

(** What the environment answers during [save_bmp_image]: whether the
    file can be created, and whether [calloc] returns the row buffer. *)
Record bmp_save_env := {
  file_created : bool;
  calloc_row : bool
}.

(** The result is the value returned and the content of the file:
    [None] when no file was created.  The state of the loop over the
    rows holds the row buffer and the bytes written. *)
Definition save_bmp_image (env : bmp_save_env) (tensor : option neurax_tensor_t)
  : Z * option (list Z) :=
  match tensor with
  | None => (-1, None)
  | Some image =>
      match data_type image with
      | NEURAX_DATA_FLOAT32 =>
          if negb (file_created env) then (-1, None)
          else
            let width := s32 (width image) in
            let height := s32 (height image) in
            let channels := s32 (channels image) in
            let bytes_per_pixel := if 3 <=? channels then 3 else 1 in
            let row_padding := Z.rem (4 - Z.rem (s32 (width * bytes_per_pixel)) 4) 4 in
            let row_size := s32 (s32 (width * bytes_per_pixel) + row_padding) in
            let image_size := s32 (height * row_size) in
            let header :=
              {| header_type := 0x4D42;
                 header_size := u32 (14 + 40 + image_size);
                 header_reserved1 := 0;
                 header_reserved2 := 0;
                 header_offset := 14 + 40 |} in
            let written := header_bytes header in
            let info :=
              {| info_size := 40;
                 info_width := width;
                 info_height := height;
                 info_planes := 1;
                 info_bits_per_pixel := u16 (bytes_per_pixel * 8);
                 info_compression := 0;
                 info_image_size := u32 image_size;
                 info_x_pixels_per_meter := 2835;
                 info_y_pixels_per_meter := 2835;
                 info_colors_used := 0;
                 info_colors_important := 0 |} in
            let written := written ++ info_bytes info in
            if negb (calloc_row env) then (-1, Some written)
            else
              let row_buffer := replicate (Z.to_nat (u64 row_size)) 0 in
              let '(_, written) :=
                for_loop height
                  (fun y st =>
                     let '(row_buffer, written) := st in
                     let row_buffer :=
                       for_loop width
                         (fun x =>
                            for_loop bytes_per_pixel
                              (fun c row_buffer =>
                                 let tensor_idx :=
                                   s32 (s32 (s32 (s32 (y * width) + x) * channels) + c) in
                                 let bmp_idx :=
                                   s32 (s32 (x * bytes_per_pixel)
                                        + s32 (s32 (bytes_per_pixel - 1) - c)) in
                                 let value := load_flt (buffer image) tensor_idx in
                                 let value :=
                                   if F32.ltb value F32.zero then F32.zero
                                   else if F32.ltb F32.one value then F32.one
                                   else value in
                                 <[Z.to_nat bmp_idx :=
                                     u8 (F32.trunc (F32.mul value (F32.of_Z 255)))]>
                                   row_buffer))
                         row_buffer in
                     (row_buffer, written ++ row_buffer))
                  (row_buffer, written) in
              (0, Some written)
      | _ => (-1, None)
      end
  end.

(** * Specifications *)

(** The definitions of this part state the properties proved below;
    they are not part of the library. *)

(** ** Tensors, devices and configurations *)

(** A tensor that satisfies the invariant of the data model: its byte
    size is the product of its dimensions and of the element size. *)
Definition tensor_of (type : neurax_data_type_t) (w h c b : Z) (buf : list cell)
  : neurax_tensor_t :=
  {| data := Some buf; width := w; height := h; channels := c; batch_size := b;
     data_type := type; data_size := w * h * c * b * neurax_get_element_size type |}.

Definition tensor_f32 : Z -> Z -> Z -> Z -> list cell -> neurax_tensor_t :=
  tensor_of NEURAX_DATA_FLOAT32.

Definition tensor_u8 : Z -> Z -> Z -> Z -> list cell -> neurax_tensor_t :=
  tensor_of NEURAX_DATA_UINT8.

(** The index of an element in the buffer of a tensor. *)
Definition tensor_index (tensor : neurax_tensor_t) (batch y x c : Z) : Z :=
  u32 (((batch * height tensor + y) * width tensor + x) * channels tensor + c).

(** Two tensors with the same dimensions, element type and byte size. *)
Definition same_shape (t t0 : neurax_tensor_t) : Prop :=
  with_buffer t [] = with_buffer t0 [].

(** An initialised device without hardware. *)
Definition emulated_device : neurax_device_t :=
  {| config := {| base_address := 0; memory_size := 0; use_hardware := true;
                  max_kernel_size := 11; num_multipliers := 1;
                  default_data_type := NEURAX_DATA_FLOAT32 |};
     initialized := true; device_fd := -1; mapped_memory := None;
     mapped_size := 0; register_base := None; hardware_available := false |}.

(** An initialised device bound to hardware. *)
Definition bound_device : neurax_device_t :=
  {| config := {| base_address := 0; memory_size := 0; use_hardware := true;
                  max_kernel_size := 11; num_multipliers := 64;
                  default_data_type := NEURAX_DATA_INT16 |};
     initialized := true; device_fd := 3; mapped_memory := Some 4096;
     mapped_size := 65536; register_base := Some 4096; hardware_available := true |}.

(** The device is bound to hardware and configured to use it. *)
Definition hardware_bound (dev : neurax_device_t) : Prop :=
  initialized dev = true /\ hardware_available dev = true /\
  use_hardware (config dev) = true /\ is_Some (register_base dev).

(** The hardware is unreachable: neither device node opens, or the
    register window cannot be mapped. *)
Definition hardware_unreachable (env : os_env) : Prop :=
  (open_neurax0 env < 0 /\ open_uio0 env < 0) \/ mmap_window env = None.

Definition env_no_device : os_env :=
  {| calloc_device := true; open_neurax0 := -1; open_uio0 := -1; mmap_window := None |}.

Definition env_mmap_fails : os_env :=
  {| calloc_device := true; open_neurax0 := 3; open_uio0 := -1; mmap_window := None |}.

Definition conv_config_example (k s ch : Z) (act : neurax_activation_t) : neurax_conv_config_t :=
  {| kernel_width := k; kernel_height := k; stride_x := s; stride_y := s;
     padding_x := 0; padding_y := 0; input_channels := ch; output_channels := ch;
     use_bias := false; activation := act |}.

(** The 1x1 convolution with stride 1, no padding, one input and one
    output channel, no bias and the linear activation. *)
Definition identity_conv_config : neurax_conv_config_t :=
  {| kernel_width := 1; kernel_height := 1; stride_x := 1; stride_y := 1;
     padding_x := 0; padding_y := 0; input_channels := 1; output_channels := 1;
     use_bias := false; activation := NEURAX_ACTIVATION_LINEAR |}.

(** The single weight 1.0. *)
Definition weights_one : neurax_tensor_t := tensor_f32 1 1 1 1 [Flt F32.one].

Definition conv_config_3x3_stride_y2 : neurax_conv_config_t :=
  {| kernel_width := 3; kernel_height := 3; stride_x := 1; stride_y := 2;
     padding_x := 0; padding_y := 0; input_channels := 1; output_channels := 1;
     use_bias := false; activation := NEURAX_ACTIVATION_LINEAR |}.

Definition pool_2x2_config (type : neurax_pool_type_t) : neurax_pool_config_t :=
  {| pool_width := 2; pool_height := 2; pool_stride_x := 2; pool_stride_y := 2;
     pool_type := type |}.

(** The configurations [neurax_validate_conv_config] rejects. *)
Definition conv_config_out_of_limits (c : neurax_conv_config_t) : Prop :=
  kernel_width c = 0 \/ kernel_height c = 0 \/
  11 < kernel_width c \/ 11 < kernel_height c \/
  stride_x c = 0 \/ stride_y c = 0 \/
  8 < stride_x c \/ 8 < stride_y c \/
  input_channels c = 0 \/ output_channels c = 0 \/
  NEURAX_ACTIVATION_LINEAR < activation c.

(** The bias tensor passes the check of [neurax_conv2d]: it is checked
    only when it is present and the configuration uses it. *)
Definition bias_accepted (conv_config : neurax_conv_config_t) (bias : option neurax_tensor_t) : Prop :=
  match bias with
  | Some _ => use_bias conv_config = true -> neurax_validate_tensor bias = NEURAX_SUCCESS
  | None => True
  end.

(** ** Numbers *)

Definition f32_1 : float := F32.one.
Definition f32_2 : float := Eval cbv in F32.of_Z 2.
Definition f32_3 : float := Eval cbv in F32.of_Z 3.
Definition f32_4 : float := Eval cbv in F32.of_Z 4.
Definition f32_5 : float := Eval cbv in F32.of_Z 5.
Definition f32_6 : float := Eval cbv in F32.of_Z 6.
Definition f32_7 : float := Eval cbv in F32.of_Z 7.
Definition f32_8 : float := Eval cbv in F32.of_Z 8.
Definition f32_9 : float := Eval cbv in F32.of_Z 9.
Definition f32_300 : float := Eval cbv in F32.of_Z 300.
Definition f32_minus_5 : float := Eval cbv in F32.of_Z (-5).

(** 1.75 as a binary32 number. *)
Definition f32_1_75 : float := S754_finite false 14680064 (-23).

(** Every finite binary32 number is an integer multiple of 2^-149. *)
Definition fix149 (f : float) : Z :=
  match f with
  | S754_finite s m e =>
      let a := Z.pos m * 2 ^ (e + 149) in if s then - a else a
  | _ => 0
  end.

(** A finite number or a zero. *)
Definition is_real (f : float) : bool :=
  match f with
  | S754_finite _ _ _ | S754_zero _ => true
  | _ => false
  end.

(** A negative zero becomes the positive zero; every other number is
    kept. *)
Definition positive_zero (x : float) : float :=
  match x with
  | S754_zero true => S754_zero false
  | _ => x
  end.

(** Truncation of a rational toward zero. *)
Definition Qtrunc (q : Q) : Z := if Qle_bool 0 q then Qfloor q else Qceiling q.

(** A rational clamped to the interval between two integers. *)
Definition Qclamp (lo hi : Z) (q : Q) : Q := Qmax (inject_Z lo) (Qmin (inject_Z hi) q).

(** [z] is an integer nearest to [q]. *)
Definition nearest_integer (q : Q) (z : Z) : Prop :=
  (Qabs (q - inject_Z z) <= 1 # 2)%Q.

(** ** Writing an element *)

Definition type_min (type : neurax_data_type_t) : Z :=
  match type with
  | NEURAX_DATA_UINT8 => 0
  | NEURAX_DATA_INT8 => -128
  | NEURAX_DATA_UINT16 => 0
  | NEURAX_DATA_INT16 => -32768
  | NEURAX_DATA_FLOAT32 => 0
  end.

Definition type_max (type : neurax_data_type_t) : Z :=
  match type with
  | NEURAX_DATA_UINT8 => 255
  | NEURAX_DATA_INT8 => 127
  | NEURAX_DATA_UINT16 => 65535
  | NEURAX_DATA_INT16 => 32767
  | NEURAX_DATA_FLOAT32 => 0
  end.

(** The value clamped to [lo, hi] and then truncated toward zero; a NaN
    gives the upper bound. *)
Definition saturate_trunc (lo hi : Z) (value : float) : Z :=
  match value with
  | S754_nan => hi
  | S754_infinity true => lo
  | S754_infinity false => hi
  | _ => Qtrunc (Qclamp lo hi (F32.to_Q value))
  end.

(** The cell a write of [value] into a tensor of element type [type]
    stores, in terms of the exact value. *)
Definition stored_cell (type : neurax_data_type_t) (value : float) : cell :=
  match type with
  | NEURAX_DATA_FLOAT32 => Flt value
  | _ => Int (saturate_trunc (type_min type) (type_max type) value)
  end.

(** The cell the write expressions of the library compute. *)
Definition written_cell (type : neurax_data_type_t) (value : float) : cell :=
  match type with
  | NEURAX_DATA_UINT8 =>
      Int (u8 (F32.trunc (F32.fmax (F32.of_Z 0) (F32.fmin (F32.of_Z 255) value))))
  | NEURAX_DATA_INT8 =>
      Int (s8 (F32.trunc (F32.fmax (F32.of_Z (-128)) (F32.fmin (F32.of_Z 127) value))))
  | NEURAX_DATA_UINT16 =>
      Int (u16 (F32.trunc (F32.fmax (F32.of_Z 0) (F32.fmin (F32.of_Z 65535) value))))
  | NEURAX_DATA_INT16 =>
      Int (s16 (F32.trunc (F32.fmax (F32.of_Z (-32768)) (F32.fmin (F32.of_Z 32767) value))))
  | NEURAX_DATA_FLOAT32 => Flt value
  end.

(** The value read from a cell of a tensor of element type [type]. *)
Definition read_cell (type : neurax_data_type_t) (c : cell) : float :=
  match type with
  | NEURAX_DATA_FLOAT32 => match c with Flt f => f | Int _ => F32.zero end
  | _ => F32.of_Z (match c with Int z => z | Flt _ => 0 end)
  end.

(** A cell a tensor of element type [type] can hold: an integer of the
    range of the type, or a binary32 number. *)
Definition cell_ok (type : neurax_data_type_t) (c : cell) : Prop :=
  match type, c with
  | NEURAX_DATA_FLOAT32, Flt x => F32.valid x = true
  | NEURAX_DATA_FLOAT32, Int _ => False
  | _, Int z => type_min type <= z <= type_max type
  | _, Flt _ => False
  end.

(** A cell, with a negative zero replaced by the positive zero. *)
Definition canonical_cell (c : cell) : cell :=
  match c with
  | Flt x => Flt (positive_zero x)
  | Int z => Int z
  end.

(** [step] keeps the length of a buffer, overwrites the cells
    [lo .. lo + n - 1] with the values [f] and leaves the others. *)
Definition overwrites (step : list cell -> list cell) (lo n : nat) (f : nat -> cell) : Prop :=
  forall buf : list cell,
    length (step buf) = length buf /\
    forall j : nat, (j < length buf)%nat ->
      step buf !! j = if decide (lo <= j < lo + n)%nat then Some (f j) else buf !! j.

(** ** Example tensors *)

Definition input_3x3 (a0 a1 a2 a3 a4 a5 a6 a7 a8 : float) : neurax_tensor_t :=
  tensor_f32 3 3 1 1
    [Flt a0; Flt a1; Flt a2; Flt a3; Flt a4; Flt a5; Flt a6; Flt a7; Flt a8].

(** The 3x3 tensor of the numbers 1 to 9. *)
Definition input_1_to_9 : neurax_tensor_t :=
  input_3x3 f32_1 f32_2 f32_3 f32_4 f32_5 f32_6 f32_7 f32_8 f32_9.

(** An input of width 3 and height 2. *)
Definition input_3x2 : neurax_tensor_t := tensor_u8 3 2 1 1 (replicate 6 (Int 0)).

Definition weights_3x3 : neurax_tensor_t := tensor_f32 3 3 1 1 (replicate 9 (Flt F32.one)).

(** An output of width 1 and height 2^31 (2 GiB of [uint8_t]). *)
Definition output_1x2G : neurax_tensor_t :=
  tensor_u8 1 2147483648 1 1 (replicate (Z.to_nat 2147483648) (Int 0)).

(** One column of 2^31 rows: the first element is 1.0, the others 0.0. *)
Definition input_tall : neurax_tensor_t :=
  tensor_f32 1 2147483648 1 1
    (Flt F32.one :: replicate (Z.to_nat 2147483647) (Flt F32.zero)).

Definition output_tall : neurax_tensor_t :=
  tensor_f32 1 2147483648 1 1 (replicate (Z.to_nat 2147483648) (Flt F32.one)).

(** ** The hardware leg *)

(** The polling protocol of [neurax_wait_for_completion]: the status
    register (word 1 of the window) is read at most [n] times, with a
    sleep of 100 microseconds after every read that shows neither the
    error bit nor the done bit.  [polling n w w' e]: started after the
    accesses [w], the protocol ends after the accesses [w'] with the
    outcome [e]. *)
Inductive polling (device_read : trace -> Z -> Z) : nat -> trace -> trace -> neurax_error_t -> Prop :=
| polling_exhausted (w : trace) :
    polling device_read 0 w w NEURAX_ERROR_TIMEOUT
| polling_error (n : nat) (w : trace) (status : Z) :
    status = u32 (device_read w 1) ->
    Z.land status STAT_ERROR <> 0 ->
    polling device_read (S n) w (w ++ [RegRead 1 status]) NEURAX_ERROR_HARDWARE_FAILURE
| polling_done (n : nat) (w : trace) (status : Z) :
    status = u32 (device_read w 1) ->
    Z.land status STAT_ERROR = 0 ->
    Z.land status STAT_DONE <> 0 ->
    polling device_read (S n) w (w ++ [RegRead 1 status]) NEURAX_SUCCESS
| polling_wait (n : nat) (w w' : trace) (status : Z) (e : neurax_error_t) :
    status = u32 (device_read w 1) ->
    Z.land status STAT_ERROR = 0 ->
    Z.land status STAT_DONE = 0 ->
    polling device_read n (w ++ [RegRead 1 status; Sleep 100]) w' e ->
    polling device_read (S n) w w' e.

(** A device whose status register always shows the error bit. *)
Definition reports_error (device_read : trace -> Z -> Z) : Prop :=
  forall w : trace, Z.land (u32 (device_read w 1)) STAT_ERROR <> 0.

(** A device whose status register never shows the error or done bit. *)
Definition never_completes (device_read : trace -> Z -> Z) : Prop :=
  forall w : trace,
    Z.land (u32 (device_read w 1)) STAT_ERROR = 0 /\
    Z.land (u32 (device_read w 1)) STAT_DONE = 0.

(** The number of reads of the status register (word 1 of the window)
    in a trace, and the time slept in microseconds. *)
Fixpoint status_reads (w : trace) : Z :=
  match w with
  | [] => 0
  | RegRead 1 _ :: w' => 1 + status_reads w'
  | _ :: w' => status_reads w'
  end.

Fixpoint slept (w : trace) : Z :=
  match w with
  | [] => 0
  | Sleep usec :: w' => usec + slept w'
  | _ :: w' => slept w'
  end.

(** The last access of the trace [w'] is a read of the status register
    that returned what the device shows there, and that status
    satisfies [P]. *)
Definition last_status (device_read : trace -> Z -> Z) (w' : trace) (P : Z -> Prop) : Prop :=
  exists w0 : trace,
    w' = w0 ++ [RegRead 1 (u32 (device_read w0 1))] /\ P (u32 (device_read w0 1)).

(** How the hardware leg of the pooling and activation layers ends,
    by its outcome [e], when it started polling after the accesses [w]
    and ended after the accesses [w']: success when the last status
    read shows the done bit without the error bit, [HardwareFailure]
    when it shows the error bit, [Timeout] after 50000 reads of the
    status register and 5000 ms of sleep; there is no other outcome. *)
Definition hardware_leg_end (device_read : trace -> Z -> Z) (w w' : trace)
    (e : neurax_error_t) : Prop :=
  match e with
  | NEURAX_SUCCESS =>
      last_status device_read w'
        (fun status => Z.land status STAT_ERROR = 0 /\ Z.land status STAT_DONE <> 0)
  | NEURAX_ERROR_HARDWARE_FAILURE =>
      last_status device_read w' (fun status => Z.land status STAT_ERROR <> 0)
  | NEURAX_ERROR_TIMEOUT =>
      status_reads w' = status_reads w + 50000 /\ slept w' = slept w + 5000 * 1000
  | _ => False
  end.

(** * Specifications of the rest of the library *)

(** The configurations [neurax_validate_pool_config] rejects. *)
Definition pool_config_out_of_limits (c : neurax_pool_config_t) : Prop :=
  pool_width c = 0 \/ pool_height c = 0 \/
  8 < pool_width c \/ 8 < pool_height c \/
  pool_stride_x c = 0 \/ pool_stride_y c = 0 \/
  NEURAX_POOL_AVERAGE < pool_type c.

(** The tensor [t] has the dimensions, element type and byte size of
    [t0], and a buffer of the same length. *)
Definition keeps_layout (t0 t : neurax_tensor_t) : Prop :=
  same_shape t t0 /\ length (buffer t) = length (buffer t0).

(** A value of type [uint32_t]. *)
Definition is_uint32 (z : Z) : Prop := 0 <= z < 2 ^ 32.

(** The fields of the C structures are [uint32_t] values. *)
Definition tensor_uint32 (t : neurax_tensor_t) : Prop :=
  is_uint32 (width t) /\ is_uint32 (height t) /\
  is_uint32 (channels t) /\ is_uint32 (batch_size t).

Definition conv_config_uint32 (c : neurax_conv_config_t) : Prop :=
  is_uint32 (kernel_width c) /\ is_uint32 (kernel_height c) /\
  is_uint32 (stride_x c) /\ is_uint32 (stride_y c) /\
  is_uint32 (padding_x c) /\ is_uint32 (padding_y c) /\
  is_uint32 (input_channels c) /\ is_uint32 (output_channels c) /\
  is_uint32 (activation c).

Definition pool_config_uint32 (c : neurax_pool_config_t) : Prop :=
  is_uint32 (pool_width c) /\ is_uint32 (pool_height c) /\
  is_uint32 (pool_stride_x c) /\ is_uint32 (pool_stride_y c) /\
  is_uint32 (pool_type c).


(** The pooling window fits in the input. *)
Definition pool_fits (input : neurax_tensor_t) (c : neurax_pool_config_t) : Prop :=
  pool_height c <= height input /\ pool_width c <= width input.

(** The elements of the input under the pooling window of the output
    position [(out_y, out_x)], row by row. *)
Definition window_taps (input : neurax_tensor_t) (c : neurax_pool_config_t)
    (batch ch out_y out_x : Z) : list float :=
  map (fun k : nat =>
         neurax_get_tensor_value input batch
           (out_y * pool_stride_y c + Z.of_nat k / pool_width c)
           (out_x * pool_stride_x c + Z.of_nat k mod pool_width c) ch)
      (seq 0 (Z.to_nat (pool_height c * pool_width c))).

(** The update of the pooling accumulator and of the tap count by one
    element of the window. *)
Definition pool_step (type : neurax_pool_type_t) (st : float * Z) (value : float) : float * Z :=
  let '(pool_result, valid_count) := st in
  (if type =? NEURAX_POOL_MAX then
     if F32.ltb pool_result value || (valid_count =? 0) then value else pool_result
   else F32.add pool_result value,
   valid_count + 1).

(** A binary32 number that is finite (no infinity, no NaN). *)
Definition finite_number (x : float) : Prop :=
  F32.valid x = true /\ is_real x = true.

(** A position inside a tensor. *)
Definition in_tensor (t : neurax_tensor_t) (batch y x c : Z) : Prop :=
  0 <= batch < batch_size t /\ 0 <= y < height t /\
  0 <= x < width t /\ 0 <= c < channels t.

(** Every value of the integer element type [a] is a value of the
    element type [b]: [b] is float32, or an integer type whose range
    contains the range of [a]. *)
Definition type_fits (a b : neurax_data_type_t) : Prop :=
  a <> NEURAX_DATA_FLOAT32 /\
  (b = NEURAX_DATA_FLOAT32 \/ (type_min b <= type_min a /\ type_max a <= type_max b)).

(** The cell the type conversion stores at index [j] of the
    destination: a copy of the source cell when the types are the
    same, the converted value otherwise. *)
Definition converted_cell (src : list cell) (src_type dst_type : neurax_data_type_t)
    (j : nat) : option cell :=
  if data_type_eqb src_type dst_type then src !! j
  else Some (written_cell dst_type (convert_read src src_type (Z.of_nat j))).

(** The number of register writes in a trace. *)
Fixpoint register_writes (w : trace) : Z :=
  match w with
  | [] => 0
  | RegWrite _ _ :: w' => 1 + register_writes w'
  | _ :: w' => register_writes w'
  end.

(** The descriptor [neurax_device_open] keeps: /dev/neurax0 when it
    opens, /dev/uio0 otherwise. *)
Definition opened_fd (env : os_env) : Z :=
  if open_neurax0 env <? 0 then open_uio0 env else open_neurax0 env.

(** The size of the register window: the configured memory size, 64 KiB
    when it is 0. *)
Definition window_size (cfg : neurax_config_t) : Z :=
  if memory_size cfg =? 0 then 65536 else memory_size cfg.

(** /dev/neurax0 is absent, /dev/uio0 opens as descriptor 4 and the
    register window is mapped at address 4096. *)
Definition env_uio_hardware : os_env :=
  {| calloc_device := true; open_neurax0 := -1; open_uio0 := 4; mmap_window := Some 4096 |}.

(** An allocator that always returns memory. *)
Definition heap_unlimited : heap_env :=
  {| calloc_struct := true; calloc_buffer := fun _ => true |}.

(** An allocator that returns memory for the tensor structure and for
    no data buffer. *)
Definition heap_no_buffer : heap_env :=
  {| calloc_struct := true; calloc_buffer := fun _ => false |}.

(** A device with the configuration of [dev] replaced. *)
Definition with_config (dev : neurax_device_t) (cfg : neurax_config_t) : neurax_device_t :=
  {| config := cfg;
     initialized := initialized dev;
     device_fd := device_fd dev;
     mapped_memory := mapped_memory dev;
     mapped_size := mapped_size dev;
     register_base := register_base dev;
     hardware_available := hardware_available dev |}.

(** The profiling state before any call. *)
Definition perf_idle : perf_globals :=
  {| start_time := {| tv_sec := 0; tv_usec := 0 |}; profiling_active := false |}.

Definition perf_stats_example : neurax_perf_stats_t :=
  {| total_time_ms := F64.of_Z 7; hw_time_ms := F64.of_Z 7;
     data_transfer_time_ms := F64.of_Z 7; num_operations := 7 |}.

(** An environment of the benchmark in which every allocation succeeds. *)
Definition bench_env_example : bench_env :=
  {| heap_input := heap_unlimited; heap_output := heap_unlimited;
     heap_weights := heap_unlimited; rand := fun i => i;
     stats_garbage := perf_stats_example;
     time_at_start := {| tv_sec := 10; tv_usec := 0 |};
     time_at_end := {| tv_sec := 11; tv_usec := 0 |} |}.

(** The three allocators of the environment return memory. *)
Definition bench_memory_available (env : bench_env) : Prop :=
  calloc_struct (heap_input env) = true /\
  calloc_struct (heap_output env) = true /\
  calloc_struct (heap_weights env) = true /\
  (forall size, calloc_buffer (heap_input env) size = true) /\
  (forall size, calloc_buffer (heap_output env) size = true) /\
  (forall size, calloc_buffer (heap_weights env) size = true).

(** The tensor [t] has the layout of [t0] and a data pointer. *)
Definition valid_like (t0 t : neurax_tensor_t) : Prop :=
  same_shape t t0 /\ is_Some (data t).

(** The elapsed time [neurax_perf_end] computes, in milliseconds. *)
Definition elapsed_ms (start stop : timeval) : F64.float :=
  F64.mul
    (F64.add (F64.of_Z (tv_sec stop - tv_sec start))
       (F64.div (F64.of_Z (tv_usec stop - tv_usec start)) (F64.of_Z 1000000)))
    (F64.of_Z 1000).

(** ** The loops of the kernels *)

(** The position [(b, c, y, x)] is written before the loops over the
    batches, the channels, the rows and the columns reach
    [(b0, c0, y0, x0)], when the three inner loops run to [n2], [n3]
    and [n4]. *)
Definition scanned (n2 n3 n4 b0 c0 y0 x0 b c y x : Z) : Prop :=
  c < n2 /\ y < n3 /\ x < n4 /\
  (b < b0 \/ (b = b0 /\ (c < c0 \/ (c = c0 /\ (y < y0 \/ (y = y0 /\ x < x0)))))).

(** The buffer [buf'] of the tensor [t0] when the loops, started on
    [buf], reach [(b0, c0, y0, x0)]: the positions written hold the
    values [v], the others are as in [buf]. *)
Definition scan_state (t0 : neurax_tensor_t) (v : Z -> Z -> Z -> Z -> float)
    (buf : list cell) (n2 n3 n4 b0 c0 y0 x0 : Z) (buf' : list cell) : Prop :=
  length buf' = length buf /\
  forall b c y x, in_tensor t0 b y x c ->
    (scanned n2 n3 n4 b0 c0 y0 x0 b c y x ->
     buf' !! Z.to_nat (tensor_index t0 b y x c)
     = Some (written_cell (data_type t0) (v b c y x))) /\
    (~ scanned n2 n3 n4 b0 c0 y0 x0 b c y x ->
     buf' !! Z.to_nat (tensor_index t0 b y x c)
     = buf !! Z.to_nat (tensor_index t0 b y x c)).

(** A valid output tensor whose element count is below 2^32 and whose
    buffer holds all its elements. *)
Definition output_ready (output : neurax_tensor_t) : Prop :=
  neurax_validate_tensor (Some output) = NEURAX_SUCCESS /\
  tensor_uint32 output /\
  width output * height output * channels output * batch_size output < 2 ^ 32 /\
  length (buffer output)
  = Z.to_nat (width output * height output * channels output * batch_size output).

(** ** The image blur demo *)

(** Every allocation of [apply_blur_filter] returns memory. *)
Definition blur_memory_available (env : blur_env) : Prop :=
  calloc_struct (heap_result env) = true /\
  (forall size, calloc_buffer (heap_result env) size = true) /\
  (forall c, calloc_struct (heap_input_channel env c) = true) /\
  (forall c size, calloc_buffer (heap_input_channel env c) size = true) /\
  (forall c, calloc_struct (heap_output_channel env c) = true) /\
  (forall c size, calloc_buffer (heap_output_channel env c) size = true).

Definition blur_env_example : blur_env :=
  {| heap_result := heap_unlimited;
     heap_input_channel := fun _ => heap_unlimited;
     heap_output_channel := fun _ => heap_unlimited |}.

(** The channel [c] of a float32 image of one batch, as a tensor of one
    channel. *)
Definition channel_plane (input : neurax_tensor_t) (c : Z) : neurax_tensor_t :=
  tensor_of NEURAX_DATA_FLOAT32 (width input) (height input) 1 1
    (map (fun i => Flt (load_flt (buffer input) (Z.of_nat i * channels input + c)))
       (seq 0 (Z.to_nat (width input * height input)))).

(** The convolution of the blur: a square kernel of size [k], stride 1,
    a padding of half the kernel, no bias, no activation. *)
Definition blur_config (k : Z) : neurax_conv_config_t :=
  {| kernel_width := k; kernel_height := k; stride_x := 1; stride_y := 1;
     padding_x := k / 2; padding_y := k / 2;
     input_channels := 1; output_channels := 1;
     use_bias := false; activation := NEURAX_ACTIVATION_LINEAR |}.

(** A float32 image whose number of elements is a value of type [int]
    and whose buffer holds all of them. *)
Definition image_small (input : neurax_tensor_t) : Prop :=
  0 < width input /\ 0 < height input /\ 0 < channels input /\
  width input * height input * channels input < 2 ^ 31 /\
  data_type input = NEURAX_DATA_FLOAT32 /\
  length (buffer input) = Z.to_nat (width input * height input * channels input).

(** An image of 2 x 2 pixels of 3 channels and a kernel of 3 x 3. *)
Definition image_2x2 : neurax_tensor_t :=
  tensor_f32 2 2 3 1 (map (fun i => Flt (F32.of_Z (Z.of_nat i))) (seq 0 12)).

Definition kernel_3x3 : neurax_tensor_t :=
  tensor_f32 3 3 1 1 (replicate 9 (Flt F32.one)).

Definition kernel_4x4 : neurax_tensor_t :=
  tensor_f32 4 4 1 1 (replicate 16 (Flt F32.one)).

(** The value of the blurred image at row [y], column [x] of the
    channel [c]: the convolution of the channel with the kernel. *)
Definition blurred_value (tanhf expf : float -> float) (input kernel : neurax_tensor_t)
    (c y x : Z) : float :=
  conv_output_value tanhf expf (channel_plane input c) kernel None
    (blur_config (width kernel)) 0 0 y x.

(** ** BMP files *)

(** The value [load_bmp_image] stores for a byte of the file, and the
    byte [save_bmp_image] writes for a value. *)
Definition pixel_of_byte (b : Z) : float := F32.div (F32.of_Z b) (F32.of_Z 255).

Definition byte_of_pixel (value : float) : Z :=
  let value :=
    if F32.ltb value F32.zero then F32.zero
    else if F32.ltb F32.one value then F32.one
    else value in
  u8 (F32.trunc (F32.mul value (F32.of_Z 255))).

(** The bytes that pad a row of [w] pixels of three bytes to a multiple
    of four bytes. *)
Definition bmp_row_padding (w : Z) : Z := (4 - (3 * w) mod 4) mod 4.

(** The row [y] of a 24-bit file for the image [image]: for each pixel
    the bytes of the channels 2, 1 and 0, then the padding. *)
Definition bmp_row (image : neurax_tensor_t) (y : Z) : list Z :=
  map (fun j =>
         byte_of_pixel
           (load_flt (buffer image)
              ((y * width image + Z.of_nat j / 3) * channels image
               + (2 - Z.of_nat j mod 3))))
    (seq 0 (Z.to_nat (3 * width image)))
  ++ replicate (Z.to_nat (bmp_row_padding (width image))) 0.

(** A float32 image that [save_bmp_image] writes as a 24-bit file whose
    sizes are values of type [int], and whose buffer holds all its
    elements. *)
Definition bmp_image (image : neurax_tensor_t) : Prop :=
  data_type image = NEURAX_DATA_FLOAT32 /\
  0 < width image /\ 0 < height image /\ 3 <= channels image /\
  width image * height image * channels image < 2 ^ 28 /\
  length (buffer image) = Z.to_nat (width image * height image * channels image).

(** A float32 image of one or two channels, with the same bounds. *)
Definition gray_image (image : neurax_tensor_t) : Prop :=
  data_type image = NEURAX_DATA_FLOAT32 /\
  0 < width image /\ 0 < height image /\ 0 < channels image < 3 /\
  width image * height image * channels image < 2 ^ 28 /\
  length (buffer image) = Z.to_nat (width image * height image * channels image).

Definition bmp_save_env_example : bmp_save_env :=
  {| file_created := true; calloc_row := true |}.

(** The environment in which [load_bmp_image] reads the file [bytes]
    and obtains its memory. *)
Definition bmp_load_env_of (bytes : list Z) : bmp_load_env :=
  {| file_content := Some bytes; heap_image := heap_unlimited; malloc_row := true |}.

(** The headers of the 24-bit file of the image [image]. *)
Definition bmp_row_size (image : neurax_tensor_t) : Z :=
  3 * width image + bmp_row_padding (width image).

Definition bmp_header (image : neurax_tensor_t) : bmp_header_t :=
  {| header_type := 0x4D42;
     header_size := 54 + height image * bmp_row_size image;
     header_reserved1 := 0;
     header_reserved2 := 0;
     header_offset := 54 |}.

Definition bmp_info (image : neurax_tensor_t) : bmp_info_header_t :=
  {| info_size := 40;
     info_width := width image;
     info_height := height image;
     info_planes := 1;
     info_bits_per_pixel := 24;
     info_compression := 0;
     info_image_size := height image * bmp_row_size image;
     info_x_pixels_per_meter := 2835;
     info_y_pixels_per_meter := 2835;
     info_colors_used := 0;
     info_colors_important := 0 |}.

(** The rows of the file, from the first row of the tensor. *)
Definition bmp_rows (image : neurax_tensor_t) : list (list Z) :=
  map (fun y => bmp_row image (Z.of_nat y)) (seq 0 (Z.to_nat (height image))).

(** The 24-bit file of the image [image]. *)
Definition bmp_file (image : neurax_tensor_t) : list Z :=
  header_bytes (bmp_header image) ++ info_bytes (bmp_info image)
  ++ concat (bmp_rows image).

(** The image of three channels whose elements are the values of the
    first three channels of [image], each converted to a byte and back. *)
Definition quantized (image : neurax_tensor_t) : neurax_tensor_t :=
  tensor_of NEURAX_DATA_FLOAT32 (width image) (height image) 3 1
    (map (fun j =>
            Flt (pixel_of_byte
                   (byte_of_pixel
                      (load_flt (buffer image)
                         (Z.of_nat j / 3 * channels image + Z.of_nat j mod 3)))))
       (seq 0 (Z.to_nat (width image * height image * 3)))).

(** An image of 2 x 2 pixels of 4 channels. *)
Definition image_rgba : neurax_tensor_t :=
  tensor_f32 2 2 4 1
    (map (fun i => Flt (F32.div (F32.of_Z (Z.of_nat i)) (F32.of_Z 10))) (seq 0 16)).

(** The tensor [t] has the layout of [t0], and its first [n] cells hold
    the values [v]. *)
Definition filled_to (t0 : neurax_tensor_t) (v : nat -> float) (n : Z)
    (t : neurax_tensor_t) : Prop :=
  same_shape t t0 /\ is_Some (data t) /\
  length (buffer t) = length (buffer t0) /\
  forall j : nat, Z.of_nat j < n -> buffer t !! j = Some (Flt (v j)).

(** An image of 2 x 2 pixels of one channel. *)
Definition image_gray : neurax_tensor_t :=
  tensor_f32 2 2 1 1 (replicate 4 (Flt F32.one)).

(** ** The blur kernel *)

(** The weight of the kernel of size [k] at row [y] and column [x],
    before the division by the sum. *)
Definition blur_weight (expf : float -> float) (sigma : float) (k y x : Z) : float :=
  expf (F32.div
          (F32.opp (F32.of_Z ((x - k / 2) * (x - k / 2) + (y - k / 2) * (y - k / 2))))
          (F32.mul (F32.mul (F32.of_Z 2) sigma) sigma)).

(** The weights of the kernel in the order of the loops, and their sum,
    added from 0.0 in that order. *)
Definition blur_weights (expf : float -> float) (sigma : float) (k : Z) : list float :=
  map (fun i => blur_weight expf sigma k (Z.of_nat i / k) (Z.of_nat i mod k))
    (seq 0 (Z.to_nat (k * k))).

Definition blur_sum (expf : float -> float) (sigma : float) (k : Z) : float :=
  fold_left F32.add (blur_weights expf sigma k) F32.zero.

(** * Properties *)

(** ** Machine integers *)

Lemma u32_small (z : Z) : 0 <= z < 2 ^ 32 -> u32 z = z.
Proof. intros H. unfold u32. now apply Z.mod_small. Qed.

Lemma s32_small (z : Z) : 0 <= z < 2 ^ 31 -> s32 z = z.
Proof.
  intros H. unfold s32, signed.
  rewrite Z.mod_small by lia.
  change (2 ^ (32 - 1)) with (2 ^ 31).
  destruct (z <? 2 ^ 31) eqn:E; [reflexivity | apply Z.ltb_ge in E; lia].
Qed.

Lemma signed_small (w z : Z) :
  0 < w -> - 2 ^ (w - 1) <= z < 2 ^ (w - 1) -> signed w z = z.
Proof.
  intros Hw Hz. unfold signed.
  assert (Hp : 2 ^ w = 2 * 2 ^ (w - 1)).
  { replace w with (Z.succ (w - 1)) at 1 by lia. apply Z.pow_succ_r. lia. }
  destruct (Z.neg_nonneg_cases z) as [Hneg | Hpos].
  - rewrite <- (Z.mod_add z 1 (2 ^ w)) by lia.
    rewrite Z.mod_small by lia.
    destruct (Z.ltb_spec (z + 1 * 2 ^ w) (2 ^ (w - 1))); lia.
  - rewrite Z.mod_small by lia.
    destruct (Z.ltb_spec z (2 ^ (w - 1))); lia.
Qed.

(** ** Validation of a convolution configuration *)

(** One check of a validation function: the condition of the first
    conditional of the goal is decided. *)
Ltac step_check :=
  match goal with
  | |- context [if ?c then _ else _] => destruct c eqn:?
  end.

Ltac decide_checks :=
  repeat match goal with
  | H : (_ || _) = false |- _ => apply orb_false_iff in H as [? ?]
  | H : (_ || _) = true |- _ => apply orb_true_iff in H as [? | ?]
  | H : (_ =? _) = false |- _ => apply Z.eqb_neq in H
  | H : (_ =? _) = true |- _ => apply Z.eqb_eq in H
  | H : (_ <? _) = false |- _ => apply Z.ltb_ge in H
  | H : (_ <? _) = true |- _ => apply Z.ltb_lt in H
  end.

(** C6.  [neurax_validate_conv_config] returns [InvalidParam] when a
    kernel dimension is 0 or greater than 11 (13 for instance), a
    stride is 0 or greater than 8 (9 for instance), a channel count is
    0, or the activation selector is above the last enumerator; it
    returns success for every other configuration, in particular at
    kernel size 11 and stride 8. *)
Theorem validate_conv_config_limits (c : neurax_conv_config_t) :
  (conv_config_out_of_limits c ->
   neurax_validate_conv_config (Some c) = NEURAX_ERROR_INVALID_PARAM) /\
  (~ conv_config_out_of_limits c ->
   neurax_validate_conv_config (Some c) = NEURAX_SUCCESS) /\
  (kernel_width c = 11 -> kernel_height c = 11 ->
   stride_x c = 8 -> stride_y c = 8 ->
   input_channels c <> 0 -> output_channels c <> 0 ->
   activation c <= NEURAX_ACTIVATION_LINEAR ->
   neurax_validate_conv_config (Some c) = NEURAX_SUCCESS).
Proof.
  assert (Hgood : ~ conv_config_out_of_limits c ->
                  neurax_validate_conv_config (Some c) = NEURAX_SUCCESS).
  { unfold conv_config_out_of_limits, neurax_validate_conv_config. intros Hok.
    repeat (step_check; [exfalso; apply Hok; decide_checks; lia |]).
    reflexivity. }
  split; [| split; [exact Hgood |]].
  - unfold conv_config_out_of_limits, neurax_validate_conv_config. intros Hbad.
    repeat (step_check; [reflexivity |]).
    exfalso. decide_checks. lia.
  - intros. apply Hgood. unfold conv_config_out_of_limits.
    unfold NEURAX_ACTIVATION_LINEAR in *. lia.
Qed.

Lemma validate_conv_config_limits_witness :
  neurax_validate_conv_config (Some (conv_config_example 13 1 1 NEURAX_ACTIVATION_RELU))
    = NEURAX_ERROR_INVALID_PARAM /\
  neurax_validate_conv_config (Some (conv_config_example 3 9 1 NEURAX_ACTIVATION_RELU))
    = NEURAX_ERROR_INVALID_PARAM /\
  neurax_validate_conv_config (Some (conv_config_example 3 1 0 NEURAX_ACTIVATION_RELU))
    = NEURAX_ERROR_INVALID_PARAM /\
  neurax_validate_conv_config (Some (conv_config_example 3 1 1 4))
    = NEURAX_ERROR_INVALID_PARAM /\
  neurax_validate_conv_config (Some (conv_config_example 3 1 1 NEURAX_ACTIVATION_TANH))
    = NEURAX_SUCCESS /\
  neurax_validate_conv_config (Some (conv_config_example 11 8 1 NEURAX_ACTIVATION_LINEAR))
    = NEURAX_SUCCESS.
Proof.
  refine (conj _ (conj _ (conj _ (conj _ (conj _ _))))).
  - apply (proj1 (validate_conv_config_limits _)).
    unfold conv_config_out_of_limits; simpl; lia.
  - apply (proj1 (validate_conv_config_limits _)).
    unfold conv_config_out_of_limits; simpl; lia.
  - apply (proj1 (validate_conv_config_limits _)).
    unfold conv_config_out_of_limits; simpl; lia.
  - apply (proj1 (validate_conv_config_limits _)).
    unfold conv_config_out_of_limits, NEURAX_ACTIVATION_LINEAR; simpl; lia.
  - apply (proj1 (proj2 (validate_conv_config_limits _))).
    unfold conv_config_out_of_limits, NEURAX_ACTIVATION_LINEAR, NEURAX_ACTIVATION_TANH;
      simpl; lia.
  - apply (proj2 (proj2 (validate_conv_config_limits _)));
      unfold NEURAX_ACTIVATION_LINEAR; simpl; lia.
Defined.

Lemma validate_tensor_of (type : neurax_data_type_t) (w h c b : Z) (buf : list cell) :
  0 < w -> 0 < h -> 0 < c -> 0 < b -> w * h * c * b < 2 ^ 32 ->
  neurax_validate_tensor (Some (tensor_of type w h c b buf)) = NEURAX_SUCCESS.
Proof.
  intros Hw Hh Hc Hb Hsmall.
  unfold neurax_validate_tensor, tensor_of.
  cbn [data width height channels batch_size data_type data_size].
  destruct (Z.eqb_spec w 0); [lia |]. destruct (Z.eqb_spec h 0); [lia |].
  destruct (Z.eqb_spec c 0); [lia |]. destruct (Z.eqb_spec b 0); [lia |].
  cbn [orb].
  assert (0 < w * h * c * b) by (repeat apply Z.mul_pos_pos; lia).
  rewrite u32_small by lia.
  assert (1 <= neurax_get_element_size type <= 4) by (destruct type; simpl; lia).
  unfold u64. rewrite Z.mod_small by nia.
  rewrite Z.eqb_refl. reflexivity.
Qed.

(** ** Dispatch of the three operations *)

Section Dispatch.

Variables tanhf expf : float -> float.
Variable device_read : trace -> Z -> Z.

Lemma conv2d_dispatch (dev : neurax_device_t) (input weights : neurax_tensor_t)
    (bias : option neurax_tensor_t) (conv_config : neurax_conv_config_t)
    (output : neurax_tensor_t) (w : trace) :
  initialized dev = true ->
  neurax_validate_tensor (Some input) = NEURAX_SUCCESS ->
  neurax_validate_tensor (Some weights) = NEURAX_SUCCESS ->
  neurax_validate_tensor (Some output) = NEURAX_SUCCESS ->
  neurax_validate_conv_config (Some conv_config) = NEURAX_SUCCESS ->
  bias_accepted conv_config bias ->
  neurax_conv2d tanhf expf (Some dev) (Some input) (Some weights) bias
    (Some conv_config) (Some output) w
  = if hardware_available dev && use_hardware (config dev) then
      let '(error, out, w) :=
        neurax_hw_conv2d tanhf expf dev input weights bias conv_config output w in
      (error, Some out, w)
    else
      let '(error, out) :=
        neurax_cpu_conv2d tanhf expf input weights bias conv_config output in
      (error, Some out, w).
Proof.
  intros Hinit Hi Hw Ho Hc Hb.
  unfold neurax_conv2d.
  rewrite Hinit, Hi, Hw, Ho, Hc.
  cbn [negb is_success].
  assert (Hbias : match bias with
                  | Some _ => if use_bias conv_config
                              then neurax_validate_tensor bias else NEURAX_SUCCESS
                  | None => NEURAX_SUCCESS
                  end = NEURAX_SUCCESS).
  { destruct bias as [b |]; [| reflexivity].
    destruct (use_bias conv_config) eqn:Eb; [| reflexivity].
    now apply Hb. }
  rewrite Hbias. reflexivity.
Qed.

Lemma pooling_dispatch (dev : neurax_device_t) (input : neurax_tensor_t)
    (pool_config : neurax_pool_config_t) (output : neurax_tensor_t) (w : trace) :
  initialized dev = true ->
  neurax_validate_tensor (Some input) = NEURAX_SUCCESS ->
  neurax_validate_tensor (Some output) = NEURAX_SUCCESS ->
  neurax_validate_pool_config (Some pool_config) = NEURAX_SUCCESS ->
  neurax_pooling device_read (Some dev) (Some input) (Some pool_config) (Some output) w
  = if hardware_available dev && use_hardware (config dev) then
      let '(error, out, w) := neurax_hw_pooling device_read dev input pool_config output w in
      (error, Some out, w)
    else
      let '(error, out) := neurax_cpu_pooling input pool_config output in
      (error, Some out, w).
Proof.
  intros Hinit Hi Ho Hc.
  unfold neurax_pooling.
  rewrite Hinit, Hi, Ho, Hc. reflexivity.
Qed.

Lemma activation_dispatch (dev : neurax_device_t) (input : neurax_tensor_t)
    (act : neurax_activation_t) (output : neurax_tensor_t) (w : trace) :
  initialized dev = true ->
  neurax_validate_tensor (Some input) = NEURAX_SUCCESS ->
  neurax_validate_tensor (Some output) = NEURAX_SUCCESS ->
  width input = width output -> height input = height output ->
  channels input = channels output -> batch_size input = batch_size output ->
  neurax_activation tanhf expf device_read (Some dev) (Some input) act (Some output) w
  = if hardware_available dev && use_hardware (config dev) then
      let '(error, out, w) :=
        neurax_hw_activation tanhf expf device_read dev input act output w in
      (error, Some out, w)
    else
      let '(error, out) := neurax_cpu_activation tanhf expf input act output in
      (error, Some out, w).
Proof.
  intros Hinit Hi Ho Hw Hh Hc Hb.
  unfold neurax_activation.
  rewrite Hinit, Hi, Ho, Hw, Hh, Hc, Hb, !Z.eqb_refl. reflexivity.
Qed.

(** Whatever the device is bound to, [neurax_conv2d] returns the outcome
    of the CPU kernel. *)
Lemma conv2d_runs_cpu_kernel (dev : neurax_device_t) (input weights : neurax_tensor_t)
    (bias : option neurax_tensor_t) (conv_config : neurax_conv_config_t)
    (output : neurax_tensor_t) (w : trace) :
  initialized dev = true ->
  neurax_validate_tensor (Some input) = NEURAX_SUCCESS ->
  neurax_validate_tensor (Some weights) = NEURAX_SUCCESS ->
  neurax_validate_tensor (Some output) = NEURAX_SUCCESS ->
  neurax_validate_conv_config (Some conv_config) = NEURAX_SUCCESS ->
  bias_accepted conv_config bias ->
  exists w',
    neurax_conv2d tanhf expf (Some dev) (Some input) (Some weights) bias
      (Some conv_config) (Some output) w
    = (fst (neurax_cpu_conv2d tanhf expf input weights bias conv_config output),
       Some (snd (neurax_cpu_conv2d tanhf expf input weights bias conv_config output)),
       w').
Proof.
  intros Hinit Hi Hw Ho Hc Hbias.
  rewrite (conv2d_dispatch dev input weights bias conv_config output w
             Hinit Hi Hw Ho Hc Hbias).
  destruct (hardware_available dev && use_hardware (config dev)).
  - unfold neurax_hw_conv2d.
    destruct (neurax_cpu_conv2d tanhf expf input weights bias conv_config output).
    eexists. reflexivity.
  - destruct (neurax_cpu_conv2d tanhf expf input weights bias conv_config output).
    eexists. reflexivity.
Qed.

End Dispatch.

(** ** Shape check of the activation layer *)

(** C10.  On an initialised device, for two valid tensors whose width,
    height, channels or batch size differ, [neurax_activation] returns
    [InvalidParam]; the output tensor is returned as it was and no
    register is accessed, whatever the device is bound to. *)
Theorem activation_shape_mismatch
    (tanhf expf : float -> float) (device_read : trace -> Z -> Z)
    (dev : neurax_device_t) (input output : neurax_tensor_t)
    (act : neurax_activation_t) (w : trace) :
  initialized dev = true ->
  neurax_validate_tensor (Some input) = NEURAX_SUCCESS ->
  neurax_validate_tensor (Some output) = NEURAX_SUCCESS ->
  width input <> width output \/ height input <> height output \/
  channels input <> channels output \/ batch_size input <> batch_size output ->
  neurax_activation tanhf expf device_read (Some dev) (Some input) act (Some output) w
  = (NEURAX_ERROR_INVALID_PARAM, Some output, w).
Proof.
  intros Hinit Hin Hout Hdiff.
  unfold neurax_activation.
  rewrite Hinit, Hin, Hout. cbn [negb is_success].
  destruct (Z.eqb_spec (width input) (width output));
    destruct (Z.eqb_spec (height input) (height output));
    destruct (Z.eqb_spec (channels input) (channels output));
    destruct (Z.eqb_spec (batch_size input) (batch_size output));
    cbn [negb orb]; try reflexivity.
  lia.
Qed.

Lemma activation_shape_mismatch_witness :
  neurax_activation (fun x => x) (fun x => x) (fun _ _ => 0)
    (Some bound_device)
    (Some (tensor_f32 2 1 1 1 [Flt F32.one; Flt F32.one])) NEURAX_ACTIVATION_RELU
    (Some (tensor_f32 1 1 1 1 [Flt F32.zero])) []
  = (NEURAX_ERROR_INVALID_PARAM, Some (tensor_f32 1 1 1 1 [Flt F32.zero]), []).
Proof.
  apply activation_shape_mismatch; try reflexivity.
  left. simpl. lia.
Defined.

(** ** Initialisation without hardware *)

Lemma device_open_unreachable (env : os_env) (dev : neurax_device_t) :
  hardware_unreachable env ->
  exists dev',
    neurax_device_open env dev = (NEURAX_SUCCESS, dev') /\
    hardware_available dev' = false /\
    config dev' = config dev /\ initialized dev' = initialized dev.
Proof.
  intros H. unfold neurax_device_open.
  destruct (Z.ltb_spec (open_neurax0 env) 0) as [E1 | E1].
  - destruct (Z.ltb_spec (open_uio0 env) 0) as [E2 | E2].
    + eexists. repeat split.
    + destruct H as [[_ H] | H]; [lia |].
      rewrite H. eexists. repeat split.
  - destruct (Z.ltb_spec (open_neurax0 env) 0) as [E3 | _]; [lia |].
    destruct H as [[H _] | H]; [lia |].
    rewrite H. eexists. repeat split.
Qed.

Lemma write_reg_emulated (dev : neurax_device_t) (offset value : Z) (w : trace) :
  hardware_available dev = false -> neurax_write_reg dev offset value w = w.
Proof. intros H. unfold neurax_write_reg. now rewrite H. Qed.

(** C7.  When the hardware is unreachable (no device node opens, or
    the register window cannot be mapped) and the device structure is
    allocated, [neurax_init], given a location for the device, returns
    success and stores there an initialised device in emulated mode; on
    that device every operation whose arguments
    pass the validation returns the outcome of the CPU kernel, without
    any register access. *)
Theorem init_unreachable_hardware_emulated
    (tanhf expf : float -> float) (device_read : trace -> Z -> Z)
    (env : os_env) (cfg : neurax_config_t) (slot : option neurax_device_t) (w0 : trace) :
  calloc_device env = true ->
  hardware_unreachable env ->
  exists dev,
    neurax_init env (Some cfg) (Some slot) w0
    = (NEURAX_SUCCESS, Some (Some dev), w0 ++ [Sleep 1000]) /\
    initialized dev = true /\
    hardware_available dev = false /\
    (forall input weights bias conv_config output w,
        neurax_validate_tensor (Some input) = NEURAX_SUCCESS ->
        neurax_validate_tensor (Some weights) = NEURAX_SUCCESS ->
        neurax_validate_tensor (Some output) = NEURAX_SUCCESS ->
        neurax_validate_conv_config (Some conv_config) = NEURAX_SUCCESS ->
        bias_accepted conv_config bias ->
        neurax_conv2d tanhf expf (Some dev) (Some input) (Some weights) bias
          (Some conv_config) (Some output) w
        = (fst (neurax_cpu_conv2d tanhf expf input weights bias conv_config output),
           Some (snd (neurax_cpu_conv2d tanhf expf input weights bias conv_config output)),
           w)) /\
    (forall input pool_config output w,
        neurax_validate_tensor (Some input) = NEURAX_SUCCESS ->
        neurax_validate_tensor (Some output) = NEURAX_SUCCESS ->
        neurax_validate_pool_config (Some pool_config) = NEURAX_SUCCESS ->
        neurax_pooling device_read (Some dev) (Some input) (Some pool_config) (Some output) w
        = (fst (neurax_cpu_pooling input pool_config output),
           Some (snd (neurax_cpu_pooling input pool_config output)),
           w)) /\
    (forall input act output w,
        neurax_validate_tensor (Some input) = NEURAX_SUCCESS ->
        neurax_validate_tensor (Some output) = NEURAX_SUCCESS ->
        width input = width output -> height input = height output ->
        channels input = channels output -> batch_size input = batch_size output ->
        neurax_activation tanhf expf device_read (Some dev) (Some input) act (Some output) w
        = (fst (neurax_cpu_activation tanhf expf input act output),
           Some (snd (neurax_cpu_activation tanhf expf input act output)),
           w)).
Proof.
  intros Hcalloc Hunreach.
  unfold neurax_init. rewrite Hcalloc. cbn [negb].
  match goal with
  | |- context [neurax_device_open env ?d] =>
      destruct (device_open_unreachable env d Hunreach) as (dev' & Hopen & Hhw & Hcfg & Hini)
  end.
  rewrite Hopen. cbn [negb is_success].
  rewrite !write_reg_emulated by assumption.
  exists (set_initialized dev' true).
  split; [reflexivity |].
  split; [reflexivity |].
  split; [exact Hhw |].
  assert (Hhw' : hardware_available (set_initialized dev' true) = false) by exact Hhw.
  split; [| split].
  - intros input weights bias conv_config output w Hi Hw Ho Hc Hb.
    rewrite (conv2d_dispatch tanhf expf (set_initialized dev' true) input weights bias
               conv_config output w
               eq_refl Hi Hw Ho Hc Hb).
    rewrite Hhw'. cbn [andb].
    now destruct (neurax_cpu_conv2d tanhf expf input weights bias conv_config output).
  - intros input pool_config output w Hi Ho Hc.
    rewrite (pooling_dispatch device_read (set_initialized dev' true) input pool_config
               output w eq_refl Hi Ho Hc).
    rewrite Hhw'. cbn [andb].
    now destruct (neurax_cpu_pooling input pool_config output).
  - intros input act output w Hi Ho Ew Eh Ec Eb.
    rewrite (activation_dispatch tanhf expf device_read (set_initialized dev' true)
               input act output w
               eq_refl Hi Ho Ew Eh Ec Eb).
    rewrite Hhw'. cbn [andb]. reflexivity.
Qed.

Lemma init_unreachable_hardware_emulated_witness :
  (exists dev,
      neurax_init env_no_device (Some (config emulated_device)) (Some None) []
      = (NEURAX_SUCCESS, Some (Some dev), [Sleep 1000]) /\
      initialized dev = true /\ hardware_available dev = false) /\
  (exists dev,
      neurax_init env_mmap_fails (Some (config bound_device)) (Some None) []
      = (NEURAX_SUCCESS, Some (Some dev), [Sleep 1000]) /\
      initialized dev = true /\ hardware_available dev = false).
Proof.
  split.
  - destruct (init_unreachable_hardware_emulated (fun x => x) (fun x => x) (fun _ _ => 0)
                env_no_device (config emulated_device) None [] eq_refl)
      as (dev & E & Hi & Hh & _).
    + left. simpl. lia.
    + exists dev. repeat split; assumption.
  - destruct (init_unreachable_hardware_emulated (fun x => x) (fun x => x) (fun _ _ => 0)
                env_mmap_fails (config bound_device) None [] eq_refl)
      as (dev & E & Hi & Hh & _).
    + right. reflexivity.
    + exists dev. repeat split; assumption.
Defined.

(** ** Exact values of binary32 numbers *)

Lemma digits2_pos_bounds (m : positive) :
  2 ^ (Z.pos (digits2_pos m) - 1) <= Z.pos m < 2 ^ Z.pos (digits2_pos m).
Proof.
  induction m as [p IH | p IH |]; cbn [digits2_pos].
  - rewrite Pos2Z.inj_succ.
    replace (Z.succ (Z.pos (digits2_pos p)) - 1) with (Z.succ (Z.pos (digits2_pos p) - 1)) by lia.
    rewrite !Z.pow_succ_r by lia. lia.
  - rewrite Pos2Z.inj_succ.
    replace (Z.succ (Z.pos (digits2_pos p)) - 1) with (Z.succ (Z.pos (digits2_pos p) - 1)) by lia.
    rewrite !Z.pow_succ_r by lia. lia.
  - simpl. lia.
Qed.

Lemma valid_finite_inv (s : bool) (m : positive) (e : Z) :
  F32.valid (S754_finite s m e) = true ->
  -149 <= e <= 104 /\ Z.pos m < 2 ^ 24 /\ (e = -149 \/ 2 ^ 23 <= Z.pos m).
Proof.
  unfold F32.valid, valid_binary, bounded, canonical_mantissa, fexp, emin,
    F32.prec, F32.emax.
  intros H. apply andb_true_iff in H as [H1 H2].
  apply Z.eqb_eq in H1. apply Z.leb_le in H2.
  pose proof (digits2_pos_bounds m) as [Hlo Hhi].
  set (d := Z.pos (digits2_pos m)) in *.
  assert (Hd : d <= 24 /\ -149 <= e /\ (e = -149 \/ d = 24)) by lia.
  destruct Hd as (Hd1 & Hd2 & Hd3).
  split; [lia |]. split.
  - apply Z.lt_le_trans with (2 ^ d); [exact Hhi |].
    apply Z.pow_le_mono_r; lia.
  - destruct Hd3 as [-> | Hd3]; [now left | right].
    rewrite Hd3 in Hlo. exact Hlo.
Qed.

Lemma fix149_pos (m : positive) (e : Z) :
  -149 <= e -> 0 < Z.pos m * 2 ^ (e + 149).
Proof.
  intros He. apply Z.mul_pos_pos; [lia |]. apply Z.pow_pos_nonneg; lia.
Qed.

Lemma fix149_exponent_lt (m1 m2 : positive) (e1 e2 : Z) :
  F32.valid (S754_finite false m1 e1) = true ->
  F32.valid (S754_finite false m2 e2) = true ->
  e1 < e2 ->
  Z.pos m1 * 2 ^ (e1 + 149) < Z.pos m2 * 2 ^ (e2 + 149).
Proof.
  intros H1 H2 Hlt.
  apply valid_finite_inv in H1 as (He1 & Hm1 & _).
  apply valid_finite_inv in H2 as (He2 & _ & Hn2).
  destruct Hn2 as [-> | Hn2]; [lia |].
  replace (e2 + 149) with ((e1 + 149) + (e2 - e1)) by lia.
  rewrite (Z.pow_add_r 2 (e1 + 149) (e2 - e1)) by lia.
  assert (Ha : 0 < 2 ^ (e1 + 149)) by (apply Z.pow_pos_nonneg; lia).
  assert (Hb : 2 ^ 1 <= 2 ^ (e2 - e1)) by (apply Z.pow_le_mono_r; lia).
  change (2 ^ 1) with 2 in Hb.
  change (2 ^ 24) with 16777216 in Hm1. change (2 ^ 23) with 8388608 in Hn2.
  set (A := 2 ^ (e1 + 149)) in *. set (B := 2 ^ (e2 - e1)) in *.
  assert (H1 : Z.pos m1 * A < 16777216 * A) by (apply Z.mul_lt_mono_pos_r; lia).
  assert (H2 : 16777216 <= Z.pos m2 * B) by nia.
  assert (H3 : 16777216 * A <= (Z.pos m2 * B) * A) by (apply Z.mul_le_mono_nonneg_r; lia).
  lia.
Qed.

Lemma compare_fix149 (x y : float) :
  F32.valid x = true -> F32.valid y = true ->
  is_real x = true -> is_real y = true ->
  SFcompare x y = Some (fix149 x ?= fix149 y).
Proof.
  intros Hx Hy Rx Ry.
  destruct x as [sx | sx | | sx mx ex]; try discriminate;
    destruct y as [sy | sy | | sy my ey]; try discriminate.
  - reflexivity.
  - pose proof (valid_finite_inv _ _ _ Hy) as (He & _).
    pose proof (fix149_pos my ey ltac:(lia)) as Hp.
    cbn [SFcompare fix149]. f_equal. symmetry.
    destruct sy; [apply Z.compare_gt_iff | apply Z.compare_lt_iff]; lia.
  - pose proof (valid_finite_inv _ _ _ Hx) as (He & _).
    pose proof (fix149_pos mx ex ltac:(lia)) as Hp.
    cbn [SFcompare fix149]. f_equal. symmetry.
    destruct sx; [apply Z.compare_lt_iff | apply Z.compare_gt_iff]; lia.
  - pose proof (valid_finite_inv _ _ _ Hx) as (Hex & _).
    pose proof (valid_finite_inv _ _ _ Hy) as (Hey & _).
    pose proof (fix149_pos mx ex ltac:(lia)) as Hpx.
    pose proof (fix149_pos my ey ltac:(lia)) as Hpy.
    cbn [SFcompare fix149]. f_equal. symmetry.
    assert (Hsame : forall m1 m2 e, -149 <= e ->
              (Z.pos m1 * 2 ^ (e + 149) ?= Z.pos m2 * 2 ^ (e + 149))
              = Pos.compare_cont Eq m1 m2).
    { intros m1 m2 e He.
      assert (Hp : 0 < 2 ^ (e + 149)) by (apply Z.pow_pos_nonneg; lia).
      change (Pos.compare_cont Eq m1 m2) with (Z.pos m1 ?= Z.pos m2).
      destruct (Z.compare_spec (Z.pos m1) (Z.pos m2)) as [Heq | Hl | Hg].
      - rewrite Heq. apply Z.compare_refl.
      - apply Z.compare_lt_iff. now apply Z.mul_lt_mono_pos_r.
      - apply Z.compare_gt_iff. now apply Z.mul_lt_mono_pos_r. }
    destruct sx, sy.
    + destruct (Z.compare_spec ex ey) as [-> | Hlt | Hgt].
      * rewrite Z.compare_opp, Z.compare_antisym. f_equal. apply Hsame. lia.
      * apply Z.compare_gt_iff.
        pose proof (fix149_exponent_lt mx my ex ey Hx Hy Hlt). lia.
      * apply Z.compare_lt_iff.
        pose proof (fix149_exponent_lt my mx ey ex Hy Hx ltac:(lia)). lia.
    + apply Z.compare_lt_iff. lia.
    + apply Z.compare_gt_iff. lia.
    + destruct (Z.compare_spec ex ey) as [-> | Hlt | Hgt].
      * apply Hsame. lia.
      * apply Z.compare_lt_iff. now apply fix149_exponent_lt.
      * apply Z.compare_gt_iff.
        pose proof (fix149_exponent_lt my mx ey ex Hy Hx ltac:(lia)). lia.
Qed.

Lemma Qtrunc_comp (p q : Q) : (p == q)%Q -> Qtrunc p = Qtrunc q.
Proof.
  intros H. unfold Qtrunc.
  rewrite (Qleb_comp 0%Q 0%Q (Qeq_refl 0%Q) p q H).
  destruct (Qle_bool 0 q); [now apply Qfloor_comp | now apply Qceiling_comp].
Qed.

Lemma Qtrunc_Z (z : Z) : Qtrunc (inject_Z z) = z.
Proof.
  unfold Qtrunc. destruct (Qle_bool 0 (inject_Z z)); [apply Qfloor_Z | apply Qceiling_Z].
Qed.

Lemma Qtrunc_between (lo hi : Z) (q : Q) :
  lo <= 0 <= hi -> (inject_Z lo <= q)%Q -> (q <= inject_Z hi)%Q ->
  lo <= Qtrunc q <= hi.
Proof.
  intros Hz Hlo Hhi. unfold Qtrunc.
  destruct (Qle_bool 0 q) eqn:E.
  - apply Qle_bool_iff in E.
    apply Qfloor_resp_le in E, Hhi. rewrite Qfloor_Z in Hhi.
    change (Qfloor 0) with 0 in E. lia.
  - assert (Hneg : (q <= 0)%Q).
    { apply Qnot_lt_le. intros Hc. apply Qlt_le_weak in Hc.
      apply Qle_bool_iff in Hc. congruence. }
    apply Qceiling_resp_le in Hneg, Hlo. rewrite Qceiling_Z in Hlo.
    change (Qceiling 0) with 0 in Hneg. lia.
Qed.

Lemma to_Q_fix149 (x : float) :
  F32.valid x = true -> is_real x = true ->
  (F32.to_Q x == Qmake (fix149 x) (Z.to_pos (2 ^ 149)))%Q.
Proof.
  intros Hx Rx. destruct x as [sx | sx | | s m e]; try discriminate.
  - reflexivity.
  - apply valid_finite_inv in Hx as (He & _).
    assert (H149 : Z.pos (Z.to_pos (2 ^ 149)) = 2 ^ 149) by reflexivity.
    cbn [F32.to_Q fix149].
    destruct (Z.leb_spec 0 e) as [Hp | Hn].
    + assert (Hpow : 2 ^ (e + 149) = 2 ^ e * 2 ^ 149) by (apply Z.pow_add_r; lia).
      destruct s; unfold Qeq; cbn [Qnum Qden Qopp inject_Z]; rewrite H149, Hpow; ring.
    + assert (Hd : Z.pos (Z.to_pos (2 ^ (- e))) = 2 ^ (- e)).
      { apply Z2Pos.id. apply Z.pow_pos_nonneg; lia. }
      assert (Hpow : 2 ^ 149 = 2 ^ (e + 149) * 2 ^ (- e)).
      { rewrite <- Z.pow_add_r by lia. f_equal. lia. }
      destruct s; unfold Qeq; cbn [Qnum Qden Qopp]; rewrite Hd, H149, Hpow; ring.
Qed.

Lemma compare_to_Q (x y : float) :
  F32.valid x = true -> F32.valid y = true ->
  is_real x = true -> is_real y = true ->
  SFcompare x y = Some (F32.to_Q x ?= F32.to_Q y)%Q.
Proof.
  intros Hx Hy Rx Ry.
  rewrite (compare_fix149 x y Hx Hy Rx Ry). f_equal.
  rewrite (Qcompare_comp _ _ (to_Q_fix149 x Hx Rx) _ _ (to_Q_fix149 y Hy Ry)).
  unfold Qcompare. cbn [Qnum Qden].
  set (P := Z.pos (Z.to_pos (2 ^ 149))).
  destruct (Z.compare_spec (fix149 x) (fix149 y)) as [Heq | Hl | Hg].
  - rewrite Heq. symmetry. apply Z.compare_refl.
  - symmetry. apply Z.compare_lt_iff. apply Z.mul_lt_mono_pos_r; [reflexivity | exact Hl].
  - symmetry. apply Z.compare_gt_iff. apply Z.mul_lt_mono_pos_r; [reflexivity | exact Hg].
Qed.

(** On valid numbers the comparison [<] of C is the order of the exact
    values. *)
Lemma ltb_to_Q (x y : float) :
  F32.valid x = true -> F32.valid y = true ->
  is_real x = true -> is_real y = true ->
  F32.ltb x y = true <-> (F32.to_Q x < F32.to_Q y)%Q.
Proof.
  intros Hx Hy Rx Ry. unfold F32.ltb, SFltb.
  rewrite (compare_to_Q x y Hx Hy Rx Ry).
  rewrite Qlt_alt.
  destruct (F32.to_Q x ?= F32.to_Q y)%Q; split; congruence.
Qed.

Lemma trunc_to_Q (x : float) :
  F32.valid x = true -> is_real x = true ->
  F32.trunc x = Qtrunc (F32.to_Q x).
Proof.
  intros Hx Rx. destruct x as [sx | sx | | s m e]; try discriminate.
  - reflexivity.
  - apply valid_finite_inv in Hx as (He & _).
    cbn [F32.trunc F32.to_Q].
    destruct (Z.leb_spec 0 e) as [Hp | Hn].
    + destruct s.
      * rewrite <- inject_Z_opp, Qtrunc_Z. reflexivity.
      * rewrite Qtrunc_Z. reflexivity.
    + assert (Hpos : 0 < 2 ^ (- e)) by (apply Z.pow_pos_nonneg; lia).
      assert (Hd : Z.pos (Z.to_pos (2 ^ (- e))) = 2 ^ (- e)) by (now apply Z2Pos.id).
      destruct s.
      * unfold Qtrunc.
        assert (E : Qle_bool 0 (- (Z.pos m # Z.to_pos (2 ^ (- e)))) = false).
        { unfold Qle_bool. cbn [Qnum Qden Qopp]. apply Z.leb_gt. lia. }
        rewrite E. unfold Qceiling.
        rewrite (Qfloor_comp _ _ (Qopp_involutive _)).
        unfold Qfloor. rewrite Hd. reflexivity.
      * unfold Qtrunc.
        assert (E : Qle_bool 0 (Z.pos m # Z.to_pos (2 ^ (- e))) = true).
        { unfold Qle_bool. cbn [Qnum Qden]. apply Z.leb_le. lia. }
        rewrite E. unfold Qfloor. rewrite Hd. reflexivity.
Qed.

Lemma clamp_then_trunc (lo hi : Z) (LO HI value : float) :
  lo <= 0 <= hi ->
  F32.valid LO = true -> F32.valid HI = true ->
  is_real LO = true -> is_real HI = true ->
  (F32.to_Q LO == inject_Z lo)%Q -> (F32.to_Q HI == inject_Z hi)%Q ->
  F32.valid value = true ->
  F32.trunc (F32.fmax LO (F32.fmin HI value)) = saturate_trunc lo hi value /\
  lo <= saturate_trunc lo hi value <= hi.
Proof.
  intros Hz VLO VHI RLO RHI QLO QHI Hv.
  assert (TLO : F32.trunc LO = lo).
  { rewrite (trunc_to_Q LO VLO RLO), (Qtrunc_comp _ _ QLO). apply Qtrunc_Z. }
  assert (THI : F32.trunc HI = hi).
  { rewrite (trunc_to_Q HI VHI RHI), (Qtrunc_comp _ _ QHI). apply Qtrunc_Z. }
  assert (Hlohi : (inject_Z lo <= inject_Z hi)%Q) by (rewrite <- Zle_Qle; lia).
  assert (HLH : F32.ltb LO HI = false -> F32.trunc LO = F32.trunc HI).
  { intros E. rewrite TLO, THI.
    assert (Hn : ~ (F32.to_Q LO < F32.to_Q HI)%Q).
    { intros Hc. apply (ltb_to_Q LO HI VLO VHI RLO RHI) in Hc. congruence. }
    apply Qnot_lt_le in Hn. rewrite QLO, QHI in Hn. rewrite <- Zle_Qle in Hn. lia. }
  assert (NLO : F32.is_nan LO = false) by (destruct LO; try discriminate; reflexivity).
  assert (NHI : F32.is_nan HI = false) by (destruct HI; try discriminate; reflexivity).
  assert (Hspecial : F32.trunc (F32.fmax LO HI) = hi).
  { unfold F32.fmax. rewrite NLO, NHI.
    destruct (F32.ltb LO HI) eqn:E; [exact THI |].
    rewrite (HLH eq_refl). exact THI. }
  destruct (is_real value) eqn:Rv.
  - (* a finite number or a zero *)
    assert (Nv : F32.is_nan value = false) by (destruct value; try discriminate; reflexivity).
    assert (Sv : saturate_trunc lo hi value = Qtrunc (Qclamp lo hi (F32.to_Q value))).
    { destruct value; try discriminate; reflexivity. }
    rewrite Sv. clear Sv.
    set (q := F32.to_Q value).
    assert (Hbounds : (inject_Z lo <= Qclamp lo hi q)%Q /\ (Qclamp lo hi q <= inject_Z hi)%Q).
    { unfold Qclamp. split.
      - apply Q.le_max_l.
      - apply Q.max_lub; [exact Hlohi | apply Q.le_min_l]. }
    split; [| apply Qtrunc_between; tauto].
    unfold F32.fmin. rewrite NHI, Nv.
    destruct (F32.ltb HI value) eqn:E1.
    + (* above the range *)
      apply (ltb_to_Q HI value VHI Hv RHI Rv) in E1. rewrite QHI in E1. fold q in E1.
      rewrite Hspecial. symmetry.
      transitivity (Qtrunc (inject_Z hi)); [apply Qtrunc_comp | apply Qtrunc_Z]. unfold Qclamp.
      apply Qlt_le_weak in E1.
      transitivity (Qmin (inject_Z hi) q); [| now apply Q.min_l].
      apply Q.max_r. apply Q.min_glb; [exact Hlohi |].
      now apply Qle_trans with (inject_Z hi).
    + assert (Hle : (q <= inject_Z hi)%Q).
      { apply Qnot_lt_le. intros Hc. rewrite <- QHI in Hc.
        apply (ltb_to_Q HI value VHI Hv RHI Rv) in Hc. congruence. }
      unfold F32.fmax. rewrite NLO, Nv.
      destruct (F32.ltb LO value) eqn:E2.
      * (* inside the range *)
        apply (ltb_to_Q LO value VLO Hv RLO Rv) in E2. rewrite QLO in E2. fold q in E2.
        rewrite (trunc_to_Q value Hv Rv). apply Qtrunc_comp. fold q. unfold Qclamp.
        apply Qlt_le_weak in E2. symmetry.
        transitivity (Qmin (inject_Z hi) q); [| now apply Q.min_r].
        apply Q.max_r. now apply Q.min_glb.
      * (* below the range, or equal to the lower bound *)
        assert (Hge : (q <= inject_Z lo)%Q).
        { apply Qnot_lt_le. intros Hc. rewrite <- QLO in Hc.
          apply (ltb_to_Q LO value VLO Hv RLO Rv) in Hc. congruence. }
        rewrite TLO. symmetry.
        transitivity (Qtrunc (inject_Z lo)); [apply Qtrunc_comp | apply Qtrunc_Z]. unfold Qclamp.
        apply Q.max_l. apply Qle_trans with q; [apply Q.le_min_r | exact Hge].
  - (* an infinity or a NaN *)
    destruct value as [s | [|] | | s m e]; try discriminate; cbn [saturate_trunc].
    + (* -inf *)
      split; [| lia].
      assert (E1 : F32.fmin HI (S754_infinity true) = S754_infinity true).
      { destruct HI; try discriminate; reflexivity. }
      rewrite E1.
      assert (E2 : F32.fmax LO (S754_infinity true) = LO).
      { destruct LO; try discriminate; reflexivity. }
      rewrite E2. exact TLO.
    + (* +inf *)
      split; [| lia].
      assert (E1 : F32.fmin HI (S754_infinity false) = HI).
      { destruct HI; try discriminate; reflexivity. }
      rewrite E1. exact Hspecial.
    + (* NaN *)
      split; [| lia].
      assert (E1 : F32.fmin HI S754_nan = HI).
      { destruct HI; try discriminate; reflexivity. }
      rewrite E1. exact Hspecial.
Qed.

(** ** Writing an element *)

Lemma saturate_uint8 (value : float) :
  F32.valid value = true ->
  u8 (F32.trunc (F32.fmax (F32.of_Z 0) (F32.fmin (F32.of_Z 255) value)))
  = saturate_trunc 0 255 value.
Proof.
  intros Hv.
  destruct (clamp_then_trunc 0 255 (F32.of_Z 0) (F32.of_Z 255) value) as [E R];
    [lia | reflexivity .. | exact Hv |].
  rewrite E. unfold u8. apply Z.mod_small. lia.
Qed.

Lemma saturate_int8 (value : float) :
  F32.valid value = true ->
  s8 (F32.trunc (F32.fmax (F32.of_Z (-128)) (F32.fmin (F32.of_Z 127) value)))
  = saturate_trunc (-128) 127 value.
Proof.
  intros Hv.
  destruct (clamp_then_trunc (-128) 127 (F32.of_Z (-128)) (F32.of_Z 127) value) as [E R];
    [lia | reflexivity .. | exact Hv |].
  rewrite E. apply signed_small; simpl; lia.
Qed.

Lemma saturate_uint16 (value : float) :
  F32.valid value = true ->
  u16 (F32.trunc (F32.fmax (F32.of_Z 0) (F32.fmin (F32.of_Z 65535) value)))
  = saturate_trunc 0 65535 value.
Proof.
  intros Hv.
  destruct (clamp_then_trunc 0 65535 (F32.of_Z 0) (F32.of_Z 65535) value) as [E R];
    [lia | reflexivity .. | exact Hv |].
  rewrite E. unfold u16. apply Z.mod_small. lia.
Qed.

Lemma saturate_int16 (value : float) :
  F32.valid value = true ->
  s16 (F32.trunc (F32.fmax (F32.of_Z (-32768)) (F32.fmin (F32.of_Z 32767) value)))
  = saturate_trunc (-32768) 32767 value.
Proof.
  intros Hv.
  destruct (clamp_then_trunc (-32768) 32767 (F32.of_Z (-32768)) (F32.of_Z 32767) value)
    as [E R]; [lia | reflexivity .. | exact Hv |].
  rewrite E. apply signed_small; simpl; lia.
Qed.

(** C1, as the code has it.  For every binary32 value and every
    element type, the three writes of the library (the 4-index write
    used by the convolution and pooling kernels, the linear write used
    by the activation layer, and the write of the type conversion)
    store the same cell: for a non-float32 type the value clamped to
    the range of the type ([0,255], [-128,127], [0,65535],
    [-32768,32767]) and then truncated toward zero, a NaN giving the
    upper bound; for float32 the value itself. *)
Theorem write_clamps_then_truncates (type : neurax_data_type_t) (value : float) :
  F32.valid value = true ->
  (forall tensor batch y x c,
      data_type tensor = type ->
      neurax_set_tensor_value tensor batch y x c value
      = with_buffer tensor
          (store (buffer tensor) (tensor_index tensor batch y x c) (stored_cell type value))) /\
  (forall tensor index,
      data_type tensor = type ->
      neurax_set_tensor_element tensor index value
      = with_buffer tensor (store (buffer tensor) index (stored_cell type value))) /\
  (forall src src_type i dst,
      convert_read src src_type i = value ->
      convert_element src src_type type i dst = store dst i (stored_cell type value)).
Proof.
  intros Hv.
  pose proof (saturate_uint8 value Hv) as H1.
  pose proof (saturate_int8 value Hv) as H2.
  pose proof (saturate_uint16 value Hv) as H3.
  pose proof (saturate_int16 value Hv) as H4.
  split; [| split].
  - intros tensor batch y x c Ht.
    unfold neurax_set_tensor_value, tensor_index. rewrite Ht.
    destruct type; cbn [stored_cell type_min type_max]; congruence.
  - intros tensor index Ht.
    unfold neurax_set_tensor_element. rewrite Ht.
    destruct type; cbn [stored_cell type_min type_max]; congruence.
  - intros src src_type i dst Hr.
    unfold convert_element. rewrite Hr.
    destruct type; cbn [stored_cell type_min type_max]; congruence.
Qed.

Lemma write_clamps_then_truncates_witness :
  neurax_set_tensor_value (tensor_u8 1 1 1 1 [Int 0]) 0 0 0 0 f32_1_75
  = tensor_u8 1 1 1 1 [Int 1].
Proof.
  rewrite (proj1 (write_clamps_then_truncates NEURAX_DATA_UINT8 f32_1_75 eq_refl)
             (tensor_u8 1 1 1 1 [Int 0]) 0 0 0 0 eq_refl).
  reflexivity.
Defined.

(** C1 fails as stated: 1.75 written into a uint8 tensor is stored as
    1, and 1 is not an integer nearest to 1.75. *)
Lemma write_does_not_round_to_nearest :
  F32.valid f32_1_75 = true /\
  (F32.to_Q f32_1_75 == 7 # 4)%Q /\
  neurax_set_tensor_value (tensor_u8 1 1 1 1 [Int 0]) 0 0 0 0 f32_1_75
  = tensor_u8 1 1 1 1 [Int 1] /\
  ~ nearest_integer (Qclamp 0 255 (F32.to_Q f32_1_75)) 1.
Proof.
  split; [reflexivity |]. split; [reflexivity |]. split; [reflexivity |].
  unfold nearest_integer. vm_compute. intros H. apply H. reflexivity.
Qed.

(** ** Conversion of small integers to float is exact *)

Lemma round_aux_canonical (s : bool) (m : positive) (e : Z) :
  fexp F32.prec F32.emax (Z.pos (digits2_pos m) + e) = e -> e <= 104 ->
  binary_round_aux F32.prec F32.emax s (Z.pos m) e loc_Exact = S754_finite s m e.
Proof.
  intros Hfexp He.
  unfold binary_round_aux, shr_fexp.
  cbn [Zdigits2 shr_record_of_loc]. rewrite Hfexp, Z.sub_diag.
  cbn [shr shr_m loc_of_shr_record round_nearest_even Zdigits2].
  rewrite Hfexp, Z.sub_diag. cbn [shr shr_m].
  unfold F32.emax, F32.prec.
  destruct (Z.leb_spec e (128 - 24)); [reflexivity | lia].
Qed.

Lemma iter_xO_value (m p : positive) :
  Z.pos (Pos.iter xO m p) = Z.pos m * 2 ^ Z.pos p.
Proof.
  induction p as [| p IH] using Pos.peano_ind.
  - change (Pos.iter xO m 1) with (m~0)%positive. change (2 ^ 1) with 2. lia.
  - rewrite Pos.iter_succ, Pos2Z.inj_succ, Z.pow_succ_r by lia.
    rewrite Pos2Z.inj_xO, IH. ring.
Qed.

Lemma iter_xO_digits (m p : positive) :
  Z.pos (digits2_pos (Pos.iter xO m p)) = Z.pos (digits2_pos m) + Z.pos p.
Proof.
  induction p as [| p IH] using Pos.peano_ind.
  - change (Pos.iter xO m 1) with (m~0)%positive.
    cbn [digits2_pos]. rewrite Pos2Z.inj_succ. lia.
  - rewrite Pos.iter_succ. cbn [digits2_pos].
    rewrite !Pos2Z.inj_succ, IH. lia.
Qed.

(** The binary32 number of a positive integer below 2^24: the integer
    shifted to a mantissa of 24 bits. *)
Lemma binary_round_small (s : bool) (m : positive) :
  Z.pos m < 2 ^ 24 ->
  exists (mz : positive) (ez : Z),
    binary_round F32.prec F32.emax s m 0 = S754_finite s mz ez /\
    F32.valid (S754_finite s mz ez) = true /\
    -23 <= ez <= 0 /\ Z.pos mz = Z.pos m * 2 ^ (- ez).
Proof.
  intros Hm.
  pose proof (digits2_pos_bounds m) as [Hlo Hhi].
  set (d := Z.pos (digits2_pos m)) in *.
  assert (Hd : 1 <= d <= 24).
  { split; [unfold d; lia |].
    destruct (Z.le_gt_cases d 24) as [H | H]; [exact H |].
    assert (2 ^ 24 <= 2 ^ (d - 1)) by (apply Z.pow_le_mono_r; lia). lia. }
  assert (Hfexp : forall k, 1 <= k -> fexp F32.prec F32.emax k = k - 24).
  { intros k Hk. unfold fexp, emin, F32.prec, F32.emax. lia. }
  unfold binary_round. rewrite Z.add_0_r. fold d. rewrite (Hfexp d) by lia.
  unfold shl_align. rewrite Z.sub_0_r.
  destruct (d - 24) as [| p | p] eqn:Ed.
  - (* 24 digits *)
    exists m, 0.
    assert (Hc : fexp F32.prec F32.emax (Z.pos (digits2_pos m) + 0) = 0).
    { rewrite Z.add_0_r. fold d. rewrite Hfexp by lia. lia. }
    split; [apply round_aux_canonical; [exact Hc | lia] |].
    split.
    + unfold F32.valid, valid_binary, bounded, canonical_mantissa.
      fold F32.prec F32.emax. rewrite Hc. reflexivity.
    + split; [lia |]. change (2 ^ (- 0)) with 1. lia.
  - lia.
  - (* fewer digits: the mantissa is shifted left *)
    assert (Hp : Z.pos p = 24 - d) by lia.
    exists (Pos.iter xO m p), (Z.neg p).
    assert (Hc : fexp F32.prec F32.emax
                   (Z.pos (digits2_pos (Pos.iter xO m p)) + Z.neg p) = Z.neg p).
    { rewrite iter_xO_digits. fold d. rewrite Hfexp by lia. lia. }
    split; [apply round_aux_canonical; [exact Hc | lia] |].
    split.
    + unfold F32.valid, valid_binary, bounded, canonical_mantissa.
      fold F32.prec F32.emax. rewrite Hc.
      rewrite Z.eqb_refl. cbn [andb]. apply Z.leb_le. unfold F32.emax, F32.prec. lia.
    + split; [lia |]. rewrite iter_xO_value. f_equal.
Qed.

Lemma of_Z_exact (z : Z) :
  - 2 ^ 24 < z < 2 ^ 24 ->
  F32.valid (F32.of_Z z) = true /\ is_real (F32.of_Z z) = true /\
  (F32.to_Q (F32.of_Z z) == inject_Z z)%Q /\
  F32.of_Z z <> S754_zero true.
Proof.
  intros Hz. unfold F32.of_Z, binary_normalize.
  assert (Hval : forall s m, Z.pos m < 2 ^ 24 ->
            F32.valid (binary_round F32.prec F32.emax s m 0) = true /\
            is_real (binary_round F32.prec F32.emax s m 0) = true /\
            (F32.to_Q (binary_round F32.prec F32.emax s m 0)
             == inject_Z (if s then Z.neg m else Z.pos m))%Q /\
            binary_round F32.prec F32.emax s m 0 <> S754_zero true).
  { intros s m Hm.
    destruct (binary_round_small s m Hm) as (mz & ez & E & Hv & He & Hmz).
    rewrite E. split; [exact Hv |]. split; [reflexivity |]. split; [| discriminate].
    cbn [F32.to_Q].
    destruct (Z.leb_spec 0 ez) as [H0 | Hneg].
    - assert (ez = 0) by lia. subst ez. change (2 ^ (- 0)) with 1 in Hmz.
      change (2 ^ 0) with 1. rewrite Z.mul_1_r in *.
      destruct s; unfold Qeq; cbn [Qnum Qden Qopp inject_Z]; lia.
    - assert (Hpos : 0 < 2 ^ (- ez)) by (apply Z.pow_pos_nonneg; lia).
      assert (Hden : Z.pos (Z.to_pos (2 ^ (- ez))) = 2 ^ (- ez)) by (now apply Z2Pos.id).
      destruct s; unfold Qeq; cbn [Qnum Qden Qopp inject_Z]; rewrite Hden, Hmz; lia. }
  destruct z as [| m | m].
  - repeat split; try reflexivity. discriminate.
  - apply (Hval false m). lia.
  - apply (Hval true m). lia.
Qed.

(** ** Loops that fill a buffer *)

Lemma overwrites_store (index : Z) (c : cell) (k : nat) (f : nat -> cell) :
  Z.to_nat index = k -> f k = c ->
  overwrites (fun buf => store buf index c) k 1 f.
Proof.
  intros Hk Hf buf. unfold store. rewrite Hk. split.
  - apply length_insert.
  - intros j Hj. case_decide as Hd.
    + assert (j = k) by lia. subst j. rewrite Hf.
      now apply list_lookup_insert_eq.
    + apply list_lookup_insert_ne. lia.
Qed.

Lemma overwrites_ext (step step' : list cell -> list cell) (lo n : nat) (f : nat -> cell) :
  (forall buf, step buf = step' buf) -> overwrites step' lo n f -> overwrites step lo n f.
Proof. intros E H buf. rewrite E. apply H. Qed.

Lemma overwrites_loop (body : Z -> list cell -> list cell) (sz : nat) (f : nat -> cell) (n : nat) :
  forall (start : Z) (lo : nat),
    (forall i : nat, (i < n)%nat ->
       overwrites (body (start + Z.of_nat i)) (lo + i * sz) sz f) ->
    overwrites (for_range n start body) lo (n * sz) f.
Proof.
  induction n as [| n IH]; intros start lo Hbody buf.
  - cbn [for_range]. split; [reflexivity |].
    intros j Hj. case_decide; [lia | reflexivity].
  - cbn [for_range].
    assert (H0 : overwrites (body start) lo sz f).
    { specialize (Hbody 0%nat ltac:(lia)).
      replace (start + Z.of_nat 0) with start in Hbody by lia.
      replace (lo + 0 * sz)%nat with lo in Hbody by lia. exact Hbody. }
    assert (Hrest : overwrites (for_range n (start + 1) body) (lo + sz) (n * sz) f).
    { apply IH. intros i Hi. specialize (Hbody (S i) ltac:(lia)).
      replace (start + 1 + Z.of_nat i) with (start + Z.of_nat (S i)) by lia.
      replace (lo + sz + i * sz)%nat with (lo + S i * sz)%nat by lia. exact Hbody. }
    destruct (H0 buf) as [L0 P0]. destruct (Hrest (body start buf)) as [L1 P1].
    split; [congruence |].
    intros j Hj. rewrite P1 by lia. rewrite P0 by lia.
    repeat case_decide; try reflexivity; lia.
Qed.

(** A step that overwrites every cell of a buffer. *)
Lemma overwrites_all (step : list cell -> list cell) (f : nat -> cell) (buf : list cell) :
  overwrites step 0 (length buf) f ->
  step buf = map f (seq 0 (length buf)).
Proof.
  intros H. destruct (H buf) as [L P].
  apply list_eq. intros j.
  destruct (decide (j < length buf)%nat) as [Hj | Hj].
  - rewrite P by exact Hj. rewrite decide_True by lia.
    rewrite list_lookup_fmap, lookup_seq_lt by exact Hj. reflexivity.
  - rewrite !lookup_ge_None_2; [reflexivity | |].
    + rewrite length_map, length_seq. lia.
    + lia.
Qed.

(** ** Round trip float32 -> uint8 -> float32 *)

Lemma for_loop_store (g : Z -> cell) (n : Z) :
  overwrites (for_loop n (fun i buf => store buf i (g i))) 0 (Z.to_nat n)
    (fun j => g (Z.of_nat j)).
Proof.
  pose proof (overwrites_loop (fun i buf => store buf i (g i)) 1
                (fun j => g (Z.of_nat j)) (Z.to_nat n) 0 0%nat) as H.
  rewrite Nat.mul_1_r in H. apply H. intros i Hi.
  apply overwrites_store; [lia | f_equal; lia].
Qed.

Lemma below_zero_saturates (v : float) :
  F32.ltb v F32.zero = true ->
  u8 (F32.trunc (F32.fmax (F32.of_Z 0) (F32.fmin (F32.of_Z 255) v))) = 0.
Proof.
  destruct v as [s | [|] | | [|] m e]; try discriminate; intros _; reflexivity.
Qed.

Lemma above_255_saturates (v : float) :
  F32.ltb (F32.of_Z 255) v = true ->
  u8 (F32.trunc (F32.fmax (F32.of_Z 0) (F32.fmin (F32.of_Z 255) v))) = 255.
Proof.
  intros H. unfold F32.fmin.
  assert (Nv : F32.is_nan v = false) by (destruct v; try discriminate; reflexivity).
  cbn [F32.is_nan F32.of_Z]. change (F32.is_nan (F32.of_Z 255)) with false.
  cbv iota. rewrite Nv, H. reflexivity.
Qed.

(** C9.  The conversion of a float32 buffer to uint8 and back to
    float32 succeeds, and every element below 0 comes back as 0.0 and
    every element above 255 as 255.0: the out-of-range values are
    saturated, not reduced modulo 256. *)
Theorem float_uint8_roundtrip_saturates (src dst8 dst32 : list cell) (n : Z) :
  0 < n ->
  (Z.to_nat n <= length dst8)%nat -> (Z.to_nat n <= length dst32)%nat ->
  exists b8 b32 : list cell,
    neurax_convert_data_type (Some src) NEURAX_DATA_FLOAT32
      (Some dst8) NEURAX_DATA_UINT8 n = (NEURAX_SUCCESS, Some b8) /\
    neurax_convert_data_type (Some b8) NEURAX_DATA_UINT8
      (Some dst32) NEURAX_DATA_FLOAT32 n = (NEURAX_SUCCESS, Some b32) /\
    forall (i : nat) (v : float),
      (i < Z.to_nat n)%nat -> src !! i = Some (Flt v) ->
      (F32.ltb v F32.zero = true -> b32 !! i = Some (Flt F32.zero)) /\
      (F32.ltb (F32.of_Z 255) v = true -> b32 !! i = Some (Flt (F32.of_Z 255))).
Proof.
  intros Hn H8 H32.
  unfold neurax_convert_data_type.
  destruct (Z.eqb_spec n 0) as [-> | _]; [lia |].
  cbn [data_type_eqb].
  eexists. eexists. split; [reflexivity |]. split; [reflexivity |].
  intros i v Hi Hsrc.
  set (b8 := for_loop n (convert_element src NEURAX_DATA_FLOAT32 NEURAX_DATA_UINT8) dst8).
  pose proof (for_loop_store
    (fun k => Int (u8 (F32.trunc (F32.fmax (F32.of_Z 0)
                 (F32.fmin (F32.of_Z 255) (load_flt src k)))))) n dst8) as [L8 P8].
  pose proof (for_loop_store (fun k => Flt (F32.of_Z (load_int b8 k))) n dst32) as [L32 P32].
  change (for_loop n (convert_element b8 NEURAX_DATA_UINT8 NEURAX_DATA_FLOAT32) dst32)
    with (for_loop n (fun k buf => store buf k (Flt (F32.of_Z (load_int b8 k)))) dst32).
  rewrite P32 by lia. rewrite decide_True by lia.
  assert (Hb8 : load_int b8 (Z.of_nat i)
                = u8 (F32.trunc (F32.fmax (F32.of_Z 0) (F32.fmin (F32.of_Z 255) v)))).
  { unfold load_int. rewrite Nat2Z.id. unfold b8.
    change (for_loop n (convert_element src NEURAX_DATA_FLOAT32 NEURAX_DATA_UINT8) dst8)
      with (for_loop n (fun k buf => store buf k
              (Int (u8 (F32.trunc (F32.fmax (F32.of_Z 0)
                 (F32.fmin (F32.of_Z 255) (load_flt src k))))))) dst8).
    rewrite P8 by lia. rewrite decide_True by lia.
    unfold load_flt. rewrite Nat2Z.id, Hsrc. reflexivity. }
  rewrite Hb8. split; intros Hv.
  - now rewrite below_zero_saturates.
  - now rewrite above_255_saturates.
Qed.

Lemma float_uint8_roundtrip_saturates_witness :
  exists b8 b32 : list cell,
    neurax_convert_data_type (Some [Flt f32_300; Flt f32_minus_5]) NEURAX_DATA_FLOAT32
      (Some [Int 0; Int 0]) NEURAX_DATA_UINT8 2 = (NEURAX_SUCCESS, Some b8) /\
    neurax_convert_data_type (Some b8) NEURAX_DATA_UINT8
      (Some [Flt F32.zero; Flt F32.zero]) NEURAX_DATA_FLOAT32 2 = (NEURAX_SUCCESS, Some b32) /\
    b32 !! 0%nat = Some (Flt (F32.of_Z 255)) /\ b32 !! 1%nat = Some (Flt F32.zero).
Proof.
  destruct (float_uint8_roundtrip_saturates
              [Flt f32_300; Flt f32_minus_5] [Int 0; Int 0] [Flt F32.zero; Flt F32.zero] 2)
    as (b8 & b32 & E8 & E32 & H); [lia | simpl; lia | simpl; lia |].
  exists b8, b32. split; [exact E8 |]. split; [exact E32 |]. split.
  - apply (proj2 (H 0%nat f32_300 ltac:(simpl; lia) eq_refl)). reflexivity.
  - apply (proj1 (H 1%nat f32_minus_5 ltac:(simpl; lia) eq_refl)). reflexivity.
Defined.

(** ** The hardware leg *)

Lemma status_reads_app (w1 w2 : trace) :
  status_reads (w1 ++ w2) = status_reads w1 + status_reads w2.
Proof.
  induction w1 as [| ev w1 IH]; cbn [app status_reads]; [lia |].
  destruct ev as [i v | i v | u]; try exact IH.
  destruct i as [| [p | p |] | p]; try exact IH. lia.
Qed.

Lemma slept_app (w1 w2 : trace) : slept (w1 ++ w2) = slept w1 + slept w2.
Proof.
  induction w1 as [| ev w1 IH]; cbn [app slept]; [lia |].
  destruct ev as [i v | i v | u]; try exact IH. lia.
Qed.

(** The product [timeout_ms * 1000] in [uint32_t] is a multiple of 8. *)
Lemma timeout_limit_bound (timeout_ms : Z) :
  0 <= u32 (timeout_ms * 1000) <= 2 ^ 32 - 8.
Proof.
  unfold u32. change (2 ^ 32) with 4294967296.
  Z.div_mod_to_equations. lia.
Qed.

Section HardwareLeg.

Variables tanhf expf : float -> float.
Variable device_read : trace -> Z -> Z.

Lemma write_reg_bound (dev : neurax_device_t) (offset value : Z) (w : trace) :
  hardware_bound dev ->
  neurax_write_reg dev offset value w = w ++ [RegWrite (offset / 4) value].
Proof.
  intros (_ & Hhw & _ & [a Ha]). unfold neurax_write_reg. now rewrite Hhw, Ha.
Qed.

Lemma read_reg_bound (dev : neurax_device_t) (offset : Z) (w : trace) :
  hardware_bound dev ->
  neurax_read_reg device_read dev offset w
  = (u32 (device_read w (offset / 4)),
     w ++ [RegRead (offset / 4) (u32 (device_read w (offset / 4)))]).
Proof.
  intros (_ & Hhw & _ & [a Ha]). unfold neurax_read_reg. now rewrite Hhw, Ha.
Qed.

(** The loop leaves through its condition before the fuel runs out:
    every larger amount of fuel gives the same result. *)
Lemma wait_loop_fuel (dev : neurax_device_t) (limit : Z) (fuel : nat) :
  forall (fuel' : nat) (elapsed : Z) (w : trace),
    limit <= 2 ^ 32 - 100 -> 0 <= elapsed ->
    limit - elapsed < 100 * (Z.of_nat fuel - 1) ->
    (fuel <= fuel')%nat ->
    wait_loop device_read fuel' dev limit elapsed w
    = wait_loop device_read fuel dev limit elapsed w.
Proof.
  induction fuel as [| fuel IH]; intros fuel' elapsed w Hlim He Hfuel Hle.
  - destruct fuel' as [| fuel']; [reflexivity |].
    cbn [wait_loop]. destruct (Z.ltb_spec elapsed limit); [lia | reflexivity].
  - destruct fuel' as [| fuel']; [lia |].
    cbn [wait_loop]. destruct (Z.ltb_spec elapsed limit) as [Hlt | Hge]; [| reflexivity].
    destruct (neurax_read_reg device_read dev NEURAX_REG_STATUS w) as [status w1].
    destruct (negb (Z.land status STAT_ERROR =? 0)); [reflexivity |].
    destruct (negb (Z.land status STAT_DONE =? 0)); [reflexivity |].
    rewrite u32_small by lia.
    apply IH; lia.
Qed.

(** The same when the counter wraps: the loop leaves through its
    condition once the counter, which wraps at [2^32], has reached the
    limit, whatever fuel is left. *)
Lemma wait_loop_fuel_wrap (dev : neurax_device_t) (limit : Z) (k : nat) :
  forall (fuel fuel' : nat) (elapsed : Z) (w : trace),
    limit <= u32 (elapsed + 100 * Z.of_nat k) ->
    elapsed = u32 elapsed ->
    (k < fuel)%nat -> (k < fuel')%nat ->
    wait_loop device_read fuel' dev limit elapsed w
    = wait_loop device_read fuel dev limit elapsed w.
Proof.
  induction k as [| k IH]; intros fuel fuel' elapsed w Hk He Hf Hf'.
  - destruct fuel as [| fuel]; [lia |]. destruct fuel' as [| fuel']; [lia |].
    cbn [wait_loop]. rewrite Z.mul_0_r, Z.add_0_r, <- He in Hk.
    destruct (Z.ltb_spec elapsed limit); [lia | reflexivity].
  - destruct fuel as [| fuel]; [lia |]. destruct fuel' as [| fuel']; [lia |].
    cbn [wait_loop]. destruct (Z.ltb_spec elapsed limit) as [Hlt | Hge]; [| reflexivity].
    destruct (neurax_read_reg device_read dev NEURAX_REG_STATUS w) as [status w1].
    destruct (negb (Z.land status STAT_ERROR =? 0)); [reflexivity |].
    destruct (negb (Z.land status STAT_DONE =? 0)); [reflexivity |].
    apply IH; try lia.
    + unfold u32 in *. rewrite Zplus_mod_idemp_l.
      replace (elapsed + 100 + 100 * Z.of_nat k) with (elapsed + 100 * Z.of_nat (S k))
        by lia.
      exact Hk.
    + unfold u32. now rewrite Z.mod_mod by lia.
Qed.

(** The fuel of [neurax_wait_for_completion] is enough for every
    timeout: the loop of the model leaves through a [return] or through
    its condition, as the loop of the code does, and any larger amount
    of fuel gives the same result. *)
Lemma wait_for_completion_fuel (dev : neurax_device_t) (timeout_ms : Z) (w : trace)
    (fuel : nat) :
  hardware_available dev = true ->
  (wait_fuel (u32 (timeout_ms * 1000)) <= fuel)%nat ->
  wait_loop device_read fuel dev (u32 (timeout_ms * 1000)) 0 w
  = neurax_wait_for_completion device_read dev timeout_ms w.
Proof.
  intros Hhw. unfold neurax_wait_for_completion. rewrite Hhw. cbn [negb].
  pose proof (timeout_limit_bound timeout_ms) as Hl.
  set (limit := u32 (timeout_ms * 1000)) in *.
  unfold wait_fuel. destruct (Z.leb_spec limit (2 ^ 32 - 100)) as [Hle | Hgt].
  - intros Hf. apply wait_loop_fuel; [exact Hle | lia | | exact Hf].
    rewrite Z2Nat.id by (pose proof (Z.div_pos limit 100); lia).
    Z.div_mod_to_equations. lia.
  - intros Hf.
    apply (wait_loop_fuel_wrap dev limit (Z.to_nat 1030792151)).
    + rewrite Z2Nat.id by lia. change (u32 (0 + 100 * 1030792151)) with (2 ^ 32 - 4). lia.
    + reflexivity.
    + apply Z2Nat.inj_lt; lia.
    + eapply Nat.lt_le_trans; [| exact Hf]. apply Z2Nat.inj_lt; lia.
Qed.

Lemma wait_loop_polling (dev : neurax_device_t) (limit : Z) (k : nat) :
  hardware_bound dev ->
  forall (fuel : nat) (elapsed : Z) (w : trace),
    limit <= 2 ^ 32 - 100 -> 0 <= elapsed ->
    elapsed + 100 * Z.of_nat k = limit ->
    (k < fuel)%nat ->
    polling device_read k w
      (snd (wait_loop device_read fuel dev limit elapsed w))
      (fst (wait_loop device_read fuel dev limit elapsed w)).
Proof.
  intros Hb. induction k as [| k IH]; intros fuel elapsed w Hlim He Hk Hfuel.
  - destruct fuel as [| fuel]; [lia |].
    cbn [wait_loop]. destruct (Z.ltb_spec elapsed limit); [lia |].
    apply polling_exhausted.
  - destruct fuel as [| fuel]; [lia |].
    cbn [wait_loop]. destruct (Z.ltb_spec elapsed limit); [| lia].
    rewrite (read_reg_bound dev NEURAX_REG_STATUS w Hb).
    change (NEURAX_REG_STATUS / 4) with 1.
    set (status := u32 (device_read w 1)).
    destruct (Z.eqb_spec (Z.land status STAT_ERROR) 0) as [E0 | E1]; cbn [negb].
    + destruct (Z.eqb_spec (Z.land status STAT_DONE) 0) as [D0 | D1]; cbn [negb].
      * rewrite u32_small by lia.
        apply polling_wait with (status := status); try easy.
        unfold usleep. rewrite <- app_assoc. cbn [app].
        apply IH; lia.
      * now apply polling_done.
    + now apply polling_error.
Qed.

(** On a bound device the wait follows the polling protocol with at
    most 50000 reads of the status register. *)
Lemma wait_for_completion_polling (dev : neurax_device_t) (w : trace) :
  hardware_bound dev ->
  polling device_read (Z.to_nat 50000) w
    (snd (neurax_wait_for_completion device_read dev NEURAX_DEFAULT_TIMEOUT_MS w))
    (fst (neurax_wait_for_completion device_read dev NEURAX_DEFAULT_TIMEOUT_MS w)).
Proof.
  intros Hb. unfold neurax_wait_for_completion.
  pose proof Hb as (Hi & Hhw & Hrest). rewrite Hhw. cbn [negb].
  change (u32 (NEURAX_DEFAULT_TIMEOUT_MS * 1000)) with 5000000.
  change (wait_fuel 5000000) with (Z.to_nat 50002).
  apply wait_loop_polling; [exact Hb | lia | lia | | ].
  - rewrite Z2Nat.id by lia. reflexivity.
  - apply Z2Nat.inj_lt; lia.
Qed.

Lemma polling_reports_error (n : nat) (w w' : trace) (e : neurax_error_t) :
  reports_error device_read ->
  polling device_read (S n) w w' e -> e = NEURAX_ERROR_HARDWARE_FAILURE.
Proof.
  intros Herr H. inversion H; subst; try reflexivity;
    exfalso; eapply Herr; eassumption.
Qed.

Lemma polling_never_completes (n : nat) (w w' : trace) (e : neurax_error_t) :
  never_completes device_read ->
  polling device_read n w w' e -> e = NEURAX_ERROR_TIMEOUT.
Proof.
  intros Hnev H. induction H as [w | n w s Hs He | n w s Hs He Hd | n w w' s e Hs He Hd H IH].
  - reflexivity.
  - subst s. destruct (Hnev w). contradiction.
  - subst s. destruct (Hnev w). contradiction.
  - exact IH.
Qed.

Lemma polling_failure_or_success (n : nat) (w w' : trace) (e : neurax_error_t) :
  polling device_read n w w' e ->
  e = NEURAX_SUCCESS \/ e = NEURAX_ERROR_HARDWARE_FAILURE \/ e = NEURAX_ERROR_TIMEOUT.
Proof. induction 1; auto. Qed.

(** The polling protocol determines the outcome and the accesses. *)
Lemma polling_deterministic (n : nat) (w w1 w2 : trace) (e1 e2 : neurax_error_t) :
  polling device_read n w w1 e1 -> polling device_read n w w2 e2 ->
  w1 = w2 /\ e1 = e2.
Proof.
  intros H1. revert w2 e2.
  induction H1 as [w | n w s Hs He | n w s Hs He Hd | n w w' s e Hs He Hd H IH];
    intros w2 e2 H2; inversion H2; subst; try contradiction; try (now split).
  now apply IH.
Qed.

(** How the polling ends, by its outcome. *)
Lemma polling_end (n : nat) (w w' : trace) (e : neurax_error_t) :
  polling device_read n w w' e ->
  match e with
  | NEURAX_SUCCESS =>
      last_status device_read w'
        (fun status => Z.land status STAT_ERROR = 0 /\ Z.land status STAT_DONE <> 0)
  | NEURAX_ERROR_HARDWARE_FAILURE =>
      last_status device_read w' (fun status => Z.land status STAT_ERROR <> 0)
  | NEURAX_ERROR_TIMEOUT =>
      status_reads w' = status_reads w + Z.of_nat n /\
      slept w' = slept w + 100 * Z.of_nat n
  | _ => False
  end.
Proof.
  induction 1 as [w | n w s Hs He | n w s Hs He Hd | n w w' s e Hs He Hd H IH].
  - split; lia.
  - subst s. exists w. now split.
  - subst s. exists w. now split.
  - destruct e; try exact IH.
    rewrite status_reads_app, slept_app in IH.
    cbn [status_reads slept] in IH. lia.
Qed.

Lemma polling_leg_end (w w' : trace) (e : neurax_error_t) :
  polling device_read (Z.to_nat 50000) w w' e ->
  hardware_leg_end device_read w w' e.
Proof.
  intros H. apply polling_end in H. rewrite Z2Nat.id in H by lia.
  unfold hardware_leg_end. destruct e; exact H.
Qed.

End HardwareLeg.

Section Operations.

Variables tanhf expf : float -> float.
Variable device_read : trace -> Z -> Z.

(** What [neurax_hw_pooling] does on a bound device: three register
    writes, the last one to the control register with the pooling
    enable bit and the start bit, then the polling protocol; the CPU
    kernel runs only when the polling succeeds. *)
Lemma hw_pooling_protocol (dev : neurax_device_t) (input : neurax_tensor_t)
    (pool_config : neurax_pool_config_t) (output : neurax_tensor_t) (w : trace) :
  hardware_bound dev ->
  exists (reg dim control : Z) (w' : trace) (e : neurax_error_t),
    Z.land control CTRL_POOL_EN <> 0 /\ Z.land control CTRL_START <> 0 /\
    polling device_read (Z.to_nat 50000)
      (w ++ [RegWrite 3 reg; RegWrite 5 dim; RegWrite 0 control]) w' e /\
    neurax_hw_pooling device_read dev input pool_config output w
    = if is_success e
      then (neurax_cpu_pooling input pool_config output, w')
      else (e, output, w').
Proof.
  intros Hb. unfold neurax_hw_pooling.
  rewrite !(write_reg_bound _ _ _ _ Hb).
  change (NEURAX_REG_POOL_CONFIG / 4) with 3.
  change (NEURAX_REG_DIM_CONFIG / 4) with 5.
  change (NEURAX_REG_CONTROL / 4) with 0.
  rewrite <- !app_assoc. cbn [app].
  match goal with
  | |- context [neurax_wait_for_completion _ _ _ ?w1] =>
      pose proof (wait_for_completion_polling device_read dev w1 Hb) as Hp;
      destruct (neurax_wait_for_completion device_read dev NEURAX_DEFAULT_TIMEOUT_MS w1)
        as [e w'] eqn:Ew
  end.
  cbn [fst snd] in Hp.
  do 5 eexists. split; [| split; [| split; [exact Hp |]]].
  - destruct (is_16bit (data_type input)); vm_compute; discriminate.
  - destruct (is_16bit (data_type input)); vm_compute; discriminate.
  - destruct e; reflexivity.
Qed.

Lemma hw_activation_protocol (dev : neurax_device_t) (input : neurax_tensor_t)
    (act : neurax_activation_t) (output : neurax_tensor_t) (w : trace) :
  hardware_bound dev ->
  exists (control : Z) (w' : trace) (e : neurax_error_t),
    Z.land control CTRL_ACT_EN <> 0 /\ Z.land control CTRL_START <> 0 /\
    polling device_read (Z.to_nat 50000)
      (w ++ [RegWrite 4 (Z.land act 3); RegWrite 0 control]) w' e /\
    neurax_hw_activation tanhf expf device_read dev input act output w
    = if is_success e
      then (neurax_cpu_activation tanhf expf input act output, w')
      else (e, output, w').
Proof.
  intros Hb. unfold neurax_hw_activation.
  rewrite !(write_reg_bound _ _ _ _ Hb).
  change (NEURAX_REG_ACT_CONFIG / 4) with 4.
  change (NEURAX_REG_CONTROL / 4) with 0.
  rewrite <- !app_assoc. cbn [app].
  match goal with
  | |- context [neurax_wait_for_completion _ _ _ ?w1] =>
      pose proof (wait_for_completion_polling device_read dev w1 Hb) as Hp;
      destruct (neurax_wait_for_completion device_read dev NEURAX_DEFAULT_TIMEOUT_MS w1)
        as [e w'] eqn:Ew
  end.
  cbn [fst snd] in Hp.
  do 3 eexists. split; [| split; [| split; [exact Hp |]]].
  - destruct (is_16bit (data_type input)); vm_compute; discriminate.
  - destruct (is_16bit (data_type input)); vm_compute; discriminate.
  - destruct e; reflexivity.
Qed.

(** What [neurax_hw_conv2d] does on a bound device: four register
    writes, the last one to the control register with the convolution
    enable bit and without the start bit; no read of the status
    register and no sleep; then the CPU kernel. *)
Lemma hw_conv2d_trace (dev : neurax_device_t) (input weights : neurax_tensor_t)
    (bias : option neurax_tensor_t) (conv_config : neurax_conv_config_t)
    (output : neurax_tensor_t) (w : trace) :
  hardware_bound dev ->
  exists reg dim act control : Z,
    Z.land control CTRL_CONV_EN <> 0 /\ Z.land control CTRL_START = 0 /\
    neurax_hw_conv2d tanhf expf dev input weights bias conv_config output w
    = (neurax_cpu_conv2d tanhf expf input weights bias conv_config output,
       w ++ [RegWrite 2 reg; RegWrite 5 dim; RegWrite 4 act; RegWrite 0 control]).
Proof.
  intros Hb. unfold neurax_hw_conv2d.
  rewrite !(write_reg_bound _ _ _ _ Hb).
  change (NEURAX_REG_CONV_CONFIG / 4) with 2.
  change (NEURAX_REG_DIM_CONFIG / 4) with 5.
  change (NEURAX_REG_ACT_CONFIG / 4) with 4.
  change (NEURAX_REG_CONTROL / 4) with 0.
  rewrite <- !app_assoc. cbn [app].
  do 4 eexists. split; [| split; [| reflexivity]].
  - destruct (is_16bit (data_type input));
      destruct (negb (activation conv_config =? NEURAX_ACTIVATION_LINEAR));
      vm_compute; discriminate.
  - destruct (is_16bit (data_type input));
      destruct (negb (activation conv_config =? NEURAX_ACTIVATION_LINEAR));
      reflexivity.
Qed.

End Operations.

Section OperationsOnHardware.

Variables tanhf expf : float -> float.
Variable device_read : trace -> Z -> Z.

(** C2, as the code has it.  On a device bound to hardware and
    configured to use it: [neurax_conv2d] returns the outcome of the
    CPU kernel whatever the device answers.  [neurax_pooling] and
    [neurax_activation] write their registers and then poll the status
    register, at most 50000 times with 100 microseconds of sleep after
    every read that shows neither the error bit nor the done bit; the
    first read that shows one of them ends the polling.  What the
    device shows determines the outcome [e] of that hardware leg, which
    is [HardwareFailure] when the last status read shows the error bit,
    success when it shows the done bit without the error bit, and
    [Timeout] after 50000 reads and 5000 ms of sleep; so a device that
    always shows the error bit gives [HardwareFailure] and a device
    that never shows the error or done bit gives [Timeout].  When [e] is a failure the call returns [e]
    with the output tensor as it was; the CPU kernel runs, and its
    outcome is returned, only when [e] is success. *)
Theorem hardware_failure_outcome (dev : neurax_device_t) :
  hardware_bound dev ->
  (forall input weights bias conv_config output w,
      neurax_validate_tensor (Some input) = NEURAX_SUCCESS ->
      neurax_validate_tensor (Some weights) = NEURAX_SUCCESS ->
      neurax_validate_tensor (Some output) = NEURAX_SUCCESS ->
      neurax_validate_conv_config (Some conv_config) = NEURAX_SUCCESS ->
      bias_accepted conv_config bias ->
      exists w',
        neurax_conv2d tanhf expf (Some dev) (Some input) (Some weights) bias
          (Some conv_config) (Some output) w
        = (fst (neurax_cpu_conv2d tanhf expf input weights bias conv_config output),
           Some (snd (neurax_cpu_conv2d tanhf expf input weights bias conv_config output)),
           w')) /\
  (forall input pool_config output w,
      neurax_validate_tensor (Some input) = NEURAX_SUCCESS ->
      neurax_validate_tensor (Some output) = NEURAX_SUCCESS ->
      neurax_validate_pool_config (Some pool_config) = NEURAX_SUCCESS ->
      exists reg dim control e w',
        let started := w ++ [RegWrite 3 reg; RegWrite 5 dim; RegWrite 0 control] in
        polling device_read (Z.to_nat 50000) started w' e /\
        (forall w2 e2,
            polling device_read (Z.to_nat 50000) started w2 e2 -> w2 = w' /\ e2 = e) /\
        hardware_leg_end device_read started w' e /\
        (e = NEURAX_SUCCESS \/ e = NEURAX_ERROR_HARDWARE_FAILURE \/ e = NEURAX_ERROR_TIMEOUT) /\
        (reports_error device_read -> e = NEURAX_ERROR_HARDWARE_FAILURE) /\
        (never_completes device_read -> e = NEURAX_ERROR_TIMEOUT) /\
        neurax_pooling device_read (Some dev) (Some input) (Some pool_config) (Some output) w
        = if is_success e
          then (fst (neurax_cpu_pooling input pool_config output),
                Some (snd (neurax_cpu_pooling input pool_config output)), w')
          else (e, Some output, w')) /\
  (forall input act output w,
      neurax_validate_tensor (Some input) = NEURAX_SUCCESS ->
      neurax_validate_tensor (Some output) = NEURAX_SUCCESS ->
      width input = width output -> height input = height output ->
      channels input = channels output -> batch_size input = batch_size output ->
      exists control e w',
        let started := w ++ [RegWrite 4 (Z.land act 3); RegWrite 0 control] in
        polling device_read (Z.to_nat 50000) started w' e /\
        (forall w2 e2,
            polling device_read (Z.to_nat 50000) started w2 e2 -> w2 = w' /\ e2 = e) /\
        hardware_leg_end device_read started w' e /\
        (e = NEURAX_SUCCESS \/ e = NEURAX_ERROR_HARDWARE_FAILURE \/ e = NEURAX_ERROR_TIMEOUT) /\
        (reports_error device_read -> e = NEURAX_ERROR_HARDWARE_FAILURE) /\
        (never_completes device_read -> e = NEURAX_ERROR_TIMEOUT) /\
        neurax_activation tanhf expf device_read (Some dev) (Some input) act (Some output) w
        = if is_success e
          then (fst (neurax_cpu_activation tanhf expf input act output),
                Some (snd (neurax_cpu_activation tanhf expf input act output)), w')
          else (e, Some output, w')).
Proof.
  intros Hb. pose proof Hb as (Hinit & Hhw & Huse & Hbase).
  assert (H50000 : Z.to_nat 50000 = S (Z.to_nat 49999)).
  { rewrite <- Z2Nat.inj_succ by lia. reflexivity. }
  split; [| split].
  - intros input weights bias conv_config output w Hi Hw Ho Hc Hbias.
    rewrite (conv2d_dispatch tanhf expf dev input weights bias conv_config output w
               Hinit Hi Hw Ho Hc Hbias).
    rewrite Hhw, Huse. cbn [andb].
    destruct (hw_conv2d_trace tanhf expf dev input weights bias conv_config output w Hb)
      as (reg & dim & act & control & _ & _ & E).
    rewrite E. eexists.
    destruct (neurax_cpu_conv2d tanhf expf input weights bias conv_config output).
    reflexivity.
  - intros input pool_config output w Hi Ho Hc.
    rewrite (pooling_dispatch device_read dev input pool_config output w Hinit Hi Ho Hc).
    rewrite Hhw, Huse. cbn [andb].
    destruct (hw_pooling_protocol device_read dev input pool_config output w Hb)
      as (reg & dim & control & w' & e & _ & _ & Hp & E).
    rewrite E. exists reg, dim, control, e, w'. cbv zeta.
    split; [exact Hp |].
    split; [intros w2 e2 H2; exact (polling_deterministic device_read _ _ _ _ _ _ H2 Hp) |].
    split; [apply polling_leg_end; exact Hp |].
    split; [eapply polling_failure_or_success; exact Hp |].
    split; [intros Herr; rewrite H50000 in Hp;
            eapply polling_reports_error; eassumption |].
    split; [intros Hnev; eapply polling_never_completes; eassumption |].
    destruct (is_success e); [| reflexivity].
    destruct (neurax_cpu_pooling input pool_config output). reflexivity.
  - intros input act output w Hi Ho Ew Eh Ec Eb.
    rewrite (activation_dispatch tanhf expf device_read dev input act output w
               Hinit Hi Ho Ew Eh Ec Eb).
    rewrite Hhw, Huse. cbn [andb].
    destruct (hw_activation_protocol tanhf expf device_read dev input act output w Hb)
      as (control & w' & e & _ & _ & Hp & E).
    rewrite E. exists control, e, w'. cbv zeta.
    split; [exact Hp |].
    split; [intros w2 e2 H2; exact (polling_deterministic device_read _ _ _ _ _ _ H2 Hp) |].
    split; [apply polling_leg_end; exact Hp |].
    split; [eapply polling_failure_or_success; exact Hp |].
    split; [intros Herr; rewrite H50000 in Hp;
            eapply polling_reports_error; eassumption |].
    split; [intros Hnev; eapply polling_never_completes; eassumption |].
    destruct (is_success e); reflexivity.
Qed.

(** C5 at the convolution.  On a device bound to hardware and
    configured to use it, [neurax_conv2d] makes four register writes
    (convolution configuration, dimensions, activation, control); the
    control word has the convolution enable bit and not the start bit,
    and the status register is never read. *)
Theorem conv2d_hardware_leg_never_starts (dev : neurax_device_t)
    (input weights : neurax_tensor_t) (bias : option neurax_tensor_t)
    (conv_config : neurax_conv_config_t) (output : neurax_tensor_t) (w : trace) :
  hardware_bound dev ->
  neurax_validate_tensor (Some input) = NEURAX_SUCCESS ->
  neurax_validate_tensor (Some weights) = NEURAX_SUCCESS ->
  neurax_validate_tensor (Some output) = NEURAX_SUCCESS ->
  neurax_validate_conv_config (Some conv_config) = NEURAX_SUCCESS ->
  bias_accepted conv_config bias ->
  exists reg dim act control : Z,
    Z.land control CTRL_CONV_EN <> 0 /\
    Z.land control CTRL_START = 0 /\
    snd (neurax_conv2d tanhf expf (Some dev) (Some input) (Some weights) bias
           (Some conv_config) (Some output) w)
    = w ++ [RegWrite 2 reg; RegWrite 5 dim; RegWrite 4 act; RegWrite 0 control].
Proof.
  intros Hb Hi Hw Ho Hc Hbias. pose proof Hb as (Hinit & Hhw & Huse & Hbase).
  rewrite (conv2d_dispatch tanhf expf dev input weights bias conv_config output w
             Hinit Hi Hw Ho Hc Hbias).
  rewrite Hhw, Huse. cbn [andb].
  destruct (hw_conv2d_trace tanhf expf dev input weights bias conv_config output w Hb)
    as (reg & dim & act & control & Hen & Hstart & E).
  rewrite E. exists reg, dim, act, control.
  split; [exact Hen |]. split; [exact Hstart |].
  destruct (neurax_cpu_conv2d tanhf expf input weights bias conv_config output).
  reflexivity.
Qed.

End OperationsOnHardware.

Lemma bound_device_is_bound : hardware_bound bound_device.
Proof. unfold hardware_bound. repeat split. now exists 4096. Qed.

Lemma hardware_failure_outcome_witness :
  exists control e w',
    hardware_leg_end (fun _ _ => STAT_ERROR)
      ([] ++ [RegWrite 4 (Z.land NEURAX_ACTIVATION_RELU 3); RegWrite 0 control]) w' e /\
    e = NEURAX_ERROR_HARDWARE_FAILURE /\
    neurax_activation (fun x => x) (fun x => x) (fun _ _ => STAT_ERROR)
      (Some bound_device)
      (Some (tensor_f32 1 1 1 1 [Flt F32.one])) NEURAX_ACTIVATION_RELU
      (Some (tensor_f32 1 1 1 1 [Flt F32.zero])) []
    = if is_success e
      then (fst (neurax_cpu_activation (fun x => x) (fun x => x)
                   (tensor_f32 1 1 1 1 [Flt F32.one]) NEURAX_ACTIVATION_RELU
                   (tensor_f32 1 1 1 1 [Flt F32.zero])),
            Some (snd (neurax_cpu_activation (fun x => x) (fun x => x)
                   (tensor_f32 1 1 1 1 [Flt F32.one]) NEURAX_ACTIVATION_RELU
                   (tensor_f32 1 1 1 1 [Flt F32.zero]))), w')
      else (e, Some (tensor_f32 1 1 1 1 [Flt F32.zero]), w').
Proof.
  destruct (proj2 (proj2 (hardware_failure_outcome (fun x => x) (fun x => x)
              (fun _ _ => STAT_ERROR) bound_device bound_device_is_bound))
              (tensor_f32 1 1 1 1 [Flt F32.one]) NEURAX_ACTIVATION_RELU
              (tensor_f32 1 1 1 1 [Flt F32.zero]) []
              eq_refl eq_refl eq_refl eq_refl eq_refl eq_refl)
    as (control & e & w' & _ & _ & Hend & _ & Herr & _ & E).
  exists control, e, w'. split; [exact Hend |]. split; [| exact E].
  apply Herr. intros w. vm_compute. discriminate.
Defined.

(** C2 fails as stated: when the status register shows the error bit
    the activation layer returns [HardwareFailure] and leaves the
    output as it was, although the CPU kernel would have stored 1.0. *)
Lemma activation_aborts_on_hardware_error :
  hardware_bound bound_device /\
  neurax_activation (fun x => x) (fun x => x) (fun _ _ => STAT_ERROR)
    (Some bound_device)
    (Some (tensor_f32 1 1 1 1 [Flt F32.one])) NEURAX_ACTIVATION_RELU
    (Some (tensor_f32 1 1 1 1 [Flt F32.zero])) []
  = (NEURAX_ERROR_HARDWARE_FAILURE,
     Some (tensor_f32 1 1 1 1 [Flt F32.zero]),
     [RegWrite 4 0; RegWrite 0 17; RegRead 1 4]) /\
  neurax_cpu_activation (fun x => x) (fun x => x)
    (tensor_f32 1 1 1 1 [Flt F32.one]) NEURAX_ACTIVATION_RELU
    (tensor_f32 1 1 1 1 [Flt F32.zero])
  = (NEURAX_SUCCESS, tensor_f32 1 1 1 1 [Flt F32.one]).
Proof.
  split; [exact bound_device_is_bound |]. split; vm_compute; reflexivity.
Qed.

Lemma conv2d_hardware_leg_never_starts_witness :
  exists reg dim act control : Z,
    Z.land control CTRL_CONV_EN <> 0 /\
    Z.land control CTRL_START = 0 /\
    snd (neurax_conv2d (fun x => x) (fun x => x) (Some bound_device)
           (Some (tensor_f32 1 1 1 1 [Flt F32.one]))
           (Some (tensor_f32 1 1 1 1 [Flt F32.one])) None
           (Some identity_conv_config)
           (Some (tensor_f32 1 1 1 1 [Flt F32.zero])) [])
    = [] ++ [RegWrite 2 reg; RegWrite 5 dim; RegWrite 4 act; RegWrite 0 control].
Proof.
  apply (conv2d_hardware_leg_never_starts (fun x => x) (fun x => x) bound_device);
    [exact bound_device_is_bound | reflexivity .. | exact I].
Defined.

(** ** Average pooling of a 3x3 input with a 2x2 window and stride 2 *)

(** C4, as the code has it.  For the average pooling of a 3x3
    single-channel float32 input with a 2x2 window and stride 2 the
    computed output size is 1x1 and any other output height or width is
    rejected with [InvalidParam]; the window of the only output cell
    covers the rows 0-1 and columns 0-1, lies inside the input and
    visits four taps, and the cell is the sum of these four elements
    divided by 4. *)
Theorem average_pooling_3x3 (a0 a1 a2 a3 a4 a5 a6 a7 a8 : float) :
  let input := input_3x3 a0 a1 a2 a3 a4 a5 a6 a7 a8 in
  let cfg := pool_2x2_config NEURAX_POOL_AVERAGE in
  let sum := F32.add (F32.add (F32.add (F32.add F32.zero a0) a1) a3) a4 in
  pool_out_height input cfg = 1 /\
  pool_out_width input cfg = 1 /\
  (forall output,
      height output <> 1 \/ width output <> 1 ->
      neurax_cpu_pooling input cfg output = (NEURAX_ERROR_INVALID_PARAM, output)) /\
  pool_window input cfg 0 0 0 0 = (sum, 4) /\
  (forall c,
      neurax_cpu_pooling input cfg (tensor_f32 1 1 1 1 [c])
      = (NEURAX_SUCCESS, tensor_f32 1 1 1 1 [Flt (F32.div sum (F32.of_Z 4))])).
Proof.
  intros input cfg sum.
  split; [reflexivity |]. split; [reflexivity |]. split; [| split].
  - intros output Hd. unfold neurax_cpu_pooling.
    change (pool_out_height input cfg) with 1. change (pool_out_width input cfg) with 1.
    destruct (Z.eqb_spec (height output) 1); destruct (Z.eqb_spec (width output) 1);
      try reflexivity. lia.
  - reflexivity.
  - intros c. reflexivity.
Qed.

Lemma average_pooling_3x3_witness :
  neurax_cpu_pooling input_1_to_9 (pool_2x2_config NEURAX_POOL_AVERAGE)
    (tensor_f32 2 2 1 1 [Flt F32.zero; Flt F32.zero; Flt F32.zero; Flt F32.zero])
  = (NEURAX_ERROR_INVALID_PARAM,
     tensor_f32 2 2 1 1 [Flt F32.zero; Flt F32.zero; Flt F32.zero; Flt F32.zero]).
Proof.
  apply (proj1 (proj2 (proj2
           (average_pooling_3x3 f32_1 f32_2 f32_3 f32_4 f32_5 f32_6 f32_7 f32_8 f32_9)))).
  left. simpl. lia.
Defined.

(** C4 fails as stated: on the 3x3 input 1..9 the output is 1x1; the
    window of its only cell lies inside the input, visits four taps
    and the average is (1 + 2 + 4 + 5) / 4 = 3; no cell is computed
    from fewer than four taps, and a 2x2 output is rejected. *)
Lemma average_pooling_3x3_visits_four_taps :
  let cfg := pool_2x2_config NEURAX_POOL_AVERAGE in
  pool_out_height input_1_to_9 cfg = 1 /\
  pool_out_width input_1_to_9 cfg = 1 /\
  snd (pool_window input_1_to_9 cfg 0 0 0 0) = 4 /\
  ~ snd (pool_window input_1_to_9 cfg 0 0 0 0) < 4 /\
  neurax_cpu_pooling input_1_to_9 cfg (tensor_f32 1 1 1 1 [Flt F32.zero])
  = (NEURAX_SUCCESS, tensor_f32 1 1 1 1 [Flt f32_3]) /\
  fst (neurax_cpu_pooling input_1_to_9 cfg
         (tensor_f32 2 2 1 1 [Flt F32.zero; Flt F32.zero; Flt F32.zero; Flt F32.zero]))
  = NEURAX_ERROR_INVALID_PARAM.
Proof.
  vm_compute. repeat split; try reflexivity. intros H. discriminate H.
Qed.

(** ** Shape check of the convolution *)

Lemma cpu_conv2d_status (tanhf expf : float -> float) (input weights : neurax_tensor_t)
    (bias : option neurax_tensor_t) (conv_config : neurax_conv_config_t)
    (output : neurax_tensor_t) :
  fst (neurax_cpu_conv2d tanhf expf input weights bias conv_config output)
  = if negb (height output =? conv_out_height input conv_config) ||
       negb (width output =? conv_out_width input conv_config)
    then NEURAX_ERROR_INVALID_PARAM else NEURAX_SUCCESS.
Proof.
  unfold neurax_cpu_conv2d.
  destruct (negb (height output =? conv_out_height input conv_config) ||
            negb (width output =? conv_out_width input conv_config)); reflexivity.
Qed.

(** C3 at a kernel higher than the input.  An input of height 2 with
    a 3x3 kernel, stride 2 in y and no padding: the formula
    floor((H + 2*pad_y - Kh)/stride_y) + 1 gives the height
    floor((2 + 0 - 3) / 2) + 1 = 0, the 32-bit unsigned arithmetic of
    the kernel gives 2^31, and [neurax_conv2d] accepts a valid output
    tensor of height 2^31 and returns success. *)
Theorem conv2d_accepts_wrapped_height :
  neurax_validate_tensor (Some input_3x2) = NEURAX_SUCCESS /\
  neurax_validate_tensor (Some weights_3x3) = NEURAX_SUCCESS /\
  neurax_validate_tensor (Some output_1x2G) = NEURAX_SUCCESS /\
  neurax_validate_conv_config (Some conv_config_3x3_stride_y2) = NEURAX_SUCCESS /\
  (height input_3x2 + 2 * padding_y conv_config_3x3_stride_y2
   - kernel_height conv_config_3x3_stride_y2) / stride_y conv_config_3x3_stride_y2 + 1 = 0 /\
  height output_1x2G = 2147483648 /\
  conv_out_height input_3x2 conv_config_3x3_stride_y2 = 2147483648 /\
  fst (fst (neurax_conv2d (fun x => x) (fun x => x) (Some emulated_device)
              (Some input_3x2) (Some weights_3x3) None
              (Some conv_config_3x3_stride_y2) (Some output_1x2G) []))
  = NEURAX_SUCCESS.
Proof.
  assert (Hi : neurax_validate_tensor (Some input_3x2) = NEURAX_SUCCESS) by reflexivity.
  assert (Hw : neurax_validate_tensor (Some weights_3x3) = NEURAX_SUCCESS) by reflexivity.
  assert (Ho : neurax_validate_tensor (Some output_1x2G) = NEURAX_SUCCESS) by reflexivity.
  assert (Hc : neurax_validate_conv_config (Some conv_config_3x3_stride_y2) = NEURAX_SUCCESS)
    by reflexivity.
  repeat (split; [first [assumption | reflexivity] |]).
  rewrite (conv2d_dispatch (fun x => x) (fun x => x) emulated_device input_3x2 weights_3x3
             None conv_config_3x3_stride_y2 output_1x2G [] eq_refl Hi Hw Ho Hc I).
  cbn [hardware_available emulated_device andb].
  pose proof (cpu_conv2d_status (fun x => x) (fun x => x) input_3x2 weights_3x3 None
                conv_config_3x3_stride_y2 output_1x2G) as Hs.
  destruct (neurax_cpu_conv2d (fun x => x) (fun x => x) input_3x2 weights_3x3 None
              conv_config_3x3_stride_y2 output_1x2G) as [e out].
  cbn [fst] in *. rewrite Hs. reflexivity.
Qed.



Lemma mul_one_finite (s : bool) (m : positive) (e : Z) :
  F32.valid (S754_finite s m e) = true ->
  F32.mul (S754_finite s m e) F32.one = S754_finite s m e.
Proof.
  intros Hv.
  assert (Hcanon : fexp F32.prec F32.emax (Z.pos (digits2_pos m) + e) = e /\ e <= 104).
  { unfold F32.valid, valid_binary, bounded, canonical_mantissa in Hv.
    apply andb_true_iff in Hv as [H1 H2].
    apply Z.eqb_eq in H1. apply Z.leb_le in H2. split; [exact H1 | exact H2]. }
  destruct Hcanon as [Hfexp He].
  unfold F32.mul, F32.one, SFmul.
  replace (xorb s false) with s by (now destruct s).
  assert (Hm : (m * 8388608)%positive
               = ltac:(let t := eval cbv in (8388608 * m)%positive in exact t))
    by (rewrite Pos.mul_comm; reflexivity).
  rewrite Hm. clear Hm.
  unfold binary_round_aux, shr_fexp.
  cbn [Zdigits2 digits2_pos].
  rewrite !Pos2Z.inj_succ.
  fold F32.prec F32.emax.
  match goal with
  | |- context [fexp F32.prec F32.emax ?a] =>
      replace a with (Z.pos (digits2_pos m) + e) by lia
  end.
  rewrite Hfexp.
  replace (e - (e + -23)) with 23 by lia.
  cbn [shr_record_of_loc shr].
  match goal with
  | |- context [SpecFloat.iter_pos shr_1 23 ?r] =>
      change (SpecFloat.iter_pos shr_1 23 r)
        with {| shr_m := Z.pos m; shr_r := false; shr_s := false |}
  end.
  cbn [shr_m loc_of_shr_record round_nearest_even].
  replace (e + -23 + 23) with e by lia.
  cbn [Zdigits2]. rewrite Hfexp, Z.sub_diag.
  cbn [shr shr_record_of_loc shr_m].
  unfold F32.emax, F32.prec.
  destruct (Z.leb_spec e (128 - 24)); [reflexivity | lia].
Qed.

Lemma identity_tap (x : float) :
  F32.valid x = true ->
  F32.add F32.zero (F32.mul x F32.one) = positive_zero x.
Proof.
  intros Hv. destruct x as [[|] | [|] | | s m e]; try reflexivity.
  rewrite (mul_one_finite s m e Hv). reflexivity.
Qed.

(** ** Loops over a tensor *)

Lemma with_buffer_buffer (t : neurax_tensor_t) :
  is_Some (data t) -> with_buffer t (buffer t) = t.
Proof.
  intros [buf Hbuf]. destruct t as [d w h c b ty sz]. cbn in *. subst d. reflexivity.
Qed.

Lemma buffer_with_buffer (t : neurax_tensor_t) (buf : list cell) :
  buffer (with_buffer t buf) = buf.
Proof. reflexivity. Qed.

Lemma buffer_tensor_of (type : neurax_data_type_t) (w h c b : Z) (buf : list cell) :
  buffer (tensor_of type w h c b buf) = buf.
Proof. reflexivity. Qed.

Lemma same_shape_with_buffer (t t0 : neurax_tensor_t) (buf : list cell) :
  same_shape t t0 -> same_shape (with_buffer t buf) t0.
Proof. unfold same_shape. intros H. exact H. Qed.

Lemma same_shape_fields (t t0 : neurax_tensor_t) :
  same_shape t t0 ->
  width t = width t0 /\ height t = height t0 /\ channels t = channels t0 /\
  batch_size t = batch_size t0 /\ data_type t = data_type t0.
Proof.
  unfold same_shape, with_buffer. intros H. injection H. intros. repeat split; assumption.
Qed.

Lemma memset_zero_length (t : neurax_tensor_t) :
  length (buffer (memset_zero t)) = length (buffer t).
Proof.
  unfold memset_zero. rewrite buffer_with_buffer.
  rewrite length_app, length_replicate, length_drop. lia.
Qed.

(** A loop whose body only rewrites the buffer of a tensor is a loop on
    the buffer. *)
Lemma for_range_buffer (t0 : neurax_tensor_t) (body : Z -> neurax_tensor_t -> neurax_tensor_t)
    (bbody : Z -> list cell -> list cell) (n : nat) :
  (forall i t, same_shape t t0 -> is_Some (data t) ->
               body i t = with_buffer t (bbody i (buffer t))) ->
  forall start t, same_shape t t0 -> is_Some (data t) ->
    for_range n start body t = with_buffer t (for_range n start bbody (buffer t)).
Proof.
  intros Hbody. induction n as [| n IH]; intros start t Hs Hd; cbn [for_range].
  - symmetry. now apply with_buffer_buffer.
  - rewrite (Hbody start t Hs Hd).
    rewrite IH; [reflexivity | now apply same_shape_with_buffer | now eexists].
Qed.

Lemma set_tensor_value_written (t : neurax_tensor_t) (batch y x c : Z) (value : float) :
  neurax_set_tensor_value t batch y x c value
  = with_buffer t
      (store (buffer t) (tensor_index t batch y x c) (written_cell (data_type t) value)).
Proof. unfold neurax_set_tensor_value, written_cell. now destruct (data_type t). Qed.

Lemma set_tensor_element_written (t : neurax_tensor_t) (index : Z) (value : float) :
  neurax_set_tensor_element t index value
  = with_buffer t (store (buffer t) index (written_cell (data_type t) value)).
Proof. unfold neurax_set_tensor_element, written_cell. now destruct (data_type t). Qed.

(** The four loops of the convolution and pooling kernels as loops on
    the buffer of the output. *)
Lemma kernel_loops_buffer (t0 : neurax_tensor_t) (v : Z -> Z -> Z -> Z -> float)
    (n1 n2 n3 n4 : Z) :
  is_Some (data t0) ->
  for_loop n1 (fun batch =>
    for_loop n2 (fun ch =>
      for_loop n3 (fun out_y =>
        for_loop n4 (fun out_x output =>
          neurax_set_tensor_value output batch out_y out_x ch (v batch ch out_y out_x)))))
    t0
  = with_buffer t0
      (for_loop n1 (fun batch =>
         for_loop n2 (fun ch =>
           for_loop n3 (fun out_y =>
             for_loop n4 (fun out_x buf =>
               store buf (tensor_index t0 batch out_y out_x ch)
                 (written_cell (data_type t0) (v batch ch out_y out_x))))))
         (buffer t0)).
Proof.
  intros Hd. unfold for_loop.
  apply (for_range_buffer t0); [| reflexivity | exact Hd].
  intros batch t Hs Ht.
  apply (for_range_buffer t0); [| exact Hs | exact Ht].
  intros ch t' Hs' Ht'.
  apply (for_range_buffer t0); [| exact Hs' | exact Ht'].
  intros out_y t'' Hs'' Ht''.
  apply (for_range_buffer t0); [| exact Hs'' | exact Ht''].
  intros out_x t3 Hs3 Ht3.
  destruct (same_shape_fields t3 t0 Hs3) as (Ew & Eh & Ec & Eb & Et).
  rewrite set_tensor_value_written.
  unfold tensor_index. now rewrite Ew, Eh, Ec, Et.
Qed.

(** The kernel loops on a single-channel output of [nB] batches of [nH]
    rows of [nW] cells overwrite every cell: the cell of batch [b], row
    [y], column [x] is at index [(b * nH + y) * nW + x]. *)
Lemma kernel_loops_fill (type : neurax_data_type_t) (nW nH nB : nat) (buf : list cell)
    (v : Z -> Z -> Z -> Z -> float) (g : nat -> cell) :
  Z.of_nat nW * Z.of_nat nH * Z.of_nat nB < 2 ^ 32 ->
  length buf = (nB * (1 * (nH * (nW * 1))))%nat ->
  (forall b y x : nat, (b < nB)%nat -> (y < nH)%nat -> (x < nW)%nat ->
     written_cell type (v (Z.of_nat b) 0 (Z.of_nat y) (Z.of_nat x))
     = g ((b * nH + y) * nW + x)%nat) ->
  for_loop (Z.of_nat nB) (fun batch =>
    for_loop 1 (fun ch =>
      for_loop (Z.of_nat nH) (fun out_y =>
        for_loop (Z.of_nat nW) (fun out_x buf =>
          store buf
            (tensor_index (tensor_of type (Z.of_nat nW) (Z.of_nat nH) 1 (Z.of_nat nB) [])
               batch out_y out_x ch)
            (written_cell type (v batch ch out_y out_x))))))
    buf
  = map g (seq 0 (length buf)).
Proof.
  intros Hsmall Hlen Hv.
  apply (overwrites_all _ g).
  rewrite Hlen. unfold for_loop. rewrite !Nat2Z.id. change (Z.to_nat 1) with 1%nat.
  apply overwrites_loop. intros b Hb.
  apply overwrites_loop. intros ch Hch.
  apply overwrites_loop. intros y Hy.
  apply overwrites_loop. intros x Hx.
  assert (ch = 0%nat) by lia. subst ch.
  rewrite !Z.add_0_l. change (Z.of_nat 0) with 0.
  assert (Hidx : tensor_index (tensor_of type (Z.of_nat nW) (Z.of_nat nH) 1 (Z.of_nat nB) [])
                   (Z.of_nat b) (Z.of_nat y) (Z.of_nat x) 0
                 = Z.of_nat ((b * nH + y) * nW + x)).
  { unfold tensor_index, tensor_of. cbn [height width channels].
    rewrite u32_small; [lia |].
    split; [lia |].
    apply Z.le_lt_trans with (Z.of_nat nW * Z.of_nat nH * Z.of_nat nB - 1); [| lia].
    assert (H1 : (Z.of_nat b + 1) * Z.of_nat nH <= Z.of_nat nB * Z.of_nat nH)
      by (apply Z.mul_le_mono_nonneg_r; lia).
    assert (H2 : (Z.of_nat b * Z.of_nat nH + Z.of_nat y + 1) * Z.of_nat nW
                 <= (Z.of_nat nB * Z.of_nat nH) * Z.of_nat nW)
      by (apply Z.mul_le_mono_nonneg_r; lia).
    lia. }
  apply overwrites_store.
  - rewrite Hidx, Nat2Z.id. lia.
  - rewrite (Hv b y x Hb Hy Hx). f_equal. lia.
Qed.


Section ConvolutionKernel.

Variables tanhf expf : float -> float.

Lemma cpu_conv2d_single_channel (input weights : neurax_tensor_t)
    (bias : option neurax_tensor_t) (conv_config : neurax_conv_config_t)
    (type : neurax_data_type_t) (nW nH nB : nat) (lo : list cell) (g : nat -> cell) :
  conv_out_height input conv_config = Z.of_nat nH ->
  conv_out_width input conv_config = Z.of_nat nW ->
  batch_size input = Z.of_nat nB ->
  output_channels conv_config = 1 ->
  Z.of_nat nW * Z.of_nat nH * Z.of_nat nB < 2 ^ 32 ->
  length lo = (nB * (1 * (nH * (nW * 1))))%nat ->
  (forall b y x : nat, (b < nB)%nat -> (y < nH)%nat -> (x < nW)%nat ->
     written_cell type
       (conv_output_value tanhf expf input weights bias conv_config
          (Z.of_nat b) 0 (Z.of_nat y) (Z.of_nat x))
     = g ((b * nH + y) * nW + x)%nat) ->
  neurax_cpu_conv2d tanhf expf input weights bias conv_config
    (tensor_of type (Z.of_nat nW) (Z.of_nat nH) 1 (Z.of_nat nB) lo)
  = (NEURAX_SUCCESS,
     tensor_of type (Z.of_nat nW) (Z.of_nat nH) 1 (Z.of_nat nB)
       (map g (seq 0 (length lo)))).
Proof.
  intros Hh Hw Hb Hoc Hsmall Hlen Hv.
  unfold neurax_cpu_conv2d. rewrite Hh, Hw, Hb, Hoc.
  cbn [height width tensor_of]. rewrite !Z.eqb_refl. cbn [negb orb].
  f_equal.
  set (out0 := memset_zero (tensor_of type (Z.of_nat nW) (Z.of_nat nH) 1 (Z.of_nat nB) lo)).
  assert (Hbuf : length (buffer out0) = length lo).
  { unfold out0. apply memset_zero_length. }
  rewrite (kernel_loops_buffer out0
             (conv_output_value tanhf expf input weights bias conv_config));
    [| now eexists].
  change (tensor_index out0)
    with (tensor_index (tensor_of type (Z.of_nat nW) (Z.of_nat nH) 1 (Z.of_nat nB) [])).
  change (data_type out0) with type.
  rewrite (kernel_loops_fill type nW nH nB (buffer out0) _ g Hsmall); [| lia | exact Hv].
  rewrite Hbuf. reflexivity.
Qed.

End ConvolutionKernel.

(** ** The identity convolution *)

Lemma saturate_trunc_exact (lo hi z : Z) (v : float) :
  is_real v = true -> (F32.to_Q v == inject_Z z)%Q -> lo <= z <= hi ->
  saturate_trunc lo hi v = z.
Proof.
  intros Hr Hq Hz.
  assert (E : saturate_trunc lo hi v = Qtrunc (Qclamp lo hi (F32.to_Q v)))
    by (destruct v; try discriminate; reflexivity).
  rewrite E.
  transitivity (Qtrunc (inject_Z z)); [apply Qtrunc_comp | apply Qtrunc_Z].
  unfold Qclamp.
  assert (Hlo : (inject_Z lo <= F32.to_Q v)%Q) by (rewrite Hq, <- Zle_Qle; lia).
  assert (Hhi : (F32.to_Q v <= inject_Z hi)%Q) by (rewrite Hq, <- Zle_Qle; lia).
  transitivity (F32.to_Q v); [| exact Hq].
  transitivity (Qmin (inject_Z hi) (F32.to_Q v)); [| now apply Q.min_r].
  apply Q.max_r. apply Q.min_glb; [| exact Hlo].
  rewrite <- Zle_Qle. lia.
Qed.

Lemma written_cell_stored (type : neurax_data_type_t) (value : float) :
  F32.valid value = true -> written_cell type value = stored_cell type value.
Proof.
  intros Hv. destruct type; cbn [written_cell stored_cell type_min type_max].
  - now rewrite saturate_uint8.
  - now rewrite saturate_int8.
  - now rewrite saturate_uint16.
  - now rewrite saturate_int16.
  - reflexivity.
Qed.

(** One element through the identity convolution: read, multiplied by
    1.0, added to 0.0 and written back. *)
Lemma identity_cell (type : neurax_data_type_t) (c : cell) :
  cell_ok type c ->
  written_cell type (F32.add F32.zero (F32.mul (read_cell type c) F32.one))
  = canonical_cell c.
Proof.
  intros Hok.
  assert (Hint : forall z, type <> NEURAX_DATA_FLOAT32 ->
            type_min type <= z <= type_max type ->
            written_cell type (F32.add F32.zero (F32.mul (F32.of_Z z) F32.one)) = Int z).
  { intros z Hty Hz.
    assert (Hsmall : - 2 ^ 24 < z < 2 ^ 24) by (destruct type; simpl in Hz; lia).
    destruct (of_Z_exact z Hsmall) as (Hv & Hr & Hq & Hnz).
    rewrite (identity_tap _ Hv).
    assert (Hpz : positive_zero (F32.of_Z z) = F32.of_Z z).
    { revert Hnz. destruct (F32.of_Z z) as [[|] | | |]; intros Hnz;
        [congruence | reflexivity ..]. }
    rewrite Hpz, (written_cell_stored type _ Hv).
    destruct type; try congruence; cbn [stored_cell]; f_equal;
      now apply saturate_trunc_exact. }
  destruct type; destruct c as [z | x]; cbn [cell_ok] in Hok; try contradiction;
    cbn [read_cell canonical_cell];
    try (apply Hint; [discriminate | exact Hok]).
  cbn [written_cell]. f_equal. now apply identity_tap.
Qed.

Lemma get_tensor_value_cell (t : neurax_tensor_t) (batch y x ch : Z) (c : cell) :
  buffer t !! Z.to_nat (tensor_index t batch y x ch) = Some c ->
  neurax_get_tensor_value t batch y x ch = read_cell (data_type t) c.
Proof.
  intros H. unfold neurax_get_tensor_value, load_int, load_flt.
  fold (tensor_index t batch y x ch). rewrite H.
  destruct (data_type t); reflexivity.
Qed.

Section IdentityConvolution.

Variables tanhf expf : float -> float.

(** One output value of the identity convolution: the tap is taken when
    the height and width converted to [int32_t] allow the position. *)
Lemma identity_conv_output_value (input : neurax_tensor_t) (b y x : Z) :
  0 <= y < 2 ^ 31 -> 0 <= x < 2 ^ 31 ->
  conv_output_value tanhf expf input weights_one None identity_conv_config b 0 y x
  = if (y <? s32 (height input)) && (x <? s32 (width input))
    then F32.add F32.zero (F32.mul (neurax_get_tensor_value input b y x 0) F32.one)
    else F32.zero.
Proof.
  intros Hy Hx.
  unfold conv_output_value, identity_conv_config, for_loop.
  cbn [input_channels kernel_height kernel_width use_bias activation].
  change (Z.to_nat 1) with 1%nat. cbn [for_range].
  unfold conv_tap. cbn [stride_x stride_y padding_x padding_y].
  replace (y * 1 + 0 - 0) with y by lia. replace (x * 1 + 0 - 0) with x by lia.
  rewrite !(u32_small y), !(u32_small x) by lia.
  rewrite !(s32_small y), !(s32_small x) by lia.
  rewrite !(u32_small y), !(u32_small x) by lia.
  destruct (Z.leb_spec 0 y); [| lia]. destruct (Z.leb_spec 0 x); [| lia].
  cbn [andb].
  unfold neurax_apply_activation.
  change (NEURAX_ACTIVATION_LINEAR =? NEURAX_ACTIVATION_RELU) with false.
  change (NEURAX_ACTIVATION_LINEAR =? NEURAX_ACTIVATION_TANH) with false.
  change (NEURAX_ACTIVATION_LINEAR =? NEURAX_ACTIVATION_SIGMOID) with false.
  cbv iota.
  destruct (y <? s32 (height input)); destruct (x <? s32 (width input)); reflexivity.
Qed.

(** When the height converted to [int32_t] is not positive no tap is
    taken. *)
Lemma identity_conv_output_value_tall (input : neurax_tensor_t) (b y x : Z) :
  s32 (height input) <= 0 ->
  conv_output_value tanhf expf input weights_one None identity_conv_config b 0 y x
  = F32.zero.
Proof.
  intros Hh.
  unfold conv_output_value, identity_conv_config, for_loop.
  cbn [input_channels kernel_height kernel_width use_bias activation].
  change (Z.to_nat 1) with 1%nat. cbn [for_range].
  unfold conv_tap. cbn [stride_x stride_y padding_x padding_y].
  set (in_y := s32 (u32 (y * 1 + 0 - 0))).
  destruct (Z.leb_spec 0 in_y); destruct (Z.ltb_spec in_y (s32 (height input)));
    try lia; reflexivity.
Qed.


Lemma identity_conv_out_dims (type : neurax_data_type_t) (W H B : Z) (buf : list cell) :
  0 < W < 2 ^ 32 -> 0 < H < 2 ^ 32 ->
  conv_out_height (tensor_of type W H 1 B buf) identity_conv_config = H /\
  conv_out_width (tensor_of type W H 1 B buf) identity_conv_config = W.
Proof.
  intros HW HH. unfold conv_out_height, conv_out_width, identity_conv_config, tensor_of.
  cbn [height width padding_x padding_y kernel_height kernel_width stride_x stride_y].
  change (u32 (2 * 0)) with 0. rewrite !Z.add_0_r.
  rewrite !(u32_small H), !(u32_small W) by lia.
  rewrite !(u32_small (H - 1)), !(u32_small (W - 1)) by lia.
  rewrite !Z.div_1_r.
  rewrite !(u32_small (H - 1)), !(u32_small (W - 1)) by lia.
  replace (H - 1 + 1) with H by lia. replace (W - 1 + 1) with W by lia.
  rewrite !(u32_small H), !(u32_small W) by lia. split; reflexivity.
Qed.

(** The identity convolution where the signed casts of the kernel
    keep the dimensions.  For every single-channel input tensor of
    any element type whose width and height are below 2^31 and whose
    element count is below 2^32, the 1x1 convolution with stride 1, no
    padding, the single weight 1.0, no bias and the linear activation,
    into an output tensor of the same shape and element type, returns
    success and the output holds the elements of the input, a negative
    zero being stored as the positive zero. *)
Theorem identity_conv_reproduces_input (dev : neurax_device_t)
    (type : neurax_data_type_t) (W H B : Z) (l lo : list cell) (w : trace) :
  initialized dev = true ->
  0 < W < 2 ^ 31 -> 0 < H < 2 ^ 31 -> 0 < B -> W * H * B < 2 ^ 32 ->
  length l = Z.to_nat (W * H * B) -> length lo = length l ->
  Forall (cell_ok type) l ->
  exists w',
    neurax_conv2d tanhf expf (Some dev)
      (Some (tensor_of type W H 1 B l)) (Some weights_one) None
      (Some identity_conv_config) (Some (tensor_of type W H 1 B lo)) w
    = (NEURAX_SUCCESS, Some (tensor_of type W H 1 B (map canonical_cell l)), w').
Proof.
  intros Hinit HW HH HB Hsmall Hl Hlo Hvalid.
  set (input := tensor_of type W H 1 B l).
  assert (Hi : neurax_validate_tensor (Some input) = NEURAX_SUCCESS)
    by (apply validate_tensor_of; lia).
  assert (Ho : neurax_validate_tensor (Some (tensor_of type W H 1 B lo)) = NEURAX_SUCCESS)
    by (apply validate_tensor_of; lia).
  destruct (conv2d_runs_cpu_kernel tanhf expf dev input weights_one None identity_conv_config
              (tensor_of type W H 1 B lo) w Hinit Hi eq_refl Ho eq_refl I) as [w' E].
  exists w'. rewrite E. clear E.
  destruct (identity_conv_out_dims type W H B l ltac:(lia) ltac:(lia)) as [Eh Ew].
  fold input in Eh, Ew.
  set (nW := Z.to_nat W). set (nH := Z.to_nat H). set (nB := Z.to_nat B).
  assert (EW : W = Z.of_nat nW) by (unfold nW; lia).
  assert (EH : H = Z.of_nat nH) by (unfold nH; lia).
  assert (EB : B = Z.of_nat nB) by (unfold nB; lia).
  assert (Hlen : length l = (nB * (1 * (nH * (nW * 1))))%nat).
  { rewrite Hl, EW, EH, EB. rewrite <- !Nat2Z.inj_mul, Nat2Z.id. lia. }
  assert (Hcpu : neurax_cpu_conv2d tanhf expf input weights_one None identity_conv_config
                   (tensor_of type W H 1 B lo)
                 = (NEURAX_SUCCESS,
                    tensor_of type W H 1 B
                      (map (fun j => canonical_cell (nth j l (Int 0)))
                         (seq 0 (length lo))))).
  { rewrite EW, EH, EB at 1. rewrite EW, EH, EB at 1.
    rewrite (cpu_conv2d_single_channel tanhf expf input weights_one None
               identity_conv_config type nW nH nB lo
               (fun j => canonical_cell (nth j l (Int 0)))).
    - rewrite <- EW, <- EH, <- EB. reflexivity.
    - now rewrite Eh.
    - now rewrite Ew.
    - exact EB.
    - reflexivity.
    - rewrite <- EW, <- EH, <- EB. exact Hsmall.
    - now rewrite Hlo.
    - intros b y x Hb Hy Hx.
      rewrite identity_conv_output_value by lia.
      unfold input at 1 2. cbn [height width tensor_of].
      rewrite !s32_small by lia.
      destruct (Z.ltb_spec (Z.of_nat y) H); [| lia].
      destruct (Z.ltb_spec (Z.of_nat x) W); [| lia].
      cbn [andb].
      assert (Hidx : (((b * nH + y) * nW + x) < length l)%nat).
      { rewrite Hlen.
        assert (((b * nH + y) + 1) * nW <= (nB * nH) * nW)%nat
          by (apply Nat.mul_le_mono_r; nia).
        lia. }
      destruct (nth_lookup_or_length l ((b * nH + y) * nW + x) (Int 0)) as [Hnth | ?];
        [| lia].
      assert (Hget : neurax_get_tensor_value input (Z.of_nat b) (Z.of_nat y) (Z.of_nat x) 0
                     = read_cell type (nth ((b * nH + y) * nW + x) l (Int 0))).
      { apply (get_tensor_value_cell input).
        unfold tensor_index, input, tensor_of. cbn [buffer data height width channels default].
        rewrite EH, EW.
        rewrite u32_small.
        - replace (Z.to_nat (((Z.of_nat b * Z.of_nat nH + Z.of_nat y) * Z.of_nat nW
                              + Z.of_nat x) * 1 + 0))
            with ((b * nH + y) * nW + x)%nat by lia.
          exact Hnth.
        - split; [lia |].
          apply Z.le_lt_trans with (Z.of_nat (length l)); [lia |].
          rewrite Hl. lia. }
      rewrite Hget. apply identity_cell.
      rewrite Forall_forall in Hvalid. apply Hvalid.
      apply list_elem_of_In. apply nth_In. exact Hidx. }
  rewrite Hcpu. cbn [fst snd].
  assert (Hmap : map (fun j => canonical_cell (nth j l (Int 0))) (seq 0 (length lo))
                 = map canonical_cell l); [| now rewrite Hmap].
  rewrite Hlo. apply list_eq. intros j.
  rewrite !list_lookup_fmap.
  destruct (decide (j < length l)%nat) as [Hj | Hj].
  - rewrite lookup_seq_lt by exact Hj. cbn [fmap option_fmap option_map].
    destruct (nth_lookup_or_length l j (Int 0)) as [E | E]; [| lia].
    now rewrite E.
  - rewrite lookup_seq_ge by lia.
    rewrite lookup_ge_None_2 by lia. reflexivity.
Qed.

Lemma identity_conv_tall (n : nat) (l lo : list cell) :
  Z.of_nat n = 2147483648 -> length lo = n ->
  exists out,
    neurax_cpu_conv2d tanhf expf (tensor_f32 1 2147483648 1 1 l) weights_one None
      identity_conv_config (tensor_f32 1 2147483648 1 1 lo)
    = (NEURAX_SUCCESS, out) /\
    buffer out !! 0%nat = Some (Flt F32.zero).
Proof.
  intros Hn Hlo.
  pose proof (cpu_conv2d_single_channel tanhf expf (tensor_f32 1 2147483648 1 1 l)
                weights_one None identity_conv_config NEURAX_DATA_FLOAT32
                1 n 1 lo (fun _ => Flt F32.zero)) as H.
  rewrite Hn, Hlo in H.
  eexists. split.
  - apply H.
    + reflexivity.
    + reflexivity.
    + reflexivity.
    + reflexivity.
    + reflexivity.
    + lia.
    + intros b y x _ _ _. cbn [written_cell]. f_equal.
      apply identity_conv_output_value_tall. discriminate.
  - rewrite buffer_tensor_of.
    change (map (fun _ : nat => Flt F32.zero) (seq 0 n))
      with ((fun _ : nat => Flt F32.zero) <$> seq 0 n).
    rewrite list_lookup_fmap, lookup_seq_lt by lia. reflexivity.
Qed.

End IdentityConvolution.

Lemma identity_conv_reproduces_input_witness :
  exists w',
    neurax_conv2d (fun x => x) (fun x => x) (Some emulated_device)
      (Some (tensor_f32 2 1 1 1 [Flt f32_1_75; Flt (S754_zero true)])) (Some weights_one) None
      (Some identity_conv_config)
      (Some (tensor_f32 2 1 1 1 [Flt F32.zero; Flt F32.zero])) []
    = (NEURAX_SUCCESS,
       Some (tensor_f32 2 1 1 1 [Flt f32_1_75; Flt (S754_zero false)]),
       w').
Proof.
  apply (identity_conv_reproduces_input (fun x => x) (fun x => x) emulated_device
           NEURAX_DATA_FLOAT32 2 1 1 [Flt f32_1_75; Flt (S754_zero true)]
           [Flt F32.zero; Flt F32.zero] []);
    [reflexivity | lia | lia | lia | lia | reflexivity | reflexivity |].
  repeat constructor.
Defined.

(** C8 at a valid column of 2^31 rows.  The kernel compares the row of
    every tap with [(int32_t)input->height], which is negative for a
    height of 2^31, so every tap is skipped although it lies inside the
    input: the identity convolution returns success and stores 0.0
    where the input holds 1.0. *)
Lemma identity_conv_loses_tall_input :
  neurax_validate_tensor (Some input_tall) = NEURAX_SUCCESS /\
  neurax_validate_tensor (Some output_tall) = NEURAX_SUCCESS /\
  buffer input_tall !! 0%nat = Some (Flt F32.one) /\
  exists out w',
    neurax_conv2d (fun x => x) (fun x => x) (Some emulated_device)
      (Some input_tall) (Some weights_one) None (Some identity_conv_config)
      (Some output_tall) []
    = (NEURAX_SUCCESS, Some out, w') /\
    buffer out !! 0%nat = Some (Flt F32.zero).
Proof.
  assert (Hi : neurax_validate_tensor (Some input_tall) = NEURAX_SUCCESS) by reflexivity.
  assert (Ho : neurax_validate_tensor (Some output_tall) = NEURAX_SUCCESS) by reflexivity.
  split; [exact Hi |]. split; [exact Ho |]. split; [reflexivity |].
  destruct (conv2d_runs_cpu_kernel (fun x => x) (fun x => x) emulated_device input_tall
              weights_one None identity_conv_config output_tall []
              eq_refl Hi eq_refl Ho eq_refl I) as [w' E].
  assert (Hn : Z.of_nat (Z.to_nat 2147483648) = 2147483648) by (apply Z2Nat.id; lia).
  pose proof (identity_conv_tall (fun x => x) (fun x => x) (Z.to_nat 2147483648)
                (Flt F32.one :: replicate (Z.to_nat 2147483647) (Flt F32.zero))
                (replicate (Z.to_nat 2147483648) (Flt F32.one))
                Hn (length_replicate _ _)) as (out & Hcpu & Hout).
  fold input_tall output_tall in Hcpu.
  rewrite Hcpu in E. cbn [fst snd] in E.
  exists out, w'. split; [exact E | exact Hout].
Qed.

(** ** The shape check of the convolution without wrap-around *)

Lemma conv_out_size_no_wrap (size pad kernel stride : Z) :
  0 <= size -> 0 <= pad -> 0 < kernel -> 0 < stride ->
  kernel <= size + 2 * pad < 2 ^ 32 ->
  u32 (u32 (u32 (u32 (size + u32 (2 * pad)) - kernel) / stride) + 1)
  = (size + 2 * pad - kernel) / stride + 1.
Proof.
  intros Hs Hp Hk Hst Hfit.
  rewrite (u32_small (2 * pad)) by lia.
  rewrite (u32_small (size + 2 * pad)) by lia.
  rewrite (u32_small (size + 2 * pad - kernel)) by lia.
  set (n := size + 2 * pad - kernel).
  assert (Hq : 0 <= n / stride <= n).
  { split; [apply Z.div_pos; lia |].
    apply Z.div_le_upper_bound; [lia |]. nia. }
  rewrite (u32_small (n / stride)) by lia.
  apply u32_small. lia.
Qed.

Lemma set_tensor_value_same_shape (t : neurax_tensor_t) (batch y x c : Z) (value : float) :
  same_shape (neurax_set_tensor_value t batch y x c value) t.
Proof. rewrite set_tensor_value_written. reflexivity. Qed.

Lemma for_range_invariant {S : Type} (P : S -> Prop) (body : Z -> S -> S) (n : nat) :
  (forall i s, P s -> P (body i s)) ->
  forall start s, P s -> P (for_range n start body s).
Proof.
  intros Hbody. induction n as [| n IH]; intros start s Hs; cbn [for_range].
  - exact Hs.
  - apply IH. now apply Hbody.
Qed.

Section ConvolutionShape.

Variables tanhf expf : float -> float.

(** The kernel never changes the dimensions, the element type or the
    byte size of the output tensor. *)
Lemma cpu_conv2d_same_shape (input weights : neurax_tensor_t)
    (bias : option neurax_tensor_t) (conv_config : neurax_conv_config_t)
    (output : neurax_tensor_t) :
  same_shape (snd (neurax_cpu_conv2d tanhf expf input weights bias conv_config output))
    output.
Proof.
  unfold neurax_cpu_conv2d.
  destruct (negb (height output =? conv_out_height input conv_config) ||
            negb (width output =? conv_out_width input conv_config)); cbn [snd].
  - reflexivity.
  - unfold for_loop.
    apply (for_range_invariant (fun t => same_shape t output)); [| reflexivity].
    intros batch t Ht.
    apply (for_range_invariant (fun t => same_shape t output)); [| exact Ht].
    intros ch t1 Ht1.
    apply (for_range_invariant (fun t => same_shape t output)); [| exact Ht1].
    intros out_y t2 Ht2.
    apply (for_range_invariant (fun t => same_shape t output)); [| exact Ht2].
    intros out_x t3 Ht3.
    unfold same_shape in *. rewrite <- Ht3. apply set_tensor_value_same_shape.
Qed.

(** When the kernel fits in the padded input and the sizes do not
    exceed 32 bits, the output must have the height
    [(H + 2 * pad_y - Kh) / stride_y + 1] and the width
    [(W + 2 * pad_x - Kw) / stride_x + 1]: any other output is rejected
    with [InvalidParam] and returned as it was. *)
Lemma conv2d_shape_check_without_wrap (dev : neurax_device_t)
    (input weights : neurax_tensor_t) (bias : option neurax_tensor_t)
    (conv_config : neurax_conv_config_t) (output : neurax_tensor_t) (w : trace) :
  initialized dev = true ->
  neurax_validate_tensor (Some input) = NEURAX_SUCCESS ->
  neurax_validate_tensor (Some weights) = NEURAX_SUCCESS ->
  neurax_validate_tensor (Some output) = NEURAX_SUCCESS ->
  neurax_validate_conv_config (Some conv_config) = NEURAX_SUCCESS ->
  bias_accepted conv_config bias ->
  0 <= height input -> 0 <= width input ->
  0 <= padding_y conv_config -> 0 <= padding_x conv_config ->
  0 <= kernel_height conv_config -> 0 <= kernel_width conv_config ->
  0 <= stride_y conv_config -> 0 <= stride_x conv_config ->
  kernel_height conv_config <= height input + 2 * padding_y conv_config < 2 ^ 32 ->
  kernel_width conv_config <= width input + 2 * padding_x conv_config < 2 ^ 32 ->
  height output <> (height input + 2 * padding_y conv_config - kernel_height conv_config)
                   / stride_y conv_config + 1 \/
  width output <> (width input + 2 * padding_x conv_config - kernel_width conv_config)
                  / stride_x conv_config + 1 ->
  exists w',
    neurax_conv2d tanhf expf (Some dev) (Some input) (Some weights) bias
      (Some conv_config) (Some output) w
    = (NEURAX_ERROR_INVALID_PARAM, Some output, w').
Proof.
  intros Hinit Hi Hw Ho Hc Hb Hh0 Hw0 Hpy Hpx Hkh Hkw Hsy Hsx Hfy Hfx Hdiff.
  destruct (conv2d_runs_cpu_kernel tanhf expf dev input weights bias conv_config output w
              Hinit Hi Hw Ho Hc Hb) as [w' E].
  exists w'. rewrite E. clear E.
  assert (Hcfg : 0 < kernel_height conv_config /\ 0 < kernel_width conv_config /\
                 0 < stride_y conv_config /\ 0 < stride_x conv_config).
  { revert Hc. unfold neurax_validate_conv_config.
    repeat (step_check; [intros; discriminate |]). intros _. decide_checks. lia. }
  destruct Hcfg as (Hkh' & Hkw' & Hsy' & Hsx').
  unfold neurax_cpu_conv2d, conv_out_height, conv_out_width.
  rewrite !conv_out_size_no_wrap by lia.
  destruct (Z.eqb_spec (height output)
              ((height input + 2 * padding_y conv_config - kernel_height conv_config)
               / stride_y conv_config + 1));
    destruct (Z.eqb_spec (width output)
                ((width input + 2 * padding_x conv_config - kernel_width conv_config)
                 / stride_x conv_config + 1));
    cbn [negb orb fst snd]; try reflexivity.
  lia.
Qed.

End ConvolutionShape.

(** * Properties of the rest of the code *)

(** ** Validation *)

(** [neurax_validate_pool_config] rejects a null configuration, a pool
    dimension that is 0 or greater than 8, a stride that is 0 and a
    pooling type above the last enumerator, and accepts every other
    configuration: the strides have no upper limit. *)
Theorem validate_pool_config_limits (c : neurax_pool_config_t) :
  neurax_validate_pool_config None = NEURAX_ERROR_INVALID_PARAM /\
  (pool_config_out_of_limits c ->
   neurax_validate_pool_config (Some c) = NEURAX_ERROR_INVALID_PARAM) /\
  (~ pool_config_out_of_limits c ->
   neurax_validate_pool_config (Some c) = NEURAX_SUCCESS) /\
  (0 < pool_width c <= 8 -> 0 < pool_height c <= 8 ->
   0 < pool_stride_x c -> 0 < pool_stride_y c ->
   pool_type c <= NEURAX_POOL_AVERAGE ->
   neurax_validate_pool_config (Some c) = NEURAX_SUCCESS).
Proof.
  assert (Hacc : ~ pool_config_out_of_limits c ->
                 neurax_validate_pool_config (Some c) = NEURAX_SUCCESS).
  { unfold pool_config_out_of_limits, neurax_validate_pool_config. intros H.
    repeat (step_check; [decide_checks; exfalso; apply H; lia |]). reflexivity. }
  split; [reflexivity |]. split; [| split; [exact Hacc |]].
  - unfold pool_config_out_of_limits, neurax_validate_pool_config. intros H.
    repeat (step_check; [reflexivity |]). decide_checks. exfalso. lia.
  - intros. apply Hacc. unfold pool_config_out_of_limits. lia.
Qed.

Lemma validate_pool_config_limits_witness :
  neurax_validate_pool_config
    (Some {| pool_width := 9; pool_height := 2; pool_stride_x := 2; pool_stride_y := 2;
             pool_type := NEURAX_POOL_MAX |}) = NEURAX_ERROR_INVALID_PARAM /\
  neurax_validate_pool_config
    (Some {| pool_width := 2; pool_height := 2; pool_stride_x := 0; pool_stride_y := 2;
             pool_type := NEURAX_POOL_MAX |}) = NEURAX_ERROR_INVALID_PARAM /\
  neurax_validate_pool_config
    (Some {| pool_width := 2; pool_height := 2; pool_stride_x := 2; pool_stride_y := 2;
             pool_type := 2 |}) = NEURAX_ERROR_INVALID_PARAM /\
  neurax_validate_pool_config
    (Some {| pool_width := 8; pool_height := 8; pool_stride_x := 1000; pool_stride_y := 1000;
             pool_type := NEURAX_POOL_AVERAGE |}) = NEURAX_SUCCESS.
Proof.
  refine (conj _ (conj _ (conj _ _))).
  - apply (proj1 (proj2 (validate_pool_config_limits _))).
    unfold pool_config_out_of_limits; simpl; lia.
  - apply (proj1 (proj2 (validate_pool_config_limits _))).
    unfold pool_config_out_of_limits; simpl; lia.
  - apply (proj1 (proj2 (validate_pool_config_limits _))).
    unfold pool_config_out_of_limits, NEURAX_POOL_AVERAGE; simpl; lia.
  - apply (proj2 (proj2 (proj2 (validate_pool_config_limits _))));
      unfold NEURAX_POOL_AVERAGE; simpl; lia.
Defined.

(** [neurax_validate_tensor] accepts exactly the tensors with a data
    pointer, four non-zero dimensions and a byte size equal to the
    element count of [neurax_tensor_total_elements] (the product of the
    dimensions reduced modulo 2^32) times the element size. *)
Lemma validate_tensor_cases (t : neurax_tensor_t) :
  neurax_validate_tensor None = NEURAX_ERROR_INVALID_PARAM /\
  (neurax_validate_tensor (Some t) = NEURAX_SUCCESS \/
   neurax_validate_tensor (Some t) = NEURAX_ERROR_INVALID_PARAM) /\
  (neurax_validate_tensor (Some t) = NEURAX_SUCCESS <->
   is_Some (data t) /\
   width t <> 0 /\ height t <> 0 /\ channels t <> 0 /\ batch_size t <> 0 /\
   data_size t
   = neurax_tensor_total_elements (Some t) * neurax_get_element_size (data_type t)).
Proof.
  assert (Hsz : u64 (u32 (width t * height t * channels t * batch_size t) *
                     neurax_get_element_size (data_type t))
                = neurax_tensor_total_elements (Some t) *
                  neurax_get_element_size (data_type t)).
  { unfold neurax_tensor_total_elements, u64.
    set (n := u32 (width t * height t * channels t * batch_size t)).
    assert (0 <= n < 2 ^ 32) by (apply Z.mod_pos_bound; lia).
    apply Z.mod_small. destruct (data_type t); simpl; lia. }
  split; [reflexivity |].
  unfold neurax_validate_tensor. rewrite Hsz.
  destruct (data t) as [buf |].
  2: { split; [now right |]. split; [discriminate |]. intros [[x Hx] _]. discriminate. }
  destruct (Z.eqb_spec (width t) 0); cbn [orb].
  { split; [now right |]. split; [discriminate | tauto]. }
  destruct (Z.eqb_spec (height t) 0); cbn [orb].
  { split; [now right |]. split; [discriminate | tauto]. }
  destruct (Z.eqb_spec (channels t) 0); cbn [orb].
  { split; [now right |]. split; [discriminate | tauto]. }
  destruct (Z.eqb_spec (batch_size t) 0); cbn [orb].
  { split; [now right |]. split; [discriminate | tauto]. }
  destruct (Z.eqb_spec (data_size t)
              (neurax_tensor_total_elements (Some t) *
               neurax_get_element_size (data_type t))); cbn [negb].
  - split; [now left |]. split; [| reflexivity]. intros _. repeat split; eauto.
  - split; [now right |]. split; [discriminate | tauto].
Qed.


(** ** The three operations never change the output on failure *)

Lemma cpu_conv2d_failure (tanhf expf : float -> float) (input weights : neurax_tensor_t)
    (bias : option neurax_tensor_t) (conv_config : neurax_conv_config_t)
    (output : neurax_tensor_t) :
  fst (neurax_cpu_conv2d tanhf expf input weights bias conv_config output) <> NEURAX_SUCCESS ->
  snd (neurax_cpu_conv2d tanhf expf input weights bias conv_config output) = output.
Proof.
  unfold neurax_cpu_conv2d.
  destruct (negb _ || negb _); cbn [fst snd]; [reflexivity | congruence].
Qed.

Lemma cpu_pooling_failure (input : neurax_tensor_t) (pool_config : neurax_pool_config_t)
    (output : neurax_tensor_t) :
  fst (neurax_cpu_pooling input pool_config output) <> NEURAX_SUCCESS ->
  snd (neurax_cpu_pooling input pool_config output) = output.
Proof.
  unfold neurax_cpu_pooling.
  destruct (negb _ || negb _); cbn [fst snd]; [reflexivity | congruence].
Qed.

Lemma triple_eta {A B C : Type} (p : A * B * C) : p = (fst (fst p), snd (fst p), snd p).
Proof. now destruct p as [[? ?] ?]. Qed.

Lemma is_success_false (e : neurax_error_t) : is_success e = false <-> e <> NEURAX_SUCCESS.
Proof. destruct e; cbn; split; congruence. Qed.

Section FailureFrame.

Variables tanhf expf : float -> float.
Variable device_read : trace -> Z -> Z.

(** Whatever the arguments (null pointers, an uninitialised device,
    invalid tensors or configuration, a wrong output shape, a hardware
    error or a timeout), a call of [neurax_conv2d], [neurax_pooling] or
    [neurax_activation] that does not return success returns the output
    tensor as it was: the output is written only by a call that
    succeeds. *)
Theorem failed_operation_keeps_output :
  (forall device input weights bias conv_config output w e out w',
      neurax_conv2d tanhf expf device input weights bias conv_config output w
      = (e, out, w') ->
      e <> NEURAX_SUCCESS -> out = output) /\
  (forall device input pool_config output w e out w',
      neurax_pooling device_read device input pool_config output w = (e, out, w') ->
      e <> NEURAX_SUCCESS -> out = output) /\
  (forall device input act output w e out w',
      neurax_activation tanhf expf device_read device input act output w = (e, out, w') ->
      e <> NEURAX_SUCCESS -> out = output).
Proof.
  refine (conj _ (conj _ _)).
  - intros device input weights bias conv_config output w e out w' H He.
    unfold neurax_conv2d in H.
    destruct device as [dev |], input as [inp |], weights as [wts |],
      conv_config as [cfg |], output as [o |]; try (injection H as <- <- <-; reflexivity).
    repeat match type of H with
    | (if ?c then _ else _) = _ =>
        destruct c eqn:?; [injection H as <- <- <-; reflexivity |]
    | (let error := _ in _) = _ => cbv zeta in H
    end.
    destruct (hardware_available dev && use_hardware (config dev)).
    + unfold neurax_hw_conv2d in H. cbv zeta in H.
      pose proof (cpu_conv2d_failure tanhf expf inp wts bias cfg o) as Hf.
      destruct (neurax_cpu_conv2d tanhf expf inp wts bias cfg o) as [e0 o0].
      injection H as <- <- <-. cbn [fst snd] in Hf. now rewrite Hf.
    + pose proof (cpu_conv2d_failure tanhf expf inp wts bias cfg o) as Hf.
      destruct (neurax_cpu_conv2d tanhf expf inp wts bias cfg o) as [e0 o0].
      injection H as <- <- <-. cbn [fst snd] in Hf. now rewrite Hf.
  - intros device input pool_config output w e out w' H He.
    unfold neurax_pooling in H.
    destruct device as [dev |], input as [inp |], pool_config as [cfg |],
      output as [o |]; try (injection H as <- <- <-; reflexivity).
    repeat match type of H with
    | (if ?c then _ else _) = _ =>
        destruct c eqn:?; [injection H as <- <- <-; reflexivity |]
    | (let error := _ in _) = _ => cbv zeta in H
    end.
    pose proof (cpu_pooling_failure inp cfg o) as Hf.
    destruct (hardware_available dev && use_hardware (config dev)).
    + unfold neurax_hw_pooling in H. cbv zeta in H.
      destruct (neurax_wait_for_completion device_read dev NEURAX_DEFAULT_TIMEOUT_MS _)
        as [e1 w1].
      destruct (negb (is_success e1)).
      * injection H as <- <- <-. reflexivity.
      * destruct (neurax_cpu_pooling inp cfg o) as [e0 o0].
        injection H as <- <- <-. cbn [fst snd] in Hf. now rewrite Hf.
    + destruct (neurax_cpu_pooling inp cfg o) as [e0 o0].
      injection H as <- <- <-. cbn [fst snd] in Hf. now rewrite Hf.
  - intros device input act output w e out w' H He.
    unfold neurax_activation in H.
    destruct device as [dev |], input as [inp |], output as [o |];
      try (injection H as <- <- <-; reflexivity).
    repeat match type of H with
    | (if ?c then _ else _) = _ =>
        destruct c eqn:?; [injection H as <- <- <-; reflexivity |]
    | (let error := _ in _) = _ => cbv zeta in H
    end.
    destruct (hardware_available dev && use_hardware (config dev)).
    + unfold neurax_hw_activation in H. cbv zeta in H.
      destruct (neurax_wait_for_completion device_read dev NEURAX_DEFAULT_TIMEOUT_MS _)
        as [e1 w1].
      destruct (negb (is_success e1)).
      * injection H as <- <- <-. reflexivity.
      * unfold neurax_cpu_activation in H. injection H as <- <- <-. congruence.
    + unfold neurax_cpu_activation in H. injection H as <- <- <-. congruence.
Qed.

End FailureFrame.

Lemma failed_operation_keeps_output_witness :
  fst (fst (neurax_pooling (fun _ _ => STAT_ERROR) (Some bound_device)
              (Some input_1_to_9) (Some (pool_2x2_config NEURAX_POOL_MAX))
              (Some (tensor_f32 1 1 1 1 [Flt f32_7])) []))
  = NEURAX_ERROR_HARDWARE_FAILURE /\
  snd (fst (neurax_pooling (fun _ _ => STAT_ERROR) (Some bound_device)
              (Some input_1_to_9) (Some (pool_2x2_config NEURAX_POOL_MAX))
              (Some (tensor_f32 1 1 1 1 [Flt f32_7])) []))
  = Some (tensor_f32 1 1 1 1 [Flt f32_7]).
Proof.
  split; [vm_compute; reflexivity |].
  refine (proj1 (proj2 (failed_operation_keeps_output (fun x => x) (fun x => x)
                          (fun _ _ => STAT_ERROR)))
            (Some bound_device) (Some input_1_to_9)
            (Some (pool_2x2_config NEURAX_POOL_MAX))
            (Some (tensor_f32 1 1 1 1 [Flt f32_7])) [] _ _ _ _ _).
  - apply triple_eta.
  - vm_compute. discriminate.
Defined.

(** ** Shapes *)

(** Closed comparisons of integers. *)
Ltac decide_ranges :=
  vm_compute; repeat split; try discriminate; try reflexivity.

Lemma for_range_ind {St : Type} (P : Z -> St -> Prop) (body : Z -> St -> St) (n : nat) :
  forall (start : Z) (s : St),
    P start s ->
    (forall i s, start <= i < start + Z.of_nat n -> P i s -> P (i + 1) (body i s)) ->
    P (start + Z.of_nat n) (for_range n start body s).
Proof.
  induction n as [| n IH]; intros start s Hs Hbody; cbn [for_range].
  - now rewrite Z.add_0_r.
  - replace (start + Z.of_nat (S n)) with (start + 1 + Z.of_nat n) by lia.
    apply IH.
    + apply Hbody; [lia | exact Hs].
    + intros i s' Hi. apply Hbody. lia.
Qed.

Lemma for_range_ext {St : Type} (body body' : Z -> St -> St) (n : nat) :
  (forall i s, body i s = body' i s) ->
  forall (start : Z) (s : St), for_range n start body s = for_range n start body' s.
Proof.
  intros Hext. induction n as [| n IH]; intros start s; cbn [for_range]; [reflexivity |].
  now rewrite Hext, IH.
Qed.

Lemma for_loop_ind {St : Type} (P : Z -> St -> Prop) (body : Z -> St -> St)
    (bound : Z) (s : St) :
  0 <= bound ->
  P 0 s ->
  (forall i s, 0 <= i < bound -> P i s -> P (i + 1) (body i s)) ->
  P bound (for_loop bound body s).
Proof.
  intros Hb H0 Hbody. unfold for_loop.
  pose proof (for_range_ind P body (Z.to_nat bound) 0 s H0) as H.
  rewrite Z2Nat.id, Z.add_0_l in H by exact Hb. apply H.
  intros i s' Hi. apply Hbody. lia.
Qed.

Lemma for_loop_invariant {St : Type} (P : St -> Prop) (body : Z -> St -> St)
    (bound : Z) (s : St) :
  (forall i s, P s -> P (body i s)) -> P s -> P (for_loop bound body s).
Proof. intros Hbody Hs. unfold for_loop. now apply for_range_invariant. Qed.

Lemma set_tensor_value_layout (t0 t : neurax_tensor_t) (batch y x c : Z) (value : float) :
  keeps_layout t0 t -> keeps_layout t0 (neurax_set_tensor_value t batch y x c value).
Proof.
  intros [Hs Hl]. rewrite set_tensor_value_written. split.
  - now apply same_shape_with_buffer.
  - rewrite buffer_with_buffer. unfold store. now rewrite length_insert.
Qed.

Lemma set_tensor_element_layout (t0 t : neurax_tensor_t) (index : Z) (value : float) :
  keeps_layout t0 t -> keeps_layout t0 (neurax_set_tensor_element t index value).
Proof.
  intros [Hs Hl]. rewrite set_tensor_element_written. split.
  - now apply same_shape_with_buffer.
  - rewrite buffer_with_buffer. unfold store. now rewrite length_insert.
Qed.

Lemma memset_zero_layout (t : neurax_tensor_t) : keeps_layout t (memset_zero t).
Proof. split; [reflexivity | apply memset_zero_length]. Qed.

(** The three kernels never resize the output: whatever the arguments
    and the outcome, the tensor they leave has the dimensions, the
    element type and the byte size of the output tensor they were
    given, and a buffer of the same length. *)
Lemma kernels_layout (tanhf expf : float -> float) (output : neurax_tensor_t) :
  (forall input weights bias conv_config,
      keeps_layout output
        (snd (neurax_cpu_conv2d tanhf expf input weights bias conv_config output))) /\
  (forall input pool_config,
      keeps_layout output (snd (neurax_cpu_pooling input pool_config output))) /\
  (forall input act,
      keeps_layout output (snd (neurax_cpu_activation tanhf expf input act output))).
Proof.
  refine (conj _ (conj _ _)).
  - intros input weights bias conv_config. unfold neurax_cpu_conv2d.
    destruct (negb _ || negb _); cbn [snd]; [split; reflexivity |].
    apply for_loop_invariant; [| apply memset_zero_layout]. intros i1 t1 H1.
    apply for_loop_invariant; [| exact H1]. intros i2 t2 H2.
    apply for_loop_invariant; [| exact H2]. intros i3 t3 H3.
    apply for_loop_invariant; [| exact H3]. intros i4 t4 H4.
    now apply set_tensor_value_layout.
  - intros input pool_config. unfold neurax_cpu_pooling.
    destruct (negb _ || negb _); cbn [snd]; [split; reflexivity |].
    apply for_loop_invariant; [| apply memset_zero_layout]. intros i1 t1 H1.
    apply for_loop_invariant; [| exact H1]. intros i2 t2 H2.
    apply for_loop_invariant; [| exact H2]. intros i3 t3 H3.
    apply for_loop_invariant; [| exact H3]. intros i4 t4 H4.
    now apply set_tensor_value_layout.
  - intros input act. unfold neurax_cpu_activation. cbn [snd].
    apply for_loop_invariant; [| split; reflexivity].
    intros i t Ht. now apply set_tensor_element_layout.
Qed.

Lemma validated_conv_config_positive (c : neurax_conv_config_t) :
  neurax_validate_conv_config (Some c) = NEURAX_SUCCESS ->
  conv_config_uint32 c ->
  0 < kernel_width c <= 11 /\ 0 < kernel_height c <= 11 /\
  0 < stride_x c <= 8 /\ 0 < stride_y c <= 8 /\
  0 < input_channels c /\ 0 < output_channels c /\ activation c <= 3.
Proof.
  intros Hc Hu. revert Hc. unfold neurax_validate_conv_config.
  repeat (step_check; [intros; discriminate |]). intros _. decide_checks.
  unfold conv_config_uint32, is_uint32, NEURAX_ACTIVATION_LINEAR in *. lia.
Qed.

Lemma validated_pool_config_positive (c : neurax_pool_config_t) :
  neurax_validate_pool_config (Some c) = NEURAX_SUCCESS ->
  pool_config_uint32 c ->
  0 < pool_width c <= 8 /\ 0 < pool_height c <= 8 /\
  0 < pool_stride_x c /\ 0 < pool_stride_y c /\ pool_type c <= 1.
Proof.
  intros Hc Hu. revert Hc. unfold neurax_validate_pool_config.
  repeat (step_check; [intros; discriminate |]). intros _. decide_checks.
  unfold pool_config_uint32, is_uint32, NEURAX_POOL_AVERAGE in *. lia.
Qed.

Section ConvolutionShapeCheck.

Variables tanhf expf : float -> float.


(** The output size of a convolution with stride 1 and a padding of
    half the kernel size (the integer division of C): the size of the
    input for an odd kernel size, one more for an even one. *)
Theorem same_padding_output_size (input : neurax_tensor_t) (c : neurax_conv_config_t) :
  tensor_uint32 input -> 0 < height input -> 0 < width input ->
  0 < kernel_height c -> 0 < kernel_width c ->
  stride_y c = 1 -> stride_x c = 1 ->
  padding_y c = kernel_height c / 2 -> padding_x c = kernel_width c / 2 ->
  height input + kernel_height c < 2 ^ 32 -> width input + kernel_width c < 2 ^ 32 ->
  conv_out_height input c = height input + (if Z.even (kernel_height c) then 1 else 0) /\
  conv_out_width input c = width input + (if Z.even (kernel_width c) then 1 else 0).
Proof.
  intros Hu Hh Hw Hkh Hkw Hsy Hsx Hpy Hpx Hby Hbx.
  unfold tensor_uint32, is_uint32 in Hu.
  pose proof (Z.div_mod (kernel_height c) 2 ltac:(lia)) as Dh.
  pose proof (Z.div_mod (kernel_width c) 2 ltac:(lia)) as Dw.
  pose proof (Zmod_even (kernel_height c)) as Eh.
  pose proof (Zmod_even (kernel_width c)) as Ew.
  unfold conv_out_height, conv_out_width.
  rewrite !conv_out_size_no_wrap by (destruct (Z.even _), (Z.even _); lia).
  rewrite Hsy, Hsx, !Z.div_1_r.
  destruct (Z.even (kernel_height c)), (Z.even (kernel_width c)); lia.
Qed.

End ConvolutionShapeCheck.


Lemma same_padding_output_size_witness :
  conv_out_height input_1_to_9
    {| kernel_width := 5; kernel_height := 5; stride_x := 1; stride_y := 1;
       padding_x := 2; padding_y := 2; input_channels := 1; output_channels := 1;
       use_bias := false; activation := NEURAX_ACTIVATION_LINEAR |} = 3 /\
  conv_out_height input_1_to_9
    {| kernel_width := 4; kernel_height := 4; stride_x := 1; stride_y := 1;
       padding_x := 2; padding_y := 2; input_channels := 1; output_channels := 1;
       use_bias := false; activation := NEURAX_ACTIVATION_LINEAR |} = 4.
Proof.
  split.
  - refine (proj1 (same_padding_output_size input_1_to_9 _ _ _ _ _ _ _ _ _ _ _ _));
      try reflexivity; decide_ranges.
  - refine (proj1 (same_padding_output_size input_1_to_9 _ _ _ _ _ _ _ _ _ _ _ _));
      try reflexivity; decide_ranges.
Defined.

(** ** Pooling windows *)

Lemma pool_out_size_no_wrap (size pool stride : Z) :
  0 < pool <= size -> size < 2 ^ 32 -> 0 < stride ->
  u32 (u32 (size - pool) / stride + 1) = (size - pool) / stride + 1 /\
  forall out, 0 <= out < (size - pool) / stride + 1 ->
    forall p, 0 <= p < pool -> 0 <= out * stride + p < size.
Proof.
  intros Hp Hs Hst.
  rewrite (u32_small (size - pool)) by lia.
  set (n := size - pool).
  assert (Hq : 0 <= n / stride <= n).
  { split; [apply Z.div_pos; lia |].
    apply Z.div_le_upper_bound; [lia |]. nia. }
  split; [apply u32_small; lia |].
  intros out Ho p Hpp.
  assert (stride * (n / stride) <= n) by (apply Z.mul_div_le; lia).
  nia.
Qed.

Lemma pool_tap_inside (input : neurax_tensor_t) (c : neurax_pool_config_t)
    (batch ch out_y out_x py px : Z) (st : float * Z) :
  0 <= out_y * pool_stride_y c + py < height input ->
  0 <= out_x * pool_stride_x c + px < width input ->
  height input < 2 ^ 32 -> width input < 2 ^ 32 ->
  0 <= snd st < 2 ^ 32 - 1 ->
  pool_tap input c batch ch out_y out_x py px st
  = pool_step (pool_type c) st
      (neurax_get_tensor_value input batch
         (out_y * pool_stride_y c + py) (out_x * pool_stride_x c + px) ch).
Proof.
  intros Hy Hx Hh Hw Hc. destruct st as [r n]. cbn [snd] in Hc.
  unfold pool_tap, pool_step.
  rewrite (u32_small (out_y * pool_stride_y c + py)) by lia.
  rewrite (u32_small (out_x * pool_stride_x c + px)) by lia.
  destruct (Z.ltb_spec (out_y * pool_stride_y c + py) (height input)); [| lia].
  destruct (Z.ltb_spec (out_x * pool_stride_x c + px) (width input)); [| lia].
  cbn [andb]. now rewrite (u32_small (n + 1)) by lia.
Qed.

Lemma pool_step_count (type : neurax_pool_type_t) (l : list float) (st : float * Z) :
  snd (fold_left (pool_step type) l st) = snd st + Z.of_nat (length l).
Proof.
  revert st. induction l as [| v l IH]; intros [r n]; cbn [fold_left length].
  - cbn [snd]. lia.
  - rewrite IH. unfold pool_step. cbn [snd]. lia.
Qed.

Lemma window_taps_length (input : neurax_tensor_t) (c : neurax_pool_config_t)
    (batch ch out_y out_x : Z) :
  length (window_taps input c batch ch out_y out_x)
  = Z.to_nat (pool_height c * pool_width c).
Proof. unfold window_taps. now rewrite length_map, length_seq. Qed.

Lemma window_taps_lookup (input : neurax_tensor_t) (c : neurax_pool_config_t)
    (batch ch out_y out_x py px : Z) :
  0 <= py < pool_height c -> 0 <= px < pool_width c ->
  window_taps input c batch ch out_y out_x !! Z.to_nat (py * pool_width c + px)
  = Some (neurax_get_tensor_value input batch
            (out_y * pool_stride_y c + py) (out_x * pool_stride_x c + px) ch).
Proof.
  intros Hy Hx. unfold window_taps.
  rewrite list_lookup_fmap, lookup_seq_lt by nia.
  cbn. rewrite Z2Nat.id by nia.
  replace ((py * pool_width c + px) / pool_width c) with py
    by (apply Z.div_unique_pos with px; lia).
  replace ((py * pool_width c + px) mod pool_width c) with px
    by (apply Z.mod_unique_pos with py; lia).
  reflexivity.
Qed.

(** The scan of a window that lies inside the input is the fold of
    [pool_step] over its elements. *)
Lemma pool_window_fold (input : neurax_tensor_t) (c : neurax_pool_config_t)
    (batch ch out_y out_x : Z) :
  0 < pool_height c <= 8 -> 0 < pool_width c <= 8 ->
  height input < 2 ^ 32 -> width input < 2 ^ 32 ->
  (forall py, 0 <= py < pool_height c ->
     0 <= out_y * pool_stride_y c + py < height input) ->
  (forall px, 0 <= px < pool_width c ->
     0 <= out_x * pool_stride_x c + px < width input) ->
  pool_window input c batch ch out_y out_x
  = fold_left (pool_step (pool_type c)) (window_taps input c batch ch out_y out_x)
      (if pool_type c =? NEURAX_POOL_MAX then F32.opp F32.FLT_MAX else F32.zero, 0).
Proof.
  intros Hph Hpw Hh Hw Hy Hx. unfold pool_window.
  set (init := (if pool_type c =? NEURAX_POOL_MAX then F32.opp F32.FLT_MAX else F32.zero, 0)).
  set (taps := window_taps input c batch ch out_y out_x).
  pose (P := fun (k : Z) (st : float * Z) =>
               st = fold_left (pool_step (pool_type c)) (take (Z.to_nat k) taps) init).
  assert (Hfin : P (pool_height c * pool_width c)
                   (for_loop (pool_height c) (fun py =>
                      for_loop (pool_width c) (fun px =>
                        pool_tap input c batch ch out_y out_x py px)) init)).
  { change (P (pool_height c * pool_width c)) with
      ((fun py st => P (py * pool_width c) st) (pool_height c)).
    apply for_loop_ind; [lia | reflexivity |].
    intros py st Hpy Hst.
    replace ((py + 1) * pool_width c) with (py * pool_width c + pool_width c) by lia.
    change (P (py * pool_width c + pool_width c)) with
      ((fun px st => P (py * pool_width c + px) st) (pool_width c)).
    apply for_loop_ind; [lia | now rewrite Z.add_0_r |].
    intros px st' Hpx Hst'. unfold P in *.
    rewrite pool_tap_inside; [| now apply Hy | now apply Hx | exact Hh | exact Hw |].
    - replace (Z.to_nat (py * pool_width c + (px + 1)))
        with (S (Z.to_nat (py * pool_width c + px))) by nia.
      erewrite take_S_r by (apply window_taps_lookup; lia).
      rewrite fold_left_app. cbn [fold_left]. now rewrite <- Hst'.
    - rewrite Hst', pool_step_count, length_take.
      subst init. cbn [snd]. nia. }
  unfold P in Hfin. rewrite Hfin. f_equal. apply take_ge.
  subst taps. rewrite window_taps_length. lia.
Qed.

Lemma pool_step_average (l : list float) (r : float) (n : Z) :
  fold_left (pool_step NEURAX_POOL_AVERAGE) l (r, n)
  = (fold_left F32.add l r, n + Z.of_nat (length l)).
Proof.
  revert r n. induction l as [| v l IH]; intros r n; cbn [fold_left length].
  - f_equal. lia.
  - unfold pool_step at 2. change (NEURAX_POOL_AVERAGE =? NEURAX_POOL_MAX) with false.
    cbv iota. rewrite IH. f_equal. lia.
Qed.

Lemma ltb_irrefl (x : float) : finite_number x -> F32.ltb x x = false.
Proof.
  intros [Hv Hr]. destruct (F32.ltb x x) eqn:E; [| reflexivity].
  apply ltb_to_Q in E; try assumption. now apply Qlt_irrefl in E.
Qed.

Lemma ltb_false_trans (r v t : float) :
  finite_number r -> finite_number v -> finite_number t ->
  F32.ltb r t = false -> F32.ltb r v = true -> F32.ltb v t = false.
Proof.
  intros [Hr1 Hr2] [Hv1 Hv2] [Ht1 Ht2] Hrt Hrv.
  destruct (F32.ltb v t) eqn:E; [| reflexivity].
  apply ltb_to_Q in E; try assumption.
  apply ltb_to_Q in Hrv; try assumption.
  assert (F32.to_Q r < F32.to_Q t)%Q as Hlt by (eapply Qlt_trans; eassumption).
  apply ltb_to_Q in Hlt; try assumption. congruence.
Qed.

Lemma pool_step_max (l seen : list float) (r : float) (n : Z) :
  n = Z.of_nat (length seen) ->
  Forall finite_number seen ->
  (seen <> [] ->
   finite_number r /\ In r seen /\ Forall (fun t => F32.ltb r t = false) seen) ->
  Forall finite_number l ->
  seen ++ l <> [] ->
  let r' := fst (fold_left (pool_step NEURAX_POOL_MAX) l (r, n)) in
  finite_number r' /\ In r' (seen ++ l) /\
  Forall (fun t => F32.ltb r' t = false) (seen ++ l).
Proof.
  revert seen r n. induction l as [| v l IH]; intros seen r n Hn Hfs Hseen Hl Hne r'.
  - subst r'. cbn [fold_left fst]. rewrite app_nil_r in *. now apply Hseen.
  - subst r'. cbn [fold_left]. unfold pool_step at 2.
    change (NEURAX_POOL_MAX =? NEURAX_POOL_MAX) with true. cbv iota.
    inversion Hl as [| v' l' Hv Hl']; subst.
    replace (seen ++ v :: l) with ((seen ++ [v]) ++ l) in * by now rewrite <- app_assoc.
    apply IH; [rewrite length_app; cbn [length]; lia | | | exact Hl' | exact Hne].
    { apply Forall_app. split; [exact Hfs | now constructor]. }
    intros _.
    destruct seen as [| s0 seen'].
    + cbn [length Z.of_nat]. change (0 =? 0) with true. rewrite orb_true_r.
      cbn [app]. split; [exact Hv |]. split; [now left |].
      constructor; [now apply ltb_irrefl | constructor].
    + destruct Hseen as (Hr & Hin & Hall); [discriminate |].
      replace (Z.of_nat (length (s0 :: seen')) =? 0) with false
        by (symmetry; apply Z.eqb_neq; cbn [length]; lia).
      rewrite orb_false_r.
      destruct (F32.ltb r v) eqn:E.
      * split; [exact Hv |]. split; [apply in_or_app; right; now left |].
        apply Forall_app. split; [| constructor; [now apply ltb_irrefl | constructor]].
        rewrite Forall_forall in Hall, Hfs |- *. intros t Ht.
        apply (ltb_false_trans r v t); try assumption; [now apply Hfs | now apply Hall].
      * split; [exact Hr |]. split; [apply in_or_app; now left |].
        apply Forall_app. split; [exact Hall |]. constructor; [exact E | constructor].
Qed.

Section PoolingWindows.

Variables (input : neurax_tensor_t) (c : neurax_pool_config_t).

Hypothesis Hvalid : neurax_validate_pool_config (Some c) = NEURAX_SUCCESS.
Hypothesis Hcfg : pool_config_uint32 c.
Hypothesis Hinput : tensor_uint32 input.
Hypothesis Hfits : pool_fits input c.

Lemma pool_out_dims :
  pool_out_height input c = (height input - pool_height c) / pool_stride_y c + 1 /\
  pool_out_width input c = (width input - pool_width c) / pool_stride_x c + 1.
Proof.
  destruct (validated_pool_config_positive c Hvalid Hcfg) as (Hpw & Hph & Hsx & Hsy & _).
  destruct Hfits as [Hfh Hfw]. unfold tensor_uint32, is_uint32 in Hinput.
  unfold pool_out_height, pool_out_width. split.
  - apply pool_out_size_no_wrap; lia.
  - apply pool_out_size_no_wrap; lia.
Qed.

Lemma pool_window_taps (batch ch out_y out_x : Z) :
  0 <= out_y < pool_out_height input c -> 0 <= out_x < pool_out_width input c ->
  pool_window input c batch ch out_y out_x
  = fold_left (pool_step (pool_type c)) (window_taps input c batch ch out_y out_x)
      (if pool_type c =? NEURAX_POOL_MAX then F32.opp F32.FLT_MAX else F32.zero, 0).
Proof.
  intros Hy Hx.
  destruct (validated_pool_config_positive c Hvalid Hcfg) as (Hpw & Hph & Hsx & Hsy & _).
  destruct Hfits as [Hfh Hfw]. unfold tensor_uint32, is_uint32 in Hinput.
  destruct pool_out_dims as [Eh Ew]. rewrite Eh in Hy. rewrite Ew in Hx.
  apply pool_window_fold; try lia.
  - intros py Hpy.
    apply (proj2 (pool_out_size_no_wrap (height input) (pool_height c) (pool_stride_y c)
                    ltac:(lia) ltac:(lia) ltac:(lia))); lia.
  - intros px Hpx.
    apply (proj2 (pool_out_size_no_wrap (width input) (pool_width c) (pool_stride_x c)
                    ltac:(lia) ltac:(lia) ltac:(lia))); lia.
Qed.

End PoolingWindows.

(** For a pooling configuration that passes the validation and a
    window that fits in the input: the expected output size is
    [(H - Ph) / stride_y + 1] by [(W - Pw) / stride_x + 1] and any
    other output is rejected; every window of the output lies inside
    the input, so the tap count is always [Ph * Pw]; and the average
    pooling stores the sum of the window, added row by row from 0.0,
    divided by [Ph * Pw]. *)
Theorem pooling_window_inside_input (input : neurax_tensor_t) (c : neurax_pool_config_t) :
  neurax_validate_pool_config (Some c) = NEURAX_SUCCESS ->
  pool_config_uint32 c -> tensor_uint32 input -> pool_fits input c ->
  (forall output,
      fst (neurax_cpu_pooling input c output)
      = if (height output =? (height input - pool_height c) / pool_stride_y c + 1) &&
           (width output =? (width input - pool_width c) / pool_stride_x c + 1)
        then NEURAX_SUCCESS else NEURAX_ERROR_INVALID_PARAM) /\
  (forall batch ch out_y out_x,
      0 <= out_y < (height input - pool_height c) / pool_stride_y c + 1 ->
      0 <= out_x < (width input - pool_width c) / pool_stride_x c + 1 ->
      snd (pool_window input c batch ch out_y out_x) = pool_height c * pool_width c /\
      (pool_type c = NEURAX_POOL_AVERAGE ->
       pool_output_value input c batch ch out_y out_x
       = F32.div (fold_left F32.add (window_taps input c batch ch out_y out_x) F32.zero)
                 (F32.of_Z (pool_height c * pool_width c)))).
Proof.
  intros Hvalid Hcfg Hinput Hfits.
  destruct (pool_out_dims input c Hvalid Hcfg Hinput Hfits) as [Eh Ew].
  destruct (validated_pool_config_positive c Hvalid Hcfg) as (Hpw & Hph & _).
  split.
  - intros output. unfold neurax_cpu_pooling. rewrite Eh, Ew.
    destruct (_ =? _); destruct (_ =? _); reflexivity.
  - intros batch ch out_y out_x Hy Hx.
    assert (Hwin := pool_window_taps input c Hvalid Hcfg Hinput Hfits batch ch out_y out_x
                      ltac:(rewrite Eh; exact Hy) ltac:(rewrite Ew; exact Hx)).
    split.
    + rewrite Hwin, pool_step_count, window_taps_length. cbn [snd]. lia.
    + intros Ht. unfold pool_output_value. rewrite Hwin, Ht.
      change (NEURAX_POOL_AVERAGE =? NEURAX_POOL_MAX) with false. cbv iota.
      rewrite pool_step_average, window_taps_length.
      change (NEURAX_POOL_AVERAGE =? NEURAX_POOL_AVERAGE) with true.
      replace (0 + Z.of_nat (Z.to_nat (pool_height c * pool_width c)))
        with (pool_height c * pool_width c) by nia.
      destruct (Z.ltb_spec 0 (pool_height c * pool_width c)); [reflexivity | nia].
Qed.

(** Under the same conditions, when the elements of a window are
    finite numbers, the maximum pooling stores an element of the window
    that no element of the window exceeds. *)
Theorem max_pooling_is_maximum (input : neurax_tensor_t) (c : neurax_pool_config_t)
    (batch ch out_y out_x : Z) :
  neurax_validate_pool_config (Some c) = NEURAX_SUCCESS ->
  pool_config_uint32 c -> tensor_uint32 input -> pool_fits input c ->
  pool_type c = NEURAX_POOL_MAX ->
  0 <= out_y < (height input - pool_height c) / pool_stride_y c + 1 ->
  0 <= out_x < (width input - pool_width c) / pool_stride_x c + 1 ->
  Forall finite_number (window_taps input c batch ch out_y out_x) ->
  In (pool_output_value input c batch ch out_y out_x)
     (window_taps input c batch ch out_y out_x) /\
  Forall (fun t => F32.ltb (pool_output_value input c batch ch out_y out_x) t = false)
     (window_taps input c batch ch out_y out_x).
Proof.
  intros Hvalid Hcfg Hinput Hfits Ht Hy Hx Hfin.
  destruct (pool_out_dims input c Hvalid Hcfg Hinput Hfits) as [Eh Ew].
  destruct (validated_pool_config_positive c Hvalid Hcfg) as (Hpw & Hph & _).
  assert (Hwin := pool_window_taps input c Hvalid Hcfg Hinput Hfits batch ch out_y out_x
                    ltac:(rewrite Eh; exact Hy) ltac:(rewrite Ew; exact Hx)).
  assert (Hval : pool_output_value input c batch ch out_y out_x
                 = fst (pool_window input c batch ch out_y out_x)).
  { unfold pool_output_value. destruct (pool_window _ _ _ _ _ _) as [r n].
    rewrite Ht. reflexivity. }
  rewrite Hval, Hwin, Ht.
  change (NEURAX_POOL_MAX =? NEURAX_POOL_MAX) with true. cbv iota.
  assert (Hne : window_taps input c batch ch out_y out_x <> []).
  { intros E. apply (f_equal length) in E. rewrite window_taps_length in E.
    cbn [length] in E. nia. }
  destruct (pool_step_max (window_taps input c batch ch out_y out_x) []
              (F32.opp F32.FLT_MAX) 0 eq_refl ltac:(constructor)
              ltac:(intros H; now contradiction H) Hfin Hne) as (_ & Hin & Hall).
  split; [exact Hin | exact Hall].
Qed.

Lemma pooling_window_inside_input_witness :
  let c := {| pool_width := 3; pool_height := 3; pool_stride_x := 1; pool_stride_y := 1;
              pool_type := NEURAX_POOL_AVERAGE |} in
  snd (pool_window input_1_to_9 c 0 0 0 0) = pool_height c * pool_width c /\
  (pool_type c = NEURAX_POOL_AVERAGE ->
   pool_output_value input_1_to_9 c 0 0 0 0
   = F32.div (fold_left F32.add (window_taps input_1_to_9 c 0 0 0 0) F32.zero)
             (F32.of_Z (pool_height c * pool_width c))).
Proof.
  intros c.
  apply (proj2 (pooling_window_inside_input input_1_to_9 c
                  eq_refl ltac:(decide_ranges) ltac:(decide_ranges) ltac:(decide_ranges)));
    decide_ranges.
Defined.

Lemma max_pooling_is_maximum_witness :
  let c := pool_2x2_config NEURAX_POOL_MAX in
  In (pool_output_value input_1_to_9 c 0 0 0 0) (window_taps input_1_to_9 c 0 0 0 0) /\
  Forall (fun t => F32.ltb (pool_output_value input_1_to_9 c 0 0 0 0) t = false)
    (window_taps input_1_to_9 c 0 0 0 0).
Proof.
  intros c.
  apply (max_pooling_is_maximum input_1_to_9 c 0 0 0 0
           eq_refl ltac:(decide_ranges) ltac:(decide_ranges) ltac:(decide_ranges) eq_refl
           ltac:(decide_ranges) ltac:(decide_ranges)).
  repeat constructor.
Defined.

(** ** Activation *)

Section ActivationKernel.

Variables tanhf expf : float -> float.

(** [neurax_cpu_activation] is an element-wise map: it always returns
    success; element [j] of the output, for [j] below the element count
    of the input, becomes the activation of element [j] of the input,
    written with the conversion of the element type of the output; the
    elements of the output from the element count of the input on, and
    the shape of the output, are left as they were. *)
Theorem activation_is_elementwise (input : neurax_tensor_t) (act : neurax_activation_t)
    (output : neurax_tensor_t) :
  is_Some (data output) ->
  exists buf : list cell,
    neurax_cpu_activation tanhf expf input act output
    = (NEURAX_SUCCESS, with_buffer output buf) /\
    length buf = length (buffer output) /\
    forall j : nat, (j < length (buffer output))%nat ->
      buf !! j
      = if decide (j < Z.to_nat (neurax_tensor_total_elements (Some input)))%nat
        then Some (written_cell (data_type output)
                     (neurax_apply_activation tanhf expf
                        (neurax_get_tensor_element input (Z.of_nat j)) act))
        else buffer output !! j.
Proof.
  intros Hdata.
  set (g := fun i : Z =>
              written_cell (data_type output)
                (neurax_apply_activation tanhf expf (neurax_get_tensor_element input i) act)).
  exists (for_loop (neurax_tensor_total_elements (Some input))
            (fun i buf => store buf i (g i)) (buffer output)).
  destruct (for_loop_store g (neurax_tensor_total_elements (Some input)) (buffer output))
    as [Hlen Hget].
  split; [| split; [exact Hlen |]].
  - unfold neurax_cpu_activation. f_equal. unfold for_loop.
    apply (for_range_buffer output); [| reflexivity | exact Hdata].
    intros i t Hs _. rewrite set_tensor_element_written.
    destruct (same_shape_fields t output Hs) as (_ & _ & _ & _ & ->). reflexivity.
  - intros j Hj. rewrite (Hget j Hj).
    destruct (decide (0 <= j < 0 + Z.to_nat (neurax_tensor_total_elements (Some input)))%nat),
      (decide (j < Z.to_nat (neurax_tensor_total_elements (Some input)))%nat);
      try reflexivity; lia.
Qed.

(** The rectifier [fmax(0.0f, value)] never returns a NaN or a number
    below zero: a value above zero is returned as it is, and every
    other value, a NaN included, gives 0.0.  Applying it twice is
    applying it once. *)
Theorem relu_never_negative (value : float) :
  let r := neurax_apply_activation tanhf expf value NEURAX_ACTIVATION_RELU in
  F32.is_nan r = false /\
  F32.ltb r F32.zero = false /\
  r = (if F32.ltb F32.zero value then value else F32.zero) /\
  neurax_apply_activation tanhf expf r NEURAX_ACTIVATION_RELU = r.
Proof.
  unfold neurax_apply_activation.
  change (NEURAX_ACTIVATION_RELU =? NEURAX_ACTIVATION_RELU) with true. cbv iota zeta.
  destruct value as [s | s | | s m e]; try destruct s; cbn; auto.
Qed.

End ActivationKernel.

Lemma activation_is_elementwise_witness :
  exists buf : list cell,
    neurax_cpu_activation (fun x => x) (fun x => x)
      (tensor_f32 2 1 1 1 [Flt f32_minus_5; Flt f32_3]) NEURAX_ACTIVATION_RELU
      (tensor_f32 3 1 1 1 [Flt f32_7; Flt f32_7; Flt f32_7])
    = (NEURAX_SUCCESS, with_buffer (tensor_f32 3 1 1 1 [Flt f32_7; Flt f32_7; Flt f32_7]) buf) /\
    buf !! 0%nat = Some (Flt F32.zero) /\
    buf !! 1%nat = Some (Flt f32_3) /\
    buf !! 2%nat = Some (Flt f32_7).
Proof.
  destruct (activation_is_elementwise (fun x => x) (fun x => x)
              (tensor_f32 2 1 1 1 [Flt f32_minus_5; Flt f32_3]) NEURAX_ACTIVATION_RELU
              (tensor_f32 3 1 1 1 [Flt f32_7; Flt f32_7; Flt f32_7]))
    as (buf & E & _ & H); [now exists [Flt f32_7; Flt f32_7; Flt f32_7] |].
  exists buf. split; [exact E |].
  split; [| split].
  - rewrite (H 0%nat) by (cbn; lia). reflexivity.
  - rewrite (H 1%nat) by (cbn; lia). reflexivity.
  - rewrite (H 2%nat) by (cbn; lia). reflexivity.
Defined.

(** ** Element access *)

Lemma mixed_radix_inj (n q r q' r' : Z) :
  0 <= r < n -> 0 <= r' < n -> q * n + r = q' * n + r' -> q = q' /\ r = r'.
Proof.
  intros Hr Hr' E.
  destruct (Z.lt_trichotomy q q') as [H | [H | H]].
  - exfalso. assert ((q + 1) * n <= q' * n) by (apply Z.mul_le_mono_nonneg_r; lia). lia.
  - subst q'. split; [reflexivity | lia].
  - exfalso. assert ((q' + 1) * n <= q * n) by (apply Z.mul_le_mono_nonneg_r; lia). lia.
Qed.

Lemma tensor_index_bound (t : neurax_tensor_t) (batch y x c : Z) :
  in_tensor t batch y x c ->
  0 <= ((batch * height t + y) * width t + x) * channels t + c
    < width t * height t * channels t * batch_size t.
Proof.
  intros (Hb & Hy & Hx & Hc).
  assert (0 <= batch * height t + y < batch_size t * height t) by nia.
  assert (0 <= (batch * height t + y) * width t + x < batch_size t * height t * width t) by nia.
  nia.
Qed.

Lemma tensor_index_small (t : neurax_tensor_t) (batch y x c : Z) :
  in_tensor t batch y x c ->
  width t * height t * channels t * batch_size t < 2 ^ 32 ->
  tensor_index t batch y x c
  = ((batch * height t + y) * width t + x) * channels t + c.
Proof.
  intros Hin Hsz. unfold tensor_index. apply u32_small.
  pose proof (tensor_index_bound t batch y x c Hin). lia.
Qed.

Lemma tensor_index_inj (t : neurax_tensor_t) (b y x c b' y' x' c' : Z) :
  in_tensor t b y x c -> in_tensor t b' y' x' c' ->
  width t * height t * channels t * batch_size t < 2 ^ 32 ->
  tensor_index t b y x c = tensor_index t b' y' x' c' ->
  b = b' /\ y = y' /\ x = x' /\ c = c'.
Proof.
  intros Hin Hin' Hsz E.
  rewrite !tensor_index_small in E by assumption.
  destruct Hin as (Hb & Hy & Hx & Hc), Hin' as (Hb' & Hy' & Hx' & Hc').
  apply mixed_radix_inj in E as [E ->]; [| lia | lia].
  apply mixed_radix_inj in E as [E ->]; [| lia | lia].
  apply mixed_radix_inj in E as [-> ->]; [| lia | lia].
  auto.
Qed.

Lemma get_tensor_value_lookup (t : neurax_tensor_t) (batch y x ch : Z) :
  neurax_get_tensor_value t batch y x ch
  = match data_type t with
    | NEURAX_DATA_FLOAT32 => load_flt (buffer t) (tensor_index t batch y x ch)
    | _ => F32.of_Z (load_int (buffer t) (tensor_index t batch y x ch))
    end.
Proof. unfold neurax_get_tensor_value, tensor_index. now destruct (data_type t). Qed.

(** Writing then reading an element.  For a tensor whose element count
    does not exceed 32 bits and whose buffer holds all its elements,
    and for positions inside the tensor: the index of a position is
    below the element count; reading the position just written returns
    the value as converted by the write and the read (the value itself
    for float32); and the write leaves every other position as it was. *)
Theorem set_then_get_tensor_value (t : neurax_tensor_t) (batch y x c : Z) (value : float) :
  in_tensor t batch y x c ->
  width t * height t * channels t * batch_size t < 2 ^ 32 ->
  length (buffer t) = Z.to_nat (width t * height t * channels t * batch_size t) ->
  0 <= tensor_index t batch y x c < neurax_tensor_total_elements (Some t) /\
  neurax_get_tensor_value (neurax_set_tensor_value t batch y x c value) batch y x c
  = read_cell (data_type t) (written_cell (data_type t) value) /\
  (data_type t = NEURAX_DATA_FLOAT32 ->
   neurax_get_tensor_value (neurax_set_tensor_value t batch y x c value) batch y x c
   = value) /\
  (forall batch' y' x' c',
      in_tensor t batch' y' x' c' ->
      (batch', y', x', c') <> (batch, y, x, c) ->
      neurax_get_tensor_value (neurax_set_tensor_value t batch y x c value) batch' y' x' c'
      = neurax_get_tensor_value t batch' y' x' c').
Proof.
  intros Hin Hsz Hlen.
  pose proof (tensor_index_bound t batch y x c Hin) as Hb.
  pose proof (tensor_index_small t batch y x c Hin Hsz) as Hidx.
  assert (Htot : neurax_tensor_total_elements (Some t)
                 = width t * height t * channels t * batch_size t).
  { unfold neurax_tensor_total_elements. apply u32_small. lia. }
  assert (Hget : neurax_get_tensor_value (neurax_set_tensor_value t batch y x c value)
                   batch y x c
                 = read_cell (data_type t) (written_cell (data_type t) value)).
  { rewrite set_tensor_value_written.
    erewrite get_tensor_value_cell; [reflexivity |].
    rewrite buffer_with_buffer. unfold store.
    change (tensor_index (with_buffer t _) batch y x c) with (tensor_index t batch y x c).
    apply list_lookup_insert_eq. rewrite Hlen, Hidx. lia. }
  split; [rewrite Htot, Hidx; lia |].
  split; [exact Hget |]. split.
  - intros Ht. rewrite Hget, Ht. reflexivity.
  - intros b' y' x' c' Hin' Hne.
    rewrite set_tensor_value_written, !get_tensor_value_lookup.
    change (data_type (with_buffer t _)) with (data_type t).
    change (tensor_index (with_buffer t _) b' y' x' c') with (tensor_index t b' y' x' c').
    rewrite buffer_with_buffer.
    assert (Hdiff : Z.to_nat (tensor_index t batch y x c)
                    <> Z.to_nat (tensor_index t b' y' x' c')).
    { intros E. apply Hne.
      pose proof (tensor_index_bound t b' y' x' c' Hin') as Hb'.
      pose proof (tensor_index_small t b' y' x' c' Hin' Hsz) as Hidx'.
      assert (E' : tensor_index t b' y' x' c' = tensor_index t batch y x c) by lia.
      destruct (tensor_index_inj t b' y' x' c' batch y x c Hin' Hin Hsz E')
        as (-> & -> & -> & ->). reflexivity. }
    unfold load_flt, load_int, store.
    rewrite list_lookup_insert_ne by exact Hdiff. reflexivity.
Qed.

Lemma set_then_get_tensor_value_witness :
  neurax_get_tensor_value (neurax_set_tensor_value input_1_to_9 0 1 2 0 f32_1_75) 0 1 2 0
  = f32_1_75 /\
  neurax_get_tensor_value (neurax_set_tensor_value input_1_to_9 0 1 2 0 f32_1_75) 0 2 1 0
  = f32_8.
Proof.
  destruct (set_then_get_tensor_value input_1_to_9 0 1 2 0 f32_1_75)
    as (_ & _ & Hf & Hother); [decide_ranges | decide_ranges | reflexivity |].
  split; [now apply Hf |].
  rewrite Hother; [reflexivity | decide_ranges | discriminate].
Defined.

(** ** Data type conversion *)

Lemma convert_element_written (src : list cell) (src_type dst_type : neurax_data_type_t)
    (i : Z) (dst : list cell) :
  convert_element src src_type dst_type i dst
  = store dst i (written_cell dst_type (convert_read src src_type i)).
Proof. unfold convert_element. now destruct dst_type. Qed.

Lemma lookup_copy (s d : list cell) (n j : nat) :
  (n <= length s)%nat -> (n <= length d)%nat ->
  length (take n s ++ drop n d) = length d /\
  (take n s ++ drop n d) !! j = if decide (j < n)%nat then s !! j else d !! j.
Proof.
  intros Hs Hd. split.
  - rewrite length_app, length_take, length_drop. lia.
  - destruct (decide (j < n)%nat).
    + rewrite lookup_app_l by (rewrite length_take; lia). now apply lookup_take_lt.
    + rewrite lookup_app_r by (rewrite length_take; lia).
      rewrite length_take, lookup_drop. f_equal. lia.
Qed.

Lemma convert_cases (src : option (list cell)) (src_type : neurax_data_type_t)
    (dst : option (list cell)) (dst_type : neurax_data_type_t) (num_elements : Z) :
  (src = None \/ dst = None \/ num_elements = 0 ->
   neurax_convert_data_type src src_type dst dst_type num_elements
   = (NEURAX_ERROR_INVALID_PARAM, dst)) /\
  (forall s d,
      src = Some s -> dst = Some d -> num_elements <> 0 ->
      fst (neurax_convert_data_type src src_type dst dst_type num_elements)
      = NEURAX_SUCCESS) /\
  (forall s d,
      src = Some s -> dst = Some d -> 0 < num_elements ->
      (Z.to_nat num_elements <= length s)%nat ->
      (Z.to_nat num_elements <= length d)%nat ->
      exists d',
        neurax_convert_data_type src src_type dst dst_type num_elements
        = (NEURAX_SUCCESS, Some d') /\
        length d' = length d /\
        forall j : nat, (j < length d)%nat ->
          d' !! j = if decide (j < Z.to_nat num_elements)%nat
                    then converted_cell s src_type dst_type j
                    else d !! j).
Proof.
  refine (conj _ (conj _ _)).
  - intros H. unfold neurax_convert_data_type.
    destruct src as [s |], dst as [d |]; try reflexivity.
    destruct H as [H | [H | ->]]; try discriminate. reflexivity.
  - intros s d -> -> Hn. unfold neurax_convert_data_type.
    destruct (Z.eqb_spec num_elements 0); [contradiction |].
    now destruct (data_type_eqb src_type dst_type).
  - intros s d -> -> Hn Hs Hd. unfold neurax_convert_data_type, converted_cell.
    destruct (Z.eqb_spec num_elements 0); [lia |].
    destruct (data_type_eqb src_type dst_type).
    + exists (take (Z.to_nat num_elements) s ++ drop (Z.to_nat num_elements) d).
      split; [reflexivity |].
      split; [exact (proj1 (lookup_copy s d _ 0%nat Hs Hd)) |].
      intros j _. exact (proj2 (lookup_copy s d _ j Hs Hd)).
    + exists (for_loop num_elements (convert_element s src_type dst_type) d).
      split; [reflexivity |].
      assert (Hov : overwrites (for_loop num_elements (convert_element s src_type dst_type))
                      0 (Z.to_nat num_elements)
                      (fun j => written_cell dst_type
                                  (convert_read s src_type (Z.of_nat j)))).
      { eapply overwrites_ext; [| apply (for_loop_store
                                  (fun i => written_cell dst_type (convert_read s src_type i)))].
        intros buf. unfold for_loop. apply for_range_ext.
        intros i b. apply convert_element_written. }
      destruct (Hov d) as [Hlen Hget]. split; [exact Hlen |].
      intros j Hj. rewrite (Hget j Hj).
      destruct (decide (0 <= j < 0 + Z.to_nat num_elements)%nat),
        (decide (j < Z.to_nat num_elements)%nat); try reflexivity; lia.
Qed.

(** [neurax_convert_data_type] fails, with [InvalidParam] and without
    touching the destination, exactly when a buffer pointer is null or
    the element count is 0.  Otherwise it succeeds; for buffers that
    hold at least [num_elements] elements it keeps the length of the
    destination, stores the converted source element (a copy when the
    two types are the same) in each of the first [num_elements] cells
    and leaves the cells after them as they were. *)
Theorem convert_data_type_frame (src : option (list cell)) (src_type : neurax_data_type_t)
    (dst : option (list cell)) (dst_type : neurax_data_type_t) (num_elements : Z) :
  (src = None \/ dst = None \/ num_elements = 0 ->
   neurax_convert_data_type src src_type dst dst_type num_elements
   = (NEURAX_ERROR_INVALID_PARAM, dst)) /\
  (forall s d,
      src = Some s -> dst = Some d -> num_elements <> 0 ->
      fst (neurax_convert_data_type src src_type dst dst_type num_elements)
      = NEURAX_SUCCESS) /\
  (forall s d,
      src = Some s -> dst = Some d -> 0 < num_elements ->
      (Z.to_nat num_elements <= length s)%nat ->
      (Z.to_nat num_elements <= length d)%nat ->
      exists d',
        neurax_convert_data_type src src_type dst dst_type num_elements
        = (NEURAX_SUCCESS, Some d') /\
        length d' = length d /\
        forall j : nat, (j < length d)%nat ->
          d' !! j = if decide (j < Z.to_nat num_elements)%nat
                    then converted_cell s src_type dst_type j
                    else d !! j).
Proof. exact (convert_cases src src_type dst dst_type num_elements). Qed.

Lemma convert_data_type_frame_witness :
  neurax_convert_data_type (Some [Int 200; Int 7]) NEURAX_DATA_UINT8
    (Some [Int 1; Int 2; Int 3]) NEURAX_DATA_INT8 0
  = (NEURAX_ERROR_INVALID_PARAM, Some [Int 1; Int 2; Int 3]) /\
  exists d',
    neurax_convert_data_type (Some [Int 200; Int 7]) NEURAX_DATA_UINT8
      (Some [Int 1; Int 2; Int 3]) NEURAX_DATA_INT8 2
    = (NEURAX_SUCCESS, Some d') /\
    d' !! 0%nat = Some (Int 127) /\ d' !! 1%nat = Some (Int 7) /\ d' !! 2%nat = Some (Int 3).
Proof.
  split.
  - apply (proj1 (convert_data_type_frame _ _ _ _ _)). right. right. reflexivity.
  - destruct (proj2 (proj2 (convert_data_type_frame (Some [Int 200; Int 7]) NEURAX_DATA_UINT8
                              (Some [Int 1; Int 2; Int 3]) NEURAX_DATA_INT8 2))
                [Int 200; Int 7] [Int 1; Int 2; Int 3] eq_refl eq_refl)
      as (d' & E & _ & H); [lia | cbn; lia | cbn; lia |].
    exists d'. split; [exact E |]. split; [| split].
    + rewrite (H 0%nat) by (cbn; lia). reflexivity.
    + rewrite (H 1%nat) by (cbn; lia). reflexivity.
    + rewrite (H 2%nat) by (cbn; lia). reflexivity.
Defined.

Lemma written_cell_of_Z (type : neurax_data_type_t) (z : Z) :
  type <> NEURAX_DATA_FLOAT32 ->
  type_min type <= z <= type_max type ->
  written_cell type (F32.of_Z z) = Int z.
Proof.
  intros Ht Hz.
  assert (Hr : - 2 ^ 24 < z < 2 ^ 24) by (destruct type; cbn in Hz; lia).
  destruct (of_Z_exact z Hr) as (Hv & Hreal & Hq & _).
  rewrite written_cell_stored by exact Hv.
  destruct type; try contradiction; cbn [stored_cell]; f_equal;
    now apply saturate_trunc_exact.
Qed.

Lemma widened_cell (a b : neurax_data_type_t) (z : Z) :
  type_fits a b -> type_min a <= z <= type_max a ->
  read_cell b (written_cell b (read_cell a (Int z))) = F32.of_Z z.
Proof.
  intros [Ha Hb] Hz.
  assert (Hra : read_cell a (Int z) = F32.of_Z z) by (destruct a; try contradiction; reflexivity).
  rewrite Hra.
  destruct Hb as [-> | Hb]; [reflexivity |].
  destruct b; try reflexivity;
    (rewrite written_cell_of_Z by (try discriminate; lia)); reflexivity.
Qed.

Lemma convert_read_cell (src : list cell) (type : neurax_data_type_t) (j : nat) (c : cell) :
  src !! j = Some c -> convert_read src type (Z.of_nat j) = read_cell type c.
Proof.
  intros H. unfold convert_read, read_cell, load_int, load_flt.
  rewrite Nat2Z.id, H. now destruct type, c.
Qed.

Lemma data_type_eqb_eq (a b : neurax_data_type_t) : data_type_eqb a b = true <-> a = b.
Proof. destruct a, b; cbn; split; congruence. Qed.

(** Widening and narrowing.  The elements of an integer element type
    converted to a type that holds all its values (float32, a wider
    integer type, or the type itself) and converted back are the
    elements one started from. *)
Theorem convert_widen_narrow_round_trip (a b : neurax_data_type_t)
    (src mid dst : list cell) (n : Z) :
  type_fits a b -> 0 < n ->
  (Z.to_nat n <= length src)%nat -> (Z.to_nat n <= length mid)%nat ->
  (Z.to_nat n <= length dst)%nat ->
  Forall (cell_ok a) (take (Z.to_nat n) src) ->
  exists mid' dst',
    neurax_convert_data_type (Some src) a (Some mid) b n = (NEURAX_SUCCESS, Some mid') /\
    neurax_convert_data_type (Some mid') b (Some dst) a n = (NEURAX_SUCCESS, Some dst') /\
    take (Z.to_nat n) dst' = take (Z.to_nat n) src /\
    drop (Z.to_nat n) dst' = drop (Z.to_nat n) dst.
Proof.
  intros Hfit Hn Hs Hm Hd Hok.
  destruct (proj2 (proj2 (convert_cases (Some src) a (Some mid) b n))
              src mid eq_refl eq_refl Hn Hs Hm) as (mid' & E1 & L1 & G1).
  destruct (proj2 (proj2 (convert_cases (Some mid') b (Some dst) a n))
              mid' dst eq_refl eq_refl Hn ltac:(lia) Hd) as (dst' & E2 & L2 & G2).
  exists mid', dst'. split; [exact E1 |]. split; [exact E2 |].
  assert (Hcell : forall j, (j < Z.to_nat n)%nat -> dst' !! j = src !! j).
  { intros j Hj.
    rewrite (G2 j ltac:(lia)). destruct (decide (j < Z.to_nat n)%nat); [| lia].
    assert (Hmid := G1 j ltac:(lia)).
    destruct (decide (j < Z.to_nat n)%nat); [| lia].
    unfold converted_cell in *.
    destruct (lookup_lt_is_Some_2 src j ltac:(lia)) as [c Hc].
    assert (Hcok : cell_ok a c).
    { rewrite Forall_forall in Hok. apply Hok.
      apply (list_elem_of_lookup_2 _ j). rewrite lookup_take_lt by lia. exact Hc. }
    destruct (data_type_eqb a b) eqn:Eab.
    - apply data_type_eqb_eq in Eab. subst b.
      replace (data_type_eqb a a) with true by (symmetry; now apply data_type_eqb_eq).
      congruence.
    - replace (data_type_eqb b a) with false.
      2: { destruct (data_type_eqb b a) eqn:Eba; [| reflexivity].
           apply data_type_eqb_eq in Eba. subst b.
           assert (data_type_eqb a a = true) by now apply data_type_eqb_eq. congruence. }
      rewrite (convert_read_cell mid' b j _ Hmid).
      rewrite (convert_read_cell src a j c Hc).
      destruct Hfit as [Ha Hb].
      destruct c as [z | f]; [| destruct a; contradiction].
      assert (Hz : type_min a <= z <= type_max a) by (destruct a; try contradiction; exact Hcok).
      rewrite (widened_cell a b z (conj Ha Hb) Hz), Hc.
      f_equal. now apply written_cell_of_Z. }
  split.
  - apply list_eq. intros j.
    destruct (decide (j < Z.to_nat n)%nat).
    + rewrite !lookup_take_lt by lia. now apply Hcell.
    + rewrite !lookup_take_ge by lia. reflexivity.
  - apply list_eq. intros j. rewrite !lookup_drop.
    destruct (decide (Z.to_nat n + j < length dst)%nat).
    + rewrite (G2 _ l). destruct (decide (Z.to_nat n + j < Z.to_nat n)%nat); [lia | reflexivity].
    + rewrite !lookup_ge_None_2 by lia. reflexivity.
Qed.

Lemma convert_widen_narrow_round_trip_witness :
  exists mid' dst',
    neurax_convert_data_type (Some [Int (-128); Int 127; Int 5]) NEURAX_DATA_INT8
      (Some [Int 0; Int 0]) NEURAX_DATA_INT16 2 = (NEURAX_SUCCESS, Some mid') /\
    neurax_convert_data_type (Some mid') NEURAX_DATA_INT16
      (Some [Int 9; Int 9; Int 9]) NEURAX_DATA_INT8 2 = (NEURAX_SUCCESS, Some dst') /\
    take 2 dst' = [Int (-128); Int 127] /\ drop 2 dst' = [Int 9].
Proof.
  apply (convert_widen_narrow_round_trip NEURAX_DATA_INT8 NEURAX_DATA_INT16
           [Int (-128); Int 127; Int 5] [Int 0; Int 0] [Int 9; Int 9; Int 9] 2).
  - split; [discriminate | right; cbn; lia].
  - lia.
  - cbn; lia.
  - cbn; lia.
  - cbn; lia.
  - repeat constructor; cbn; lia.
Defined.

(** ** Waiting for the hardware *)

Lemma register_writes_app (w1 w2 : trace) :
  register_writes (w1 ++ w2) = register_writes w1 + register_writes w2.
Proof.
  induction w1 as [| ev w1 IH]; cbn [app register_writes]; [lia |].
  destruct ev as [i v | i v | u]; try exact IH. lia.
Qed.

Section Waiting.

Variable device_read : trace -> Z -> Z.

Lemma wait_loop_never_completes (dev : neurax_device_t) (limit : Z) (k : nat) :
  hardware_bound dev -> never_completes device_read ->
  limit <= 2 ^ 32 - 100 ->
  forall (fuel : nat) (elapsed : Z) (w : trace),
    0 <= elapsed -> elapsed + 100 * Z.of_nat k = limit -> (k < fuel)%nat ->
    exists w',
      wait_loop device_read fuel dev limit elapsed w = (NEURAX_ERROR_TIMEOUT, w') /\
      status_reads w' = status_reads w + Z.of_nat k /\
      slept w' = slept w + 100 * Z.of_nat k /\
      register_writes w' = register_writes w.
Proof.
  intros Hb Hnc Hlim. induction k as [| k IH]; intros fuel elapsed w He Hk Hf.
  - destruct fuel as [| fuel]; [lia |]. exists w. cbn [wait_loop].
    destruct (Z.ltb_spec elapsed limit); [lia |]. repeat split; lia.
  - destruct fuel as [| fuel]; [lia |]. cbn [wait_loop].
    destruct (Z.ltb_spec elapsed limit); [| lia].
    rewrite (read_reg_bound device_read dev NEURAX_REG_STATUS w Hb).
    change (NEURAX_REG_STATUS / 4) with 1.
    destruct (Hnc w) as [He0 Hd0]. rewrite He0, Hd0. cbn [Z.eqb negb].
    rewrite (u32_small (elapsed + 100)) by lia.
    destruct (IH fuel (elapsed + 100)
                (usleep 100 (w ++ [RegRead 1 (u32 (device_read w 1))]))
                ltac:(lia) ltac:(lia) ltac:(lia)) as (w' & E & Hr & Hs & Hw).
    exists w'. split; [exact E |].
    unfold usleep in Hr, Hs, Hw.
    rewrite !status_reads_app in Hr. rewrite !slept_app in Hs.
    rewrite !register_writes_app in Hw.
    cbn [status_reads slept register_writes] in Hr, Hs, Hw. repeat split; lia.
Qed.

(** The timeout of [neurax_wait_for_completion] is exact.  Without
    hardware the function returns success at once.  On a device bound
    to hardware whose status register never shows the done or error
    bit, and for a timeout of at most 4294967 ms, it returns [Timeout]
    after reading the status register [10 * timeout_ms] times and
    sleeping [1000 * timeout_ms] microseconds in all, without writing
    any register; a timeout of 0 returns [Timeout] without any
    access. *)
Theorem wait_for_completion_timeout (dev : neurax_device_t) (timeout_ms : Z) (w : trace) :
  (hardware_available dev = false ->
   neurax_wait_for_completion device_read dev timeout_ms w = (NEURAX_SUCCESS, w)) /\
  (hardware_bound dev -> never_completes device_read ->
   0 <= timeout_ms <= 4294967 ->
   exists w',
     neurax_wait_for_completion device_read dev timeout_ms w = (NEURAX_ERROR_TIMEOUT, w') /\
     status_reads w' = status_reads w + 10 * timeout_ms /\
     slept w' = slept w + 1000 * timeout_ms /\
     register_writes w' = register_writes w /\
     (timeout_ms = 0 -> w' = w)).
Proof.
  split.
  - intros H. unfold neurax_wait_for_completion. now rewrite H.
  - intros Hb Hnc Ht. unfold neurax_wait_for_completion.
    destruct Hb as (Hi & Ha & Hu & Hr) eqn:Eb. rewrite Ha. cbn [negb].
    rewrite (u32_small (timeout_ms * 1000)) by lia.
    assert (Hdiv : timeout_ms * 1000 / 100 = 10 * timeout_ms).
    { replace (timeout_ms * 1000) with (10 * timeout_ms * 100) by lia.
      apply Z.div_mul. lia. }
    unfold wait_fuel.
    destruct (Z.leb_spec (timeout_ms * 1000) (2 ^ 32 - 100)); [| lia].
    rewrite Hdiv.
    destruct (wait_loop_never_completes dev (timeout_ms * 1000) (Z.to_nat (10 * timeout_ms))
                (conj Hi (conj Ha (conj Hu Hr))) Hnc ltac:(lia)
                (Z.to_nat (10 * timeout_ms + 2)) 0 w ltac:(lia) ltac:(lia) ltac:(lia))
      as (w' & E & H1 & H2 & H3).
    exists w'. split; [exact E |].
    rewrite Z2Nat.id in H1, H2 by lia.
    repeat split; try lia.
    intros ->. change (Z.to_nat (10 * 0 + 2)) with 2%nat in E.
    cbn [wait_loop] in E. change (0 <? 0 * 1000) with false in E. cbv iota in E.
    congruence.
Qed.

Lemma wait_first_status (dev : neurax_device_t) (timeout_ms : Z) (w : trace) :
  hardware_bound dev ->
  0 < u32 (timeout_ms * 1000) ->
  let status := u32 (device_read w 1) in
  (Z.land status STAT_ERROR <> 0 ->
   neurax_wait_for_completion device_read dev timeout_ms w
   = (NEURAX_ERROR_HARDWARE_FAILURE, w ++ [RegRead 1 status])) /\
  (Z.land status STAT_ERROR = 0 -> Z.land status STAT_DONE <> 0 ->
   neurax_wait_for_completion device_read dev timeout_ms w
   = (NEURAX_SUCCESS, w ++ [RegRead 1 status])).
Proof.
  intros Hb Ht status. unfold neurax_wait_for_completion.
  destruct Hb as (Hi & Ha & Hu & Hr) eqn:Eb. rewrite Ha. cbn [negb].
  set (limit := u32 (timeout_ms * 1000)) in *.
  assert (Hfuel : exists f, wait_fuel limit = S f).
  { unfold wait_fuel. destruct (limit <=? 2 ^ 32 - 100).
    - exists (Z.to_nat (limit / 100 + 1)).
      assert (0 <= limit / 100) by (apply Z.div_pos; lia). lia.
    - exists (Z.to_nat (2 ^ 30 + 1)). lia. }
  destruct Hfuel as [f ->]. cbn [wait_loop].
  destruct (Z.ltb_spec 0 limit); [| lia].
  rewrite (read_reg_bound device_read dev NEURAX_REG_STATUS w
             (conj Hi (conj Ha (conj Hu Hr)))).
  change (NEURAX_REG_STATUS / 4) with 1. fold status.
  split.
  - intros He. destruct (Z.eqb_spec (Z.land status STAT_ERROR) 0); [contradiction |].
    reflexivity.
  - intros He Hd. rewrite He. cbn [Z.eqb negb].
    destruct (Z.eqb_spec (Z.land status STAT_DONE) 0); [contradiction |]. reflexivity.
Qed.

Lemma timeout_limit_zero (timeout_ms : Z) :
  u32 (timeout_ms * 1000) = 0 <-> timeout_ms mod 2 ^ 29 = 0.
Proof.
  unfold u32. change (2 ^ 32) with 4294967296. change (2 ^ 29) with 536870912.
  split; intros H.
  - apply Z.mod_divide in H; [| lia]. apply Z.mod_divide; [lia |].
    apply (Z.gauss _ 125).
    + destruct H as [q Hq]. exists q. lia.
    + reflexivity.
  - apply Z.mod_divide in H; [| lia]. apply Z.mod_divide; [lia |].
    destruct H as [q Hq]. exists (125 * q). lia.
Qed.

(** The first status that shows the error bit or the done bit decides,
    and the error bit wins.  The limit of the loop is the product
    [timeout_ms * 1000] in [uint32_t]; it is 0 exactly when the timeout
    is a multiple of 2^29 ms, 0 included.  On a device bound to
    hardware: when the limit is 0 the call returns [Timeout] without
    any access; when it is not, a first status with the error bit gives
    [HardwareFailure] even when the done bit is set too, and a first
    status with the done bit alone gives success; the status register
    is read once and the call does not sleep. *)
Theorem wait_for_completion_first_status (dev : neurax_device_t) (timeout_ms : Z) (w : trace) :
  hardware_bound dev ->
  let status := u32 (device_read w 1) in
  (u32 (timeout_ms * 1000) = 0 <-> timeout_ms mod 2 ^ 29 = 0) /\
  (timeout_ms mod 2 ^ 29 = 0 ->
   neurax_wait_for_completion device_read dev timeout_ms w = (NEURAX_ERROR_TIMEOUT, w)) /\
  (timeout_ms mod 2 ^ 29 <> 0 ->
   (Z.land status STAT_ERROR <> 0 ->
    neurax_wait_for_completion device_read dev timeout_ms w
    = (NEURAX_ERROR_HARDWARE_FAILURE, w ++ [RegRead 1 status])) /\
   (Z.land status STAT_ERROR = 0 -> Z.land status STAT_DONE <> 0 ->
    neurax_wait_for_completion device_read dev timeout_ms w
    = (NEURAX_SUCCESS, w ++ [RegRead 1 status]))).
Proof.
  intros Hb status. split; [apply timeout_limit_zero |]. split.
  - intros H0. apply timeout_limit_zero in H0.
    unfold neurax_wait_for_completion.
    destruct Hb as (_ & Ha & _). rewrite Ha, H0. reflexivity.
  - intros H0. apply (wait_first_status dev timeout_ms w Hb).
    pose proof (timeout_limit_bound timeout_ms).
    assert (u32 (timeout_ms * 1000) <> 0) by (now rewrite timeout_limit_zero).
    lia.
Qed.

End Waiting.

Lemma wait_for_completion_timeout_witness :
  exists w',
    neurax_wait_for_completion (fun _ _ => STAT_BUSY) bound_device 2 [] 
    = (NEURAX_ERROR_TIMEOUT, w') /\
    status_reads w' = status_reads [] + 10 * 2 /\
    slept w' = slept [] + 1000 * 2 /\
    register_writes w' = register_writes [] /\
    (2 = 0 -> w' = []).
Proof.
  apply (proj2 (wait_for_completion_timeout (fun _ _ => STAT_BUSY) bound_device 2 [])).
  - exact bound_device_is_bound.
  - intros w. split; reflexivity.
  - lia.
Defined.

Lemma wait_for_completion_first_status_witness :
  neurax_wait_for_completion (fun _ _ => Z.lor STAT_ERROR STAT_DONE) bound_device 5000 []
  = (NEURAX_ERROR_HARDWARE_FAILURE, [] ++ [RegRead 1 6]) /\
  neurax_wait_for_completion (fun _ _ => Z.lor STAT_ERROR STAT_DONE) bound_device
    536870912 []
  = (NEURAX_ERROR_TIMEOUT, []).
Proof.
  split.
  - apply (proj2 (proj2 (wait_for_completion_first_status
                           (fun _ _ => Z.lor STAT_ERROR STAT_DONE) bound_device 5000 []
                           bound_device_is_bound))); decide_ranges.
  - apply (proj1 (proj2 (wait_for_completion_first_status
                           (fun _ _ => Z.lor STAT_ERROR STAT_DONE) bound_device
                           536870912 [] bound_device_is_bound))).
    reflexivity.
Defined.

(** ** Register encodings *)

Lemma lor_pow2_add (x n q : Z) :
  0 <= n -> 0 <= x < 2 ^ n -> Z.lor x (2 ^ n * q) = x + 2 ^ n * q.
Proof.
  intros Hn Hx.
  assert (Hland : Z.land x (2 ^ n * q) = 0).
  { apply Z.bits_inj'. intros i Hi. rewrite Z.land_spec, Z.bits_0.
    destruct (Z.lt_ge_cases i n) as [Hlt | Hge].
    - rewrite (Z.mul_comm (2 ^ n) q), Z.mul_pow2_bits_low by lia. apply andb_false_r.
    - destruct (Z.eq_dec x 0) as [-> | Hx0]; [now rewrite Z.bits_0 |].
      rewrite (Z.bits_above_log2 x i); [reflexivity | lia |].
      apply Z.log2_lt_pow2; [lia |].
      apply Z.lt_le_trans with (2 ^ n); [lia |].
      apply Z.pow_le_mono_r; lia. }
  rewrite <- Z.lxor_lor by exact Hland.
  symmetry. now apply Z.add_nocarry_lxor.
Qed.

Lemma land_ones_mod (x n : Z) : 0 <= n -> Z.land x (2 ^ n - 1) = x mod 2 ^ n.
Proof.
  intros Hn. rewrite <- Z.land_ones by exact Hn. f_equal.
  rewrite Z.ones_equiv. lia.
Qed.

Section RegisterEncoding.

Variables tanhf expf : float -> float.

(** The register words of the convolution.  On a device bound to
    hardware, for a configuration that passes the validation with a
    padding of at most 3 and at most 8 input channels, and an input of
    width and height below 65536, [neurax_hw_conv2d] writes the
    configuration word
    [kernel_width - 1 + 16 * (stride_x - 1) + 128 * padding_x
     + 512 * use_bias + 1024 * (input_channels - 1)],
    the dimension word [width + 65536 * height], the activation
    selector, and the control word 4, plus 16 for an activation other
    than linear and 32 for a 16-bit element type: the five fields of
    the configuration word are recovered by division. *)
Theorem conv2d_register_words (dev : neurax_device_t) (input weights : neurax_tensor_t)
    (bias : option neurax_tensor_t) (c : neurax_conv_config_t)
    (output : neurax_tensor_t) (w : trace) :
  hardware_bound dev ->
  neurax_validate_conv_config (Some c) = NEURAX_SUCCESS ->
  conv_config_uint32 c -> tensor_uint32 input ->
  padding_x c <= 3 -> input_channels c <= 8 ->
  width input < 65536 -> height input < 65536 ->
  let reg := kernel_width c - 1 + 16 * (stride_x c - 1) + 128 * padding_x c
             + 512 * (if use_bias c then 1 else 0) + 1024 * (input_channels c - 1) in
  snd (neurax_hw_conv2d tanhf expf dev input weights bias c output w)
  = w ++ [RegWrite 2 reg;
          RegWrite 5 (width input + 65536 * height input);
          RegWrite 4 (activation c);
          RegWrite 0 (4 + (if activation c =? NEURAX_ACTIVATION_LINEAR then 0 else 16)
                        + (if is_16bit (data_type input) then 32 else 0))] /\
  reg mod 16 = kernel_width c - 1 /\
  reg / 16 mod 8 = stride_x c - 1 /\
  reg / 128 mod 4 = padding_x c /\
  reg / 512 mod 2 = (if use_bias c then 1 else 0) /\
  reg / 1024 = input_channels c - 1.
Proof.
  intros Hb Hc Hu Hti Hp Hic Hw Hh reg.
  destruct (validated_conv_config_positive c Hc Hu) as (Hkw & Hkh & Hsx & Hsy & Hci & Hco & Hact).
  unfold conv_config_uint32, tensor_uint32, is_uint32 in Hu, Hti.
  assert (Hbias : 0 <= (if use_bias c then 1 else 0) <= 1) by (destruct (use_bias c); lia).
  split.
  - unfold neurax_hw_conv2d. cbv zeta. cbn [snd].
    rewrite !write_reg_bound by exact Hb.
    change (NEURAX_REG_CONV_CONFIG / 4) with 2. change (NEURAX_REG_DIM_CONFIG / 4) with 5.
    change (NEURAX_REG_ACT_CONFIG / 4) with 4. change (NEURAX_REG_CONTROL / 4) with 0.
    rewrite <- !app_assoc. cbn [app]. f_equal. unfold bit_field.
    rewrite (u32_small (kernel_width c - 1)), (u32_small (stride_x c - 1)),
      (u32_small (input_channels c - 1)) by lia.
    rewrite (Z.mod_small (kernel_width c - 1) (2 ^ 4)) by lia.
    rewrite (Z.mod_small (stride_x c - 1) (2 ^ 3)) by lia.
    rewrite (Z.mod_small (padding_x c) (2 ^ 2)) by lia.
    rewrite (Z.mod_small (input_channels c - 1) (2 ^ 3)) by lia.
    rewrite (Z.mod_small (width input) (2 ^ 16)) by lia.
    rewrite (Z.mod_small (height input) (2 ^ 16)) by lia.
    rewrite (Z.mod_small (activation c) (2 ^ 2)) by lia.
    rewrite !Z.shiftl_mul_pow2 by lia.
    match goal with
    | |- [RegWrite 2 ?r; RegWrite 5 ?d; RegWrite 4 _; RegWrite 0 ?k] = _ =>
        assert (E1 : r = reg); [| assert (E2 : d = width input + 65536 * height input);
          [| assert (E3 : k = 4 + (if activation c =? NEURAX_ACTIVATION_LINEAR then 0 else 16)
                              + (if is_16bit (data_type input) then 32 else 0));
             [| rewrite E1, E2, E3; reflexivity]]]
    end.
    + subst reg.
      replace ((input_channels c - 1) * 2 ^ 10) with (2 ^ 10 * (input_channels c - 1)) by lia.
      rewrite (lor_pow2_add ((if use_bias c then 1 else 0) * 2 ^ 9) 10) by lia.
      replace ((if use_bias c then 1 else 0) * 2 ^ 9 + 2 ^ 10 * (input_channels c - 1))
        with (2 ^ 9 * ((if use_bias c then 1 else 0) + 2 * (input_channels c - 1))) by lia.
      rewrite (lor_pow2_add (padding_x c * 2 ^ 7) 9) by lia.
      replace (padding_x c * 2 ^ 7
               + 2 ^ 9 * ((if use_bias c then 1 else 0) + 2 * (input_channels c - 1)))
        with (2 ^ 7 * (padding_x c + 4 * (if use_bias c then 1 else 0)
                       + 8 * (input_channels c - 1))) by lia.
      rewrite (lor_pow2_add ((stride_x c - 1) * 2 ^ 4) 7) by lia.
      replace ((stride_x c - 1) * 2 ^ 4
               + 2 ^ 7 * (padding_x c + 4 * (if use_bias c then 1 else 0)
                          + 8 * (input_channels c - 1)))
        with (2 ^ 4 * (stride_x c - 1 + 8 * padding_x c
                       + 32 * (if use_bias c then 1 else 0)
                       + 64 * (input_channels c - 1))) by lia.
      rewrite (lor_pow2_add (kernel_width c - 1) 4) by lia.
      lia.
    + replace (height input * 2 ^ 16) with (2 ^ 16 * height input) by lia.
      rewrite lor_pow2_add by lia. lia.
    + destruct (activation c =? NEURAX_ACTIVATION_LINEAR), (is_16bit (data_type input));
        reflexivity.
  - subst reg. destruct (use_bias c); repeat split; Z.div_mod_to_equations; lia.
Qed.

End RegisterEncoding.

Lemma conv2d_register_words_witness :
  snd (neurax_hw_conv2d (fun x => x) (fun x => x) bound_device
         input_1_to_9 weights_3x3 None
         (conv_config_example 3 2 1 NEURAX_ACTIVATION_RELU)
         (tensor_f32 1 1 1 1 [Flt F32.zero]) [])
  = [] ++ [RegWrite 2 18; RegWrite 5 196611; RegWrite 4 0; RegWrite 0 20].
Proof.
  apply (proj1 (conv2d_register_words (fun x => x) (fun x => x) bound_device
                  input_1_to_9 weights_3x3 None
                  (conv_config_example 3 2 1 NEURAX_ACTIVATION_RELU)
                  (tensor_f32 1 1 1 1 [Flt F32.zero]) []
                  bound_device_is_bound eq_refl ltac:(decide_ranges) ltac:(decide_ranges)
                  ltac:(decide_ranges) ltac:(decide_ranges) ltac:(decide_ranges)
                  ltac:(decide_ranges))).
Defined.

Section HardwareSuccess.

Variables tanhf expf : float -> float.
Variable device_read : trace -> Z -> Z.

(** The hardware leg of pooling and of the activation when the device
    completes at once.  On a device bound to hardware, [neurax_hw_pooling]
    writes the pooling word
    [pool_type + 2 * ((pool_width - 2) mod 8) + 16 * ((stride_x - 1) mod 8)],
    the dimension word [width + 65536 * height] and the control word 9
    (pooling enable and start; 41 for a 16-bit element type);
    [neurax_hw_activation] writes the selector modulo 4 and the control
    word 17 (49 for a 16-bit element type).  When the first status then
    shows the done bit and not the error bit, the status register is
    read once and the call returns what the CPU kernel returns. *)
Theorem hardware_success_path (dev : neurax_device_t) :
  hardware_bound dev ->
  (forall input c output w,
      neurax_validate_pool_config (Some c) = NEURAX_SUCCESS ->
      pool_config_uint32 c -> tensor_uint32 input ->
      width input < 65536 -> height input < 65536 ->
      let writes :=
        [RegWrite 3 (pool_type c + 2 * ((pool_width c - 2) mod 8)
                     + 16 * ((pool_stride_x c - 1) mod 8));
         RegWrite 5 (width input + 65536 * height input);
         RegWrite 0 (9 + (if is_16bit (data_type input) then 32 else 0))] in
      let status := u32 (device_read (w ++ writes) 1) in
      Z.land status STAT_ERROR = 0 -> Z.land status STAT_DONE <> 0 ->
      neurax_hw_pooling device_read dev input c output w
      = (neurax_cpu_pooling input c output, w ++ writes ++ [RegRead 1 status])) /\
  (forall input act output w,
      let writes :=
        [RegWrite 4 (act mod 4);
         RegWrite 0 (17 + (if is_16bit (data_type input) then 32 else 0))] in
      let status := u32 (device_read (w ++ writes) 1) in
      Z.land status STAT_ERROR = 0 -> Z.land status STAT_DONE <> 0 ->
      neurax_hw_activation tanhf expf device_read dev input act output w
      = (neurax_cpu_activation tanhf expf input act output,
         w ++ writes ++ [RegRead 1 status])).
Proof.
  intros Hb. split.
  - intros input c output w Hc Hu Hti Hw Hh writes status He Hd.
    destruct (validated_pool_config_positive c Hc Hu) as (Hpw & Hph & Hsx & Hsy & Hty).
    unfold pool_config_uint32, tensor_uint32, is_uint32 in Hu, Hti.
    unfold neurax_hw_pooling. cbv zeta.
    rewrite !write_reg_bound by exact Hb.
    change (NEURAX_REG_POOL_CONFIG / 4) with 3. change (NEURAX_REG_DIM_CONFIG / 4) with 5.
    change (NEURAX_REG_CONTROL / 4) with 0.
    rewrite <- !app_assoc. cbn [app].
    match goal with
    | |- context [[RegWrite 3 ?r; RegWrite 5 ?d; RegWrite 0 ?k]] =>
        assert (E1 : r = pool_type c + 2 * ((pool_width c - 2) mod 8)
                         + 16 * ((pool_stride_x c - 1) mod 8));
        [| assert (E2 : d = width input + 65536 * height input);
          [| assert (E3 : k = 9 + (if is_16bit (data_type input) then 32 else 0));
             [| rewrite E1, E2, E3]]]
    end.
    + change 1 with (2 ^ 1 - 1) at 1. change 7 with (2 ^ 3 - 1).
      rewrite !land_ones_mod by lia. rewrite Z.lor_0_l.
      unfold u32 at 2 4.
      rewrite !(Z.mod_mod_divide _ (2 ^ 32) (2 ^ 3)) by (now exists (2 ^ 29)).
      assert (0 <= (pool_width c - 2) mod 2 ^ 3 < 2 ^ 3) by (apply Z.mod_pos_bound; lia).
      assert (0 <= (pool_stride_x c - 1) mod 2 ^ 3 < 2 ^ 3) by (apply Z.mod_pos_bound; lia).
      rewrite !Z.shiftl_mul_pow2 by lia.
      rewrite !u32_small by lia.
      rewrite (Z.mod_small (pool_type c) (2 ^ 1)) by lia.
      replace ((pool_width c - 2) mod 2 ^ 3 * 2 ^ 1)
        with (2 ^ 1 * ((pool_width c - 2) mod 2 ^ 3)) by lia.
      rewrite lor_pow2_add by lia.
      replace ((pool_stride_x c - 1) mod 2 ^ 3 * 2 ^ 4)
        with (2 ^ 4 * ((pool_stride_x c - 1) mod 2 ^ 3)) by lia.
      rewrite lor_pow2_add by lia.
      change (2 ^ 3) with 8. lia.
    + change 65535 with (2 ^ 16 - 1). rewrite !land_ones_mod by lia.
      rewrite !Z.mod_small by lia.
      rewrite Z.shiftl_mul_pow2 by lia. rewrite u32_small by lia.
      replace (height input * 2 ^ 16) with (2 ^ 16 * height input) by lia.
      rewrite lor_pow2_add by lia. lia.
    + destruct (is_16bit (data_type input)); reflexivity.
    + destruct (wait_first_status device_read dev NEURAX_DEFAULT_TIMEOUT_MS
                  (w ++ writes) Hb ltac:(decide_ranges)) as [_ Hdone].
      fold writes. rewrite (Hdone He Hd). cbn [is_success negb].
      rewrite <- app_assoc. reflexivity.
  - intros input act output w writes status He Hd.
    unfold neurax_hw_activation. cbv zeta.
    rewrite !write_reg_bound by exact Hb.
    change (NEURAX_REG_ACT_CONFIG / 4) with 4. change (NEURAX_REG_CONTROL / 4) with 0.
    rewrite <- !app_assoc. cbn [app].
    change 3 with (2 ^ 2 - 1). rewrite land_ones_mod by lia. change (2 ^ 2) with 4.
    match goal with
    | |- context [[RegWrite 4 _; RegWrite 0 ?k]] =>
        assert (E3 : k = 17 + (if is_16bit (data_type input) then 32 else 0));
          [destruct (is_16bit (data_type input)); reflexivity | rewrite E3]
    end.
    destruct (wait_first_status device_read dev NEURAX_DEFAULT_TIMEOUT_MS
                (w ++ writes) Hb ltac:(decide_ranges)) as [_ Hdone].
    fold writes. rewrite (Hdone He Hd). cbn [is_success negb].
    rewrite <- app_assoc. reflexivity.
Qed.

End HardwareSuccess.

Lemma hardware_success_path_witness :
  neurax_hw_pooling (fun _ _ => STAT_DONE) bound_device input_1_to_9
    (pool_2x2_config NEURAX_POOL_MAX) (tensor_f32 1 1 1 1 [Flt F32.zero]) []
  = (neurax_cpu_pooling input_1_to_9 (pool_2x2_config NEURAX_POOL_MAX)
       (tensor_f32 1 1 1 1 [Flt F32.zero]),
     [] ++ [RegWrite 3 16; RegWrite 5 196611; RegWrite 0 9] ++ [RegRead 1 2]).
Proof.
  apply (proj1 (hardware_success_path (fun x => x) (fun x => x) (fun _ _ => STAT_DONE)
                  bound_device bound_device_is_bound)
           input_1_to_9 (pool_2x2_config NEURAX_POOL_MAX)
           (tensor_f32 1 1 1 1 [Flt F32.zero]) []);
    decide_ranges.
Defined.

(** ** Device initialisation and shutdown *)

Ltac pick_device :=
  match goal with
  | |- exists dev, (_, Some (Some ?d), _) = _ /\ _ => exists d
  end.

Ltac finish_device :=
  repeat split; try discriminate; try tauto; try lia; eauto;
  try (intros _ [[? ?] | ?]; discriminate || lia);
  try (intros _; right; split; reflexivity).

Lemma init_cases (env : os_env) (cfg : neurax_config_t) (slot : option neurax_device_t)
    (w : trace) :
  (calloc_device env = false ->
   neurax_init env (Some cfg) (Some slot) w
   = (NEURAX_ERROR_MEMORY_ALLOCATION, Some slot, w)) /\
  (calloc_device env = true ->
   exists dev,
     neurax_init env (Some cfg) (Some slot) w
     = (NEURAX_SUCCESS, Some (Some dev),
        w ++ (if hardware_available dev
              then [RegWrite 0 CTRL_RESET; Sleep 1000; RegWrite 0 0]
              else [Sleep 1000])) /\
     initialized dev = true /\ config dev = cfg /\
     (hardware_available dev = true <-> ~ hardware_unreachable env) /\
     (hardware_available dev = true ->
      device_fd dev = opened_fd env /\ 0 <= device_fd dev /\
      mapped_memory dev = mmap_window env /\ register_base dev = mmap_window env /\
      is_Some (register_base dev) /\
      mapped_size dev = window_size cfg) /\
     (hardware_available dev = false ->
      mapped_memory dev = None /\ register_base dev = None /\
      (device_fd dev < 0 \/ mmap_window env = None /\ device_fd dev = -1))).
Proof.
  split.
  - intros Hc. unfold neurax_init. now rewrite Hc.
  - intros Hc. unfold neurax_init. rewrite Hc. cbn [negb].
    unfold neurax_device_open, hardware_unreachable, opened_fd, window_size.
    cbn [config device_fd mapped_memory mapped_size register_base memory_size].
    destruct (Z.ltb_spec (open_neurax0 env) 0) as [Hn | Hn].
    + destruct (Z.ltb_spec (open_uio0 env) 0) as [Hu | Hu].
      * cbn [is_success negb]. unfold neurax_write_reg, usleep. cbn.
        pick_device. split; [reflexivity |]. cbn. finish_device.
      * destruct (mmap_window env) as [addr |] eqn:Em;
          cbn [is_success negb]; unfold neurax_write_reg, usleep; cbn.
        -- pick_device. split; [now rewrite <- !app_assoc |]. cbn. finish_device.
        -- pick_device. split; [reflexivity |]. cbn. finish_device.
    + destruct (Z.ltb_spec (open_neurax0 env) 0) as [Hn' | _]; [lia |].
      destruct (mmap_window env) as [addr |] eqn:Em;
        cbn [is_success negb]; unfold neurax_write_reg, usleep; cbn.
      * pick_device. split; [now rewrite <- !app_assoc |]. cbn. finish_device.
      * pick_device. split; [reflexivity |]. cbn. finish_device.
Qed.

Lemma init_null_argument (env : os_env) (cfg : option neurax_config_t)
    (device : option (option neurax_device_t)) (w : trace) :
  cfg = None \/ device = None ->
  neurax_init env cfg device w = (NEURAX_ERROR_INVALID_PARAM, device, w).
Proof.
  intros [-> | ->]; [reflexivity |]. now destruct cfg.
Qed.

(** The outcomes of [neurax_init].  It fails only for a null
    configuration or a null location for the device ([InvalidParam])
    and when the device structure cannot be allocated
    ([MemoryAllocation]), and leaves the location as it was then; an
    absent or unmappable device is never an error.  On success the
    location receives a device that is initialised with the
    configuration given; it is bound to hardware exactly when a device
    node opens and the register window is mapped, and then it keeps the
    descriptor and the mapping, of the configured size (64 KiB when the
    size is 0), and the control register receives a reset pulse: reset,
    1 ms of sleep, 0. *)
Theorem init_outcomes (env : os_env) (w : trace) :
  (forall cfg device,
      cfg = None \/ device = None ->
      neurax_init env cfg device w = (NEURAX_ERROR_INVALID_PARAM, device, w)) /\
  (forall cfg slot,
      calloc_device env = false ->
      neurax_init env (Some cfg) (Some slot) w
      = (NEURAX_ERROR_MEMORY_ALLOCATION, Some slot, w)) /\
  (forall cfg slot,
      calloc_device env = true ->
      exists dev,
        neurax_init env (Some cfg) (Some slot) w
        = (NEURAX_SUCCESS, Some (Some dev),
           w ++ (if hardware_available dev
                 then [RegWrite 0 CTRL_RESET; Sleep 1000; RegWrite 0 0]
                 else [Sleep 1000])) /\
        initialized dev = true /\ config dev = cfg /\
        (hardware_available dev = true <-> ~ hardware_unreachable env) /\
        (hardware_available dev = true ->
         device_fd dev = opened_fd env /\ 0 <= device_fd dev /\
         mapped_memory dev = mmap_window env /\ register_base dev = mmap_window env /\
         is_Some (register_base dev) /\
         mapped_size dev = window_size cfg) /\
        (hardware_available dev = false ->
         mapped_memory dev = None /\ register_base dev = None /\
         (device_fd dev < 0 \/ mmap_window env = None /\ device_fd dev = -1))).
Proof.
  split; [| split].
  - intros cfg device. apply init_null_argument.
  - intros cfg slot. exact (proj1 (init_cases env cfg slot w)).
  - intros cfg slot. exact (proj2 (init_cases env cfg slot w)).
Qed.

Lemma init_outcomes_witness :
  (neurax_init env_uio_hardware (Some (config emulated_device)) None []
   = (NEURAX_ERROR_INVALID_PARAM, None, [])) /\
  exists dev,
    neurax_init env_uio_hardware (Some (config emulated_device)) (Some None) []
    = (NEURAX_SUCCESS, Some (Some dev), [RegWrite 0 2; Sleep 1000; RegWrite 0 0]) /\
    hardware_available dev = true /\ device_fd dev = 4 /\ mapped_size dev = 65536.
Proof.
  split.
  - apply (proj1 (init_outcomes env_uio_hardware [])). now right.
  - destruct (proj2 (proj2 (init_outcomes env_uio_hardware []))
                (config emulated_device) None eq_refl)
      as (dev & E & _ & _ & Hhw & Hbound & _).
    assert (Ha : hardware_available dev = true).
    { apply Hhw. intros [[_ H] | H]; [cbn in H; lia | discriminate]. }
    exists dev. rewrite Ha in E. split; [exact E |]. split; [exact Ha |].
    destruct (Hbound Ha) as (Hfd & _ & _ & _ & _ & Hsz). split; [exact Hfd | exact Hsz].
Defined.

(** [neurax_cleanup] releases what [neurax_init] acquired.  For a
    device returned by [neurax_init]: when it is bound to hardware the
    control register receives a reset, the register window is unmapped
    with the size it was mapped with and the descriptor opened by
    [neurax_init] is closed, each once; when it is emulated there is no
    register access, no unmapping and no close.  The device structure
    is freed in both cases and the call returns success.  A null device
    gives [InvalidParam]. *)
Theorem cleanup_releases_resources (env : os_env) (cfg : neurax_config_t)
    (location : option (option neurax_device_t)) (w w1 : trace) (dev : neurax_device_t) :
  neurax_init env (Some cfg) location w = (NEURAX_SUCCESS, Some (Some dev), w1) ->
  neurax_cleanup None w1 = (NEURAX_ERROR_INVALID_PARAM, w1, []) /\
  (hardware_available dev = true ->
   exists addr,
     mmap_window env = Some addr /\
     neurax_cleanup (Some dev) w1
     = (NEURAX_SUCCESS, w1 ++ [RegWrite 0 CTRL_RESET],
        [Munmap addr (window_size cfg); Close (opened_fd env); Free])) /\
  (hardware_available dev = false ->
   neurax_cleanup (Some dev) w1 = (NEURAX_SUCCESS, w1, [Free])).
Proof.
  intros Hinit. split; [reflexivity |].
  destruct location as [slot |].
  2: { rewrite init_null_argument in Hinit by now right. discriminate. }
  destruct (calloc_device env) eqn:Hc.
  2: { rewrite (proj1 (init_cases env cfg slot w) Hc) in Hinit. discriminate. }
  destruct (proj2 (init_cases env cfg slot w) Hc)
    as (dev' & E & Hi & Hcfg & Hhw & Hbound & Hemu).
  rewrite E in Hinit. injection Hinit as <- _.
  split.
  - intros Ha. destruct (Hbound Ha) as (Hfd & Hfd0 & Hmem & Hbase & [addr Haddr] & Hsz).
    exists addr. split; [congruence |].
    unfold neurax_cleanup, neurax_device_close, neurax_write_reg.
    rewrite Hi, Ha, Haddr, Hmem, <- Hbase, Haddr, Hsz, <- Hfd.
    destruct (Z.leb_spec 0 (device_fd dev')); [reflexivity | lia].
  - intros Ha. destruct (Hemu Ha) as (Hmem & Hbase & Hfd).
    unfold neurax_cleanup, neurax_device_close.
    rewrite Hi, Ha, Hmem.
    destruct (Z.leb_spec 0 (device_fd dev')); [lia | reflexivity].
Qed.

Lemma cleanup_releases_resources_witness :
  exists dev w1,
    neurax_init env_uio_hardware (Some (config emulated_device)) (Some None) []
    = (NEURAX_SUCCESS, Some (Some dev), w1) /\
    neurax_cleanup (Some dev) w1
    = (NEURAX_SUCCESS, w1 ++ [RegWrite 0 CTRL_RESET],
       [Munmap 4096 65536; Close 4; Free]).
Proof.
  destruct (neurax_init env_uio_hardware (Some (config emulated_device)) (Some None) [])
    as [[e d] w1] eqn:E.
  assert (E' := E). vm_compute in E'. injection E' as <- <- <-.
  eexists _, _. split; [reflexivity |].
  destruct (proj1 (proj2 (cleanup_releases_resources env_uio_hardware
                            (config emulated_device) _ [] _ _ E)) eq_refl)
    as (addr & Haddr & Hc).
  injection Haddr as <-. exact Hc.
Defined.

(** A closed device is never dereferenced: after [neurax_device_close]
    the device is not bound to hardware, holds no descriptor and no
    mapping, and [neurax_write_reg] and [neurax_read_reg] on it access
    no register, although [register_base] is left as it was. *)
Theorem closed_device_is_not_accessed (device_read : trace -> Z -> Z)
    (device : neurax_device_t) :
  let closed := snd (fst (neurax_device_close device)) in
  fst (fst (neurax_device_close device)) = NEURAX_SUCCESS /\
  hardware_available closed = false /\
  mapped_memory closed = None /\
  device_fd closed < 0 /\
  register_base closed = register_base device /\
  (forall offset value w, neurax_write_reg closed offset value w = w) /\
  (forall offset w, neurax_read_reg device_read closed offset w = (0, w)).
Proof.
  unfold neurax_device_close.
  destruct (Z.leb_spec 0 (device_fd device)); cbn; repeat split; try lia.
Qed.

(** ** Tensor management *)

Lemma tensor_create_ok (heap : heap_env) (w h c b : Z) (type : neurax_data_type_t)
    (slot : option neurax_tensor_t) :
  is_uint32 w -> is_uint32 h -> is_uint32 c -> is_uint32 b ->
  w <> 0 -> h <> 0 -> c <> 0 -> b <> 0 ->
  calloc_struct heap = true ->
  (forall size, calloc_buffer heap size = true) ->
  exists t,
    neurax_tensor_create heap w h c b type (Some slot) = (NEURAX_SUCCESS, Some (Some t)) /\
    width t = w /\ height t = h /\ channels t = c /\ batch_size t = b /\
    data_type t = type /\
    neurax_validate_tensor (Some t) = NEURAX_SUCCESS /\
    buffer t = replicate (Z.to_nat (neurax_tensor_total_elements (Some t))) (zero_cell type).
Proof.
  intros Hw Hh Hc Hb Hw0 Hh0 Hc0 Hb0 Hs Hbuf.
  unfold neurax_tensor_create.
  destruct (Z.eqb_spec w 0); [contradiction |].
  destruct (Z.eqb_spec h 0); [contradiction |].
  destruct (Z.eqb_spec c 0); [contradiction |].
  destruct (Z.eqb_spec b 0); [contradiction |].
  cbn [orb]. rewrite Hs, Hbuf. cbn [negb].
  eexists. split; [reflexivity |]. cbn [width height channels batch_size data_type].
  repeat split.
  - apply (proj2 (proj2 (validate_tensor_cases _))).
    cbn [data width height channels batch_size data_type data_size].
    repeat split; eauto.
    unfold neurax_tensor_total_elements, u64.
    cbn [width height channels batch_size].
    set (cnt := u32 (w * h * c * b)).
    assert (0 <= cnt < 2 ^ 32) by (apply Z.mod_pos_bound; lia).
    apply Z.mod_small. destruct type; cbn; lia.
  - unfold buffer, neurax_tensor_total_elements.
    cbn [data width height channels batch_size from_option id].
    set (cnt := u32 (w * h * c * b)).
    assert (0 <= cnt < 2 ^ 32) by (apply Z.mod_pos_bound; lia).
    f_equal. f_equal. unfold u64.
    destruct type; (rewrite Z.mod_small by lia); apply Z.div_mul; lia.
Qed.

(** A tensor created by [neurax_tensor_create] is valid and zeroed.
    For non-zero dimensions of type [uint32_t] and an allocator that
    returns memory, the call succeeds; the tensor it stores has the
    dimensions and the element type asked for, passes
    [neurax_validate_tensor], and its buffer holds exactly
    [neurax_tensor_total_elements] elements, all zero. *)
Theorem tensor_create_valid (heap : heap_env) (w h c b : Z) (type : neurax_data_type_t)
    (slot : option neurax_tensor_t) :
  is_uint32 w -> is_uint32 h -> is_uint32 c -> is_uint32 b ->
  w <> 0 -> h <> 0 -> c <> 0 -> b <> 0 ->
  calloc_struct heap = true ->
  (forall size, calloc_buffer heap size = true) ->
  exists t,
    neurax_tensor_create heap w h c b type (Some slot) = (NEURAX_SUCCESS, Some (Some t)) /\
    width t = w /\ height t = h /\ channels t = c /\ batch_size t = b /\
    data_type t = type /\
    neurax_validate_tensor (Some t) = NEURAX_SUCCESS /\
    buffer t = replicate (Z.to_nat (neurax_tensor_total_elements (Some t))) (zero_cell type).
Proof. exact (tensor_create_ok heap w h c b type slot). Qed.

(** A call of [neurax_tensor_create] that fails stores nothing: the
    location given for the result is left as it was.  The call fails
    with [InvalidParam] for a null location or a dimension that is 0,
    and with [MemoryAllocation] when the structure or the data buffer
    cannot be allocated; it returns no other error. *)
Theorem tensor_create_failure (heap : heap_env) (w h c b : Z) (type : neurax_data_type_t)
    (tensor : option (option neurax_tensor_t)) :
  let r := neurax_tensor_create heap w h c b type tensor in
  (fst r <> NEURAX_SUCCESS -> snd r = tensor) /\
  (tensor = None \/ w = 0 \/ h = 0 \/ c = 0 \/ b = 0 ->
   fst r = NEURAX_ERROR_INVALID_PARAM) /\
  (fst r = NEURAX_SUCCESS \/ fst r = NEURAX_ERROR_INVALID_PARAM \/
   fst r = NEURAX_ERROR_MEMORY_ALLOCATION) /\
  (fst r = NEURAX_ERROR_MEMORY_ALLOCATION ->
   calloc_struct heap = false \/ exists size, calloc_buffer heap size = false).
Proof.
  unfold neurax_tensor_create.
  destruct tensor as [slot |]; cbn [fst snd].
  2: { repeat split; auto; discriminate. }
  destruct (Z.eqb_spec w 0); cbn [orb fst snd].
  { repeat split; auto; discriminate. }
  destruct (Z.eqb_spec h 0); cbn [orb fst snd].
  { repeat split; auto; discriminate. }
  destruct (Z.eqb_spec c 0); cbn [orb fst snd].
  { repeat split; auto; discriminate. }
  destruct (Z.eqb_spec b 0); cbn [orb fst snd].
  { repeat split; auto; discriminate. }
  destruct (calloc_struct heap); cbn [negb fst snd].
  2: { repeat split; auto. intros [H | [H | [H | [H | H]]]]; discriminate || contradiction. }
  destruct (calloc_buffer heap _) eqn:Eb; cbn [negb fst snd].
  - repeat split; auto; try congruence.
    intros [H | [H | [H | [H | H]]]]; discriminate || contradiction.
  - repeat split; auto.
    + intros [H | [H | [H | [H | H]]]]; discriminate || contradiction.
    + intros _. right. eauto.
Qed.

Lemma tensor_create_valid_witness :
  exists t,
    neurax_tensor_create heap_unlimited 3 2 1 1 NEURAX_DATA_INT16 (Some None)
    = (NEURAX_SUCCESS, Some (Some t)) /\
    neurax_validate_tensor (Some t) = NEURAX_SUCCESS /\
    buffer t = replicate 6 (Int 0).
Proof.
  destruct (tensor_create_valid heap_unlimited 3 2 1 1 NEURAX_DATA_INT16 None)
    as (t & E & Hw & Hh & Hc & Hb & _ & Hv & Hbuf);
    [decide_ranges | decide_ranges | decide_ranges | decide_ranges |
     discriminate | discriminate | discriminate | discriminate |
     reflexivity | reflexivity |].
  exists t. split; [exact E |]. split; [exact Hv |].
  rewrite Hbuf. unfold neurax_tensor_total_elements. rewrite Hw, Hh, Hc, Hb. reflexivity.
Defined.

Lemma tensor_create_failure_witness :
  snd (neurax_tensor_create heap_no_buffer 3 2 1 1 NEURAX_DATA_INT16
         (Some (Some input_3x2)))
  = Some (Some input_3x2).
Proof.
  apply (proj1 (tensor_create_failure heap_no_buffer 3 2 1 1 NEURAX_DATA_INT16
                  (Some (Some input_3x2)))).
  vm_compute. discriminate.
Defined.

Lemma memcpy_cells_whole (es : Z) (dst src : list cell) (n : Z) :
  0 < es -> 0 <= n ->
  memcpy_cells es dst src (n * es)
  = Some (take (Z.to_nat n) src ++ drop (Z.to_nat n) dst).
Proof.
  intros Hes Hn. unfold memcpy_cells.
  rewrite Z.mod_mul by lia. cbn [Z.eqb]. now rewrite Z.div_mul by lia.
Qed.

Lemma element_size_positive (type : neurax_data_type_t) : 0 < neurax_get_element_size type.
Proof. destruct type; reflexivity. Qed.

(** Storing data in a tensor and reading it back.  A copy of more
    bytes than the tensor holds is refused by both functions with
    [BufferOverflow], and a null tensor or buffer with [InvalidParam];
    nothing is written then.  A copy of [n] whole elements within the
    size of the tensor succeeds; [neurax_tensor_set_data] changes the
    first [n] elements of the tensor only, and [neurax_tensor_get_data]
    of the same size then returns the [n] elements that were stored and
    leaves the rest of the caller's buffer as it was. *)
Theorem tensor_data_round_trip (t : neurax_tensor_t) (src out : list cell) (n : Z) :
  let es := neurax_get_element_size (data_type t) in
  (forall size, data_size t < size ->
     neurax_tensor_set_data (Some t) (Some src) size
     = Some (NEURAX_ERROR_BUFFER_OVERFLOW, Some t) /\
     neurax_tensor_get_data (Some t) (Some out) size
     = Some (NEURAX_ERROR_BUFFER_OVERFLOW, Some out)) /\
  (forall size,
     neurax_tensor_set_data None (Some src) size = Some (NEURAX_ERROR_INVALID_PARAM, None) /\
     neurax_tensor_set_data (Some t) None size = Some (NEURAX_ERROR_INVALID_PARAM, Some t) /\
     neurax_tensor_get_data None (Some out) size
     = Some (NEURAX_ERROR_INVALID_PARAM, Some out) /\
     neurax_tensor_get_data (Some t) None size = Some (NEURAX_ERROR_INVALID_PARAM, None)) /\
  (0 <= n -> n * es <= data_size t ->
   (Z.to_nat n <= length src)%nat -> (Z.to_nat n <= length (buffer t))%nat ->
   (Z.to_nat n <= length out)%nat ->
   exists t' out',
     neurax_tensor_set_data (Some t) (Some src) (n * es) = Some (NEURAX_SUCCESS, Some t') /\
     keeps_layout t t' /\
     drop (Z.to_nat n) (buffer t') = drop (Z.to_nat n) (buffer t) /\
     neurax_tensor_get_data (Some t') (Some out) (n * es)
     = Some (NEURAX_SUCCESS, Some out') /\
     length out' = length out /\
     take (Z.to_nat n) out' = take (Z.to_nat n) src /\
     drop (Z.to_nat n) out' = drop (Z.to_nat n) out).
Proof.
  intros es. refine (conj _ (conj _ _)).
  - intros size Hsz. unfold neurax_tensor_set_data, neurax_tensor_get_data.
    destruct (Z.ltb_spec (data_size t) size); [split; reflexivity | lia].
  - intros size. repeat split.
  - intros Hn Hsz Hs Hb Ho.
    pose proof (element_size_positive (data_type t)) as Hes. fold es in Hes.
    set (k := Z.to_nat n) in *.
    exists (with_buffer t (take k src ++ drop k (buffer t))),
           (take k (take k src ++ drop k (buffer t)) ++ drop k out).
    unfold neurax_tensor_set_data, neurax_tensor_get_data.
    change (data_size (with_buffer t _)) with (data_size t).
    change (data_type (with_buffer t _)) with (data_type t).
    destruct (Z.ltb_spec (data_size t) (n * es)); [lia |].
    fold es. rewrite !memcpy_cells_whole by lia. fold k.
    rewrite buffer_with_buffer.
    assert (Hlen : k = length (take k src)) by (rewrite length_take; lia).
    split; [reflexivity |]. split; [split; [reflexivity |] |].
    { rewrite buffer_with_buffer, length_app, length_take, length_drop. lia. }
    split; [rewrite ?buffer_with_buffer; now rewrite drop_app_length' by exact Hlen |].
    split; [reflexivity |].
    rewrite take_app_length' by exact Hlen.
    split; [rewrite length_app, length_take, length_drop; lia |].
    split.
    + now rewrite take_app_length' by (rewrite length_take; lia).
    + now rewrite drop_app_length' by (rewrite length_take; lia).
Qed.

Lemma tensor_data_round_trip_witness :
  exists t' out',
    neurax_tensor_set_data (Some input_1_to_9) (Some [Flt f32_1_75; Flt f32_300]) (2 * 4)
    = Some (NEURAX_SUCCESS, Some t') /\
    neurax_tensor_get_data (Some t') (Some [Flt F32.zero; Flt F32.zero; Flt F32.zero]) (2 * 4)
    = Some (NEURAX_SUCCESS, Some out') /\
    take 2 out' = [Flt f32_1_75; Flt f32_300] /\ drop 2 out' = [Flt F32.zero].
Proof.
  destruct (proj2 (proj2 (tensor_data_round_trip input_1_to_9
                            [Flt f32_1_75; Flt f32_300]
                            [Flt F32.zero; Flt F32.zero; Flt F32.zero] 2)))
    as (t' & out' & E1 & _ & _ & E2 & _ & Ht & Hd);
    [lia | decide_ranges | cbn; lia | cbn; lia | cbn; lia |].
  exists t', out'. split; [exact E1 |]. split; [exact E2 |]. split; [exact Ht | exact Hd].
Defined.

(** ** Error strings *)

(** Every error code of neurax.h has a description of its own: the
    descriptions of two different codes differ and none is the
    description of an unknown error; every other integer, the positive
    ones included, is described as an unknown error. *)
Theorem error_strings_distinct :
  (forall e : neurax_error_t,
      ErrorStrings.neurax_get_error_string (error_code e) <> ErrorStrings.unknown_error) /\
  (forall e1 e2 : neurax_error_t,
      ErrorStrings.neurax_get_error_string (error_code e1)
      = ErrorStrings.neurax_get_error_string (error_code e2) -> e1 = e2) /\
  (forall code : Z,
      0 < code \/ code < -8 ->
      ErrorStrings.neurax_get_error_string code = ErrorStrings.unknown_error).
Proof.
  refine (conj _ (conj _ _)).
  - intros e. destruct e; vm_compute; discriminate.
  - intros e1 e2. destruct e1, e2; vm_compute; intros H; try reflexivity; discriminate.
  - intros code H. unfold ErrorStrings.neurax_get_error_string.
    change (Z.of_nat (length ErrorStrings.error_strings)) with 9.
    destruct (Z.leb_spec 0 (- code)); destruct (Z.ltb_spec (- code) 9);
      cbn [andb]; try reflexivity; lia.
Qed.

Lemma error_strings_distinct_witness :
  ErrorStrings.neurax_get_error_string 1 = ErrorStrings.unknown_error /\
  ErrorStrings.neurax_get_error_string (-9) = ErrorStrings.unknown_error.
Proof.
  split.
  - apply (proj2 (proj2 error_strings_distinct)). lia.
  - apply (proj2 (proj2 error_strings_distinct)). lia.
Defined.

(** ** Optimal configuration *)

(** [neurax_get_optimal_config] fails with [InvalidParam] for a null
    device or a null result and leaves the result as it was; otherwise
    it succeeds.  The configuration it returns keeps the base address
    and the memory size of the device, selects the hardware exactly
    when the device is bound to hardware, and its maximal kernel size,
    11, is the limit of [neurax_validate_conv_config]: every
    convolution configuration that passes the validation has a kernel
    within it. *)
Theorem optimal_config_matches_device (dev : neurax_device_t) (out : neurax_config_t) :
  (forall cfg, neurax_get_optimal_config None cfg = (NEURAX_ERROR_INVALID_PARAM, cfg)) /\
  neurax_get_optimal_config (Some dev) None = (NEURAX_ERROR_INVALID_PARAM, None) /\
  exists cfg,
    neurax_get_optimal_config (Some dev) (Some out) = (NEURAX_SUCCESS, Some cfg) /\
    base_address cfg = base_address (config dev) /\
    memory_size cfg = memory_size (config dev) /\
    use_hardware cfg = hardware_available dev /\
    hardware_available (with_config dev cfg) && use_hardware (config (with_config dev cfg))
    = hardware_available dev /\
    forall c, neurax_validate_conv_config (Some c) = NEURAX_SUCCESS ->
      kernel_width c <= max_kernel_size cfg /\ kernel_height c <= max_kernel_size cfg.
Proof.
  split; [intros cfg; reflexivity |]. split; [reflexivity |].
  unfold neurax_get_optimal_config.
  destruct (hardware_available dev) eqn:Ha; eexists; (split; [reflexivity |]);
    cbn; rewrite ?Ha; repeat split; try reflexivity;
    revert H; unfold neurax_validate_conv_config;
    repeat (step_check; [intros; discriminate |]); intros _; decide_checks; lia.
Qed.

(** ** Profiling *)

(** [neurax_perf_end] succeeds once per [neurax_perf_start].  Before
    any start it fails with [InvalidParam]; after a start it succeeds,
    whatever the statistics structure it is given, and a second call
    fails with [InvalidParam] and leaves the statistics as they were;
    [neurax_perf_start] sets the four counters to zero; and an interval
    of no duration is reported as 0.0 ms. *)
Theorem perf_end_once_per_start (g : perf_globals) (t0 t1 t2 : timeval)
    (stats other : neurax_perf_stats_t) :
  neurax_perf_end perf_idle t1 (Some stats)
  = (NEURAX_ERROR_INVALID_PARAM, Some stats, perf_idle) /\
  exists started g1 ended g2,
    neurax_perf_start g t0 (Some stats) = (NEURAX_SUCCESS, Some started, g1) /\
    total_time_ms started = F64.zero /\ hw_time_ms started = F64.zero /\
    data_transfer_time_ms started = F64.zero /\ num_operations started = 0 /\
    neurax_perf_end g1 t1 (Some other) = (NEURAX_SUCCESS, Some ended, g2) /\
    neurax_perf_end g2 t2 (Some ended) = (NEURAX_ERROR_INVALID_PARAM, Some ended, g2) /\
    (t1 = t0 -> total_time_ms ended = F64.zero).
Proof.
  split; [reflexivity |].
  unfold neurax_perf_start, neurax_perf_end. cbn [profiling_active negb start_time].
  do 4 eexists. split; [reflexivity |]. cbn [total_time_ms hw_time_ms data_transfer_time_ms
    num_operations]. repeat split.
  intros ->. rewrite !Z.sub_diag. vm_compute. reflexivity.
Qed.

(** ** Benchmark *)

Lemma validate_same_layout (t0 t : neurax_tensor_t) :
  same_shape t t0 -> is_Some (data t) -> is_Some (data t0) ->
  neurax_validate_tensor (Some t) = neurax_validate_tensor (Some t0).
Proof.
  intros Hs [b Hb] [b0 Hb0].
  destruct (same_shape_fields t t0 Hs) as (Hw & Hh & Hc & Hbs & Ht).
  assert (Hsz : data_size t = data_size t0).
  { unfold same_shape, with_buffer in Hs. now injection Hs. }
  unfold neurax_validate_tensor. now rewrite Hb, Hb0, Hw, Hh, Hc, Hbs, Ht, Hsz.
Qed.

Lemma set_tensor_value_data (t : neurax_tensor_t) (batch y x c : Z) (value : float) :
  is_Some (data (neurax_set_tensor_value t batch y x c value)).
Proof. rewrite set_tensor_value_written. now eexists. Qed.

Lemma set_tensor_element_data (t : neurax_tensor_t) (index : Z) (value : float) :
  is_Some (data (neurax_set_tensor_element t index value)).
Proof. rewrite set_tensor_element_written. now eexists. Qed.

(** The kernels keep a data pointer that is not null. *)
Lemma kernels_keep_data (tanhf expf : float -> float) (output : neurax_tensor_t) :
  is_Some (data output) ->
  (forall input weights bias conv_config,
      is_Some (data (snd (neurax_cpu_conv2d tanhf expf input weights bias conv_config
                            output)))) /\
  (forall input pool_config,
      is_Some (data (snd (neurax_cpu_pooling input pool_config output)))) /\
  (forall input act,
      is_Some (data (snd (neurax_cpu_activation tanhf expf input act output)))).
Proof.
  intros Hd. refine (conj _ (conj _ _)).
  - intros input weights bias conv_config. unfold neurax_cpu_conv2d.
    destruct (negb _ || negb _); cbn [snd]; [exact Hd |].
    apply for_loop_invariant; [| now eexists]. intros i1 t1 H1.
    apply for_loop_invariant; [| exact H1]. intros i2 t2 H2.
    apply for_loop_invariant; [| exact H2]. intros i3 t3 H3.
    apply for_loop_invariant; [| exact H3]. intros i4 t4 H4.
    apply set_tensor_value_data.
  - intros input pool_config. unfold neurax_cpu_pooling.
    destruct (negb _ || negb _); cbn [snd]; [exact Hd |].
    apply for_loop_invariant; [| now eexists]. intros i1 t1 H1.
    apply for_loop_invariant; [| exact H1]. intros i2 t2 H2.
    apply for_loop_invariant; [| exact H2]. intros i3 t3 H3.
    apply for_loop_invariant; [| exact H3]. intros i4 t4 H4.
    apply set_tensor_value_data.
  - intros input act. unfold neurax_cpu_activation. cbn [snd].
    apply for_loop_invariant; [| exact Hd]. intros i t Ht.
    apply set_tensor_element_data.
Qed.


Lemma valid_like_refl (t : neurax_tensor_t) :
  neurax_validate_tensor (Some t) = NEURAX_SUCCESS -> valid_like t t.
Proof.
  intros Hv. split; [reflexivity |].
  now apply (proj1 (proj2 (proj2 (validate_tensor_cases t))) Hv).
Qed.

Lemma valid_like_validate (t0 t : neurax_tensor_t) :
  neurax_validate_tensor (Some t0) = NEURAX_SUCCESS -> valid_like t0 t ->
  neurax_validate_tensor (Some t) = NEURAX_SUCCESS.
Proof.
  intros Hv [Hs Hd]. rewrite (validate_same_layout t0 t Hs Hd); [exact Hv |].
  now apply (proj1 (proj2 (proj2 (validate_tensor_cases t0))) Hv).
Qed.

Lemma valid_like_trans (t0 t1 t2 : neurax_tensor_t) :
  valid_like t0 t1 -> valid_like t1 t2 -> valid_like t0 t2.
Proof.
  intros [H1 _] [H2 Hd]. split; [| exact Hd]. unfold same_shape in *. congruence.
Qed.

Lemma fill_valid_like (t0 : neurax_tensor_t) (n : Z) (v : Z -> float) :
  neurax_validate_tensor (Some t0) = NEURAX_SUCCESS ->
  valid_like t0 (for_loop n (fun i t => store_float t i (v i)) t0).
Proof.
  intros Hv. apply for_loop_invariant; [| now apply valid_like_refl].
  intros i t [Hs Hd]. split; [| now eexists].
  unfold store_float. now apply same_shape_with_buffer.
Qed.

Lemma bench_loop_success (iterations : Z)
    (op : option neurax_tensor_t -> trace -> neurax_error_t * option neurax_tensor_t * trace)
    (Inv : neurax_tensor_t -> Prop) (out0 : neurax_tensor_t) (w : trace) :
  Inv out0 ->
  (forall out, Inv out ->
     exists out', op (Some out) w = (NEURAX_SUCCESS, Some out', w) /\ Inv out') ->
  exists out',
    bench_loop iterations op (Some out0) w = (NEURAX_SUCCESS, Some out', w) /\ Inv out'.
Proof.
  intros H0 Hop. unfold bench_loop.
  apply (for_loop_invariant
           (fun st => exists out', st = (NEURAX_SUCCESS, Some out', w) /\ Inv out')).
  - intros i st (out & -> & Hout). cbn [is_success]. now apply Hop.
  - now exists out0.
Qed.

Section BenchmarkSteps.

Variables tanhf expf : float -> float.
Variable device_read : trace -> Z -> Z.
Variable dev : neurax_device_t.

Hypothesis Hinit : initialized dev = true.
Hypothesis Hemu : hardware_available dev = false.

Lemma conv2d_step (input weights : neurax_tensor_t) (c : neurax_conv_config_t)
    (out0 out : neurax_tensor_t) (w : trace) :
  neurax_validate_tensor (Some input) = NEURAX_SUCCESS ->
  neurax_validate_tensor (Some weights) = NEURAX_SUCCESS ->
  neurax_validate_tensor (Some out0) = NEURAX_SUCCESS ->
  neurax_validate_conv_config (Some c) = NEURAX_SUCCESS ->
  height out0 = conv_out_height input c -> width out0 = conv_out_width input c ->
  valid_like out0 out ->
  exists out',
    neurax_conv2d tanhf expf (Some dev) (Some input) (Some weights) None (Some c)
      (Some out) w = (NEURAX_SUCCESS, Some out', w) /\
    valid_like out0 out'.
Proof.
  intros Hi Hw Ho Hc Hh Hwd Hlike.
  pose proof (valid_like_validate out0 out Ho Hlike) as Hov.
  rewrite (conv2d_dispatch tanhf expf dev input weights None c out w Hinit Hi Hw Hov Hc I).
  rewrite Hemu. cbn [andb].
  destruct Hlike as [Hs Hd].
  destruct (same_shape_fields out out0 Hs) as (Ew & Eh & _).
  pose proof (cpu_conv2d_status tanhf expf input weights None c out) as Hst.
  rewrite Eh, Ew, Hh, Hwd, !Z.eqb_refl in Hst. cbn [negb orb] in Hst.
  destruct (proj1 (kernels_layout tanhf expf out) input weights None c)
    as [Hs' _].
  pose proof (proj1 (kernels_keep_data tanhf expf out Hd) input weights None c) as Hd'.
  destruct (neurax_cpu_conv2d tanhf expf input weights None c out) as [e o].
  cbn [fst snd] in *. subst e. exists o. split; [reflexivity |].
  split; [| exact Hd']. unfold same_shape in *. congruence.
Qed.

Lemma pooling_step (input : neurax_tensor_t) (c : neurax_pool_config_t)
    (out0 out : neurax_tensor_t) (w : trace) :
  neurax_validate_tensor (Some input) = NEURAX_SUCCESS ->
  neurax_validate_tensor (Some out0) = NEURAX_SUCCESS ->
  neurax_validate_pool_config (Some c) = NEURAX_SUCCESS ->
  height out0 = pool_out_height input c -> width out0 = pool_out_width input c ->
  valid_like out0 out ->
  exists out',
    neurax_pooling device_read (Some dev) (Some input) (Some c) (Some out) w
    = (NEURAX_SUCCESS, Some out', w) /\
    valid_like out0 out'.
Proof.
  intros Hi Ho Hc Hh Hwd Hlike.
  pose proof (valid_like_validate out0 out Ho Hlike) as Hov.
  rewrite (pooling_dispatch device_read dev input c out w Hinit Hi Hov Hc).
  rewrite Hemu. cbn [andb].
  destruct Hlike as [Hs Hd].
  destruct (same_shape_fields out out0 Hs) as (Ew & Eh & _).
  destruct (proj1 (proj2 (kernels_layout tanhf expf out)) input c) as [Hs' _].
  pose proof (proj1 (proj2 (kernels_keep_data tanhf expf out Hd)) input c) as Hd'.
  revert Hs' Hd'. unfold neurax_cpu_pooling.
  rewrite Eh, Ew, Hh, Hwd, !Z.eqb_refl. cbn [negb orb snd]. intros Hs' Hd'.
  eexists. split; [reflexivity |].
  split; [| exact Hd']. unfold same_shape in *. congruence.
Qed.

Lemma activation_step (input : neurax_tensor_t) (act : neurax_activation_t)
    (out0 out : neurax_tensor_t) (w : trace) :
  neurax_validate_tensor (Some input) = NEURAX_SUCCESS ->
  neurax_validate_tensor (Some out0) = NEURAX_SUCCESS ->
  width input = width out0 -> height input = height out0 ->
  channels input = channels out0 -> batch_size input = batch_size out0 ->
  valid_like out0 out ->
  exists out',
    neurax_activation tanhf expf device_read (Some dev) (Some input) act (Some out) w
    = (NEURAX_SUCCESS, Some out', w) /\
    valid_like out0 out'.
Proof.
  intros Hi Ho Hw Hh Hc Hb Hlike.
  pose proof (valid_like_validate out0 out Ho Hlike) as Hov.
  destruct Hlike as [Hs Hd].
  destruct (same_shape_fields out out0 Hs) as (Ew & Eh & Ec & Eb & _).
  rewrite (activation_dispatch tanhf expf device_read dev input act out w Hinit Hi Hov)
    by congruence.
  rewrite Hemu. cbn [andb].
  destruct (proj2 (proj2 (kernels_layout tanhf expf out)) input act) as [Hs' _].
  pose proof (proj2 (proj2 (kernels_keep_data tanhf expf out Hd)) input act) as Hd'.
  revert Hs' Hd'. unfold neurax_cpu_activation. cbn [snd]. intros Hs' Hd'.
  eexists. split; [reflexivity |].
  split; [| exact Hd']. unfold same_shape in *. congruence.
Qed.

End BenchmarkSteps.

Section BenchmarkRuns.

Variables tanhf expf : float -> float.
Variable device_read : trace -> Z -> Z.

(** The benchmark succeeds without hardware.  On an initialised device
    that is not bound to hardware, when the allocator returns memory
    and the number of iterations is not 0, [neurax_benchmark_layer]
    returns success for each of the layers conv2d, pooling and
    activation, whatever values [rand] returns: the tensors it creates
    and fills pass the validation, their shapes pass the shape check of
    the operation at every iteration, no register is accessed, the time
    measured between the two readings of the clock is stored, and the
    profiling is inactive afterwards. *)
Theorem benchmark_succeeds_without_hardware (env : bench_env) (g : perf_globals)
    (dev : neurax_device_t) (layer : String.string) (iterations : Z)
    (time_ms : F64.float) (w : trace) :
  initialized dev = true -> hardware_available dev = false ->
  bench_memory_available env -> iterations <> 0 ->
  layer = Benchmark.layer_conv2d \/ layer = Benchmark.layer_pooling \/
  layer = Benchmark.layer_activation ->
  Benchmark.neurax_benchmark_layer tanhf expf device_read env g (Some dev) (Some layer)
    iterations (Some time_ms) w
  = (NEURAX_SUCCESS,
     Some (elapsed_ms (time_at_start env) (time_at_end env)),
     {| start_time := time_at_start env; profiling_active := false |},
     w).
Proof.
  intros Hinit Hemu (Hs1 & Hs2 & Hs3 & Hb1 & Hb2 & Hb3) Hit Hlayer.
  unfold Benchmark.neurax_benchmark_layer.
  destruct (Z.eqb_spec iterations 0); [contradiction |].
  destruct (tensor_create_ok (heap_input env) 224 224 3 1 NEURAX_DATA_FLOAT32 None)
    as (tin & Ein & Win & Hin & Cin & Bin & Tin & Vin & _);
    [decide_ranges | decide_ranges | decide_ranges | decide_ranges |
     discriminate | discriminate | discriminate | discriminate | exact Hs1 | exact Hb1 |].
  rewrite Ein. cbn [is_success negb].
  cbv beta iota delta [neurax_perf_start].
  set (input := for_loop (neurax_tensor_total_elements (Some tin)) _ tin).
  assert (Hlike : valid_like tin input) by (now apply fill_valid_like).
  assert (Vinput : neurax_validate_tensor (Some input) = NEURAX_SUCCESS)
    by (now apply (valid_like_validate tin)).
  destruct (same_shape_fields input tin (proj1 Hlike)) as (Wi & Hi & Ci & Bi & _).
  rewrite Win in Wi. rewrite Hin in Hi. rewrite Cin in Ci. rewrite Bin in Bi.
  clearbody input.
  destruct Hlayer as [-> | [-> | ->]].
  - change (String.eqb Benchmark.layer_conv2d _) with true at 1. cbv iota.
    destruct (tensor_create_ok (heap_output env) 222 222 64 1 NEURAX_DATA_FLOAT32 None)
      as (tout & Eout & Wo & Ho & Co & Bo & To & Vo & _);
      [decide_ranges | decide_ranges | decide_ranges | decide_ranges |
       discriminate | discriminate | discriminate | discriminate | exact Hs2 | exact Hb2 |].
    rewrite Eout. cbn [is_success negb].
    destruct (tensor_create_ok (heap_weights env) 3 3 3 64 NEURAX_DATA_FLOAT32 None)
      as (twt & Ewt & Ww & Hw & Cw & Bw & Tw & Vw & _);
      [decide_ranges | decide_ranges | decide_ranges | decide_ranges |
       discriminate | discriminate | discriminate | discriminate | exact Hs3 | exact Hb3 |].
    rewrite Ewt. cbn [is_success negb].
    set (weights := for_loop (neurax_tensor_total_elements (Some twt)) _ twt).
    assert (Vweights : neurax_validate_tensor (Some weights) = NEURAX_SUCCESS).
    { apply (valid_like_validate twt); [exact Vw |]. now apply fill_valid_like. }
    clearbody weights.
    set (cfg := {| kernel_width := 3 |}).
    destruct (bench_loop_success iterations
                (fun out w0 => neurax_conv2d tanhf expf (Some dev) (Some input)
                                 (Some weights) None (Some cfg) out w0)
                (valid_like tout) tout w (valid_like_refl tout Vo)) as (out' & Eloop & _).
    { intros out Hout.
      apply (conv2d_step tanhf expf dev Hinit Hemu input weights cfg tout out w
               Vinput Vweights Vo eq_refl); [| | exact Hout].
      - rewrite Ho. unfold conv_out_height. rewrite Hi. reflexivity.
      - rewrite Wo. unfold conv_out_width. rewrite Wi. reflexivity. }
    rewrite Eloop. cbn [is_success negb]. reflexivity.
  - change (String.eqb Benchmark.layer_pooling _) with false at 1. cbv iota.
    change (String.eqb Benchmark.layer_pooling _) with true at 1. cbv iota.
    destruct (tensor_create_ok (heap_output env) 112 112 3 1 NEURAX_DATA_FLOAT32 None)
      as (tout & Eout & Wo & Ho & Co & Bo & To & Vo & _);
      [decide_ranges | decide_ranges | decide_ranges | decide_ranges |
       discriminate | discriminate | discriminate | discriminate | exact Hs2 | exact Hb2 |].
    rewrite Eout. cbn [is_success negb].
    set (cfg := {| pool_width := 2 |}).
    destruct (bench_loop_success iterations
                (fun out w0 => neurax_pooling device_read (Some dev) (Some input)
                                 (Some cfg) out w0)
                (valid_like tout) tout w (valid_like_refl tout Vo)) as (out' & Eloop & _).
    { intros out Hout.
      apply (pooling_step tanhf expf device_read dev Hinit Hemu input cfg tout out w
               Vinput Vo eq_refl); [| | exact Hout].
      - rewrite Ho. unfold pool_out_height. rewrite Hi. reflexivity.
      - rewrite Wo. unfold pool_out_width. rewrite Wi. reflexivity. }
    rewrite Eloop. cbn [is_success negb]. reflexivity.
  - change (String.eqb Benchmark.layer_activation _) with false at 1. cbv iota.
    change (String.eqb Benchmark.layer_activation _) with false at 1. cbv iota.
    change (String.eqb Benchmark.layer_activation _) with true at 1. cbv iota.
    destruct (tensor_create_ok (heap_output env) 224 224 3 1 NEURAX_DATA_FLOAT32 None)
      as (tout & Eout & Wo & Ho & Co & Bo & To & Vo & _);
      [decide_ranges | decide_ranges | decide_ranges | decide_ranges |
       discriminate | discriminate | discriminate | discriminate | exact Hs2 | exact Hb2 |].
    rewrite Eout. cbn [is_success negb].
    destruct (bench_loop_success iterations
                (fun out w0 => neurax_activation tanhf expf device_read (Some dev)
                                 (Some input) NEURAX_ACTIVATION_RELU out w0)
                (valid_like tout) tout w (valid_like_refl tout Vo)) as (out' & Eloop & _).
    { intros out Hout.
      apply (activation_step tanhf expf device_read dev Hinit Hemu input
               NEURAX_ACTIVATION_RELU tout out w Vinput Vo); try congruence. }
    rewrite Eloop. cbn [is_success negb]. reflexivity.
Qed.


(** The benchmark of an unknown layer leaves the profiling active.
    [neurax_benchmark_layer] returns [InvalidParam], without any effect,
    for a null device, layer name or result location and for 0
    iterations.  For a layer name other than conv2d, pooling and
    activation it returns [InvalidParam] as well and does not write the
    time, but only after it has started the profiling, which it does
    not end: a later [neurax_perf_end] then succeeds without a
    [neurax_perf_start] of its own. *)
Theorem benchmark_unknown_layer (env : bench_env) (g : perf_globals)
    (dev : neurax_device_t) (layer : String.string) (iterations : Z)
    (time_ms : F64.float) (w : trace) :
  (forall device layer_type location,
      device = None \/ layer_type = None \/ location = None ->
      Benchmark.neurax_benchmark_layer tanhf expf device_read env g device layer_type
        iterations location w
      = (NEURAX_ERROR_INVALID_PARAM, location, g, w)) /\
  Benchmark.neurax_benchmark_layer tanhf expf device_read env g (Some dev) (Some layer)
    0 (Some time_ms) w
  = (NEURAX_ERROR_INVALID_PARAM, Some time_ms, g, w) /\
  (calloc_struct (heap_input env) = true ->
   (forall size, calloc_buffer (heap_input env) size = true) ->
   iterations <> 0 ->
   layer <> Benchmark.layer_conv2d -> layer <> Benchmark.layer_pooling ->
   layer <> Benchmark.layer_activation ->
   let g' := {| start_time := time_at_start env; profiling_active := true |} in
   Benchmark.neurax_benchmark_layer tanhf expf device_read env g (Some dev) (Some layer)
     iterations (Some time_ms) w
   = (NEURAX_ERROR_INVALID_PARAM, Some time_ms, g', w) /\
   forall now stats,
     fst (fst (neurax_perf_end g' now (Some stats))) = NEURAX_SUCCESS).
Proof.
  refine (conj _ (conj _ _)).
  - intros device layer_type location H. unfold Benchmark.neurax_benchmark_layer.
    destruct device, layer_type, location; try reflexivity.
    destruct H as [H | [H | H]]; discriminate.
  - reflexivity.
  - intros Hs Hb Hit H1 H2 H3 g'.
    split; [| reflexivity].
    unfold Benchmark.neurax_benchmark_layer.
    destruct (Z.eqb_spec iterations 0); [contradiction |].
    destruct (tensor_create_ok (heap_input env) 224 224 3 1 NEURAX_DATA_FLOAT32 None)
      as (tin & Ein & _);
      [decide_ranges | decide_ranges | decide_ranges | decide_ranges |
       discriminate | discriminate | discriminate | discriminate | exact Hs | exact Hb |].
    rewrite Ein. cbn [is_success negb].
    cbv beta iota delta [neurax_perf_start].
    apply String.eqb_neq in H1, H2, H3.
    unfold Benchmark.layer_conv2d, Benchmark.layer_pooling, Benchmark.layer_activation
      in H1, H2, H3.
    rewrite H1, H2, H3. reflexivity.
Qed.

End BenchmarkRuns.

Lemma benchmark_succeeds_without_hardware_witness :
  Benchmark.neurax_benchmark_layer (fun x => x) (fun x => x) (fun _ _ => 0)
    bench_env_example perf_idle (Some emulated_device) (Some Benchmark.layer_conv2d)
    1000 (Some F64.zero) []
  = (NEURAX_SUCCESS, Some (F64.of_Z 1000),
     {| start_time := {| tv_sec := 10; tv_usec := 0 |}; profiling_active := false |}, []).
Proof.
  rewrite (benchmark_succeeds_without_hardware (fun x => x) (fun x => x) (fun _ _ => 0)
             bench_env_example perf_idle emulated_device Benchmark.layer_conv2d 1000
             F64.zero []); try reflexivity.
  - repeat split.
  - discriminate.
  - now left.
Defined.

Lemma benchmark_unknown_layer_witness :
  Benchmark.neurax_benchmark_layer (fun x => x) (fun x => x) (fun _ _ => 0)
    bench_env_example perf_idle (Some emulated_device) (Some Benchmark.layer_dense)
    1000 (Some F64.zero) []
  = (NEURAX_ERROR_INVALID_PARAM, Some F64.zero,
     {| start_time := {| tv_sec := 10; tv_usec := 0 |}; profiling_active := true |}, []).
Proof.
  apply (proj2 (proj2 (benchmark_unknown_layer (fun x => x) (fun x => x) (fun _ _ => 0)
                         bench_env_example perf_idle emulated_device
                         Benchmark.layer_dense 1000 F64.zero []))
           eq_refl ltac:(reflexivity) ltac:(discriminate) ltac:(discriminate)
           ltac:(discriminate) ltac:(discriminate)).
Defined.

(** ** The image blur demo *)

Lemma tensor_create_small (heap : heap_env) (w h c b : Z) (slot : option neurax_tensor_t) :
  0 < w -> 0 < h -> 0 < c -> 0 < b -> w * h * c * b < 2 ^ 32 ->
  calloc_struct heap = true -> (forall size, calloc_buffer heap size = true) ->
  neurax_tensor_create heap w h c b NEURAX_DATA_FLOAT32 (Some slot)
  = (NEURAX_SUCCESS,
     Some (Some (tensor_of NEURAX_DATA_FLOAT32 w h c b
                   (replicate (Z.to_nat (w * h * c * b)) (Flt F32.zero))))).
Proof.
  intros Hw Hh Hc Hb Hsmall Hs Hbuf.
  unfold neurax_tensor_create.
  destruct (Z.eqb_spec w 0); [lia |]. destruct (Z.eqb_spec h 0); [lia |].
  destruct (Z.eqb_spec c 0); [lia |]. destruct (Z.eqb_spec b 0); [lia |].
  cbn [orb]. rewrite Hs, Hbuf. cbn [negb].
  assert (0 < w * h * c * b) by (repeat apply Z.mul_pos_pos; lia).
  rewrite u32_small by lia.
  unfold u64. rewrite Z.mod_small by lia.
  rewrite Z.div_mul by lia.
  reflexivity.
Qed.

Lemma fill_channel (t : neurax_tensor_t) (n : Z) (v : Z -> float) :
  is_Some (data t) -> length (buffer t) = Z.to_nat n ->
  for_loop n (fun i t => store_float t i (v i)) t
  = with_buffer t (map (fun j => Flt (v (Z.of_nat j))) (seq 0 (Z.to_nat n))).
Proof.
  intros Hd Hlen. unfold for_loop.
  rewrite (for_range_buffer t _ (fun i buf => store buf i (Flt (v i))));
    [| reflexivity | reflexivity | exact Hd].
  f_equal.
  pose proof (for_loop_store (fun i => Flt (v i)) n) as H.
  rewrite <- Hlen in H. apply overwrites_all in H. unfold for_loop in H.
  rewrite H, Hlen. reflexivity.
Qed.

Lemma strided_index (C c j : Z) (i : Z) :
  0 <= c < C -> 0 <= j ->
  (j = i * C + c) <-> (j mod C = c /\ j / C = i).
Proof.
  intros Hc Hj. split.
  - intros ->. split.
    + rewrite Z.add_comm, Z.mod_add by lia. apply Z.mod_small. lia.
    + rewrite Z.add_comm, Z.div_add by lia. rewrite Z.div_small by lia. lia.
  - intros [Hm Hd]. rewrite (Z.div_mod j C) by lia. rewrite Hm, Hd. lia.
Qed.

Lemma copy_back (res : neurax_tensor_t) (n C c : Z) (v : Z -> float) :
  0 <= c < C -> 0 <= n -> n * C < 2 ^ 31 ->
  n * C <= Z.of_nat (length (buffer res)) -> is_Some (data res) ->
  let out := for_loop n (fun i t => store_float t (s32 (i * C + c)) (v i)) res in
  same_shape out res /\ is_Some (data out) /\
  length (buffer out) = length (buffer res) /\
  forall j : nat,
    buffer out !! j
    = if decide (Z.of_nat j mod C = c /\ Z.of_nat j / C < n)
      then Some (Flt (v (Z.of_nat j / C))) else buffer res !! j.
Proof.
  intros Hc Hn Hsmall Hlen Hd out. subst out.
  refine (for_loop_ind
            (fun k out =>
               same_shape out res /\ is_Some (data out) /\
               length (buffer out) = length (buffer res) /\
               forall j : nat,
                 buffer out !! j
                 = if decide (Z.of_nat j mod C = c /\ Z.of_nat j / C < k)
                   then Some (Flt (v (Z.of_nat j / C))) else buffer res !! j)
            _ n res Hn _ _).
  - repeat split; [exact Hd |]. intros j. rewrite decide_False; [reflexivity |].
    intros [_ H]. assert (0 <= Z.of_nat j / C) by (apply Z.div_pos; lia). lia.
  - intros i t Hi (Hs & Ht & Hl & Hj).
    assert (Hidx : 0 <= i * C + c < n * C) by nia.
    unfold store_float. rewrite s32_small by lia.
    split; [now apply same_shape_with_buffer |].
    split; [now eexists |].
    rewrite buffer_with_buffer. unfold store.
    split; [now rewrite length_insert |].
    intros j.
    destruct (decide (j = Z.to_nat (i * C + c))) as [E | E].
    + subst j. rewrite list_lookup_insert_eq by lia.
      rewrite Z2Nat.id by lia.
      destruct (proj1 (strided_index C c (i * C + c) i Hc ltac:(lia)) eq_refl) as [Hm Hq].
      rewrite decide_True by (split; [exact Hm | lia]).
      now rewrite Hq.
    + rewrite list_lookup_insert_ne by congruence.
      rewrite Hj.
      assert (Hne : ~ (Z.of_nat j mod C = c /\ Z.of_nat j / C = i)).
      { intros H. apply (strided_index C c (Z.of_nat j) i Hc) in H; lia. }
      repeat case_decide; try reflexivity; exfalso; lia.
Qed.

Lemma u32_s32 (z : Z) : is_uint32 z -> u32 (s32 z) = z.
Proof.
  intros Hz. unfold is_uint32 in Hz. unfold s32, signed, u32.
  rewrite (Z.mod_small z) by lia. change (2 ^ (32 - 1)) with (2 ^ 31).
  destruct (z <? 2 ^ 31) eqn:E.
  - apply Z.mod_small. lia.
  - apply Z.ltb_ge in E.
    rewrite <- (Z.mod_add _ 1) by lia.
    replace (z - 2 ^ 32 + 1 * 2 ^ 32) with z by lia. apply Z.mod_small. lia.
Qed.

Lemma odd_half (k : Z) : 0 <= k -> 2 * (k / 2) = if Z.odd k then k - 1 else k.
Proof.
  intros Hk. pose proof (Z.bit0_mod k) as H. rewrite Z.bit0_odd in H.
  destruct (Z.odd k); cbn [Z.b2z] in H; Z.div_mod_to_equations; lia.
Qed.

(** The size the convolution of the blur computes for a side of [n]
    pixels. *)
Lemma blur_out_size (n k : Z) :
  0 < n < 2 ^ 31 -> 1 <= k <= 11 ->
  u32 (u32 (u32 (u32 (n + u32 (2 * (k / 2))) - k) / 1) + 1)
  = if Z.odd k then n else n + 1.
Proof.
  intros Hn Hk. rewrite odd_half by lia. rewrite Z.div_1_r.
  change (2 ^ 31) with 2147483648 in Hn.
  destruct (Z.odd k).
  - rewrite (u32_small (k - 1)) by lia.
    rewrite (u32_small (n + (k - 1))) by lia.
    rewrite !(u32_small (n + (k - 1) - k)) by lia.
    rewrite u32_small by lia. lia.
  - rewrite (u32_small k) by lia.
    rewrite (u32_small (n + k)) by lia.
    rewrite !(u32_small (n + k - k)) by lia.
    rewrite u32_small by lia. lia.
Qed.

Section BlurChannel.

Variables tanhf expf : float -> float.
Variable env : blur_env.
Variable dev : neurax_device_t.
Variables input kernel : neurax_tensor_t.

Hypothesis Hinit : initialized dev = true.
Hypothesis Hmem : blur_memory_available env.
Hypothesis Hsmall : image_small input.
Hypothesis Hkernel : neurax_validate_tensor (Some kernel) = NEURAX_SUCCESS.

Lemma plane_filled (c : Z) :
  0 <= c < channels input ->
  for_loop (u32 (width input * height input))
    (fun i t =>
       store_float t i (load_flt (buffer input) (u32 (i * channels input + c))))
    (tensor_of NEURAX_DATA_FLOAT32 (width input) (height input) 1 1
       (replicate (Z.to_nat (width input * height input * 1 * 1)) (Flt F32.zero)))
  = channel_plane input c.
Proof.
  intros Hc. destruct Hsmall as (Hw & Hh & Hch & Hsm & _).
  assert (Hwh : 0 < width input * height input) by (apply Z.mul_pos_pos; lia).
  assert (Hwh' : width input * height input < 2 ^ 31) by nia.
  rewrite u32_small by lia.
  rewrite fill_channel; [| now eexists |].
  - unfold channel_plane, with_buffer, tensor_of.
    cbn [width height channels batch_size data_type data_size].
    f_equal. f_equal. apply map_ext_in. intros i Hi. apply in_seq in Hi.
    rewrite u32_small; [reflexivity |]. nia.
  - unfold buffer, tensor_of. cbn [data from_option id default].
    rewrite length_replicate. f_equal. lia.
Qed.

Lemma conv2d_outcome (input' weights output : neurax_tensor_t)
    (conv_config : neurax_conv_config_t) (w : trace) :
  neurax_validate_tensor (Some input') = NEURAX_SUCCESS ->
  neurax_validate_tensor (Some weights) = NEURAX_SUCCESS ->
  neurax_validate_tensor (Some output) = NEURAX_SUCCESS ->
  neurax_validate_conv_config (Some conv_config) = NEURAX_SUCCESS ->
  exists w',
    neurax_conv2d tanhf expf (Some dev) (Some input') (Some weights) None
      (Some conv_config) (Some output) w
    = (fst (neurax_cpu_conv2d tanhf expf input' weights None conv_config output),
       Some (snd (neurax_cpu_conv2d tanhf expf input' weights None conv_config output)),
       w').
Proof.
  intros Hi Hw Ho Hc.
  rewrite (conv2d_dispatch tanhf expf dev input' weights None conv_config output w
             Hinit Hi Hw Ho Hc I).
  destruct (hardware_available dev && use_hardware (config dev)).
  - unfold neurax_hw_conv2d.
    destruct (neurax_cpu_conv2d tanhf expf input' weights None conv_config output).
    eexists. reflexivity.
  - destruct (neurax_cpu_conv2d tanhf expf input' weights None conv_config output).
    eexists. reflexivity.
Qed.

Lemma blur_config_valid (k : Z) :
  1 <= k <= 11 -> neurax_validate_conv_config (Some (blur_config k)) = NEURAX_SUCCESS.
Proof.
  intros Hk. unfold neurax_validate_conv_config, blur_config.
  cbn [kernel_width kernel_height stride_x stride_y input_channels output_channels
       activation].
  destruct (Z.eqb_spec k 0); [lia |].
  destruct (Z.ltb_spec 11 k); [lia |].
  reflexivity.
Qed.

Lemma plane_valid (buf : list cell) :
  neurax_validate_tensor
    (Some (tensor_of NEURAX_DATA_FLOAT32 (width input) (height input) 1 1 buf))
  = NEURAX_SUCCESS.
Proof.
  destruct Hsmall as (Hw & Hh & Hch & Hsm & _).
  apply validate_tensor_of; solve [lia | nia].
Qed.

Lemma blur_conv_ok (c : Z) (w : trace) :
  Z.odd (width kernel) = true -> 1 <= width kernel <= 11 ->
  exists w',
    neurax_conv2d tanhf expf (Some dev) (Some (channel_plane input c)) (Some kernel) None
      (Some (blur_config (width kernel)))
      (Some (tensor_of NEURAX_DATA_FLOAT32 (width input) (height input) 1 1
               (replicate (Z.to_nat (width input * height input * 1 * 1))
                  (Flt F32.zero)))) w
    = (NEURAX_SUCCESS,
       Some (tensor_of NEURAX_DATA_FLOAT32 (width input) (height input) 1 1
               (map (fun j => Flt (blurred_value tanhf expf input kernel c
                                     (Z.of_nat j / width input)
                                     (Z.of_nat j mod width input)))
                  (seq 0 (Z.to_nat (width input * height input))))),
       w').
Proof.
  intros Hodd Hk. destruct Hsmall as (Hw & Hh & Hch & Hsm & _).
  assert (Hwh : 0 < width input * height input) by (apply Z.mul_pos_pos; lia).
  assert (Hwh' : width input * height input < 2 ^ 31) by nia.
  assert (Hw' : width input < 2 ^ 31) by nia.
  assert (Hh' : height input < 2 ^ 31) by nia.
  destruct (conv2d_outcome (channel_plane input c) kernel
              (tensor_of NEURAX_DATA_FLOAT32 (width input) (height input) 1 1
                 (replicate (Z.to_nat (width input * height input * 1 * 1))
                    (Flt F32.zero)))
              (blur_config (width kernel)) w) as [w' Hconv].
  - apply plane_valid.
  - exact Hkernel.
  - apply plane_valid.
  - now apply blur_config_valid.
  - exists w'. rewrite Hconv. clear Hconv.
    pose proof (cpu_conv2d_single_channel tanhf expf (channel_plane input c) kernel None
                  (blur_config (width kernel)) NEURAX_DATA_FLOAT32
                  (Z.to_nat (width input)) (Z.to_nat (height input)) 1%nat
                  (replicate (Z.to_nat (width input * height input * 1 * 1))
                     (Flt F32.zero))
                  (fun j => Flt (blurred_value tanhf expf input kernel c
                                   (Z.of_nat j / width input)
                                   (Z.of_nat j mod width input)))) as Hcpu.
    rewrite !Z2Nat.id in Hcpu by lia. change (Z.of_nat 1) with 1 in Hcpu.
    assert (Hlen : length (replicate (Z.to_nat (width input * height input * 1 * 1))
                             (Flt F32.zero))
                   = Z.to_nat (width input * height input)).
    { rewrite length_replicate. f_equal. lia. }
    rewrite Hcpu; [cbn [fst snd]; now rewrite Hlen | | | | | | |].
    + unfold conv_out_height, channel_plane, blur_config, tensor_of.
      cbn [height padding_y kernel_height stride_y].
      rewrite blur_out_size by lia. now rewrite Hodd.
    + unfold conv_out_width, channel_plane, blur_config, tensor_of.
      cbn [width padding_x kernel_width stride_x].
      rewrite blur_out_size by lia. now rewrite Hodd.
    + reflexivity.
    + reflexivity.
    + lia.
    + rewrite Hlen. rewrite Z2Nat.inj_mul by lia. lia.
    + intros b y x Hb Hy Hx. assert (b = 0%nat) by lia. subst b.
      cbn [written_cell]. unfold blurred_value. f_equal.
      change (Z.of_nat 0) with 0.
      assert (E : Z.of_nat ((0 * Z.to_nat (height input) + y) * Z.to_nat (width input) + x)
                  = Z.of_nat y * width input + Z.of_nat x) by lia.
      rewrite E.
      f_equal.
      * rewrite Z.add_comm, Z.div_add by lia. rewrite Z.div_small by lia. lia.
      * rewrite Z.add_comm, Z.mod_add by lia. rewrite Z.mod_small by lia. lia.
Qed.

Lemma plane_created (heap : heap_env) (slot : option neurax_tensor_t) :
  calloc_struct heap = true -> (forall size, calloc_buffer heap size = true) ->
  neurax_tensor_create heap (width input) (height input) 1 1 NEURAX_DATA_FLOAT32
    (Some slot)
  = (NEURAX_SUCCESS,
     Some (Some (tensor_of NEURAX_DATA_FLOAT32 (width input) (height input) 1 1
                   (replicate (Z.to_nat (width input * height input * 1 * 1))
                      (Flt F32.zero))))).
Proof.
  intros Hs Hb. destruct Hsmall as (Hw & Hh & Hch & Hsm & _).
  apply tensor_create_small; solve [lia | nia | assumption].
Qed.

(** One channel with a kernel of odd size. *)
Lemma blur_channel_ok (c : Z) (result : neurax_tensor_t) (w : trace) :
  Z.odd (width kernel) = true -> 1 <= width kernel <= 11 ->
  0 <= c < channels input ->
  is_Some (data result) ->
  width input * height input * channels input <= Z.of_nat (length (buffer result)) ->
  exists result' w',
    blur_channel tanhf expf env (Some dev) input kernel
      (width kernel) (width kernel / 2) (width input) (height input) (channels input)
      c (None, ptr_tensor result, w)
    = (None, ptr_tensor result', w') /\
    same_shape result' result /\ is_Some (data result') /\
    length (buffer result') = length (buffer result) /\
    forall j : nat,
      buffer result' !! j
      = if decide (Z.of_nat j mod channels input = c /\
                   Z.of_nat j / channels input < width input * height input)
        then Some (Flt (blurred_value tanhf expf input kernel c
                          (Z.of_nat j / channels input / width input)
                          ((Z.of_nat j / channels input) mod width input)))
        else buffer result !! j.
Proof.
  intros Hodd Hk Hc Hd Hlen.
  destruct Hmem as (_ & _ & Hi1 & Hi2 & Ho1 & Ho2).
  pose proof Hsmall as (Hw & Hh & Hch & Hsm & _).
  assert (Hwh : 0 < width input * height input) by (apply Z.mul_pos_pos; lia).
  assert (Hwh' : width input * height input < 2 ^ 31) by nia.
  assert (Hw' : width input < 2 ^ 31) by nia.
  assert (Hh' : height input < 2 ^ 31) by nia.
  unfold blur_channel.
  rewrite (plane_created _ None (Hi1 c) (Hi2 c)). cbn [is_success negb].
  rewrite !(u32_small (width input)), !(u32_small (height input)) by lia.
  rewrite (plane_created _ None (Ho1 c) (Ho2 c)). cbn [is_success negb].
  rewrite (plane_filled c Hc).
  rewrite (u32_small (width kernel)), (u32_small (width kernel / 2))
    by (Z.div_mod_to_equations; lia).
  fold (blur_config (width kernel)).
  destruct (blur_conv_ok c w Hodd Hk) as [w' Hconv].
  rewrite Hconv. cbn [is_success negb].
  rewrite s32_small by lia.
  set (plane := tensor_of NEURAX_DATA_FLOAT32 (width input) (height input) 1 1 _).
  destruct (copy_back result (width input * height input) (channels input) c
              (fun i => load_flt (buffer plane) i))
    as (Hs' & Hd' & Hl' & Hj'); [lia | lia | lia | lia | exact Hd |].
  eexists. exists w'. split; [reflexivity |].
  split; [exact Hs' |]. split; [exact Hd' |]. split; [exact Hl' |].
  intros j. rewrite Hj'. case_decide as Hdec; [| reflexivity].
  destruct Hdec as [Hm Hq].
  assert (0 <= Z.of_nat j / channels input) by (apply Z.div_pos; lia).
  f_equal. f_equal.
  unfold plane, load_flt, buffer, tensor_of. cbn [data from_option id default].
  rewrite list_lookup_fmap, lookup_seq_lt by lia. cbn [fmap option_fmap option_map].
  rewrite Nat.add_0_l, Z2Nat.id by lia. reflexivity.
Qed.

(** One channel with a kernel of even size: the shape check of the
    convolution fails. *)
Lemma blur_channel_even (c : Z) (result : neurax_tensor_t) (w : trace) :
  Z.odd (width kernel) = false -> 1 <= width kernel <= 11 ->
  0 <= c < channels input ->
  exists w',
    blur_channel tanhf expf env (Some dev) input kernel
      (width kernel) (width kernel / 2) (width input) (height input) (channels input)
      c (None, ptr_tensor result, w)
    = (Some (-1), ptr_released, w').
Proof.
  intros Hodd Hk Hc.
  destruct Hmem as (_ & _ & Hi1 & Hi2 & Ho1 & Ho2).
  pose proof Hsmall as (Hw & Hh & Hch & Hsm & _).
  assert (Hw' : width input < 2 ^ 31) by nia.
  assert (Hh' : height input < 2 ^ 31) by nia.
  unfold blur_channel.
  rewrite (plane_created _ None (Hi1 c) (Hi2 c)). cbn [is_success negb].
  rewrite !(u32_small (width input)), !(u32_small (height input)) by lia.
  rewrite (plane_created _ None (Ho1 c) (Ho2 c)). cbn [is_success negb].
  rewrite (plane_filled c Hc).
  rewrite (u32_small (width kernel)), (u32_small (width kernel / 2))
    by (Z.div_mod_to_equations; lia).
  fold (blur_config (width kernel)).
  set (out := tensor_of NEURAX_DATA_FLOAT32 (width input) (height input) 1 1 _).
  destruct (conv2d_outcome (channel_plane input c) kernel out
              (blur_config (width kernel)) w) as [w' Hconv];
    [apply plane_valid | exact Hkernel | apply plane_valid |
     now apply blur_config_valid |].
  rewrite Hconv. rewrite cpu_conv2d_status.
  assert (E : conv_out_height (channel_plane input c) (blur_config (width kernel))
              = height input + 1).
  { unfold conv_out_height, channel_plane, blur_config, tensor_of.
    cbn [height padding_y kernel_height stride_y].
    rewrite blur_out_size by lia. now rewrite Hodd. }
  rewrite E. change (height out) with (height input).
  destruct (Z.eqb_spec (height input) (height input + 1)); [lia |].
  cbn [negb orb is_success]. exists w'. reflexivity.
Qed.

(** One channel with a kernel larger than 11: the configuration of the
    convolution is refused. *)
Lemma blur_channel_large (ks pad c : Z) (result : neurax_tensor_t) (w : trace) :
  11 < u32 ks ->
  blur_channel tanhf expf env (Some dev) input kernel
    ks pad (width input) (height input) (channels input) c (None, ptr_tensor result, w)
  = (Some (-1), ptr_released, w).
Proof.
  intros Hks.
  destruct Hmem as (_ & _ & Hi1 & Hi2 & Ho1 & Ho2).
  pose proof Hsmall as (Hw & Hh & Hch & Hsm & _).
  assert (Hw' : width input < 2 ^ 31) by nia.
  assert (Hh' : height input < 2 ^ 31) by nia.
  unfold blur_channel.
  rewrite (plane_created _ None (Hi1 c) (Hi2 c)). cbn [is_success negb].
  rewrite !(u32_small (width input)), !(u32_small (height input)) by lia.
  rewrite (plane_created _ None (Ho1 c) (Ho2 c)). cbn [is_success negb].
  unfold neurax_conv2d. rewrite Hinit. cbn [negb].
  assert (Hin : forall n v t,
             t = tensor_of NEURAX_DATA_FLOAT32 (width input) (height input) 1 1
                   (replicate (Z.to_nat (width input * height input * 1 * 1))
                      (Flt F32.zero)) ->
             neurax_validate_tensor
               (Some (for_loop n (fun i t => store_float t i (v i)) t))
             = NEURAX_SUCCESS).
  { intros n v t ->.
    eapply valid_like_validate; [| apply fill_valid_like]; apply plane_valid. }
  rewrite (Hin _ _ _ eq_refl). cbn [is_success negb].
  rewrite Hkernel. cbn [is_success negb].
  rewrite plane_valid. cbn [is_success negb].
  unfold neurax_validate_conv_config.
  cbn [kernel_width kernel_height].
  destruct (Z.eqb_spec (u32 ks) 0); [lia |].
  destruct (Z.ltb_spec 11 (u32 ks)); [| lia].
  reflexivity.
Qed.

End BlurChannel.

Section BlurFilter.

Variables tanhf expf : float -> float.
Variable env : blur_env.
Variable dev : neurax_device_t.
Variables input kernel : neurax_tensor_t.

Hypothesis Hinit : initialized dev = true.
Hypothesis Hmem : blur_memory_available env.
Hypothesis Hsmall : image_small input.
Hypothesis Hkernel : neurax_validate_tensor (Some kernel) = NEURAX_SUCCESS.

(** The loop over the channels with a kernel of odd size. *)
Lemma blur_loop_ok (result : neurax_tensor_t) (w : trace) :
  Z.odd (width kernel) = true -> 1 <= width kernel <= 11 ->
  is_Some (data result) ->
  width input * height input * channels input = Z.of_nat (length (buffer result)) ->
  exists result' w',
    for_loop (channels input)
      (blur_channel tanhf expf env (Some dev) input kernel
         (width kernel) (width kernel / 2) (width input) (height input) (channels input))
      (None, ptr_tensor result, w)
    = (None, ptr_tensor result', w') /\
    same_shape result' result /\
    forall j : nat,
      Z.of_nat j < width input * height input * channels input ->
      buffer result' !! j
      = Some (Flt (blurred_value tanhf expf input kernel
                     (Z.of_nat j mod channels input)
                     (Z.of_nat j / channels input / width input)
                     ((Z.of_nat j / channels input) mod width input))).
Proof.
  intros Hodd Hk Hd Hlen.
  pose proof Hsmall as (Hw & Hh & Hch & Hsm & _).
  pose (P := fun (c : Z) (st : option Z * tensor_ptr * trace) =>
    exists result' w',
      st = (None, ptr_tensor result', w') /\
      same_shape result' result /\ is_Some (data result') /\
      length (buffer result') = length (buffer result) /\
      forall j : nat,
        Z.of_nat j < width input * height input * channels input ->
        Z.of_nat j mod channels input < c ->
        buffer result' !! j
        = Some (Flt (blurred_value tanhf expf input kernel
                       (Z.of_nat j mod channels input)
                       (Z.of_nat j / channels input / width input)
                       ((Z.of_nat j / channels input) mod width input)))).
  assert (HP : P (channels input)
                 (for_loop (channels input)
                    (blur_channel tanhf expf env (Some dev) input kernel
                       (width kernel) (width kernel / 2) (width input) (height input)
                       (channels input))
                    (None, ptr_tensor result, w))).
  { apply for_loop_ind; [lia | |].
    - exists result, w. split; [reflexivity |]. split; [reflexivity |].
      split; [exact Hd |]. split; [reflexivity |].
      intros j _ Hj. pose proof (Z.mod_pos_bound (Z.of_nat j) (channels input)). lia.
    - intros c st Hc (r & w1 & -> & Hs & Hr & Hl & Hj).
      destruct (blur_channel_ok tanhf expf env dev input kernel Hinit Hmem Hsmall Hkernel
                  c r w1 Hodd Hk Hc Hr ltac:(lia))
        as (r' & w2 & E & Hs' & Hr' & Hl' & Hj').
      exists r', w2. split; [exact E |].
      split; [unfold same_shape in *; congruence |].
      split; [exact Hr' |]. split; [congruence |].
      intros j Hlt Hmod. rewrite Hj'.
      case_decide as Hdec.
      + destruct Hdec as [-> _]. reflexivity.
      + apply Hj; [exact Hlt |].
        assert (Z.of_nat j mod channels input <> c); [| lia].
        intros Hm. apply Hdec. split; [exact Hm |].
        apply Z.div_lt_upper_bound; lia. }
  destruct HP as (r & w' & E & Hs & _ & _ & Hj).
  exists r, w'. split; [exact E |]. split; [exact Hs |].
  intros j Hlt. apply Hj; [exact Hlt |].
  apply Z.mod_pos_bound. lia.
Qed.

(** The loop over the channels when the first channel fails. *)
Lemma blur_loop_fails (ks pad : Z) (result : neurax_tensor_t) (w : trace) :
  (forall w, exists w',
      blur_channel tanhf expf env (Some dev) input kernel
        ks pad (width input) (height input) (channels input) 0
        (None, ptr_tensor result, w)
      = (Some (-1), ptr_released, w')) ->
  exists w',
    for_loop (channels input)
      (blur_channel tanhf expf env (Some dev) input kernel
         ks pad (width input) (height input) (channels input))
      (None, ptr_tensor result, w)
    = (Some (-1), ptr_released, w').
Proof.
  intros Hfail. pose proof Hsmall as (Hw & Hh & Hch & Hsm & _).
  pose (P := fun (c : Z) (st : option Z * tensor_ptr * trace) =>
    (c = 0 /\ st = (None, ptr_tensor result, w)) \/
    (0 < c /\ exists w', st = (Some (-1), ptr_released, w'))).
  assert (HP : P (channels input)
                 (for_loop (channels input)
                    (blur_channel tanhf expf env (Some dev) input kernel
                       ks pad (width input) (height input) (channels input))
                    (None, ptr_tensor result, w))).
  { apply for_loop_ind; [lia | left; now split |].
    intros c st Hc [[-> ->] | [Hpos [w1 ->]]]; right; (split; [lia |]).
    - apply Hfail.
    - exists w1. reflexivity. }
  destruct HP as [[E _] | [_ HP]]; [lia | exact HP].
Qed.

Hypothesis Hk32 : is_uint32 (width kernel).

Lemma blur_result_created (slot : option neurax_tensor_t) :
  neurax_tensor_create (heap_result env) (width input) (height input) (channels input) 1
    NEURAX_DATA_FLOAT32 (Some slot)
  = (NEURAX_SUCCESS,
     Some (Some (tensor_of NEURAX_DATA_FLOAT32 (width input) (height input)
                   (channels input) 1
                   (replicate (Z.to_nat (width input * height input * channels input * 1))
                      (Flt F32.zero))))).
Proof.
  destruct Hmem as (Hs & Hb & _). destruct Hsmall as (Hw & Hh & Hch & Hsm & _).
  apply tensor_create_small; solve [lia | assumption].
Qed.

Lemma kernel_positive : 1 <= width kernel.
Proof.
  revert Hkernel. unfold neurax_validate_tensor.
  destruct (data kernel); [| discriminate].
  destruct (Z.eqb_spec (width kernel) 0) as [E | E]; [discriminate |].
  intros _. unfold is_uint32 in Hk32. lia.
Qed.

(** The blur succeeds exactly with a kernel of odd size up to 11.
    On an initialised device, for a float32 image whose number of
    elements is a value of type [int] and a valid kernel tensor, when
    the allocator returns memory, [apply_blur_filter] returns 0 if the
    width of the kernel is odd and at most 11, and -1 otherwise: with
    an even width the padding of half the kernel makes the convolution
    compute an output one pixel larger than the image, and its shape
    check fails.  When it returns 0 the location holds a float32 tensor
    with the width, height and channels of the image and one batch;
    when it returns -1 the result tensor has been destroyed and the
    location is left with the pointer to the released memory. *)
Theorem blur_needs_odd_kernel (slot : option neurax_tensor_t) (w : trace) :
  exists out w',
    apply_blur_filter tanhf expf env (Some dev) input kernel (Some slot) w
    = (if Z.odd (width kernel) && (width kernel <=? 11)
       then (0, Some (ptr_tensor out), w')
       else (-1, Some ptr_released, w')) /\
    width out = width input /\ height out = height input /\
    channels out = channels input /\ batch_size out = 1 /\
    data_type out = NEURAX_DATA_FLOAT32.
Proof.
  pose proof Hsmall as (Hw & Hh & Hch & Hsm & _).
  pose proof kernel_positive as Hk1.
  assert (Hw' : width input < 2 ^ 31) by nia.
  assert (Hh' : height input < 2 ^ 31) by nia.
  assert (Hc' : channels input < 2 ^ 31) by nia.
  unfold apply_blur_filter.
  rewrite !(s32_small (width input)), !(s32_small (height input)),
    !(s32_small (channels input)) by lia.
  rewrite !(u32_small (width input)), !(u32_small (height input)),
    !(u32_small (channels input)) by lia.
  rewrite blur_result_created. cbn [is_success negb].
  set (result := tensor_of NEURAX_DATA_FLOAT32 (width input) (height input)
                   (channels input) 1 _).
  assert (Hshape : forall out, same_shape out result ->
            width out = width input /\ height out = height input /\
            channels out = channels input /\ batch_size out = 1 /\
            data_type out = NEURAX_DATA_FLOAT32).
  { intros out Hs.
    destruct (same_shape_fields out result Hs) as (E1 & E2 & E3 & E4 & E5).
    now rewrite E1, E2, E3, E4, E5. }
  destruct (Z.leb_spec (width kernel) 11) as [Hle | Hgt].
  - rewrite (s32_small (width kernel)) by lia.
    rewrite Z.quot_div_nonneg by lia.
    destruct (Z.odd (width kernel)) eqn:Hodd; cbn [andb].
    + destruct (blur_loop_ok result w Hodd ltac:(lia)) as (r & w' & E & Hs & _).
      * now eexists.
      * unfold result, buffer, tensor_of. cbn [data from_option id default].
        rewrite length_replicate. lia.
      * rewrite E. exists r, w'. split; [reflexivity | now apply Hshape].
    + destruct (blur_loop_fails (width kernel) (width kernel / 2) result w) as [w' E].
      * intros w1.
        apply (blur_channel_even tanhf expf env dev input kernel Hinit Hmem Hsmall
                 Hkernel 0 result w1 Hodd); lia.
      * rewrite E. exists result, w'. split; [reflexivity | now apply Hshape].
  - rewrite andb_false_r.
    destruct (blur_loop_fails (s32 (width kernel)) (Z.quot (s32 (width kernel)) 2)
                result w) as [w' E].
    + intros w1. exists w1.
      apply (blur_channel_large tanhf expf env dev input kernel Hinit Hmem Hsmall Hkernel).
      rewrite u32_s32 by exact Hk32. lia.
    + rewrite E. exists result, w'. split; [reflexivity | now apply Hshape].
Qed.

(** The blur is the convolution of each channel.  Under the same
    conditions and with a kernel of odd width up to 11,
    [apply_blur_filter] returns 0, and the element of the result at row
    [y], column [x] and channel [c] is the value that the convolution
    of the library computes at [y], [x] for the image of the channel
    [c] alone, with the kernel, stride 1, a padding of half the kernel,
    no bias and no activation. *)
Theorem blur_is_channelwise_convolution (slot : option neurax_tensor_t) (w : trace) :
  Z.odd (width kernel) = true -> width kernel <= 11 ->
  exists out w',
    apply_blur_filter tanhf expf env (Some dev) input kernel (Some slot) w
    = (0, Some (ptr_tensor out), w') /\
    forall y x c,
      0 <= y < height input -> 0 <= x < width input -> 0 <= c < channels input ->
      load_flt (buffer out) ((y * width input + x) * channels input + c)
      = blurred_value tanhf expf input kernel c y x.
Proof.
  intros Hodd Hle.
  pose proof Hsmall as (Hw & Hh & Hch & Hsm & _).
  pose proof kernel_positive as Hk1.
  assert (Hw' : width input < 2 ^ 31) by nia.
  assert (Hh' : height input < 2 ^ 31) by nia.
  assert (Hc' : channels input < 2 ^ 31) by nia.
  unfold apply_blur_filter.
  rewrite !(s32_small (width input)), !(s32_small (height input)),
    !(s32_small (channels input)) by lia.
  rewrite !(u32_small (width input)), !(u32_small (height input)),
    !(u32_small (channels input)) by lia.
  rewrite blur_result_created. cbn [is_success negb].
  set (result := tensor_of NEURAX_DATA_FLOAT32 (width input) (height input)
                   (channels input) 1 _).
  rewrite (s32_small (width kernel)) by lia.
  rewrite Z.quot_div_nonneg by lia.
  destruct (blur_loop_ok result w Hodd ltac:(lia)) as (r & w' & E & _ & Hj).
  - now eexists.
  - unfold result, buffer, tensor_of. cbn [data from_option id default].
    rewrite length_replicate. lia.
  - rewrite E. exists r, w'. split; [reflexivity |].
    intros y x c Hy Hx Hc.
    assert (Hyx : 0 <= y * width input + x < width input * height input) by nia.
    assert (Hidx : 0 <= (y * width input + x) * channels input + c
                   < width input * height input * channels input) by nia.
    unfold load_flt.
    rewrite (Hj (Z.to_nat ((y * width input + x) * channels input + c))) by lia.
    rewrite Z2Nat.id by lia.
    destruct (proj1 (strided_index (channels input) c
                       ((y * width input + x) * channels input + c)
                       (y * width input + x) ltac:(lia) ltac:(lia)) eq_refl) as [Em Eq].
    rewrite Em, Eq.
    destruct (proj1 (strided_index (width input) x (y * width input + x) y
                       ltac:(lia) ltac:(lia)) eq_refl) as [Em' Eq'].
    now rewrite Em', Eq'.
Qed.

End BlurFilter.

Lemma blur_needs_odd_kernel_witness :
  (exists w',
      apply_blur_filter (fun x => x) (fun x => x) blur_env_example (Some emulated_device)
        image_2x2 kernel_4x4 (Some None) []
      = (-1, Some ptr_released, w')) /\
  (exists out w',
      apply_blur_filter (fun x => x) (fun x => x) blur_env_example (Some emulated_device)
        image_2x2 kernel_3x3 (Some None) []
      = (0, Some (ptr_tensor out), w') /\
      width out = 2 /\ height out = 2 /\ channels out = 3 /\ batch_size out = 1 /\
      data_type out = NEURAX_DATA_FLOAT32).
Proof.
  split.
  - destruct (blur_needs_odd_kernel (fun x => x) (fun x => x) blur_env_example
                emulated_device image_2x2 kernel_4x4) with (slot := @None neurax_tensor_t)
                (w := @nil mmio_event) as (out & w' & E & _).
    + reflexivity.
    + repeat split.
    + decide_ranges.
    + reflexivity.
    + split; [discriminate | reflexivity].
    + exists w'. exact E.
  - apply (blur_needs_odd_kernel (fun x => x) (fun x => x) blur_env_example emulated_device
             image_2x2 kernel_3x3).
    + reflexivity.
    + repeat split.
    + decide_ranges.
    + reflexivity.
    + split; [discriminate | reflexivity].
Defined.

Lemma blur_is_channelwise_convolution_witness :
  exists out w',
    apply_blur_filter (fun x => x) (fun x => x) blur_env_example (Some emulated_device)
      image_2x2 kernel_3x3 (Some None) []
    = (0, Some (ptr_tensor out), w') /\
    forall y x c,
      0 <= y < 2 -> 0 <= x < 2 -> 0 <= c < 3 ->
      load_flt (buffer out) ((y * 2 + x) * 3 + c)
      = blurred_value (fun x => x) (fun x => x) image_2x2 kernel_3x3 c y x.
Proof.
  apply (blur_is_channelwise_convolution (fun x => x) (fun x => x) blur_env_example
           emulated_device image_2x2 kernel_3x3).
  - reflexivity.
  - repeat split.
  - decide_ranges.
  - reflexivity.
  - split; [discriminate | reflexivity].
  - reflexivity.
  - discriminate.
Defined.

(** ** BMP files *)

Lemma byte_round_trip_below (n : nat) (b : Z) :
  forallb (fun b => byte_of_pixel (pixel_of_byte b) =? b) (map Z.of_nat (seq 0 n)) = true ->
  0 <= b < Z.of_nat n -> byte_of_pixel (pixel_of_byte b) = b.
Proof.
  intros Hall Hb. rewrite forallb_forall in Hall.
  apply Z.eqb_eq. apply Hall. apply in_map_iff.
  exists (Z.to_nat b). split; [lia |]. apply in_seq. lia.
Qed.

(** A byte survives the conversion to a pixel value and back. *)
Lemma byte_round_trip (b : Z) : 0 <= b < 256 -> byte_of_pixel (pixel_of_byte b) = b.
Proof.
  intros Hb. apply (byte_round_trip_below 256); [| lia].
  vm_compute. reflexivity.
Qed.

Lemma byte_of_pixel_range (v : float) : 0 <= byte_of_pixel v < 256.
Proof. unfold byte_of_pixel, u8. apply Z.mod_pos_bound. reflexivity. Qed.

Lemma le_bytes_length (n : nat) (z : Z) : length (le_bytes n z) = n.
Proof. revert z. induction n as [| n IH]; intros z; cbn; [reflexivity | now rewrite IH]. Qed.

Lemma le_value_bytes (n : nat) (z : Z) :
  le_value (le_bytes n z) = z mod 256 ^ Z.of_nat n.
Proof.
  revert z. induction n as [| n IH]; intros z.
  - cbn. now rewrite Z.mod_1_r.
  - cbn [le_bytes le_value]. rewrite IH.
    rewrite Nat2Z.inj_succ, Z.pow_succ_r by lia.
    rewrite Z.rem_mul_r by lia. reflexivity.
Qed.

Lemma for_loop_3 {St : Type} (body : Z -> St -> St) (s : St) :
  for_loop 3 body s = body 2 (body 1 (body 0 s)).
Proof. reflexivity. Qed.

Lemma row_padding_bounds (w : Z) : 0 <= bmp_row_padding w < 4.
Proof. unfold bmp_row_padding. apply Z.mod_pos_bound. lia. Qed.

Lemma row_padding_rem (w : Z) :
  0 <= w -> Z.rem (4 - Z.rem (3 * w) 4) 4 = bmp_row_padding w.
Proof.
  intros Hw. unfold bmp_row_padding.
  rewrite (Z.rem_mod_nonneg (3 * w) 4) by lia.
  pose proof (Z.mod_pos_bound (3 * w) 4 ltac:(lia)).
  rewrite Z.rem_mod_nonneg by lia. reflexivity.
Qed.

Lemma third_index (x k : Z) :
  0 <= x -> 0 <= k < 3 -> (3 * x + k) / 3 = x /\ (3 * x + k) mod 3 = k.
Proof. intros Hx Hk. Z.div_mod_to_equations. lia. Qed.

Section BmpRows.

Variable image : neurax_tensor_t.
Hypothesis Himage : bmp_image image.

Lemma bmp_bounds :
  0 < width image < 2 ^ 28 /\ 0 < height image < 2 ^ 28 /\
  3 <= channels image < 2 ^ 28 /\
  width image * height image < 2 ^ 28 /\
  width image * height image * channels image < 2 ^ 28.
Proof. destruct Himage as (_ & Hw & Hh & Hc & Hs & _). repeat split; nia. Qed.

(** The loops over [x] and [c] of [save_bmp_image] write the row. *)
Lemma save_row (y : Z) (row : list Z) :
  0 <= y < height image ->
  length row = Z.to_nat (bmp_row_size image) ->
  drop (Z.to_nat (3 * width image)) row
  = replicate (Z.to_nat (bmp_row_padding (width image))) 0 ->
  for_loop (width image)
    (fun x =>
       for_loop 3
         (fun c row_buffer =>
            <[Z.to_nat (s32 (s32 (x * 3) + s32 (s32 (3 - 1) - c))) :=
                byte_of_pixel
                  (load_flt (buffer image)
                     (s32 (s32 (s32 (s32 (y * width image) + x) * channels image) + c)))]>
              row_buffer))
    row
  = bmp_row image y.
Proof.
  intros Hy Hlen Hpad. unfold bmp_row_size in Hlen.
  destruct bmp_bounds as (Hw & Hh & Hc & Hwh & Hwhc).
  pose proof (row_padding_bounds (width image)) as Hp.
  set (B := fun j : nat =>
              byte_of_pixel
                (load_flt (buffer image)
                   ((y * width image + Z.of_nat j / 3) * channels image
                    + (2 - Z.of_nat j mod 3)))).
  assert (HQ : length (for_loop (width image)
                  (fun x =>
                     for_loop 3
                       (fun c row_buffer =>
                          <[Z.to_nat (s32 (s32 (x * 3) + s32 (s32 (3 - 1) - c))) :=
                              byte_of_pixel
                                (load_flt (buffer image)
                                   (s32 (s32 (s32 (s32 (y * width image) + x)
                                              * channels image) + c)))]>
                            row_buffer))
                  row) = length row /\
               forall j : nat,
                 for_loop (width image)
                  (fun x =>
                     for_loop 3
                       (fun c row_buffer =>
                          <[Z.to_nat (s32 (s32 (x * 3) + s32 (s32 (3 - 1) - c))) :=
                              byte_of_pixel
                                (load_flt (buffer image)
                                   (s32 (s32 (s32 (s32 (y * width image) + x)
                                              * channels image) + c)))]>
                            row_buffer))
                  row !! j
                 = if decide (Z.of_nat j < 3 * width image) then Some (B j) else row !! j).
  { refine (for_loop_ind
              (fun x row' =>
                 length row' = length row /\
                 forall j : nat,
                   row' !! j
                   = if decide (Z.of_nat j < 3 * x) then Some (B j) else row !! j)
              _ (width image) row ltac:(lia) _ _).
    - split; [reflexivity |]. intros j. rewrite decide_False by lia. reflexivity.
    - intros x r Hx [Hl Hj]. rewrite for_loop_3.
      change (3 - 1) with 2.
      assert (Hyx : 0 <= y * width image + x < width image * height image) by nia.
      rewrite !(s32_small (x * 3)), !(s32_small 2), !(s32_small (y * width image)) by nia.
      rewrite !(s32_small (2 - 0)), !(s32_small (2 - 1)), !(s32_small (2 - 2)) by lia.
      rewrite !(s32_small (y * width image + x)) by lia.
      rewrite !(s32_small ((y * width image + x) * channels image)) by nia.
      rewrite !(s32_small (x * 3 + _)) by lia.
      rewrite !(s32_small ((y * width image + x) * channels image + _)) by nia.
      split; [now rewrite !length_insert |].
      intros j.
      destruct (third_index x 0 ltac:(lia) ltac:(lia)) as [D0 M0].
      destruct (third_index x 1 ltac:(lia) ltac:(lia)) as [D1 M1].
      destruct (third_index x 2 ltac:(lia) ltac:(lia)) as [D2 M2].
      destruct (decide (j = Z.to_nat (x * 3 + (2 - 2)))) as [E2 | E2].
      { subst j. rewrite list_lookup_insert_eq by (rewrite !length_insert; lia).
        rewrite decide_True by lia. unfold B. rewrite Z2Nat.id by lia.
        replace (x * 3 + (2 - 2)) with (3 * x + 0) by lia. rewrite D0, M0.
        do 3 f_equal. }
      rewrite list_lookup_insert_ne by congruence.
      destruct (decide (j = Z.to_nat (x * 3 + (2 - 1)))) as [E1 | E1].
      { subst j. rewrite list_lookup_insert_eq by (rewrite !length_insert; lia).
        rewrite decide_True by lia. unfold B. rewrite Z2Nat.id by lia.
        replace (x * 3 + (2 - 1)) with (3 * x + 1) by lia. rewrite D1, M1.
        do 3 f_equal. }
      rewrite list_lookup_insert_ne by congruence.
      destruct (decide (j = Z.to_nat (x * 3 + (2 - 0)))) as [E0 | E0].
      { subst j. rewrite list_lookup_insert_eq by lia.
        rewrite decide_True by lia. unfold B. rewrite Z2Nat.id by lia.
        replace (x * 3 + (2 - 0)) with (3 * x + 2) by lia. rewrite D2, M2.
        do 3 f_equal. }
      rewrite list_lookup_insert_ne by congruence.
      rewrite Hj. repeat case_decide; try reflexivity; lia. }
  destruct HQ as [HL HJ].
  apply list_eq. intros j. rewrite HJ. unfold bmp_row. fold B.
  case_decide as Hd.
  - rewrite lookup_app_l by (rewrite length_map, length_seq; lia).
    rewrite list_lookup_fmap, lookup_seq_lt by lia. reflexivity.
  - rewrite lookup_app_r by (rewrite length_map, length_seq; lia).
    rewrite length_map, length_seq. rewrite <- Hpad. rewrite lookup_drop.
    f_equal. lia.
Qed.

Lemma bmp_row_length (y : Z) :
  length (bmp_row image y)
  = Z.to_nat (bmp_row_size image).
Proof.
  destruct bmp_bounds as (Hw & _). pose proof (row_padding_bounds (width image)).
  unfold bmp_row, bmp_row_size. rewrite length_app, length_map, length_seq, length_replicate. lia.
Qed.

Lemma bmp_row_tail (y : Z) :
  drop (Z.to_nat (3 * width image)) (bmp_row image y)
  = replicate (Z.to_nat (bmp_row_padding (width image))) 0.
Proof.
  unfold bmp_row. rewrite drop_app_length'; [reflexivity |].
  now rewrite length_map, length_seq.
Qed.

(** The file that [save_bmp_image] writes. *)
Lemma save_bmp_file (env : bmp_save_env) :
  file_created env = true -> calloc_row env = true ->
  save_bmp_image env (Some image) = (0, Some (bmp_file image)).
Proof.
  intros Hf Hr.
  destruct bmp_bounds as (Hw & Hh & Hc & Hwh & Hwhc).
  pose proof (row_padding_bounds (width image)) as Hp.
  pose proof Himage as (Hty & _).
  unfold save_bmp_image. rewrite Hty, Hf, Hr. cbn [negb]. cbv zeta.
  rewrite !(s32_small (width image)), !(s32_small (height image)),
    !(s32_small (channels image)) by lia.
  destruct (Z.leb_spec 3 (channels image)) as [_ | Hlt]; [| lia].
  rewrite !(s32_small (width image * 3)) by lia.
  replace (width image * 3) with (3 * width image) by lia.
  rewrite row_padding_rem by lia.
  fold (bmp_row_size image).
  assert (Hrs : 3 * width image <= bmp_row_size image < 3 * width image + 4)
    by (unfold bmp_row_size; lia).
  rewrite !(s32_small (bmp_row_size image)) by lia.
  assert (Hsize : 0 <= height image * bmp_row_size image < 2 ^ 30) by nia.
  rewrite !(s32_small (height image * bmp_row_size image)) by lia.
  rewrite (u32_small (14 + 40 + _)), (u32_small (height image * _)) by lia.
  unfold u64. rewrite (Z.mod_small (bmp_row_size image)) by lia.
  change (u16 (3 * 8)) with 24. change (14 + 40) with 54.
  fold (bmp_header image). fold (bmp_info image).
  match goal with
  | |- context [for_loop (height image) ?body ?init] =>
      assert (HP : for_loop (height image) body init
                   = (if height image =? 0 then fst init
                      else bmp_row image (height image - 1),
                      snd init ++ concat (bmp_rows image)))
  end.
  { unfold bmp_rows.
    refine (for_loop_ind
              (fun y st =>
                 st = (if y =? 0
                       then replicate (Z.to_nat (bmp_row_size image)) 0
                       else bmp_row image (y - 1),
                       _ ++ concat (map (fun y => bmp_row image (Z.of_nat y))
                                      (seq 0 (Z.to_nat y)))))
              _ (height image) _ ltac:(lia) _ _).
    - cbn [fst snd Z.eqb Z.to_nat seq map concat]. now rewrite app_nil_r.
    - intros y st Hy ->. cbv beta iota.
      pose proof (save_row y (if y =? 0
                              then replicate (Z.to_nat (bmp_row_size image)) 0
                              else bmp_row image (y - 1)) Hy) as E.
      cbv beta zeta delta [byte_of_pixel] in E.
      rewrite !E.
      + destruct (Z.eqb_spec (y + 1) 0); [lia |].
        replace (y + 1 - 1) with y by lia.
        f_equal. rewrite <- app_assoc. f_equal.
        replace (Z.to_nat (y + 1)) with (Z.to_nat y + 1)%nat by lia.
        rewrite seq_app, map_app, concat_app. cbn [seq map concat].
        rewrite app_nil_r, Nat.add_0_l, Z2Nat.id by lia. reflexivity.
      + destruct (y =? 0); [now rewrite length_replicate | apply bmp_row_length].
      + destruct (y =? 0); [| apply bmp_row_tail].
        rewrite drop_replicate. f_equal. unfold bmp_row_size. lia. }
  rewrite HP. cbn [snd]. unfold bmp_file. now rewrite <- app_assoc.
Qed.

End BmpRows.

Lemma field_value (n : nat) (z : Z) (before after : list Z) :
  field (before ++ le_bytes n z ++ after) (length before) n = z mod 256 ^ Z.of_nat n.
Proof.
  unfold field. rewrite drop_app_length.
  rewrite take_app_length' by (symmetry; apply le_bytes_length).
  apply le_value_bytes.
Qed.

Lemma s32_bytes (z : Z) :
  - 2 ^ 31 <= z < 2 ^ 31 ->
  s32 (z mod 256 + 256 * (z / 256 mod 256 + 256 * (z / 256 / 256 mod 256
       + 256 * (z / 256 / 256 / 256 mod 256 + 0))))
  = z.
Proof.
  intros Hz.
  replace (z mod 256 + 256 * (z / 256 mod 256 + 256 * (z / 256 / 256 mod 256
           + 256 * (z / 256 / 256 / 256 mod 256 + 0))))
    with (z mod 2 ^ 32) by (Z.div_mod_to_equations; lia).
  unfold s32, signed. rewrite Z.mod_mod by lia. change (2 ^ (32 - 1)) with (2 ^ 31).
  destruct (Z.ltb_spec (z mod 2 ^ 32) (2 ^ 31)); Z.div_mod_to_equations; lia.
Qed.

Ltac solve_field :=
  unfold field; cbn [le_bytes app firstn skipn le_value];
  rewrite ?s32_bytes by assumption;
  Z.div_mod_to_equations; lia.

(** The headers are read as they were written. *)
Lemma header_round_trip (h : bmp_header_t) :
  0 <= header_type h < 2 ^ 16 -> 0 <= header_size h < 2 ^ 32 ->
  0 <= header_reserved1 h < 2 ^ 16 -> 0 <= header_reserved2 h < 2 ^ 16 ->
  0 <= header_offset h < 2 ^ 32 ->
  header_of_bytes (header_bytes h) = h.
Proof.
  intros H1 H2 H3 H4 H5. destruct h as [t s r1 r2 o]. cbn [header_type header_size
    header_reserved1 header_reserved2 header_offset] in *.
  unfold header_of_bytes, header_bytes.
  cbn [header_type header_size header_reserved1 header_reserved2 header_offset].
  f_equal; solve_field.
Qed.

Lemma info_round_trip (i : bmp_info_header_t) :
  0 <= info_size i < 2 ^ 32 ->
  - 2 ^ 31 <= info_width i < 2 ^ 31 -> - 2 ^ 31 <= info_height i < 2 ^ 31 ->
  0 <= info_planes i < 2 ^ 16 -> 0 <= info_bits_per_pixel i < 2 ^ 16 ->
  0 <= info_compression i < 2 ^ 32 -> 0 <= info_image_size i < 2 ^ 32 ->
  - 2 ^ 31 <= info_x_pixels_per_meter i < 2 ^ 31 ->
  - 2 ^ 31 <= info_y_pixels_per_meter i < 2 ^ 31 ->
  0 <= info_colors_used i < 2 ^ 32 -> 0 <= info_colors_important i < 2 ^ 32 ->
  info_of_bytes (info_bytes i) = i.
Proof.
  intros H1 H2 H3 H4 H5 H6 H7 H8 H9 H10 H11.
  destruct i as [a b c d e f g h k l m].
  cbn [info_size info_width info_height info_planes info_bits_per_pixel info_compression
       info_image_size info_x_pixels_per_meter info_y_pixels_per_meter info_colors_used
       info_colors_important] in *.
  unfold info_of_bytes, info_bytes.
  cbn [info_size info_width info_height info_planes info_bits_per_pixel info_compression
       info_image_size info_x_pixels_per_meter info_y_pixels_per_meter info_colors_used
       info_colors_important].
  f_equal; solve_field.
Qed.

Lemma concat_uniform_length {A : Type} (n : nat) (ls : list (list A)) :
  Forall (fun l => length l = n) ls -> length (concat ls) = (length ls * n)%nat.
Proof.
  induction 1 as [| l ls Hl _ IH]; [reflexivity |].
  cbn [concat length]. rewrite length_app, IH, Hl. lia.
Qed.

Lemma concat_uniform_row {A : Type} (n : nat) (ls : list (list A)) :
  Forall (fun l => length l = n) ls ->
  forall (k : nat) (l : list A),
    ls !! k = Some l -> take n (drop (k * n) (concat ls)) = l.
Proof.
  induction 1 as [| l0 ls Hl _ IH]; intros k l Hk; [discriminate |].
  destruct k as [| k]; cbn [concat].
  - cbn in Hk. injection Hk as <-. cbn [Nat.mul drop].
    now apply take_app_length'.
  - cbn in Hk. replace (S k * n)%nat with (length l0 + k * n)%nat by lia.
    rewrite drop_app_add'; [| reflexivity]. now apply IH.
Qed.

Lemma store_next (t0 : neurax_tensor_t) (v : nat -> float) (n : Z)
    (t : neurax_tensor_t) (value : float) :
  filled_to t0 v n t -> 0 <= n < Z.of_nat (length (buffer t0)) ->
  value = v (Z.to_nat n) ->
  filled_to t0 v (n + 1) (store_float t n value).
Proof.
  intros (Hs & Hd & Hl & Hj) Hn ->. unfold store_float, store.
  split; [now apply same_shape_with_buffer |].
  split; [now eexists |].
  rewrite buffer_with_buffer.
  split; [now rewrite length_insert |].
  intros j Hlt. destruct (decide (j = Z.to_nat n)) as [-> | Hne].
  - apply list_lookup_insert_eq. lia.
  - rewrite list_lookup_insert_ne by congruence. apply Hj. lia.
Qed.

Lemma filled_all (t0 : neurax_tensor_t) (v : nat -> float) (t : neurax_tensor_t) :
  filled_to t0 v (Z.of_nat (length (buffer t0))) t ->
  t = with_buffer t0 (map (fun j => Flt (v j)) (seq 0 (length (buffer t0)))).
Proof.
  intros (Hs & Hd & Hl & Hj).
  rewrite <- (with_buffer_buffer t Hd).
  unfold same_shape in Hs. unfold with_buffer in *.
  injection Hs as E1 E2 E3 E4 E5 E6. rewrite E1, E2, E3, E4, E5, E6.
  f_equal. f_equal. apply list_eq. intros j.
  destruct (decide (j < length (buffer t0))%nat) as [Hlt | Hge].
  - rewrite Hj by lia. now rewrite list_lookup_fmap, lookup_seq_lt by lia.
  - rewrite !lookup_ge_None_2; [reflexivity | |].
    + rewrite length_map, length_seq. lia.
    + lia.
Qed.

Section BmpLoad.

Variable image : neurax_tensor_t.
Hypothesis Himage : bmp_image image.

Lemma bmp_row_size_bounds :
  3 * width image <= bmp_row_size image < 3 * width image + 4 /\
  0 < bmp_row_size image /\
  0 <= height image * bmp_row_size image < 2 ^ 30.
Proof.
  destruct (bmp_bounds image Himage) as (Hw & Hh & Hc & Hwh & Hwhc).
  pose proof (row_padding_bounds (width image)) as Hp.
  unfold bmp_row_size. repeat split; nia.
Qed.

Lemma bmp_rows_uniform :
  Forall (fun l => length l = Z.to_nat (bmp_row_size image)) (bmp_rows image).
Proof.
  unfold bmp_rows. apply Forall_fmap, Forall_forall. intros y _.
  apply (bmp_row_length image Himage).
Qed.

Lemma bmp_rows_length : length (bmp_rows image) = Z.to_nat (height image).
Proof. unfold bmp_rows. now rewrite length_map, length_seq. Qed.

Lemma bmp_file_length :
  Z.of_nat (length (bmp_file image)) = 54 + height image * bmp_row_size image.
Proof.
  destruct (bmp_bounds image Himage) as (Hw & Hh & _).
  destruct bmp_row_size_bounds as (_ & Hrs & _).
  unfold bmp_file. rewrite !length_app.
  rewrite (concat_uniform_length _ _ bmp_rows_uniform), bmp_rows_length.
  unfold header_bytes, info_bytes. rewrite !length_app, !le_bytes_length.
  rewrite !Nat2Z.inj_add, Nat2Z.inj_mul, !Z2Nat.id by lia. lia.
Qed.

Lemma fread_header :
  fread 14 {| content := bmp_file image; position := 0 |}
  = Some (header_bytes (bmp_header image),
          {| content := bmp_file image; position := 14 |}).
Proof.
  destruct bmp_row_size_bounds as (_ & _ & Hsz).
  unfold fread. cbn [content position].
  rewrite bmp_file_length.
  destruct (Z.leb_spec (0 + 14) (54 + height image * bmp_row_size image)); [| lia].
  reflexivity.
Qed.

Lemma fread_info :
  fread 40 {| content := bmp_file image; position := 14 |}
  = Some (info_bytes (bmp_info image),
          {| content := bmp_file image; position := 54 |}).
Proof.
  destruct bmp_row_size_bounds as (_ & _ & Hsz).
  unfold fread. cbn [content position].
  rewrite bmp_file_length.
  destruct (Z.leb_spec (14 + 40) (54 + height image * bmp_row_size image)); [| lia].
  reflexivity.
Qed.

Lemma fread_row (y : Z) :
  0 <= y < height image ->
  fread (bmp_row_size image)
    {| content := bmp_file image; position := 54 + y * bmp_row_size image |}
  = Some (bmp_row image y,
          {| content := bmp_file image; position := 54 + (y + 1) * bmp_row_size image |}).
Proof.
  intros Hy. destruct bmp_row_size_bounds as (_ & Hrs & Hsz).
  unfold fread. cbn [content position].
  rewrite bmp_file_length.
  destruct (Z.ltb_spec 0 (bmp_row_size image)); [| lia].
  destruct (Z.leb_spec (54 + y * bmp_row_size image + bmp_row_size image)
              (54 + height image * bmp_row_size image)); [| nia].
  cbn [andb]. f_equal. f_equal; [| f_equal; lia].
  unfold bmp_file. rewrite app_assoc.
  replace (Z.to_nat (54 + y * bmp_row_size image))
    with (54 + Z.to_nat y * Z.to_nat (bmp_row_size image))%nat by nia.
  rewrite drop_app_add' by reflexivity.
  apply (concat_uniform_row _ _ bmp_rows_uniform).
  unfold bmp_rows. rewrite list_lookup_fmap, lookup_seq_lt by lia.
  cbn. now rewrite Z2Nat.id by lia.
Qed.

Lemma bmp_header_read : header_of_bytes (header_bytes (bmp_header image)) = bmp_header image.
Proof.
  destruct bmp_row_size_bounds as (_ & _ & Hsz).
  apply header_round_trip; cbn [bmp_header header_type header_size header_reserved1
    header_reserved2 header_offset]; lia.
Qed.

Lemma bmp_info_read : info_of_bytes (info_bytes (bmp_info image)) = bmp_info image.
Proof.
  destruct bmp_row_size_bounds as (_ & _ & Hsz).
  destruct (bmp_bounds image Himage) as (Hw & Hh & _).
  apply info_round_trip; cbn [bmp_info info_size info_width info_height info_planes
    info_bits_per_pixel info_compression info_image_size info_x_pixels_per_meter
    info_y_pixels_per_meter info_colors_used info_colors_important]; lia.
Qed.

Lemma bmp_row_byte (y x k : Z) :
  0 <= x < width image -> 0 <= k < 3 ->
  load_byte (bmp_row image y) (x * 3 + k)
  = byte_of_pixel
      (load_flt (buffer image) ((y * width image + x) * channels image + (2 - k))).
Proof.
  intros Hx Hk. unfold load_byte, bmp_row.
  rewrite lookup_app_l by (rewrite length_map, length_seq; lia).
  rewrite list_lookup_fmap, lookup_seq_lt by lia.
  cbn [fmap option_fmap option_map default from_option id].
  rewrite Nat.add_0_l, Z2Nat.id by lia.
  destruct (third_index x k ltac:(lia) Hk) as [D M].
  replace (x * 3 + k) with (3 * x + k) by lia. now rewrite D, M.
Qed.

Lemma load_bmp_file (slot : option neurax_tensor_t) :
  load_bmp_image (bmp_load_env_of (bmp_file image)) (Some slot)
  = (0, Some (Some (quantized image))).
Proof.
  destruct (bmp_bounds image Himage) as (Hw & Hh & Hc & Hwh & Hwhc).
  destruct bmp_row_size_bounds as (Hrs3 & Hrs & Hsz).
  unfold load_bmp_image, bmp_load_env_of. cbn [file_content heap_image malloc_row].
  rewrite fread_header, bmp_header_read.
  cbn [bmp_header header_type header_offset].
  change (negb (19778 =? 19778)) with false. cbv iota.
  rewrite fread_info, bmp_info_read.
  cbn [bmp_info info_bits_per_pixel info_width info_height].
  change (24 =? 24) with true. change (24 =? 32) with false. cbn [negb andb].
  cbv zeta.
  rewrite Z.abs_eq by lia.
  rewrite !(s32_small (height image)) by lia.
  rewrite !(u32_small (width image)), !(u32_small (height image)), (u32_small 3) by lia.
  rewrite tensor_create_small; [| lia | lia | lia | lia | nia | reflexivity | reflexivity].
  cbn [is_success negb].
  rewrite !(s32_small (width image * 3)) by lia.
  replace (width image * 3) with (3 * width image) by lia.
  rewrite row_padding_rem by lia. fold (bmp_row_size image).
  rewrite !(s32_small (bmp_row_size image)) by lia.
  unfold u64. rewrite (Z.mod_small (bmp_row_size image)) by lia.
  change (3 =? 4) with false. cbv iota. unfold fseek. cbn [content].
  set (t0 := tensor_of NEURAX_DATA_FLOAT32 (width image) (height image) 3 1 _).
  set (V := fun j : nat =>
              pixel_of_byte
                (byte_of_pixel
                   (load_flt (buffer image)
                      (Z.of_nat j / 3 * channels image + Z.of_nat j mod 3)))).
  assert (HL : Z.of_nat (length (buffer t0)) = width image * height image * 3).
  { unfold t0, buffer, tensor_of. cbn [data from_option id default].
    rewrite length_replicate. lia. }
  match goal with
  | |- context [for_loop (height image) ?body ?init] =>
      assert (HP : exists t,
                 for_loop (height image) body init
                 = (None, t, {| content := bmp_file image;
                                position := 54 + height image * bmp_row_size image |}) /\
                 filled_to t0 V (height image * (width image * 3)) t)
  end.
  { refine (for_loop_ind
              (fun y st =>
                 exists t,
                   st = (None, t, {| content := bmp_file image;
                                     position := 54 + y * bmp_row_size image |}) /\
                   filled_to t0 V (y * (width image * 3)) t)
              _ (height image) _ ltac:(lia) _ _).
    - exists t0. split; [reflexivity |].
      split; [reflexivity |]. split; [now eexists |]. split; [reflexivity |].
      intros j Hj. lia.
    - intros y st Hy (t & -> & Ht).
      rewrite (fread_row y Hy).
      eexists. split; [reflexivity |].
      replace ((y + 1) * (width image * 3))
        with (y * (width image * 3) + width image * 3) by lia.
      refine (for_loop_ind
                (fun x t' => filled_to t0 V (y * (width image * 3) + x * 3) t')
                _ (width image) t ltac:(lia) _ _).
      + now rewrite Z.add_0_r.
      + intros x t' Hx Ht'. rewrite for_loop_3.
        change (3 - 1) with 2.
        assert (Hyx : 0 <= y * width image + x < width image * height image) by nia.
        rewrite !(s32_small (x * 3)), !(s32_small 2), !(s32_small (y * width image))
          by nia.
        rewrite !(s32_small (2 - 0)), !(s32_small (2 - 1)), !(s32_small (2 - 2)) by lia.
        rewrite !(s32_small (y * width image + x)) by lia.
        rewrite !(s32_small ((y * width image + x) * 3)) by lia.
        rewrite !(s32_small (x * 3 + _)) by lia.
        rewrite !(s32_small ((y * width image + x) * 3 + _)) by lia.
        rewrite !bmp_row_byte by lia.
        replace (y * (width image * 3) + (x + 1) * 3)
          with ((y * width image + x) * 3 + 0 + 1 + 1 + 1) by lia.
        replace (y * (width image * 3) + x * 3)
          with ((y * width image + x) * 3 + 0) in Ht' by lia.
        destruct (third_index (y * width image + x) 0 ltac:(lia) ltac:(lia)) as [D0 M0].
        destruct (third_index (y * width image + x) 1 ltac:(lia) ltac:(lia)) as [D1 M1].
        destruct (third_index (y * width image + x) 2 ltac:(lia) ltac:(lia)) as [D2 M2].
        replace ((y * width image + x) * 3 + 2)
          with ((y * width image + x) * 3 + 0 + 1 + 1) by lia.
        replace ((y * width image + x) * 3 + 1)
          with ((y * width image + x) * 3 + 0 + 1) at 1 by lia.
        apply store_next; [apply store_next; [apply store_next; [exact Ht' | lia |] | lia |]
                          | lia |].
        * unfold V. rewrite Z2Nat.id by lia.
          replace ((y * width image + x) * 3 + 0) with (3 * (y * width image + x) + 0)
            by lia.
          rewrite D0, M0. reflexivity.
        * unfold V. rewrite Z2Nat.id by lia.
          replace ((y * width image + x) * 3 + 0 + 1) with (3 * (y * width image + x) + 1)
            by lia.
          rewrite D1, M1. reflexivity.
        * unfold V. rewrite Z2Nat.id by lia.
          replace ((y * width image + x) * 3 + 0 + 1 + 1)
            with (3 * (y * width image + x) + 2) by lia.
          rewrite D2, M2. reflexivity. }
  destruct HP as (t & E & Ht). rewrite E. cbn [default from_option id].
  do 3 f_equal.
  replace (height image * (width image * 3)) with (Z.of_nat (length (buffer t0))) in Ht
    by lia.
  rewrite (filled_all t0 V t Ht).
  replace (length (buffer t0)) with (Z.to_nat (width image * height image * 3)) by lia.
  reflexivity.
Qed.

Lemma quantized_bmp_image : bmp_image (quantized image).
Proof.
  destruct (bmp_bounds image Himage) as (Hw & Hh & Hc & Hwh & Hwhc).
  unfold bmp_image, quantized, tensor_of, buffer.
  cbn [data_type width height channels data from_option id default].
  rewrite length_map, length_seq. repeat split; solve [lia | nia].
Qed.

Lemma quantized_value (y x c : Z) :
  0 <= y < height image -> 0 <= x < width image -> 0 <= c < 3 ->
  load_flt (buffer (quantized image)) ((y * width image + x) * 3 + c)
  = pixel_of_byte
      (byte_of_pixel
         (load_flt (buffer image) ((y * width image + x) * channels image + c))).
Proof.
  intros Hy Hx Hc.
  destruct (bmp_bounds image Himage) as (Hw & Hh & _).
  assert (Hyx : 0 <= y * width image + x < width image * height image) by nia.
  unfold load_flt at 1, quantized, buffer, tensor_of. cbn [data from_option id default].
  rewrite list_lookup_fmap, lookup_seq_lt by lia.
  cbn [fmap option_fmap option_map]. rewrite Nat.add_0_l, Z2Nat.id by lia.
  destruct (third_index (y * width image + x) c ltac:(lia) Hc) as [D M].
  replace ((y * width image + x) * 3 + c) with (3 * (y * width image + x) + c) by lia.
  now rewrite D, M.
Qed.

(** The file of the image that was read from a file is that file. *)
Lemma quantized_file : bmp_file (quantized image) = bmp_file image.
Proof.
  destruct (bmp_bounds image Himage) as (Hw & Hh & _).
  unfold bmp_file. f_equal. f_equal. f_equal.
  unfold bmp_rows. change (height (quantized image)) with (height image).
  apply map_ext_in. intros y Hy. apply in_seq in Hy.
  unfold bmp_row. change (width (quantized image)) with (width image).
  change (channels (quantized image)) with 3.
  f_equal. apply map_ext_in. intros j Hj. apply in_seq in Hj.
  assert (Hq : 0 <= Z.of_nat j / 3 < width image) by (Z.div_mod_to_equations; lia).
  assert (Hm : 0 <= 2 - Z.of_nat j mod 3 < 3) by (Z.div_mod_to_equations; lia).
  rewrite quantized_value by lia.
  apply byte_round_trip, byte_of_pixel_range.
Qed.

End BmpLoad.

(** Saving an image and loading the file gives the image in bytes.
    For a float32 image of at least three channels whose sizes are
    values of type [int], when the file can be created and memory is
    available, [save_bmp_image] returns 0, and [load_bmp_image] on the
    file it wrote returns 0 with an image of the same width and height
    and three channels; each element is the element of the original
    converted to a byte (clamped to 0..1, times 255, truncated) and
    back (divided by 255).  Saving the loaded image writes the same
    file again: a byte survives the conversion to a float and back. *)
Theorem bmp_save_load_round_trip (image : neurax_tensor_t) (env : bmp_save_env)
    (slot : option neurax_tensor_t) :
  bmp_image image -> file_created env = true -> calloc_row env = true ->
  exists file loaded,
    save_bmp_image env (Some image) = (0, Some file) /\
    load_bmp_image (bmp_load_env_of file) (Some slot) = (0, Some (Some loaded)) /\
    width loaded = width image /\ height loaded = height image /\
    channels loaded = 3 /\
    (forall y x c,
        0 <= y < height image -> 0 <= x < width image -> 0 <= c < 3 ->
        load_flt (buffer loaded) ((y * width image + x) * 3 + c)
        = pixel_of_byte
            (byte_of_pixel
               (load_flt (buffer image) ((y * width image + x) * channels image + c)))) /\
    save_bmp_image env (Some loaded) = (0, Some file).
Proof.
  intros Himage Hf Hr.
  exists (bmp_file image), (quantized image).
  split; [now apply save_bmp_file |].
  split; [now apply load_bmp_file |].
  split; [reflexivity |]. split; [reflexivity |]. split; [reflexivity |].
  split; [intros y x c; now apply quantized_value |].
  rewrite <- (quantized_file image Himage).
  apply save_bmp_file; [now apply quantized_bmp_image | exact Hf | exact Hr].
Qed.

Lemma bmp_save_load_round_trip_witness :
  exists file loaded,
    save_bmp_image bmp_save_env_example (Some image_rgba) = (0, Some file) /\
    load_bmp_image (bmp_load_env_of file) (Some None) = (0, Some (Some loaded)) /\
    width loaded = 2 /\ height loaded = 2 /\ channels loaded = 3 /\
    (forall y x c,
        0 <= y < 2 -> 0 <= x < 2 -> 0 <= c < 3 ->
        load_flt (buffer loaded) ((y * 2 + x) * 3 + c)
        = pixel_of_byte
            (byte_of_pixel (load_flt (buffer image_rgba) ((y * 2 + x) * 4 + c)))) /\
    save_bmp_image bmp_save_env_example (Some loaded) = (0, Some file).
Proof.
  apply (bmp_save_load_round_trip image_rgba bmp_save_env_example None).
  - decide_ranges.
  - reflexivity.
  - reflexivity.
Defined.

Lemma fread_headers (h : bmp_header_t) (i : bmp_info_header_t) (rest : list Z) :
  fread 14 {| content := (header_bytes h ++ info_bytes i) ++ rest; position := 0 |}
  = Some (header_bytes h,
          {| content := (header_bytes h ++ info_bytes i) ++ rest; position := 14 |}) /\
  fread 40 {| content := (header_bytes h ++ info_bytes i) ++ rest; position := 14 |}
  = Some (info_bytes i,
          {| content := (header_bytes h ++ info_bytes i) ++ rest; position := 54 |}).
Proof.
  assert (Hlen : Z.of_nat (length ((header_bytes h ++ info_bytes i) ++ rest))
                 = 54 + Z.of_nat (length rest)).
  { unfold header_bytes, info_bytes. rewrite !length_app, !le_bytes_length. lia. }
  unfold fread. cbn [content position]. rewrite Hlen.
  destruct (Z.leb_spec (0 + 14) (54 + Z.of_nat (length rest))); [| lia].
  destruct (Z.leb_spec (14 + 40) (54 + Z.of_nat (length rest))); [| lia].
  split; reflexivity.
Qed.

Lemma header_type_read (h : bmp_header_t) :
  header_type (header_of_bytes (header_bytes h)) = header_type h mod 2 ^ 16.
Proof.
  unfold header_of_bytes, header_bytes. cbn [header_type].
  unfold field; cbn [le_bytes app firstn skipn le_value].
  Z.div_mod_to_equations; lia.
Qed.

Lemma info_bits_read (i : bmp_info_header_t) :
  info_bits_per_pixel (info_of_bytes (info_bytes i)) = info_bits_per_pixel i mod 2 ^ 16.
Proof.
  unfold info_of_bytes, info_bytes. cbn [info_bits_per_pixel].
  unfold field; cbn [le_bytes app firstn skipn le_value].
  Z.div_mod_to_equations; lia.
Qed.

(** An image of fewer than three channels is saved as a file that
    cannot be loaded.  For a float32 image of one or two channels
    whose sizes are values of type [int], when the file can be created
    and memory is available, [save_bmp_image] returns 0; the file it
    writes has 8 bits per pixel, and [load_bmp_image] on that file
    returns -1, as it accepts 24 and 32 bits per pixel only, and leaves
    the location as it was. *)
Theorem bmp_gray_image_not_loadable (image : neurax_tensor_t) (env : bmp_save_env) :
  gray_image image -> file_created env = true -> calloc_row env = true ->
  exists file,
    save_bmp_image env (Some image) = (0, Some file) /\
    forall (lenv : bmp_load_env) (slot : option neurax_tensor_t),
      file_content lenv = Some file ->
      load_bmp_image lenv (Some slot) = (-1, Some slot).
Proof.
  intros (Hty & _ & _ & Hc & _) Hf Hr.
  unfold save_bmp_image. rewrite Hty, Hf, Hr. cbn [negb]. cbv zeta.
  rewrite !(s32_small (channels image)) by lia.
  destruct (Z.leb_spec 3 (channels image)) as [Hge | _]; [lia |].
  change (u16 (1 * 8)) with 8.
  match goal with
  | |- context [for_loop ?n ?body (?row, ?pre)] =>
      assert (HP : exists rest, snd (for_loop n body (row, pre)) = pre ++ rest);
      [| destruct (for_loop n body (row, pre)) as [r written];
         destruct HP as [rest HP]; cbn [snd] in HP; subst written ]
  end.
  { apply for_loop_invariant.
    - intros y [r written] [rest Hrest]. cbn [snd] in *. subst written. eexists.
      rewrite <- app_assoc. reflexivity.
    - exists []. cbn [snd]. now rewrite app_nil_r. }
  eexists. split; [reflexivity |].
  intros lenv slot Hfile. unfold load_bmp_image. rewrite Hfile.
  match goal with
  | |- context [(header_bytes ?h ++ info_bytes ?i) ++ rest] =>
      destruct (fread_headers h i rest) as [E1 E2];
      rewrite E1, header_type_read; cbn [header_type];
      change (negb (19778 mod 2 ^ 16 =? 19778)) with false; cbv iota;
      rewrite E2, info_bits_read; cbn [info_bits_per_pixel]
  end.
  reflexivity.
Qed.

Lemma bmp_gray_image_not_loadable_witness :
  exists file,
    save_bmp_image bmp_save_env_example (Some image_gray) = (0, Some file) /\
    forall (lenv : bmp_load_env) (slot : option neurax_tensor_t),
      file_content lenv = Some file ->
      load_bmp_image lenv (Some slot) = (-1, Some slot).
Proof.
  apply (bmp_gray_image_not_loadable image_gray bmp_save_env_example).
  - decide_ranges.
  - reflexivity.
  - reflexivity.
Defined.

(** ** The kernels write every element *)

Lemma scan_state_next (t0 : neurax_tensor_t) (v : Z -> Z -> Z -> Z -> float)
    (buf : list cell) (n2 n3 n4 b0 c0 y0 x0 b1 c1 y1 x1 : Z) (buf' : list cell) :
  (forall b c y x, in_tensor t0 b y x c ->
     scanned n2 n3 n4 b0 c0 y0 x0 b c y x <-> scanned n2 n3 n4 b1 c1 y1 x1 b c y x) ->
  scan_state t0 v buf n2 n3 n4 b0 c0 y0 x0 buf' ->
  scan_state t0 v buf n2 n3 n4 b1 c1 y1 x1 buf'.
Proof.
  intros Heq [Hl Hs]. split; [exact Hl |].
  intros b c y x Hin. destruct (Hs b c y x Hin) as [H1 H2].
  pose proof (Heq b c y x Hin) as E. split; intros H; [apply H1 | apply H2]; tauto.
Qed.

Lemma kernel_loops_scan (t0 : neurax_tensor_t) (v : Z -> Z -> Z -> Z -> float)
    (n1 n2 n3 n4 : Z) (buf : list cell) :
  0 <= n1 <= batch_size t0 -> 0 <= n2 <= channels t0 ->
  0 <= n3 <= height t0 -> 0 <= n4 <= width t0 ->
  width t0 * height t0 * channels t0 * batch_size t0 < 2 ^ 32 ->
  length buf = Z.to_nat (width t0 * height t0 * channels t0 * batch_size t0) ->
  scan_state t0 v buf n2 n3 n4 n1 0 0 0
    (for_loop n1 (fun batch =>
       for_loop n2 (fun ch =>
         for_loop n3 (fun out_y =>
           for_loop n4 (fun out_x buf =>
             store buf (tensor_index t0 batch out_y out_x ch)
               (written_cell (data_type t0) (v batch ch out_y out_x))))))
       buf).
Proof.
  intros H1 H2 H3 H4 Hsz Hlen.
  refine (for_loop_ind (fun b0 => scan_state t0 v buf n2 n3 n4 b0 0 0 0)
            _ n1 buf ltac:(lia) _ _).
  { split; [reflexivity |]. intros b c y x Hin. unfold scanned, in_tensor in *.
    split; intros H; [exfalso; lia | reflexivity]. }
  intros b0 s0 Hb0 Hs0.
  apply (scan_state_next t0 v buf n2 n3 n4 b0 n2 0 0);
    [intros b c y x Hin; unfold scanned, in_tensor in *; lia |].
  refine (for_loop_ind (fun c0 => scan_state t0 v buf n2 n3 n4 b0 c0 0 0)
            _ n2 s0 ltac:(lia) Hs0 _).
  intros c0 s1 Hc0 Hs1.
  apply (scan_state_next t0 v buf n2 n3 n4 b0 c0 n3 0);
    [intros b c y x Hin; unfold scanned, in_tensor in *; lia |].
  refine (for_loop_ind (fun y0 => scan_state t0 v buf n2 n3 n4 b0 c0 y0 0)
            _ n3 s1 ltac:(lia) Hs1 _).
  intros y0 s2 Hy0 Hs2.
  apply (scan_state_next t0 v buf n2 n3 n4 b0 c0 y0 n4);
    [intros b c y x Hin; unfold scanned, in_tensor in *; lia |].
  refine (for_loop_ind (fun x0 => scan_state t0 v buf n2 n3 n4 b0 c0 y0 x0)
            _ n4 s2 ltac:(lia) Hs2 _).
  intros x0 s3 Hx0 [Hl Hs3].
  assert (Hcur : in_tensor t0 b0 y0 x0 c0) by (unfold in_tensor; lia).
  pose proof (tensor_index_small t0 b0 y0 x0 c0 Hcur Hsz) as Ecur.
  pose proof (tensor_index_bound t0 b0 y0 x0 c0 Hcur) as Bcur.
  unfold store. split; [now rewrite length_insert |].
  intros b c y x Hin.
  pose proof (tensor_index_small t0 b y x c Hin Hsz) as Epos.
  pose proof (tensor_index_bound t0 b y x c Hin) as Bpos.
  destruct (Hs3 b c y x Hin) as [Hv Hn].
  destruct (Z.eq_dec (tensor_index t0 b y x c) (tensor_index t0 b0 y0 x0 c0)) as [E | E].
  - destruct (tensor_index_inj t0 b y x c b0 y0 x0 c0 Hin Hcur Hsz E)
      as (-> & -> & -> & ->).
    split.
    + intros _. apply list_lookup_insert_eq. lia.
    + intros Hns. exfalso. apply Hns. unfold scanned. lia.
  - rewrite list_lookup_insert_ne by lia.
    assert (Hne : ~ (b = b0 /\ c = c0 /\ y = y0 /\ x = x0))
      by (intros (-> & -> & -> & ->); now apply E).
    split; intros H; [apply Hv | apply Hn]; unfold scanned in *; lia.
Qed.

Lemma memset_zero_buffer (output : neurax_tensor_t) :
  output_ready output ->
  buffer (memset_zero output)
  = replicate (length (buffer output)) (zero_cell (data_type output)).
Proof.
  intros (Hv & (Hw & Hh & Hc & Hb) & Hsz & Hlen).
  apply (proj2 (proj2 (validate_tensor_cases output))) in Hv.
  destruct Hv as (_ & Hw0 & Hh0 & Hc0 & Hb0 & Hds).
  unfold is_uint32 in *.
  assert (Hcount : 0 <= width output * height output * channels output * batch_size output)
    by (repeat apply Z.mul_nonneg_nonneg; lia).
  unfold neurax_tensor_total_elements in Hds. rewrite u32_small in Hds by lia.
  unfold memset_zero. rewrite buffer_with_buffer, Hds.
  rewrite Z.div_mul by (destruct (data_type output); discriminate).
  rewrite <- Hlen. rewrite Nat.min_id, drop_all. apply app_nil_r.
Qed.

(** The four loops of a kernel on a zeroed output: every position the
    loops reach holds the value written there, the others hold zero. *)
Lemma kernel_loops_elements (output : neurax_tensor_t) (v : Z -> Z -> Z -> Z -> float)
    (n1 n2 n3 n4 : Z) :
  output_ready output ->
  0 <= n1 <= batch_size output -> 0 <= n2 <= channels output ->
  0 <= n3 <= height output -> 0 <= n4 <= width output ->
  let out :=
    for_loop n1 (fun batch =>
      for_loop n2 (fun ch =>
        for_loop n3 (fun out_y =>
          for_loop n4 (fun out_x output =>
            neurax_set_tensor_value output batch out_y out_x ch (v batch ch out_y out_x)))))
      (memset_zero output) in
  keeps_layout output out /\
  forall b y x c, in_tensor output b y x c ->
    neurax_get_tensor_value out b y x c
    = read_cell (data_type output)
        (if (b <? n1) && (c <? n2) && (y <? n3) && (x <? n4)
         then written_cell (data_type output) (v b c y x)
         else zero_cell (data_type output)).
Proof.
  intros Hready H1 H2 H3 H4 out. subst out.
  pose proof Hready as (Hv & Hu & Hsz & Hlen).
  assert (Hd : is_Some (data (memset_zero output))) by now eexists.
  rewrite (kernel_loops_buffer (memset_zero output) v n1 n2 n3 n4 Hd).
  destruct (kernel_loops_scan (memset_zero output) v n1 n2 n3 n4
              (buffer (memset_zero output)) H1 H2 H3 H4 Hsz)
    as [Hl Hs].
  { now rewrite memset_zero_length. }
  split.
  - split; [reflexivity |].
    rewrite buffer_with_buffer, Hl. apply memset_zero_length.
  - intros b y x c Hin.
    erewrite get_tensor_value_cell; [reflexivity |]. rewrite buffer_with_buffer.
    change (tensor_index (with_buffer (memset_zero output) _) b y x c)
      with (tensor_index (memset_zero output) b y x c).
    destruct (Hs b c y x Hin) as [Hyes Hno].
    destruct Hin as (Hb & Hy & Hx & Hc).
    destruct (Z.ltb_spec b n1), (Z.ltb_spec c n2), (Z.ltb_spec y n3), (Z.ltb_spec x n4);
      cbn [andb];
      try (rewrite Hno by (unfold scanned; lia);
           rewrite (memset_zero_buffer output Hready);
           apply lookup_replicate_2;
           pose proof (tensor_index_bound output b y x c
                         (conj Hb (conj Hy (conj Hx Hc))));
           change (tensor_index (memset_zero output) b y x c)
             with (tensor_index output b y x c);
           rewrite (tensor_index_small output b y x c
                      (conj Hb (conj Hy (conj Hx Hc))) Hsz); lia).
    apply Hyes. unfold scanned. lia.
Qed.

(** The convolution kernel writes every element of the output.  For a
    valid output tensor of the expected height and width, whose element
    count is below 2^32 and whose buffer holds all its elements, with
    at least the batches of the input and the output channels of the
    configuration, [neurax_cpu_conv2d] returns success and keeps the
    layout of the output; each position of a batch of the input and an
    output channel of the configuration then reads as the accumulated
    value of that position, converted by the element type of the
    output, and every other position reads as zero. *)
Theorem cpu_conv2d_writes_every_element (tanhf expf : float -> float)
    (input weights : neurax_tensor_t) (bias : option neurax_tensor_t)
    (conv_config : neurax_conv_config_t) (output : neurax_tensor_t) :
  output_ready output ->
  height output = conv_out_height input conv_config ->
  width output = conv_out_width input conv_config ->
  0 <= batch_size input <= batch_size output ->
  0 <= output_channels conv_config <= channels output ->
  exists out,
    neurax_cpu_conv2d tanhf expf input weights bias conv_config output
    = (NEURAX_SUCCESS, out) /\
    keeps_layout output out /\
    forall b y x c, in_tensor output b y x c ->
      neurax_get_tensor_value out b y x c
      = read_cell (data_type output)
          (if (b <? batch_size input) && (c <? output_channels conv_config)
           then written_cell (data_type output)
                  (conv_output_value tanhf expf input weights bias conv_config b c y x)
           else zero_cell (data_type output)).
Proof.
  intros Hready Hh Hw Hb Hc.
  pose proof Hready as (_ & (Hw0 & Hh0 & _) & _). unfold is_uint32 in *.
  unfold neurax_cpu_conv2d. rewrite <- Hh, <- Hw, !Z.eqb_refl. cbn [negb orb].
  eexists. split; [reflexivity |].
  destruct (kernel_loops_elements output
              (conv_output_value tanhf expf input weights bias conv_config)
              (batch_size input) (output_channels conv_config)
              (height output) (width output) Hready Hb Hc ltac:(lia) ltac:(lia))
    as [Hl Hv].
  split; [exact Hl |].
  intros b y x c Hin. rewrite (Hv b y x c Hin).
  destruct Hin as (_ & Hy & Hx & _).
  destruct (Z.ltb_spec y (height output)); [| lia].
  destruct (Z.ltb_spec x (width output)); [| lia].
  now rewrite !andb_true_r.
Qed.

(** The pooling kernel writes every element of the output.  For a
    valid output tensor of the expected height and width, whose element
    count is below 2^32 and whose buffer holds all its elements, with
    at least the batches and the channels of the input,
    [neurax_cpu_pooling] returns success and keeps the layout of the
    output; each position of a batch and a channel of the input then
    reads as the result of its window, converted by the element type of
    the output, and every other position reads as zero. *)
Theorem cpu_pooling_writes_every_element (input : neurax_tensor_t)
    (pool_config : neurax_pool_config_t) (output : neurax_tensor_t) :
  output_ready output ->
  height output = pool_out_height input pool_config ->
  width output = pool_out_width input pool_config ->
  0 <= batch_size input <= batch_size output ->
  0 <= channels input <= channels output ->
  exists out,
    neurax_cpu_pooling input pool_config output = (NEURAX_SUCCESS, out) /\
    keeps_layout output out /\
    forall b y x c, in_tensor output b y x c ->
      neurax_get_tensor_value out b y x c
      = read_cell (data_type output)
          (if (b <? batch_size input) && (c <? channels input)
           then written_cell (data_type output)
                  (pool_output_value input pool_config b c y x)
           else zero_cell (data_type output)).
Proof.
  intros Hready Hh Hw Hb Hc.
  pose proof Hready as (_ & (Hw0 & Hh0 & _) & _). unfold is_uint32 in *.
  unfold neurax_cpu_pooling. rewrite <- Hh, <- Hw, !Z.eqb_refl. cbn [negb orb].
  eexists. split; [reflexivity |].
  destruct (kernel_loops_elements output (pool_output_value input pool_config)
              (batch_size input) (channels input)
              (height output) (width output) Hready Hb Hc ltac:(lia) ltac:(lia))
    as [Hl Hv].
  split; [exact Hl |].
  intros b y x c Hin. rewrite (Hv b y x c Hin).
  destruct Hin as (_ & Hy & Hx & _).
  destruct (Z.ltb_spec y (height output)); [| lia].
  destruct (Z.ltb_spec x (width output)); [| lia].
  now rewrite !andb_true_r.
Qed.

Lemma cpu_conv2d_writes_every_element_witness :
  exists out,
    neurax_cpu_conv2d (fun x => x) (fun x => x) input_1_to_9 weights_3x3 None
      (blur_config 3) input_1_to_9
    = (NEURAX_SUCCESS, out) /\
    keeps_layout input_1_to_9 out /\
    forall b y x c, in_tensor input_1_to_9 b y x c ->
      neurax_get_tensor_value out b y x c
      = read_cell NEURAX_DATA_FLOAT32
          (if (b <? 1) && (c <? 1)
           then written_cell NEURAX_DATA_FLOAT32
                  (conv_output_value (fun x => x) (fun x => x) input_1_to_9 weights_3x3
                     None (blur_config 3) b c y x)
           else zero_cell NEURAX_DATA_FLOAT32).
Proof.
  apply (cpu_conv2d_writes_every_element (fun x => x) (fun x => x) input_1_to_9
           weights_3x3 None (blur_config 3) input_1_to_9).
  - split; [reflexivity |]. split; [decide_ranges |]. split; reflexivity.
  - reflexivity.
  - reflexivity.
  - decide_ranges.
  - decide_ranges.
Defined.

Lemma cpu_pooling_writes_every_element_witness :
  exists out,
    neurax_cpu_pooling input_1_to_9 (pool_2x2_config NEURAX_POOL_MAX) weights_one
    = (NEURAX_SUCCESS, out) /\
    keeps_layout weights_one out /\
    forall b y x c, in_tensor weights_one b y x c ->
      neurax_get_tensor_value out b y x c
      = read_cell NEURAX_DATA_FLOAT32
          (if (b <? 1) && (c <? 1)
           then written_cell NEURAX_DATA_FLOAT32
                  (pool_output_value input_1_to_9 (pool_2x2_config NEURAX_POOL_MAX) b c y x)
           else zero_cell NEURAX_DATA_FLOAT32).
Proof.
  apply (cpu_pooling_writes_every_element input_1_to_9 (pool_2x2_config NEURAX_POOL_MAX)
           weights_one).
  - split; [reflexivity |]. split; [decide_ranges |]. split; reflexivity.
  - reflexivity.
  - reflexivity.
  - decide_ranges.
  - decide_ranges.
Defined.

(** ** The blur kernel *)

Lemma fold_left_snoc_seq (v : nat -> float) (n : nat) :
  fold_left F32.add (map v (seq 0 (S n))) F32.zero
  = F32.add (fold_left F32.add (map v (seq 0 n)) F32.zero) (v n).
Proof.
  replace (S n) with (n + 1)%nat by lia.
  rewrite seq_app, map_app, fold_left_app. reflexivity.
Qed.

Lemma row_index (k y x : Z) :
  0 <= x < k -> 0 <= y -> (y * k + x) / k = y /\ (y * k + x) mod k = x.
Proof.
  intros Hx Hy. split.
  - rewrite Z.add_comm, Z.div_add by lia. rewrite Z.div_small by lia. lia.
  - rewrite Z.add_comm, Z.mod_add by lia. apply Z.mod_small. lia.
Qed.

Lemma s32_id (z : Z) : - 2 ^ 31 <= z < 2 ^ 31 -> s32 z = z.
Proof. intros Hz. apply (signed_small 32); [lia | exact Hz]. Qed.

Lemma square_bound (d : Z) : - 2 ^ 15 < d < 2 ^ 15 -> 0 <= d * d < 2 ^ 30.
Proof.
  intros Hd. split; [apply Z.square_nonneg |].
  destruct (Z.le_gt_cases 0 d).
  - apply Z.le_lt_trans with (d * 2 ^ 15); [apply Z.mul_le_mono_nonneg_l; lia | lia].
  - replace (d * d) with ((- d) * (- d)) by lia.
    apply Z.le_lt_trans with ((- d) * 2 ^ 15); [apply Z.mul_le_mono_nonneg_l; lia | lia].
Qed.

Section BlurKernelWeights.

Variable expf : float -> float.
Variable sigma : float.
Variable k : Z.
Hypothesis Hk : 0 < k < 2 ^ 15.

Lemma blur_kernel_fill (t0 : neurax_tensor_t) :
  is_Some (data t0) -> Z.of_nat (length (buffer t0)) = k * k ->
  let V := fun j : nat => blur_weight expf sigma k (Z.of_nat j / k) (Z.of_nat j mod k) in
  exists t,
    for_loop k
      (fun y =>
         for_loop k
           (fun x (st : neurax_tensor_t * float) =>
              let '(kernel_tensor, sum) := st in
              let dx := s32 (x - Z.quot k 2) in
              let dy := s32 (y - Z.quot k 2) in
              let distance_sq := F32.of_Z (s32 (s32 (dx * dx) + s32 (dy * dy))) in
              let value :=
                expf (F32.div (F32.opp distance_sq)
                        (F32.mul (F32.mul (F32.of_Z 2) sigma) sigma)) in
              (store_float kernel_tensor (s32 (s32 (y * k) + x)) value,
               F32.add sum value)))
      (t0, F32.zero)
    = (t, blur_sum expf sigma k) /\
    filled_to t0 V (k * k) t.
Proof.
  intros Hd Hlen V.
  assert (Hkk : 0 < k * k < 2 ^ 30) by nia.
  pose (P := fun (n : Z) (st : neurax_tensor_t * float) =>
    filled_to t0 V n (fst st) /\
    snd st = fold_left F32.add (map V (seq 0 (Z.to_nat n))) F32.zero).
  assert (HP : P (k * k)
                 (for_loop k
      (fun y =>
         for_loop k
           (fun x (st : neurax_tensor_t * float) =>
              let '(kernel_tensor, sum) := st in
              let dx := s32 (x - Z.quot k 2) in
              let dy := s32 (y - Z.quot k 2) in
              let distance_sq := F32.of_Z (s32 (s32 (dx * dx) + s32 (dy * dy))) in
              let value :=
                expf (F32.div (F32.opp distance_sq)
                        (F32.mul (F32.mul (F32.of_Z 2) sigma) sigma)) in
              (store_float kernel_tensor (s32 (s32 (y * k) + x)) value,
               F32.add sum value)))
      (t0, F32.zero))).
  { refine (for_loop_ind (fun y st => P (y * k) st) _ k (t0, F32.zero) ltac:(lia) _ _).
    - split; [| reflexivity]. cbn [fst].
      split; [reflexivity |]. split; [exact Hd |]. split; [reflexivity |].
      intros j Hj. lia.
    - intros y st Hy Hst.
      replace ((y + 1) * k) with (y * k + k) by lia.
      refine (for_loop_ind (fun x st => P (y * k + x) st) _ k st ltac:(lia) _ _).
      + now rewrite Z.add_0_r.
      + intros x [t s] Hx [Ht Hs]. cbn [fst snd] in Ht, Hs. cbv zeta.
        assert (Hyx : 0 <= y * k + x < k * k) by nia.
        assert (Hc : 0 <= k / 2 < k) by (Z.div_mod_to_equations; lia).
        rewrite Z.quot_div_nonneg by lia.
        rewrite (s32_small (y * k)), (s32_small (y * k + x)) by nia.
        rewrite !(s32_id (x - k / 2)), !(s32_id (y - k / 2)) by lia.
        assert (0 <= (x - k / 2) * (x - k / 2) < 2 ^ 30) by (apply square_bound; lia).
        assert (0 <= (y - k / 2) * (y - k / 2) < 2 ^ 30) by (apply square_bound; lia).
        rewrite (s32_small ((x - k / 2) * (x - k / 2))) by lia.
        rewrite (s32_small ((y - k / 2) * (y - k / 2))) by lia.
        rewrite s32_small by lia.
        destruct (row_index k y x Hx ltac:(lia)) as [D M].
        assert (EV : V (Z.to_nat (y * k + x))
                     = expf (F32.div
                               (F32.opp (F32.of_Z ((x - k / 2) * (x - k / 2)
                                                   + (y - k / 2) * (y - k / 2))))
                               (F32.mul (F32.mul (F32.of_Z 2) sigma) sigma))).
        { unfold V, blur_weight. rewrite Z2Nat.id by lia. now rewrite D, M. }
        split; cbn [fst snd].
        * replace (y * k + (x + 1)) with (y * k + x + 1) by lia.
          apply store_next; [exact Ht | lia | now rewrite EV].
        * replace (Z.to_nat (y * k + (x + 1))) with (S (Z.to_nat (y * k + x))) by lia.
          rewrite fold_left_snoc_seq, <- Hs, EV. reflexivity. }
  destruct HP as [Ht Hs].
  destruct (for_loop k _ (t0, F32.zero)) as [t s]. cbn [fst snd] in *.
  exists t. split; [| exact Ht]. f_equal. exact Hs.
Qed.

Lemma blur_kernel_normalise (t0 t1 : neurax_tensor_t) (V : nat -> float) (sum : float) :
  Z.of_nat (length (buffer t0)) = k * k ->
  filled_to t0 V (k * k) t1 ->
  filled_to t0 (fun j => F32.div (V j) sum) (k * k)
    (for_loop (k * k) (fun i t => store_float t i (F32.div (load_flt (buffer t) i) sum)) t1).
Proof.
  intros Hlen Ht1.
  assert (Hkk : 0 < k * k < 2 ^ 30) by nia.
  pose (Q := fun (i : Z) (t : neurax_tensor_t) =>
    filled_to t0 (fun j => F32.div (V j) sum) i t /\
    forall j : nat, i <= Z.of_nat j < k * k -> buffer t !! j = Some (Flt (V j))).
  assert (HQ : Q (k * k)
                 (for_loop (k * k)
                    (fun i t => store_float t i (F32.div (load_flt (buffer t) i) sum)) t1)).
  { refine (for_loop_ind Q _ (k * k) t1 ltac:(lia) _ _).
    - destruct Ht1 as (Hs & Hd & Hl & Hj).
      split; [| intros j Hj'; apply Hj; lia].
      split; [exact Hs |]. split; [exact Hd |]. split; [exact Hl |]. intros j Hj'. lia.
    - intros i t Hi [Ht Hrest]. split.
      + apply store_next; [exact Ht | lia |].
        unfold load_flt. rewrite (Hrest (Z.to_nat i)) by lia. reflexivity.
      + intros j Hj. unfold store_float, store. rewrite buffer_with_buffer.
        rewrite list_lookup_insert_ne by lia. apply Hrest. lia. }
  exact (proj1 HQ).
Qed.

End BlurKernelWeights.

(** The blur kernel is the normalised table of weights.  For a size
    between 1 and 32767 and an allocator that returns memory,
    [create_blur_kernel] returns 0 and stores a valid float32 tensor of
    that size squared with one channel; the weight the convolution
    reads at row [y] and column [x] is
    [expf(-(dx * dx + dy * dy) / (2 * sigma * sigma))], with [dx] and
    [dy] the distances to the centre [size / 2], divided by the sum of
    all these values added from 0.0 in row order; the kernel is
    therefore symmetric: the weights at [(y, x)] and [(x, y)] are
    equal. *)
Theorem blur_kernel_weights (expf : float -> float) (heap : heap_env)
    (slot : option neurax_tensor_t) (k : Z) (sigma : float) :
  0 < k < 2 ^ 15 ->
  calloc_struct heap = true -> (forall size, calloc_buffer heap size = true) ->
  exists kernel,
    create_blur_kernel expf heap (Some slot) k sigma = (0, Some (Some kernel)) /\
    width kernel = k /\ height kernel = k /\ channels kernel = 1 /\
    batch_size kernel = 1 /\ data_type kernel = NEURAX_DATA_FLOAT32 /\
    neurax_validate_tensor (Some kernel) = NEURAX_SUCCESS /\
    (forall y x, 0 <= y < k -> 0 <= x < k ->
       neurax_get_weight_value kernel 0 0 y x
       = F32.div (blur_weight expf sigma k y x) (blur_sum expf sigma k)) /\
    (forall y x, 0 <= y < k -> 0 <= x < k ->
       neurax_get_weight_value kernel 0 0 y x = neurax_get_weight_value kernel 0 0 x y).
Proof.
  intros Hk Hs Hb.
  assert (Hkk : 0 < k * k < 2 ^ 30) by nia.
  unfold create_blur_kernel.
  rewrite !(u32_small k) by lia.
  rewrite tensor_create_small; [| lia | lia | lia | lia | lia | exact Hs | exact Hb].
  cbn [is_success negb].
  set (t0 := tensor_of NEURAX_DATA_FLOAT32 k k 1 1 _).
  assert (Hlen : Z.of_nat (length (buffer t0)) = k * k).
  { unfold t0, buffer, tensor_of. cbn [data from_option id default].
    rewrite length_replicate. lia. }
  destruct (blur_kernel_fill expf sigma k Hk t0 ltac:(now eexists) Hlen)
    as (t1 & E1 & Ht1).
  cbv zeta. cbv zeta in E1. rewrite E1. rewrite (s32_small (k * k)) by lia.
  pose proof (blur_kernel_normalise k Hk t0 t1 _ (blur_sum expf sigma k) Hlen Ht1) as Ht2.
  replace (k * k) with (Z.of_nat (length (buffer t0))) in Ht2 at 1 by exact Hlen.
  apply filled_all in Ht2.
  eexists. split; [reflexivity |]. rewrite Ht2.
  assert (Hval : forall y x, 0 <= y < k -> 0 <= x < k ->
            neurax_get_weight_value
              (with_buffer t0
                 (map (fun j => Flt (F32.div (blur_weight expf sigma k (Z.of_nat j / k)
                                                (Z.of_nat j mod k))
                                       (blur_sum expf sigma k)))
                    (seq 0 (length (buffer t0)))))
              0 0 y x
            = F32.div (blur_weight expf sigma k y x) (blur_sum expf sigma k)).
  { intros y x Hy Hx.
    assert (Hyx : 0 <= y * k + x < k * k) by nia.
    unfold neurax_get_weight_value.
    cbn [data_type with_buffer channels height width t0 tensor_of].
    rewrite buffer_with_buffer.
    replace (((0 * 1 + 0) * k + y) * k + x) with (y * k + x) by lia.
    rewrite u32_small by lia. unfold load_flt.
    rewrite list_lookup_fmap, lookup_seq_lt by lia.
    cbn [fmap option_fmap option_map]. rewrite Nat.add_0_l, Z2Nat.id by lia.
    destruct (row_index k y x Hx ltac:(lia)) as [D M]. now rewrite D, M. }
  split; [reflexivity |]. split; [reflexivity |]. split; [reflexivity |].
  split; [reflexivity |]. split; [reflexivity |].
  split.
  { apply (validate_tensor_of NEURAX_DATA_FLOAT32 k k 1 1); lia. }
  split; [exact Hval |].
  intros y x Hy Hx. rewrite !Hval by assumption.
  unfold blur_weight.
  now rewrite (Z.add_comm ((x - k / 2) * (x - k / 2))).
Qed.

Lemma blur_kernel_weights_witness :
  exists kernel,
    create_blur_kernel (fun x => x) heap_unlimited (Some None) 5 F32.one
    = (0, Some (Some kernel)) /\
    width kernel = 5 /\ height kernel = 5 /\ channels kernel = 1 /\
    batch_size kernel = 1 /\ data_type kernel = NEURAX_DATA_FLOAT32 /\
    neurax_validate_tensor (Some kernel) = NEURAX_SUCCESS /\
    (forall y x, 0 <= y < 5 -> 0 <= x < 5 ->
       neurax_get_weight_value kernel 0 0 y x
       = F32.div (blur_weight (fun x => x) F32.one 5 y x)
           (blur_sum (fun x => x) F32.one 5)) /\
    (forall y x, 0 <= y < 5 -> 0 <= x < 5 ->
       neurax_get_weight_value kernel 0 0 y x = neurax_get_weight_value kernel 0 0 x y).
Proof.
  apply (blur_kernel_weights (fun x => x) heap_unlimited None 5 F32.one).
  - decide_ranges.
  - reflexivity.
  - reflexivity.
Defined.
